(** * A shallow embedding of the pyasn1 BER decoder
    (pyasn1/codec/ber/decoder.py) and the properties checked on it. *)

From Stdlib Require Import ZArith List Lia Bool.
From Stdlib Require Import Strings.String Strings.Byte.
From stdpp Require Import base decidable countable gmap.
Import ListNotations.

Local Open Scope string_scope.
Local Open Scope list_scope.
Local Open Scope Z_scope.

(** ** Octets *)

#[export] Instance byte_eq_dec : EqDecision byte := Byte.byte_eq_dec.

(** [ord], [oct2int]: the integer value of one octet. *)
Definition ord (b : byte) : Z := Z.of_N (Byte.to_N b).

Definition oct2int (b : byte) : Z := ord b.

(** [octs2ints]: an octet string as a tuple of integers. *)
Definition octs2ints (chunk : list byte) : list Z := map ord chunk.

Definition len {A : Type} (l : list A) : Z := Z.of_nat (length l).

(** ** Errors, generators and the substrate *)

(** The exceptions the decoder raises.  [PyAsn1Error] carries the message
    of the [raise] statement (the literal text, before [%]-formatting);
    [SubstrateUnderrunError] here is the raised exception, the yielded
    marker is [Underrun] below; [PyError] stands for an exception of the
    Python runtime (TypeError, IndexError, ...). *)
Inductive Error : Type :=
| PyAsn1Error (msg : string)
| SubstrateUnderrunError (msg : string)
| EndOfStreamError
| PyError (name : string).

(** Substrate state: the octets, the cursor ([tell]) and the marked
    position set by the single-item decoder at the start of a header. *)
Record Substrate : Type := mkSubstrate {
  data : list byte;
  position : nat;
  markedPosition : nat
}.

Definition asSeekableStream (octets : list byte) : Substrate :=
  {| data := octets; position := 0; markedPosition := 0 |}.

Definition tell (s : Substrate) : Z := Z.of_nat (position s).

Definition remaining (s : Substrate) : list byte := skipn (position s) (data s).

(** [seek(pos, os.SEEK_SET)] and [seek(off, os.SEEK_CUR)]. *)
Definition seek_set (pos : Z) (s : Substrate) : Substrate :=
  {| data := data s; position := Z.to_nat pos; markedPosition := markedPosition s |}.

Definition seek_cur (off : Z) (s : Substrate) : Substrate :=
  seek_set (tell s + off) s.

Definition setMarkedPosition (s : Substrate) : Substrate :=
  {| data := data s; position := position s; markedPosition := position s |}.

(** What the consumer of a generator sees.  Every generator of the decoder
    yields zero or more [SubstrateUnderrunError] markers and then either
    its item or an exception; its consumers forward the markers and keep
    the last item.  [Yield a s] is that item with the substrate after it,
    [Underrun] is a forwarded marker (the generator is suspended there; the
    substrate being a finished octet string, no resumption can feed it),
    [Raise e] an exception.  [OutOfFuel] belongs to the model only: the
    recursion of the decoder is bounded by a counter. *)
Inductive Outcome (A : Type) : Type :=
| Yield (a : A) (s : Substrate)
| Underrun
| Raise (e : Error)
| OutOfFuel.

Arguments Yield {A} a s.
Arguments Underrun {A}.
Arguments Raise {A} e.
Arguments OutOfFuel {A}.

Definition Gen (A : Type) : Type := Substrate -> Outcome A.

Definition bind {A B : Type} (m : Gen A) (k : A -> Gen B) : Gen B :=
  fun s =>
    match m s with
    | Yield a s' => k a s'
    | Underrun => Underrun
    | Raise e => Raise e
    | OutOfFuel => OutOfFuel
    end.

Definition ret {A : Type} (a : A) : Gen A := fun s => Yield a s.

Definition raise {A : Type} (e : Error) : Gen A := fun _ => Raise e.

Definition outOfFuel {A : Type} : Gen A := fun _ => OutOfFuel.

Definition getTell : Gen Z := fun s => Yield (tell s) s.

Definition modify (f : Substrate -> Substrate) : Gen unit := fun s => Yield tt (f s).

Declare Scope gen_scope.
Delimit Scope gen_scope with gen.
Notation "'let*' x ':=' m 'in' k" := (bind m (fun x => k))
  (at level 10, x pattern, m at level 100, k at level 200) : gen_scope.
Local Open Scope gen_scope.

(** Modelled from the spec: [readFromStream] of pyasn1.codec.streaming,
    which is not part of the decoder source.  "Reads are all-or-nothing:
    either n bytes are delivered and the cursor advances by n, or Underrun
    is produced and the cursor is unchanged."  A read without a size
    ([size = -1]) delivers all remaining octets and raises
    [EndOfStreamError] when there are none, the exception [Decoder.__call__]
    catches. *)
Definition readFromStream (size : Z) : Gen (list byte) :=
  fun s =>
    if size <? 0 then
      match remaining s with
      | [] => Raise EndOfStreamError
      | r => Yield r (seek_cur (len r) s)
      end
    else if size <=? len (remaining s) then
      Yield (firstn (Z.to_nat size) (remaining s)) (seek_cur size s)
    else Underrun.

(** Modelled from the spec: [isEndOfStream] of pyasn1.codec.streaming:
    "at_eof() is non-destructive". *)
Definition isEndOfStream : Gen bool :=
  fun s => Yield (match remaining s with [] => true | _ => false end) s.

(** [ord(chunk)] on the result of a read: a one-octet string, or TypeError. *)
Definition ordOctet (chunk : list byte) : Gen Z :=
  match chunk with
  | [b] => ret (ord b)
  | _ => raise (PyError "TypeError")
  end.

(** ** Length octets (state [stDecodeLength] of [SingleItemDecoder.__call__]) *)

(** The loop [for lengthOctet in encodedLength: length <<= 8; length |= ...]. *)
Definition accumulateLength (encodedLength : list byte) : Z :=
  fold_left (fun length lengthOctet => Z.lor (Z.shiftl length 8) (oct2int lengthOctet))
            encodedLength 0.

Definition decodeLength (supportIndefLength : bool) : Gen Z :=
  let* firstOctet := readFromStream 1 in
  let* firstOctet := ordOctet firstOctet in
  let* length :=
    (if firstOctet <? 128 then ret firstOctet
     else if firstOctet >? 128 then
       let size := Z.land firstOctet 127 in
       let* encodedLength := readFromStream size in
       if negb (len encodedLength =? size) then
         raise (SubstrateUnderrunError "%s<%s at %s")
       else ret (accumulateLength encodedLength)
     else ret (-1)) in
  if (length =? -1) && negb supportIndefLength then
    raise (PyAsn1Error "Indefinite length encoding not supported by this codec")
  else ret length.

(** ** Tags and tag sets *)

Record Tag : Type := mkTag { tagClass : Z; tagFormat : Z; tagId : Z }.

(** Modelled from the spec: the constants of pyasn1.type.tag, "bits 7-6
    class (00 universal, 01 application, 10 context, 11 private), bit 5
    format (0 primitive, 1 constructed)"; the decoder computes a tag's class
    as [integerTag & 0xC0] and its format as [integerTag & 0x20] and compares
    them with these. *)
Definition tagClassUniversal : Z := 0x00.
Definition tagClassApplication : Z := 0x40.
Definition tagClassContext : Z := 0x80.
Definition tagClassPrivate : Z := 0xC0.
Definition tagFormatSimple : Z := 0x00.
Definition tagFormatConstructed : Z := 0x20.

(** [tag.TagSet(baseTag, *superTags)]; [baseTag] is [None] for the [()] of
    [tag.TagSet((), lastTag)]. *)
Record TagSet : Type := mkTagSet { baseTag : option Tag; superTags : list Tag }.

(** [lastTag + tagSet]: the freshly decoded tag is prepended. *)
Definition TagSet_radd (superTag : Tag) (tagSet : TagSet) : TagSet :=
  {| baseTag := baseTag tagSet; superTags := superTag :: superTags tagSet |}.

(** [tagSet[:1]]. *)
Definition TagSet_first (tagSet : TagSet) : TagSet :=
  {| baseTag := baseTag tagSet; superTags := firstn 1 (superTags tagSet) |}.

(** [tagSet[0]]; IndexError on an empty tag set. *)
Definition TagSet_head (tagSet : TagSet) : Gen Tag :=
  match superTags tagSet with
  | t :: _ => ret t
  | [] => raise (PyError "IndexError")
  end.

(** Modelled from the spec: how tag sets compare, as keys of the dispatch
    tables, as members of a Python set and under [==] (pyasn1.type.tag is
    not part of the decoder source).  The seed scenario [24 80 04 02 AA BB
    04 02 CC DD 00 00] reaches the OctetString decoder through the table
    entry of [univ.OctetString.tagSet], whose tag is primitive, and every
    payload decoder tests [tagSet[0].tagFormat] after it was chosen by its
    tag set, the string decoders to tell the constructed form from the
    primitive one.  So a tag set is compared by its chain of (class, id)
    pairs; the format bit and the base tag take no part.  (Were the format
    compared, the constructed form of a string type would not reach its
    decoder.) *)
Definition TagSetKey : Type := list (Z * Z).

Definition tagSetKey (tagSet : TagSet) : TagSetKey :=
  map (fun t => (tagClass t, tagId t)) (superTags tagSet).

Definition TagSet_eqb (a b : TagSet) : bool :=
  bool_decide (tagSetKey a = tagSetKey b).

(** [tag.initTagSet(tag.Tag(tagClassUniversal, format, id))], the tag set of
    a universal type. *)
Definition initTagSet (t : Tag) : TagSet := {| baseTag := Some t; superTags := [t] |}.

Definition universalTagSet (format id : Z) : TagSet :=
  initTagSet (mkTag tagClassUniversal format id).

(** ** The values the decoder builds *)

(** The ASN.1 classes of pyasn1.type.univ, char and useful that the decoder
    names; a class also serves as its [typeId]. *)
Inductive Asn1Class : Type :=
| univ_Integer | univ_Boolean | univ_BitString | univ_OctetString | univ_Null
| univ_ObjectIdentifier | univ_Enumerated | univ_Real
| univ_Sequence | univ_SequenceOf | univ_Set | univ_SetOf | univ_Choice | univ_Any
| char_UTF8String | char_NumericString | char_PrintableString | char_TeletexString
| char_VideotexString | char_IA5String | char_GraphicString | char_VisibleString
| char_GeneralString | char_UniversalString | char_BMPString
| useful_ObjectDescriptor | useful_GeneralizedTime | useful_UTCTime.

#[export] Instance Asn1Class_eq_dec : EqDecision Asn1Class.
Proof. solve_decision. Defined.

(** Modelled from the spec: the tag sets of the universal types (X.680
    numbering; the seed scenarios use 01 Boolean, 02 Integer, 04 OctetString,
    05 Null, 06 ObjectIdentifier, 30 Sequence).  Choice and Any are
    untagged. *)
Definition classTagSet (c : Asn1Class) : TagSet :=
  match c with
  | univ_Boolean => universalTagSet tagFormatSimple 0x01
  | univ_Integer => universalTagSet tagFormatSimple 0x02
  | univ_BitString => universalTagSet tagFormatSimple 0x03
  | univ_OctetString => universalTagSet tagFormatSimple 0x04
  | univ_Null => universalTagSet tagFormatSimple 0x05
  | univ_ObjectIdentifier => universalTagSet tagFormatSimple 0x06
  | useful_ObjectDescriptor => universalTagSet tagFormatSimple 0x07
  | univ_Real => universalTagSet tagFormatSimple 0x09
  | univ_Enumerated => universalTagSet tagFormatSimple 0x0A
  | char_UTF8String => universalTagSet tagFormatSimple 0x0C
  | univ_Sequence | univ_SequenceOf => universalTagSet tagFormatConstructed 0x10
  | univ_Set | univ_SetOf => universalTagSet tagFormatConstructed 0x11
  | char_NumericString => universalTagSet tagFormatSimple 0x12
  | char_PrintableString => universalTagSet tagFormatSimple 0x13
  | char_TeletexString => universalTagSet tagFormatSimple 0x14
  | char_VideotexString => universalTagSet tagFormatSimple 0x15
  | char_IA5String => universalTagSet tagFormatSimple 0x16
  | useful_UTCTime => universalTagSet tagFormatSimple 0x17
  | useful_GeneralizedTime => universalTagSet tagFormatSimple 0x18
  | char_GraphicString => universalTagSet tagFormatSimple 0x19
  | char_VisibleString => universalTagSet tagFormatSimple 0x1A
  | char_GeneralString => universalTagSet tagFormatSimple 0x1B
  | char_UniversalString => universalTagSet tagFormatSimple 0x1C
  | char_BMPString => universalTagSet tagFormatSimple 0x1E
  | univ_Choice | univ_Any => {| baseTag := None; superTags := [] |}
  end.

(** The Python values handed to [clone]: the payload of a scalar.
    [PyBits] keeps the arguments of [BitString.fromOctetString] (octets and
    padding of every fragment, in order); [PyRealText nr text] stands for
    [(int(text), 10, 0)] (NR1) or [float(text)] (NR2, NR3): the text grammar
    of the built-ins [int] and [float] is not part of the decoder. *)
Inductive PyValue : Type :=
| PyNoValue
| PyInt (z : Z)
| PyOctets (octets : list byte)
| PyStr (s : string)
| PyTuple (items : list Z)
| PyFloatZero
| PyRealTriple (mantissa base exponent : Z)
| PyRealText (nr : Z) (text : list byte)
| PyBits (fragments : list (list byte * Z)).

(** What a generator of the decoder yields: a Python object. *)
Inductive Value : Type :=
| noValue
| PyNone
| endOfOctets
| Native (v : PyValue)
| Asn1Scalar (cls : Asn1Class) (tagSet : TagSet) (v : PyValue)
| Asn1Constructed (cls : Asn1Class) (tagSet : TagSet) (components : list (Z * Value))
| PyPair (a b : Value).

(** Modelled from the spec: "Constructed variants own an ordered list of
    child values".  [setComponentByPosition(idx, value)] fills slot [idx];
    the slots are kept by index, in the order they were first filled. *)
Fixpoint setSlot (idx : Z) (value : Value) (components : list (Z * Value)) : list (Z * Value) :=
  match components with
  | [] => [(idx, value)]
  | (i, v) :: rest =>
      if i =? idx then (i, value) :: rest else (i, v) :: setSlot idx value rest
  end.

Fixpoint getSlot (idx : Z) (components : list (Z * Value)) : option Value :=
  match components with
  | [] => None
  | (i, v) :: rest => if i =? idx then Some v else getSlot idx rest
  end.

Definition setComponentByPosition (idx : Z) (value : Value) (asn1Object : Value) : Gen Value :=
  match asn1Object with
  | Asn1Constructed cls tagSet components =>
      ret (Asn1Constructed cls tagSet (setSlot idx value components))
  | _ => raise (PyError "AttributeError")
  end.

(** [value.tagSet]; AttributeError on an object that has none. *)
Definition valueTagSet (v : Value) : Error + TagSet :=
  match v with
  | Asn1Scalar _ tagSet _ | Asn1Constructed _ tagSet _ => inr tagSet
  | _ => inl (PyError "AttributeError")
  end.

(** ** The schema objects the decoder consults *)

(** A caller-supplied [asn1Spec] is an object of the type model, which is
    outside the decoder: it is modelled by what the decoder asks of it.
    [TagMap getitem] is a [tagmap.TagMap]: [asn1Spec[tagSet]], [None] on
    KeyError, and [tagSet in tagMap] holds when the look-up succeeds.
    [Asn1Type] is a type object with its [typeId], [tagSet], [tagMap] and
    [componentType].  [NamedTypes] is the named-type catalogue of a record
    or a choice with the methods the decoder calls on it; a method that
    raises returns the exception. *)
Inductive Asn1Spec : Type :=
| TagMap (getitem : TagSet -> option Asn1Spec)
| Asn1Type (typeId : Asn1Class) (tagSet : TagSet)
           (tagMap : TagSet -> option Asn1Spec) (componentType : ComponentType)
with ComponentType : Type :=
| NoComponentType
| ElementType (elementSpec : Asn1Spec)
| NamedTypesOf (namedTypes : NamedTypes)
with NamedTypes : Type :=
| mkNamedTypes (items : list NamedType)
               (tagMapUnique : TagSet -> option Asn1Spec)
               (getTagMapNearPosition : Z -> Error + (TagSet -> option Asn1Spec))
               (getPositionByType : TagSet -> Error + Z)
               (getPositionNearType : TagSet -> Z -> Error + Z)
               (requiredComponents : list Z)
               (hasOptionalOrDefault : bool)
               (hasOpenTypes : bool)
with NamedType : Type :=
| mkNamedType (name : string) (asn1Object : Asn1Spec)
              (isOptional isDefaulted : bool) (openType : option OpenType)
with OpenType : Type :=
| mkOpenType (governingName : string) (typeMap : Value -> option Asn1Spec).

Definition nt_items (n : NamedTypes) : list NamedType :=
  match n with mkNamedTypes items _ _ _ _ _ _ _ => items end.
Definition nt_tagMapUnique (n : NamedTypes) : TagSet -> option Asn1Spec :=
  match n with mkNamedTypes _ f _ _ _ _ _ _ => f end.
Definition nt_getTagMapNearPosition (n : NamedTypes) : Z -> Error + (TagSet -> option Asn1Spec) :=
  match n with mkNamedTypes _ _ f _ _ _ _ _ => f end.
Definition nt_getPositionByType (n : NamedTypes) : TagSet -> Error + Z :=
  match n with mkNamedTypes _ _ _ f _ _ _ _ => f end.
Definition nt_getPositionNearType (n : NamedTypes) : TagSet -> Z -> Error + Z :=
  match n with mkNamedTypes _ _ _ _ f _ _ _ => f end.
Definition nt_requiredComponents (n : NamedTypes) : list Z :=
  match n with mkNamedTypes _ _ _ _ _ r _ _ => r end.
Definition nt_hasOptionalOrDefault (n : NamedTypes) : bool :=
  match n with mkNamedTypes _ _ _ _ _ _ b _ => b end.
Definition nt_hasOpenTypes (n : NamedTypes) : bool :=
  match n with mkNamedTypes _ _ _ _ _ _ _ b => b end.

Definition nt_name (t : NamedType) : string :=
  match t with mkNamedType n _ _ _ _ => n end.
Definition nt_asn1Object (t : NamedType) : Asn1Spec :=
  match t with mkNamedType _ a _ _ _ => a end.
Definition nt_isOptional (t : NamedType) : bool :=
  match t with mkNamedType _ _ o _ _ => o end.
Definition nt_isDefaulted (t : NamedType) : bool :=
  match t with mkNamedType _ _ _ d _ => d end.
Definition nt_openType (t : NamedType) : option OpenType :=
  match t with mkNamedType _ _ _ _ o => o end.

(** A raising method of the type model, run inside a generator. *)
Definition liftE {A : Type} (r : Error + A) : Gen A :=
  match r with inl e => raise e | inr a => ret a end.

(** [namedTypes[idx]]; IndexError out of range. *)
Definition nt_getitem (n : NamedTypes) (idx : Z) : Gen NamedType :=
  if idx <? 0 then raise (PyError "IndexError")
  else match nth_error (nt_items n) (Z.to_nat idx) with
       | Some t => ret t
       | None => raise (PyError "IndexError")
       end.

(** [asn1Spec.typeId], [.tagSet], [.tagMap], [.componentType]: attributes of
    a type object; a [TagMap] has none of them. *)
Definition spec_typeId (a : Asn1Spec) : Gen Asn1Class :=
  match a with Asn1Type c _ _ _ => ret c | TagMap _ => raise (PyError "AttributeError") end.
Definition spec_tagSet (a : Asn1Spec) : Gen TagSet :=
  match a with Asn1Type _ t _ _ => ret t | TagMap _ => raise (PyError "AttributeError") end.
Definition spec_tagMap (a : Asn1Spec) : Gen (TagSet -> option Asn1Spec) :=
  match a with Asn1Type _ _ m _ => ret m | TagMap _ => raise (PyError "AttributeError") end.
Definition spec_componentType (a : Asn1Spec) : Gen ComponentType :=
  match a with Asn1Type _ _ _ c => ret c | TagMap _ => raise (PyError "AttributeError") end.

(** [asn1Spec.clone(value)], and [asn1Spec] itself for [value is noValue]:
    an object of the type of [asn1Spec] holding [value].  The constraints a
    type object may carry are checked by the type model and left out. *)
Definition spec_clone (a : Asn1Spec) (value : PyValue) : Gen Value :=
  match a with
  | Asn1Type c t _ _ => ret (Asn1Scalar c t value)
  | TagMap _ => raise (PyError "AttributeError")
  end.

(** [asn1Spec.clone()] followed by [clear()]: an empty container. *)
Definition spec_cloneEmpty (a : Asn1Spec) : Gen Value :=
  match a with
  | Asn1Type c t _ _ => ret (Asn1Constructed c t [])
  | TagMap _ => raise (PyError "AttributeError")
  end.

(** ** Options and the substrate hook *)

(** The keyword options the decoder reads.  [openTypes] is [None] for an
    absent or empty map.  The [asn1Object] entry that [_passAsn1Object]
    adds is only the context attached to an underrun marker and is left
    out. *)
Record Options : Type := mkOptions {
  allowEoo : bool;
  native : bool;
  recursiveFlag : bool;
  openTypes : option (Value -> option Asn1Spec);
  decodeOpenTypes : bool
}.

Definition defaultOptions : Options :=
  {| allowEoo := false; native := false; recursiveFlag := true;
     openTypes := None; decodeOpenTypes := false |}.

Definition withAllowEoo (b : bool) (o : Options) : Options :=
  {| allowEoo := b; native := native o; recursiveFlag := recursiveFlag o;
     openTypes := openTypes o; decodeOpenTypes := decodeOpenTypes o |}.

(** A [substrateFun]: the collector the string decoders pass for their
    fragments, the three-argument lambda installed for
    [recursiveFlag=False], or a hook of the caller, given by the last chunk
    it yields. *)
Inductive SubstrateFun : Type :=
| substrateCollector
| recursiveFlagLambda
| callerSubstrateFun (hook : Value -> Z -> Options -> Gen Value).

Definition isCollector (f : SubstrateFun) : bool :=
  match f with substrateCollector => true | _ => false end.

(** [for chunk in substrateFun(asn1Object, substrate, length, options)]. *)
Definition callSubstrateFun (f : SubstrateFun) (asn1Object : Value) (length : Z)
    (options : Options) : Gen Value :=
  match f with
  | substrateCollector =>
      let* chunk := readFromStream length in ret (Native (PyOctets chunk))
  | recursiveFlagLambda => raise (PyError "TypeError")
  | callerSubstrateFun hook => hook asn1Object length options
  end.

(** The states of the single-item decoder. *)
Inductive State : Type :=
| stDecodeTag | stDecodeLength | stGetValueDecoder | stGetValueDecoderByAsn1Spec
| stGetValueDecoderByTag | stTryAsExplicitTag | stDecodeValue | stDumpRawValue
| stErrorCondition | stStop.

#[export] Instance State_eq_dec : EqDecision State.
Proof. solve_decision. Defined.

(** The callable [decodeFun] handed to the payload decoders:
    [decodeFun(substrate, asn1Spec, tagSet, length, state, substrateFun=...,
    **options)]. *)
Definition DecodeFun : Type :=
  option Asn1Spec -> option TagSet -> option Z -> State ->
  option SubstrateFun -> Options -> Gen Value.

(** ** Loops *)

(** One turn of a [while] body: go on with the next turn, or [break]. *)
Inductive LoopStep (St : Type) : Type :=
| Continue (st : St)
| Break (st : St).

Arguments Continue {St} st.
Arguments Break {St} st.

(** [while cond: body] over the loop variables [st]; the counter bounds the
    number of turns. *)
Fixpoint while {St : Type} (fuel : nat) (cond : St -> Gen bool)
    (body : St -> Gen (LoopStep St)) (st : St) : Gen St :=
  match fuel with
  | O => outOfFuel
  | S fuel' =>
      let* c := cond st in
      if c : bool then
        let* step := body st in
        match step with
        | Continue st' => while fuel' cond body st'
        | Break st' => ret st'
        end
      else ret st
  end.

Definition whileTrue {St : Type} (fuel : nat) (body : St -> Gen (LoopStep St))
    (st : St) : Gen St :=
  while fuel (fun _ => ret true) body st.

(** ** Helpers of pyasn1.compat *)

Definition null : list byte := [].

Definition nonEmpty {A : Type} (l : list A) : bool :=
  match l with [] => false | _ => true end.

(** Modelled from the spec: [from_bytes(chunk, signed=True)] of
    pyasn1.compat.integer, "two's-complement big-endian signed integer". *)
Definition from_bytes_unsigned (octets : list byte) : Z :=
  fold_left (fun acc b => acc * 256 + ord b) octets 0.

Definition from_bytes (octets : list byte) (signed : bool) : Z :=
  match octets with
  | b :: _ =>
      if signed && (128 <=? ord b)
      then from_bytes_unsigned octets - 2 ^ (8 * len octets)
      else from_bytes_unsigned octets
  | [] => 0
  end.

(** A yielded item used as an octet string ([header += component],
    [component[0]]); TypeError when it is none. *)
Definition asOctets (v : Value) : Gen (list byte) :=
  match v with
  | Native (PyOctets o) => ret o
  | _ => raise (PyError "TypeError")
  end.

(** Modelled from the spec: the schema object a payload decoder passes
    for its own fragments ([self.protoComponent] as [asn1Spec]), an
    instance of the type model.  Its tag map knows its own tag set; that of
    Any, "a slot holding arbitrary well-formed BER with no schema
    constraint", knows every tag set, so that "the Any indefinite-length
    decoder concatenates raw fragments". *)
Definition protoSpec (c : Asn1Class) : Asn1Spec :=
  Asn1Type c (classTagSet c)
    (fun t => if bool_decide (c = univ_Any) || TagSet_eqb t (classTagSet c)
              then Some (Asn1Type c (classTagSet c) (fun _ => None) NoComponentType)
              else None)
    NoComponentType.

(** ** Payload decoders of the simple types *)

Module AbstractSimplePayloadDecoder.

Definition _createComponent (protoComponent : Asn1Class)
    (asn1Spec : option Asn1Spec) (tagSet : TagSet) (value : PyValue)
    (options : Options) : Gen Value :=
  if native options then ret (Native value)
  else match asn1Spec with
       | None => ret (Asn1Scalar protoComponent tagSet value)
       | Some spec => spec_clone spec value
       end.

End AbstractSimplePayloadDecoder.

Module RawPayloadDecoder.

Definition protoComponent : Asn1Class := univ_Any.

Definition _createComponent :=
  AbstractSimplePayloadDecoder._createComponent protoComponent.

Definition valueDecoder (asn1Spec : option Asn1Spec) (tagSet : TagSet) (length : Z)
    (state : State) (decodeFun : DecodeFun) (substrateFun : option SubstrateFun)
    (options : Options) : Gen Value :=
  match substrateFun with
  | Some f =>
      let* asn1Object := _createComponent asn1Spec tagSet (PyStr EmptyString) options in
      callSubstrateFun f asn1Object length options
  | None =>
      decodeFun asn1Spec (Some tagSet) (Some length) stDecodeTag None options
  end.

(** The generator yields every inner value up to the end-of-octets
    sentinel; its consumer keeps the last one, and keeps [noValue] when
    there was none. *)
Definition indefLenValueDecoder (fuel : nat) (asn1Spec : option Asn1Spec)
    (tagSet : TagSet) (length : Z) (state : State) (decodeFun : DecodeFun)
    (substrateFun : option SubstrateFun) (options : Options) : Gen Value :=
  match substrateFun with
  | Some f =>
      let* asn1Object := _createComponent asn1Spec tagSet (PyStr EmptyString) options in
      callSubstrateFun f asn1Object length options
  | None =>
      whileTrue fuel
        (fun last =>
           let* value := decodeFun asn1Spec (Some tagSet) (Some length) stDecodeTag
                           None (withAllowEoo true options) in
           match value with
           | endOfOctets => ret (Break last)
           | _ => ret (Continue value)
           end)
        noValue
  end.

End RawPayloadDecoder.

Module IntegerPayloadDecoder.

Definition protoComponent : Asn1Class := univ_Integer.

Definition _createComponent :=
  AbstractSimplePayloadDecoder._createComponent protoComponent.

(** [self_createComponent] is [self._createComponent], which the Boolean
    decoder overrides. *)
Definition valueDecoder
    (self_createComponent : option Asn1Spec -> TagSet -> PyValue -> Options -> Gen Value)
    (asn1Spec : option Asn1Spec) (tagSet : TagSet) (length : Z)
    (state : State) (decodeFun : DecodeFun) (substrateFun : option SubstrateFun)
    (options : Options) : Gen Value :=
  let* tag0 := TagSet_head tagSet in
  if negb (tagFormat tag0 =? tagFormatSimple) then
    raise (PyAsn1Error "Simple tag format expected")
  else
    let* chunk := readFromStream length in
    let value := if nonEmpty chunk then from_bytes chunk true else 0 in
    self_createComponent asn1Spec tagSet (PyInt value) options.

End IntegerPayloadDecoder.

Module BooleanPayloadDecoder.

Definition protoComponent : Asn1Class := univ_Boolean.

(** [value and 1 or 0]. *)
Definition _createComponent (asn1Spec : option Asn1Spec) (tagSet : TagSet)
    (value : PyValue) (options : Options) : Gen Value :=
  AbstractSimplePayloadDecoder._createComponent protoComponent asn1Spec tagSet
    (match value with
     | PyInt z => PyInt (if z =? 0 then 0 else 1)
     | other => other
     end) options.

Definition valueDecoder := IntegerPayloadDecoder.valueDecoder _createComponent.

End BooleanPayloadDecoder.

Module NullPayloadDecoder.

Definition protoComponent : Asn1Class := univ_Null.

Definition _createComponent :=
  AbstractSimplePayloadDecoder._createComponent protoComponent.

Definition valueDecoder (asn1Spec : option Asn1Spec) (tagSet : TagSet) (length : Z)
    (state : State) (decodeFun : DecodeFun) (substrateFun : option SubstrateFun)
    (options : Options) : Gen Value :=
  let* tag0 := TagSet_head tagSet in
  if negb (tagFormat tag0 =? tagFormatSimple) then
    raise (PyAsn1Error "Simple tag format expected")
  else
    let* chunk := readFromStream length in
    let* component := _createComponent asn1Spec tagSet (PyStr EmptyString) options in
    if nonEmpty chunk then
      raise (PyAsn1Error "Unexpected %d-octet substrate for Null")
    else ret component.

End NullPayloadDecoder.

Module ObjectIdentifierPayloadDecoder.

Definition protoComponent : Asn1Class := univ_ObjectIdentifier.

Definition _createComponent :=
  AbstractSimplePayloadDecoder._createComponent protoComponent.

(** The inner loop [while nextSubId >= 128], "construct subid from a
    number of octets"; [rest] is the part of [chunk] from [index] on and
    [next] is the rest of the outer loop. *)
Definition construct (next : list Z -> Z -> Error + list Z)
    : Z -> Z -> list Z -> Error + list Z :=
  fix construct (subId nextSubId : Z) (rest : list Z) {struct rest} :=
    if nextSubId >=? 128 then
      let subId := Z.shiftl subId 7 + Z.land nextSubId 0x7F in
      match rest with
      | [] => inl (SubstrateUnderrunError "Short substrate for sub-OID past %s")
      | nextSubId :: rest' => construct subId nextSubId rest'
      end
    else next rest (Z.shiftl subId 7 + nextSubId).

(** The loop [while index < substrateLen] over the octets of [chunk]. *)
Fixpoint subIdentifiers (chunk : list Z) (oid : list Z) {struct chunk} : Error + list Z :=
  match chunk with
  | [] => inr oid
  | subId :: rest =>
      if subId <? 128 then subIdentifiers rest (oid ++ [subId])
      else if subId >? 128 then
        construct (fun rest subId => subIdentifiers rest (oid ++ [subId])) 0 subId rest
      else inl (PyAsn1Error "Invalid octet 0x80 in OID encoding")
  end.

(** "Decode two leading arcs". *)
Definition leadingArcs (oid : list Z) : Error + list Z :=
  match oid with
  | [] => inl (PyError "IndexError")
  | oid0 :: tail =>
      if (0 <=? oid0) && (oid0 <=? 39) then inr (0 :: oid)
      else if (40 <=? oid0) && (oid0 <=? 79) then inr (1 :: oid0 - 40 :: tail)
      else if oid0 >=? 80 then inr (2 :: oid0 - 80 :: tail)
      else inl (PyAsn1Error "Malformed first OID octet: %s")
  end.

Definition valueDecoder (asn1Spec : option Asn1Spec) (tagSet : TagSet) (length : Z)
    (state : State) (decodeFun : DecodeFun) (substrateFun : option SubstrateFun)
    (options : Options) : Gen Value :=
  let* tag0 := TagSet_head tagSet in
  if negb (tagFormat tag0 =? tagFormatSimple) then
    raise (PyAsn1Error "Simple tag format expected")
  else
    let* chunk := readFromStream length in
    if negb (nonEmpty chunk) then raise (PyAsn1Error "Empty substrate")
    else
      let chunk := octs2ints chunk in
      let* oid := liftE (subIdentifiers chunk []) in
      let* oid := liftE (leadingArcs oid) in
      _createComponent asn1Spec tagSet (PyTuple oid) options.

End ObjectIdentifierPayloadDecoder.

Module RealPayloadDecoder.

Definition protoComponent : Asn1Class := univ_Real.

Definition _createComponent :=
  AbstractSimplePayloadDecoder._createComponent protoComponent.

(** [while eo: e <<= 8; e |= oct2int(eo[0]); eo = eo[1:]], and the same
    loop for the mantissa. *)
Definition shiftIn (acc : Z) (octets : list byte) : Z :=
  fold_left (fun e b => Z.lor (Z.shiftl e 8) (oct2int b)) octets acc.

Definition binaryEncoding (fo : Z) (chunk : list byte) : Error + PyValue :=
  if negb (nonEmpty chunk) then inl (PyAsn1Error "Incomplete floating-point value")
  else
    let n := Z.land fo 0x03 + 1 in
    let '(n, chunk) :=
      if n =? 4 then
        match chunk with
        | c0 :: chunk' => (oct2int c0, chunk')
        | [] => (n, chunk)
        end
      else (n, chunk) in
    let eo := firstn (Z.to_nat n) chunk in
    let chunk := skipn (Z.to_nat n) chunk in
    match eo with
    | [] => inl (PyAsn1Error "Real exponent screwed")
    | eo0 :: _ =>
        if negb (nonEmpty chunk) then inl (PyAsn1Error "Real exponent screwed")
        else
          let e := if Z.land (oct2int eo0) 0x80 =? 0 then 0 else -1 in
          let e := shiftIn e eo in
          let b := Z.land (Z.shiftr fo 4) 0x03 in
          if b >? 2 then inl (PyAsn1Error "Illegal Real base")
          else
            let e := if b =? 1 then e * 3 else if b =? 2 then e * 4 else e in
            let p := shiftIn 0 chunk in
            let p := if Z.land fo 0x40 =? 0 then p else - p in
            let sf := Z.land (Z.shiftr fo 2) 0x03 in
            let p := p * 2 ^ sf in
            inr (PyRealTriple p 2 e)
    end.

(** The conversions [int(chunk)] and [float(chunk)] are kept as
    [PyRealText]; their ValueError, which the decoder re-raises as
    SubstrateUnderrunError 'Bad character Real syntax', is not
    represented. *)
Definition characterEncoding (fo : Z) (chunk : list byte) : Error + PyValue :=
  if negb (nonEmpty chunk) then inl (PyAsn1Error "Incomplete floating-point value")
  else if Z.land fo 0x3 =? 0x1 then inr (PyRealText 1 chunk)
  else if Z.land fo 0x3 =? 0x2 then inr (PyRealText 2 chunk)
  else if Z.land fo 0x3 =? 0x3 then inr (PyRealText 3 chunk)
  else inl (SubstrateUnderrunError "Unknown NR (tag %s)").

Definition valueDecoder (asn1Spec : option Asn1Spec) (tagSet : TagSet) (length : Z)
    (state : State) (decodeFun : DecodeFun) (substrateFun : option SubstrateFun)
    (options : Options) : Gen Value :=
  let* tag0 := TagSet_head tagSet in
  if negb (tagFormat tag0 =? tagFormatSimple) then
    raise (PyAsn1Error "Simple tag format expected")
  else
    let* chunk := readFromStream length in
    match chunk with
    | [] => _createComponent asn1Spec tagSet PyFloatZero options
    | chunk0 :: chunk =>
        let fo := oct2int chunk0 in
        let* value :=
          liftE
            (if negb (Z.land fo 0x80 =? 0) then binaryEncoding fo chunk
             else if negb (Z.land fo 0x40 =? 0) then
               inr (PyStr (if Z.land fo 0x01 =? 0 then "inf" else "-inf"))
             else if Z.land fo 0xc0 =? 0 then characterEncoding fo chunk
             else inl (SubstrateUnderrunError "Unknown encoding (tag %s)")) in
        _createComponent asn1Spec tagSet value options
    end.

End RealPayloadDecoder.

Module BitStringPayloadDecoder.

Definition protoComponent : Asn1Class := univ_BitString.

Definition _createComponent :=
  AbstractSimplePayloadDecoder._createComponent protoComponent.

(** [protoComponent.fromOctetString(value, internalFormat=True,
    prepend=..., padding=...)], kept by its arguments. *)
Definition fromOctetString (value : list byte) (prepend : list (list byte * Z))
    (padding : Z) : list (list byte * Z) :=
  prepend ++ [(value, padding)].

(** The body shared by the fragment loops: check the trailing-bits octet
    of a fragment and append the fragment. *)
Definition appendFragment (component : Value) (bitString : list (list byte * Z))
    : Gen (list (list byte * Z)) :=
  let* component := asOctets component in
  match component with
  | [] => raise (PyError "IndexError")
  | c0 :: tail =>
      let trailingBits := oct2int c0 in
      if trailingBits >? 7 then raise (PyAsn1Error "Trailing bits overflow %s")
      else ret (fromOctetString tail bitString trailingBits)
  end.

Definition valueDecoder (supportConstructedForm : bool) (fuel : nat)
    (asn1Spec : option Asn1Spec) (tagSet : TagSet) (length : Z)
    (state : State) (decodeFun : DecodeFun) (substrateFun : option SubstrateFun)
    (options : Options) : Gen Value :=
  match substrateFun with
  | Some f =>
      let* asn1Object := _createComponent asn1Spec tagSet PyNoValue options in
      callSubstrateFun f asn1Object length options
  | None =>
      if length =? 0 then raise (PyAsn1Error "Empty BIT STRING substrate")
      else
        let* chunk := isEndOfStream in
        if chunk : bool then raise (PyAsn1Error "Empty BIT STRING substrate")
        else
          let* tag0 := TagSet_head tagSet in
          if tagFormat tag0 =? tagFormatSimple then
            let* trailingBits := readFromStream 1 in
            let* trailingBits := ordOctet trailingBits in
            if trailingBits >? 7 then raise (PyAsn1Error "Trailing bits overflow %s")
            else
              let* chunk := readFromStream (length - 1) in
              let value := fromOctetString chunk [] trailingBits in
              _createComponent asn1Spec tagSet (PyBits value) options
          else if negb supportConstructedForm then
            raise (PyAsn1Error "Constructed encoding form prohibited at %s")
          else
            let substrateFun := substrateCollector in
            let bitString := fromOctetString null [] 0 in
            let* current_position := getTell in
            let* bitString :=
              while fuel
                (fun _ => let* here := getTell in ret (here - current_position <? length))
                (fun bitString =>
                   let* component := decodeFun (Some (protoSpec protoComponent)) None None
                                       stDecodeTag (Some substrateFun) options in
                   let* bitString := appendFragment component bitString in
                   ret (Continue bitString))
                bitString in
            _createComponent asn1Spec tagSet (PyBits bitString) options
  end.

Definition indefLenValueDecoder (fuel : nat)
    (asn1Spec : option Asn1Spec) (tagSet : TagSet) (length : Z)
    (state : State) (decodeFun : DecodeFun) (substrateFun : option SubstrateFun)
    (options : Options) : Gen Value :=
  match substrateFun with
  | Some f =>
      let* asn1Object := _createComponent asn1Spec tagSet PyNoValue options in
      callSubstrateFun f asn1Object length options
  | None =>
      let substrateFun := substrateCollector in
      let bitString := fromOctetString null [] 0 in
      let* bitString :=
        whileTrue fuel
          (fun bitString =>
             let* component := decodeFun (Some (protoSpec protoComponent)) None None
                                 stDecodeTag (Some substrateFun)
                                 (withAllowEoo true options) in
             match component with
             | endOfOctets => ret (Break bitString)
             | _ =>
                 let* bitString := appendFragment component bitString in
                 ret (Continue bitString)
             end)
          bitString in
      _createComponent asn1Spec tagSet (PyBits bitString) options
  end.

End BitStringPayloadDecoder.

(** [OctetStringPayloadDecoder] and its subclasses for the character-string
    and useful types, which differ in [protoComponent] only. *)
Module OctetStringPayloadDecoder.

Definition _createComponent (protoComponent : Asn1Class) :=
  AbstractSimplePayloadDecoder._createComponent protoComponent.

Definition valueDecoder (protoComponent : Asn1Class) (supportConstructedForm : bool)
    (fuel : nat)
    (asn1Spec : option Asn1Spec) (tagSet : TagSet) (length : Z)
    (state : State) (decodeFun : DecodeFun) (substrateFun : option SubstrateFun)
    (options : Options) : Gen Value :=
  match substrateFun with
  | Some f =>
      let* asn1Object := _createComponent protoComponent asn1Spec tagSet PyNoValue options in
      callSubstrateFun f asn1Object length options
  | None =>
      let* tag0 := TagSet_head tagSet in
      if tagFormat tag0 =? tagFormatSimple then
        let* chunk := readFromStream length in
        _createComponent protoComponent asn1Spec tagSet (PyOctets chunk) options
      else if negb supportConstructedForm then
        raise (PyAsn1Error "Constructed encoding form prohibited at %s")
      else
        let substrateFun := substrateCollector in
        let header := null in
        let* original_position := getTell in
        let* header :=
          while fuel
            (fun _ => let* here := getTell in ret (here - original_position <? length))
            (fun header =>
               let* component := decodeFun (Some (protoSpec protoComponent)) None None
                                   stDecodeTag (Some substrateFun) options in
               let* component := asOctets component in
               ret (Continue (header ++ component)))
            header in
        _createComponent protoComponent asn1Spec tagSet (PyOctets header) options
  end.

Definition collectFragments (protoComponent : Asn1Class) (fuel : nat)
    (asn1Spec : option Asn1Spec) (tagSet : TagSet)
    (decodeFun : DecodeFun) (options : Options) : Gen Value :=
  let substrateFun := substrateCollector in
  let header := null in
  let* header :=
    whileTrue fuel
      (fun header =>
         let* component := decodeFun (Some (protoSpec protoComponent)) None None
                             stDecodeTag (Some substrateFun)
                             (withAllowEoo true options) in
         match component with
         | endOfOctets => ret (Break header)
         | _ =>
             let* component := asOctets component in
             ret (Continue (header ++ component))
         end)
      header in
  _createComponent protoComponent asn1Spec tagSet (PyOctets header) options.

Definition indefLenValueDecoder (protoComponent : Asn1Class) (fuel : nat)
    (asn1Spec : option Asn1Spec) (tagSet : TagSet) (length : Z)
    (state : State) (decodeFun : DecodeFun) (substrateFun : option SubstrateFun)
    (options : Options) : Gen Value :=
  match substrateFun with
  | Some f =>
      if negb (isCollector f) then
        let* asn1Object := _createComponent protoComponent asn1Spec tagSet PyNoValue options in
        callSubstrateFun f asn1Object length options
      else collectFragments protoComponent fuel asn1Spec tagSet decodeFun options
  | None => collectFragments protoComponent fuel asn1Spec tagSet decodeFun options
  end.

End OctetStringPayloadDecoder.

(** ** What the constructed decoders ask of the values they assemble *)

(** Modelled from the spec: [component.effectiveTagSet] of the type model:
    "a Choice is untagged unless wrapped", so an untagged choice answers
    with the effective tag set of the alternative it holds, every other
    value with its own tag set. *)
Fixpoint effectiveTagSet (v : Value) : Error + TagSet :=
  match v with
  | Asn1Scalar _ tagSet _ => inr tagSet
  | Asn1Constructed univ_Choice tagSet components =>
      if nonEmpty (superTags tagSet) then inr tagSet
      else match components with
           | (_, component) :: _ => effectiveTagSet component
           | [] => inl (PyError "AttributeError")
           end
  | Asn1Constructed _ tagSet _ => inr tagSet
  | _ => inl (PyError "AttributeError")
  end.

(** [asn1Object.getComponentByPosition(idx)]; an unfilled slot holds no
    value. *)
Definition getComponentByPosition (idx : Z) (asn1Object : Value) : Gen Value :=
  match asn1Object with
  | Asn1Constructed _ _ components =>
      ret (match getSlot idx components with Some v => v | None => noValue end)
  | _ => raise (PyError "AttributeError")
  end.

Definition isValue (v : Value) : bool :=
  match v with
  | noValue | PyNone | endOfOctets => false
  | Asn1Scalar _ _ PyNoValue => false
  | _ => true
  end.

Fixpoint positionOfName (name : string) (items : list NamedType) (idx : Z) : option Z :=
  match items with
  | [] => None
  | t :: rest => if String.eqb (nt_name t) name then Some idx
                 else positionOfName name rest (idx + 1)
  end.

(** [asn1Object.getComponentByName(name)]. *)
Definition getComponentByName (namedTypes : NamedTypes) (name : string)
    (asn1Object : Value) : Gen Value :=
  match positionOfName name (nt_items namedTypes) 0 with
  | Some idx => getComponentByPosition idx asn1Object
  | None => raise (PyAsn1Error "Name %s not found")
  end.

(** [value.typeId]. *)
Definition value_typeId (v : Value) : Gen Asn1Class :=
  match v with
  | Asn1Scalar cls _ _ | Asn1Constructed cls _ _ => ret cls
  | _ => raise (PyError "AttributeError")
  end.

(** [value.asOctets()] of an octet-string-like value. *)
Definition value_asOctets (v : Value) : Gen (list byte) :=
  match v with
  | Asn1Scalar _ _ (PyOctets o) => ret o
  | _ => raise (PyError "AttributeError")
  end.

(** A generator run over a stream of its own
    ([asSeekableStream(value.asOctets())]): the substrate of the caller is
    not touched. *)
Definition onStream {A : Type} (octets : list byte) (g : Gen A) : Gen A :=
  fun s =>
    match g (asSeekableStream octets) with
    | Yield a _ => Yield a s
    | Underrun => Underrun
    | Raise e => Raise e
    | OutOfFuel => OutOfFuel
    end.

(** [enumerate(l)] from [idx] on. *)
Fixpoint enumerateFrom {A : Type} (idx : Z) (l : list A) : list (Z * A) :=
  match l with
  | [] => []
  | x :: rest => (idx, x) :: enumerateFrom (idx + 1) rest
  end.

(** [for x in l: body] over the loop variables [st]. *)
Fixpoint forEach {A St : Type} (l : list A) (body : A -> St -> Gen St) (st : St) : Gen St :=
  match l with
  | [] => ret st
  | x :: rest => let* st := body x st in forEach rest body st
  end.

(** [requiredComponents.issubset(seenIndices)]. *)
Definition issubset (required : list Z) (seenIndices : gset Z) : bool :=
  forallb (fun i => bool_decide (i ∈ seenIndices)) required.

(** [try: ... except IndexError: raise error]. *)
Definition exceptIndexError {A : Type} (g : Gen A) (error : Error) : Gen A :=
  fun s =>
    match g s with
    | Raise (PyError name) =>
        if String.eqb name "IndexError" then Raise error else Raise (PyError name)
    | outcome => outcome
    end.

Definition isEndOfOctets (v : Value) : bool :=
  match v with endOfOctets => true | _ => false end.

(** ** Payload decoders of the constructed types *)

Module ConstructedPayloadDecoderBase.

(** The loop variables of [_decodeComponentsSchemaless]. *)
Record Schemaless : Type := mkSchemaless {
  sl_asn1Object : Value;
  sl_components : list Value;
  sl_componentTypes : gset TagSetKey
}.

(** One turn of the loop, after the component was decoded: record it and
    guess the container. *)
Definition guessContainer (protoRecordComponent protoSequenceComponent : Asn1Class)
    (tagSet : TagSet) (component : Value) (st : Schemaless) : Gen Schemaless :=
  let components := sl_components st ++ [component] in
  let* componentTagSet := liftE (valueTagSet component) in
  let componentTypes := {[ tagSetKey componentTagSet ]} ∪ sl_componentTypes st in
  let protoComponent :=
    if (1 <? size componentTypes)%nat then protoRecordComponent
    else protoSequenceComponent in
  let asn1Object :=
    Asn1Constructed protoComponent
      {| baseTag := baseTag (classTagSet protoComponent);
         superTags := superTags tagSet |} [] in
  ret (mkSchemaless asn1Object components componentTypes).

Definition _decodeComponentsSchemaless
    (protoRecordComponent protoSequenceComponent : Asn1Class) (fuel : nat)
    (tagSet : TagSet) (decodeFun : DecodeFun) (length : Z) (options : Options)
    : Gen Value :=
  let* original_position := getTell in
  let* st :=
    while fuel
      (fun _ =>
         if length =? -1 then ret true
         else let* here := getTell in ret (here <? original_position + length))
      (fun st =>
         let* component := decodeFun None None None stDecodeTag None options in
         if (length =? -1) && isEndOfOctets component then ret (Break st)
         else
           let* st := guessContainer protoRecordComponent protoSequenceComponent
                        tagSet component st in
           ret (Continue st))
      (mkSchemaless PyNone [] ∅) in
  forEach (enumerateFrom 0 (sl_components st))
    (fun '(idx, component) asn1Object =>
       setComponentByPosition idx component asn1Object)
    (sl_asn1Object st).

(** The object handed to a [substrateFun]. *)
Definition hookObject (protoComponent : option Asn1Class)
    (protoRecordComponent protoSequenceComponent : Asn1Class)
    (asn1Spec : option Asn1Spec) (tagSet : TagSet) : Gen Value :=
  match asn1Spec with
  | Some spec => spec_cloneEmpty spec
  | None =>
      match protoComponent with
      | Some proto => ret (Asn1Constructed proto tagSet [])
      | None =>
          ret (PyPair
                 (Asn1Constructed protoRecordComponent
                    (classTagSet protoRecordComponent) [])
                 (Asn1Constructed protoSequenceComponent
                    (classTagSet protoSequenceComponent) []))
      end
  end.

(** The loop variables of the record loops. *)
Record Record_ : Type := mkRecord {
  rc_idx : Z;
  rc_asn1Object : Value;
  rc_seenIndices : gset Z
}.

(** The schema a record passes for its next component (definite form:
    [asn1Object is namedTypes] empty or not; indefinite form:
    [len(namedTypes) <= idx]). *)
Definition componentSchema (noSchema : bool) (namedTypes : NamedTypes)
    (isSetType isDeterministic : bool) (idx : Z) : Gen (option Asn1Spec) :=
  if noSchema then ret None
  else if isSetType then ret (Some (TagMap (nt_tagMapUnique namedTypes)))
  else
    exceptIndexError
      (if isDeterministic then
         let* namedType := nt_getitem namedTypes idx in
         ret (Some (nt_asn1Object namedType))
       else
         let* namedType := nt_getitem namedTypes idx in
         if nt_isOptional namedType || nt_isDefaulted namedType then
           let* nearMap := liftE (nt_getTagMapNearPosition namedTypes idx) in
           ret (Some (TagMap nearMap))
         else ret (Some (nt_asn1Object namedType)))
      (PyAsn1Error "Excessive components decoded at %r").

(** The rest of a turn of a record loop, after the component was
    decoded: find its slot, fill it, remember the index. *)
Definition storeComponent (namedTypes : NamedTypes) (isSetType isDeterministic : bool)
    (component : Value) (st : Record_) : Gen Record_ :=
  let idx := rc_idx st in
  let* idx :=
    if negb isDeterministic && nonEmpty (nt_items namedTypes) then
      if isSetType then
        let* ets := liftE (effectiveTagSet component) in
        liftE (nt_getPositionByType namedTypes ets)
      else
        let* namedType := nt_getitem namedTypes idx in
        if nt_isOptional namedType || nt_isDefaulted namedType then
          let* ets := liftE (effectiveTagSet component) in
          liftE (nt_getPositionNearType namedTypes ets idx)
        else ret idx
    else ret idx in
  let* asn1Object := setComponentByPosition idx component (rc_asn1Object st) in
  ret (mkRecord (idx + 1) asn1Object ({[ idx ]} ∪ rc_seenIndices st)).

(** [openTypes[governingValue]], then [namedType.openType[governingValue]]. *)
Definition lookupOpenType (options : Options) (openType : OpenType)
    (governingValue : Value) : option Asn1Spec :=
  let fallback := match openType with mkOpenType _ typeMap => typeMap governingValue end in
  match openTypes options with
  | Some userMap =>
      match userMap governingValue with
      | Some spec => Some spec
      | None => fallback
      end
  | None => fallback
  end.

(** Open-type resolution after a record is populated.  [indef] tells the
    two copies of the code apart: the indefinite-length one decodes with
    [allowEoo=True] and does not fill a scalar slot with the
    end-of-octets sentinel. *)
Definition resolveOpenTypes (indef : bool) (namedTypes : NamedTypes)
    (decodeFun : DecodeFun) (options : Options) (asn1Object : Value) : Gen Value :=
  if negb (match openTypes options with Some _ => true | None => false end
           || decodeOpenTypes options)
  then ret asn1Object
  else
    let innerOptions := if indef then withAllowEoo true options else options in
    forEach (enumerateFrom 0 (nt_items namedTypes))
      (fun '(idx, namedType) asn1Object =>
         match nt_openType namedType with
         | None => ret asn1Object
         | Some openType =>
             let* skip :=
               if nt_isOptional namedType then
                 let* slot := getComponentByPosition idx asn1Object in
                 ret (negb (isValue slot))
               else ret false in
             if skip : bool then ret asn1Object
             else
               let* governingValue :=
                 getComponentByName namedTypes
                   (match openType with mkOpenType name _ => name end) asn1Object in
               match lookupOpenType options openType governingValue with
               | None => ret asn1Object
               | Some openTypeSpec =>
                   let* containerValue := getComponentByPosition idx asn1Object in
                   let* typeId := value_typeId containerValue in
                   if bool_decide (typeId = univ_SetOf)
                      || bool_decide (typeId = univ_SequenceOf)
                   then
                     match containerValue with
                     | Asn1Constructed cls tagSet elements =>
                         let* elements :=
                           forEach elements
                             (fun '(pos, containerElement) elements =>
                                let* octets := value_asOctets containerElement in
                                let* component :=
                                  onStream octets
                                    (decodeFun (Some openTypeSpec) None None stDecodeTag
                                       None innerOptions) in
                                ret (setSlot pos component elements))
                             elements in
                         setComponentByPosition idx
                           (Asn1Constructed cls tagSet elements) asn1Object
                     | _ => raise (PyError "TypeError")
                     end
                   else
                     let* octets := value_asOctets containerValue in
                     let* component :=
                       onStream octets
                         (decodeFun (Some openTypeSpec) None None stDecodeTag
                            None innerOptions) in
                     if indef && isEndOfOctets component then ret asn1Object
                     else setComponentByPosition idx component asn1Object
               end
         end)
      asn1Object.

(** What follows the component loop of a record.  Without a catalogue the
    source consults [asn1Object.isInconsistent], a check of the type
    model's constraints, which is left out. *)
Definition finishRecord (indef : bool) (namedTypes : NamedTypes)
    (decodeFun : DecodeFun) (options : Options) (st : Record_) : Gen Value :=
  if nonEmpty (nt_items namedTypes) then
    if negb (issubset (nt_requiredComponents namedTypes) (rc_seenIndices st)) then
      raise (PyAsn1Error "ASN.1 object %s has uninitialized components")
    else if nt_hasOpenTypes namedTypes then
      resolveOpenTypes indef namedTypes decodeFun options (rc_asn1Object st)
    else ret (rc_asn1Object st)
  else ret (rc_asn1Object st).

(** [asn1Spec.componentType] of a record: its named-type catalogue. *)
Definition spec_namedTypes (spec : Asn1Spec) : Gen NamedTypes :=
  let* componentType := spec_componentType spec in
  match componentType with
  | NamedTypesOf namedTypes => ret namedTypes
  | _ => raise (PyError "AttributeError")
  end.

(** [asn1Spec.componentType] of a SequenceOf or SetOf: the element type,
    or [None]. *)
Definition spec_elementType (spec : Asn1Spec) : Gen (option Asn1Spec) :=
  let* componentType := spec_componentType spec in
  match componentType with
  | ElementType elementSpec => ret (Some elementSpec)
  | NoComponentType => ret None
  | NamedTypesOf _ => raise (PyError "AttributeError")
  end.

Definition isRecordType (typeId : Asn1Class) : bool :=
  bool_decide (typeId = univ_Sequence) || bool_decide (typeId = univ_Set).

(** The component loop of a record of definite length. *)
Definition decodeRecordComponents (fuel : nat) (namedTypes : NamedTypes)
    (isSetType isDeterministic : bool) (original_position length : Z)
    (decodeFun : DecodeFun) (options : Options) (asn1Object : Value) : Gen Record_ :=
  while fuel
    (fun _ => let* here := getTell in ret (here - original_position <? length))
    (fun st =>
       let* componentType :=
         componentSchema (negb (nonEmpty (nt_items namedTypes))) namedTypes
           isSetType isDeterministic (rc_idx st) in
       let* component := decodeFun componentType None None stDecodeTag None options in
       let* st := storeComponent namedTypes isSetType isDeterministic component st in
       ret (Continue st))
    (mkRecord 0 asn1Object ∅).

Definition valueDecoder (protoComponent : option Asn1Class)
    (protoRecordComponent protoSequenceComponent : Asn1Class) (fuel : nat)
    (asn1Spec : option Asn1Spec) (tagSet : TagSet) (length : Z)
    (state : State) (decodeFun : DecodeFun) (substrateFun : option SubstrateFun)
    (options : Options) : Gen Value :=
  let* tag0 := TagSet_head tagSet in
  if negb (tagFormat tag0 =? tagFormatConstructed) then
    raise (PyAsn1Error "Constructed tag format expected")
  else
    let* original_position := getTell in
    match substrateFun with
    | Some f =>
        let* asn1Object := hookObject protoComponent protoRecordComponent
                             protoSequenceComponent asn1Spec tagSet in
        callSubstrateFun f asn1Object length options
    | None =>
        match asn1Spec with
        | None =>
            _decodeComponentsSchemaless protoRecordComponent protoSequenceComponent
              fuel tagSet decodeFun length options
        | Some spec =>
            let* asn1Object := spec_cloneEmpty spec in
            let* typeId := spec_typeId spec in
            if isRecordType typeId then
              let* namedTypes := spec_namedTypes spec in
              let isSetType := bool_decide (typeId = univ_Set) in
              let isDeterministic :=
                negb isSetType && negb (nt_hasOptionalOrDefault namedTypes) in
              let* st := decodeRecordComponents fuel namedTypes isSetType
                           isDeterministic original_position length decodeFun
                           options asn1Object in
              finishRecord false namedTypes decodeFun options st
            else
              let* componentType := spec_elementType spec in
              let* (_, asn1Object) :=
                while fuel
                  (fun _ => let* here := getTell in
                            ret (here - original_position <? length))
                  (fun '(idx, asn1Object) =>
                     let* component := decodeFun componentType None None stDecodeTag
                                         None options in
                     let* asn1Object := setComponentByPosition idx component asn1Object in
                     ret (Continue (idx + 1, asn1Object)))
                  (0, asn1Object) in
              ret asn1Object
        end
    end.

(** The component loop of a record of indefinite length. *)
Definition decodeRecordComponentsIndef (fuel : nat) (namedTypes : NamedTypes)
    (isSetType isDeterministic : bool)
    (decodeFun : DecodeFun) (options : Options) (asn1Object : Value) : Gen Record_ :=
  whileTrue fuel
    (fun st =>
       let* asn1Spec :=
         componentSchema (len (nt_items namedTypes) <=? rc_idx st) namedTypes
           isSetType isDeterministic (rc_idx st) in
       let* component := decodeFun asn1Spec None None stDecodeTag None
                           (withAllowEoo true options) in
       if isEndOfOctets component then ret (Break st)
       else
         let* st := storeComponent namedTypes isSetType isDeterministic component st in
         ret (Continue st))
    (mkRecord 0 asn1Object ∅).

Definition indefLenValueDecoder (protoComponent : option Asn1Class)
    (protoRecordComponent protoSequenceComponent : Asn1Class) (fuel : nat)
    (asn1Spec : option Asn1Spec) (tagSet : TagSet) (length : Z)
    (state : State) (decodeFun : DecodeFun) (substrateFun : option SubstrateFun)
    (options : Options) : Gen Value :=
  let* tag0 := TagSet_head tagSet in
  if negb (tagFormat tag0 =? tagFormatConstructed) then
    raise (PyAsn1Error "Constructed tag format expected")
  else
    match substrateFun with
    | Some f =>
        let* asn1Object := hookObject protoComponent protoRecordComponent
                             protoSequenceComponent asn1Spec tagSet in
        callSubstrateFun f asn1Object length options
    | None =>
        match asn1Spec with
        | None =>
            _decodeComponentsSchemaless protoRecordComponent protoSequenceComponent
              fuel tagSet decodeFun length (withAllowEoo true options)
        | Some spec =>
            let* asn1Object := spec_cloneEmpty spec in
            let* typeId := spec_typeId spec in
            if isRecordType typeId then
              let* namedTypes := spec_namedTypes spec in
              let isSetType := bool_decide (typeId = univ_Set) in
              let isDeterministic :=
                negb isSetType && negb (nt_hasOptionalOrDefault namedTypes) in
              let* st := decodeRecordComponentsIndef fuel namedTypes isSetType
                           isDeterministic decodeFun options asn1Object in
              finishRecord true namedTypes decodeFun options st
            else
              let* componentType := spec_elementType spec in
              let* (_, asn1Object) :=
                whileTrue fuel
                  (fun '(idx, asn1Object) =>
                     let* component := decodeFun componentType None None stDecodeTag
                                         None (withAllowEoo true options) in
                     if isEndOfOctets component then ret (Break (idx, asn1Object))
                     else
                       let* asn1Object :=
                         setComponentByPosition idx component asn1Object in
                       ret (Continue (idx + 1, asn1Object)))
                  (0, asn1Object) in
              ret asn1Object
        end
    end.

End ConstructedPayloadDecoderBase.

Module ChoicePayloadDecoder.

Definition protoComponent : Asn1Class := univ_Choice.

(** The catalogue of [univ.Choice()], which has no alternatives. *)
Definition emptyNamedTypes : NamedTypes :=
  mkNamedTypes [] (fun _ => None)
    (fun _ => inl (PyAsn1Error "Type position out of range"))
    (fun _ => inl (PyAsn1Error "Type %s not found"))
    (fun _ _ => inl (PyAsn1Error "Type position out of range"))
    [] false false.

Definition choiceNamedTypes (asn1Spec : option Asn1Spec) : Gen NamedTypes :=
  match asn1Spec with
  | None => ret emptyNamedTypes
  | Some spec => ConstructedPayloadDecoderBase.spec_namedTypes spec
  end.

(** [asn1Object.setComponentByType(tagSet, value, ...)]: the alternative
    chosen by [tagSet] becomes the one component of the choice. *)
Definition setComponentByType (namedTypes : NamedTypes) (tagSet : TagSet)
    (value : Value) (asn1Object : Value) : Gen Value :=
  let* idx := liftE (nt_getPositionByType namedTypes tagSet) in
  match asn1Object with
  | Asn1Constructed cls objectTagSet _ =>
      ret (Asn1Constructed cls objectTagSet [(idx, value)])
  | _ => raise (PyError "AttributeError")
  end.

Definition cloneObject (asn1Spec : option Asn1Spec) (tagSet : TagSet) : Gen Value :=
  match asn1Spec with
  | None => ret (Asn1Constructed protoComponent tagSet [])
  | Some spec => spec_cloneEmpty spec
  end.

Definition valueDecoder (asn1Spec : option Asn1Spec) (tagSet : TagSet) (length : Z)
    (state : State) (decodeFun : DecodeFun) (substrateFun : option SubstrateFun)
    (options : Options) : Gen Value :=
  let* asn1Object := cloneObject asn1Spec tagSet in
  match substrateFun with
  | Some f => callSubstrateFun f asn1Object length options
  | None =>
      let* namedTypes := choiceNamedTypes asn1Spec in
      let componentTagMap := TagMap (nt_tagMapUnique namedTypes) in
      let* objectTagSet := liftE (valueTagSet asn1Object) in
      let* component :=
        if TagSet_eqb objectTagSet tagSet then
          decodeFun (Some componentTagMap) None None stDecodeTag None options
        else
          decodeFun (Some componentTagMap) (Some tagSet) (Some length) state None
            options in
      let* effectiveTagSet := liftE (effectiveTagSet component) in
      setComponentByType namedTypes effectiveTagSet component asn1Object
  end.

Definition indefLenValueDecoder (fuel : nat)
    (asn1Spec : option Asn1Spec) (tagSet : TagSet) (length : Z)
    (state : State) (decodeFun : DecodeFun) (substrateFun : option SubstrateFun)
    (options : Options) : Gen Value :=
  let* asn1Object := cloneObject asn1Spec tagSet in
  match substrateFun with
  | Some f => callSubstrateFun f asn1Object length options
  | None =>
      let* namedTypes := choiceNamedTypes asn1Spec in
      let tagMapUnique := TagMap (nt_tagMapUnique namedTypes) in
      let* objectTagSet := liftE (valueTagSet asn1Object) in
      let isTagged := TagSet_eqb objectTagSet tagSet in
      whileTrue fuel
        (fun asn1Object =>
           let* component :=
             if isTagged then
               decodeFun (Some tagMapUnique) None None stDecodeTag None
                 (withAllowEoo true options)
             else
               decodeFun (Some tagMapUnique) (Some tagSet) (Some length) state None
                 (withAllowEoo true options) in
           if isEndOfOctets component then ret (Break asn1Object)
           else
             let* effectiveTagSet := liftE (effectiveTagSet component) in
             let* asn1Object :=
               setComponentByType namedTypes effectiveTagSet component asn1Object in
             if negb isTagged then ret (Break asn1Object)
             else ret (Continue asn1Object))
        asn1Object
  end.

End ChoicePayloadDecoder.

Module AnyPayloadDecoder.

Definition protoComponent : Asn1Class := univ_Any.

Definition _createComponent :=
  AbstractSimplePayloadDecoder._createComponent protoComponent.

(** [tagSet in asn1Spec.tagMap] for a tag map, [tagSet == asn1Spec.tagSet]
    for a type object. *)
Definition matchesSpec (asn1Spec : Asn1Spec) (tagSet : TagSet) : bool :=
  match asn1Spec with
  | TagMap getitem => match getitem tagSet with Some _ => true | None => false end
  | Asn1Type _ specTagSet _ _ => TagSet_eqb tagSet specTagSet
  end.

Definition valueDecoder (asn1Spec : option Asn1Spec) (tagSet : TagSet) (length : Z)
    (state : State) (decodeFun : DecodeFun) (substrateFun : option SubstrateFun)
    (options : Options) : Gen Value :=
  let isUntagged :=
    match asn1Spec with
    | None => true
    | Some spec => negb (matchesSpec spec tagSet)
    end in
  let* length :=
    if isUntagged then
      fun s =>
        let fullPosition := Z.of_nat (markedPosition s) in
        let currentPosition := tell s in
        Yield (length + (currentPosition - fullPosition)) (seek_set fullPosition s)
    else ret length in
  match substrateFun with
  | Some f =>
      let* asn1Object := _createComponent asn1Spec tagSet PyNoValue options in
      callSubstrateFun f asn1Object length options
  | None =>
      let* chunk := readFromStream length in
      _createComponent asn1Spec tagSet (PyOctets chunk) options
  end.

Definition indefLenValueDecoder (fuel : nat)
    (asn1Spec : option Asn1Spec) (tagSet : TagSet) (length : Z)
    (state : State) (decodeFun : DecodeFun) (substrateFun : option SubstrateFun)
    (options : Options) : Gen Value :=
  let isTagged :=
    match asn1Spec with
    | None => false
    | Some spec => matchesSpec spec tagSet
    end in
  let* chunk :=
    if isTagged then ret null
    else
      let* fullPosition := (fun s => Yield (Z.of_nat (markedPosition s)) s) in
      let* currentPosition := getTell in
      let* _ := modify (seek_set fullPosition) in
      readFromStream (currentPosition - fullPosition) in
  let asn1Spec := Some (protoSpec protoComponent) in
  let hook :=
    match substrateFun with
    | Some f => if isCollector f then None else Some f
    | None => None
    end in
  match hook with
  | Some f =>
      let* asn1Object := _createComponent asn1Spec tagSet PyNoValue options in
      (* [chunk + substrate]: octets and a stream do not add *)
      raise (PyError "TypeError")
  | None =>
      let substrateFun := substrateCollector in
      let* chunk :=
        whileTrue fuel
          (fun chunk =>
             let* component := decodeFun asn1Spec None None stDecodeTag
                                 (Some substrateFun) (withAllowEoo true options) in
             if isEndOfOctets component then ret (Break chunk)
             else
               let* component := asOctets component in
               ret (Continue (chunk ++ component)))
          chunk in
      ret (Native (PyOctets chunk))
  end.

End AnyPayloadDecoder.

(** ** The dispatch tables *)

(** The payload decoder objects.  [octetStringPayloadDecoder proto] is the
    instance of [OctetStringPayloadDecoder] or of the subclass whose
    [protoComponent] is [proto]. *)
Inductive PayloadDecoder : Type :=
| rawPayloadDecoder
| integerPayloadDecoder
| booleanPayloadDecoder
| bitStringPayloadDecoder
| octetStringPayloadDecoder (proto : Asn1Class)
| nullPayloadDecoder
| objectIdentifierPayloadDecoder
| realPayloadDecoder
| sequenceOrSequenceOfPayloadDecoder
| sequencePayloadDecoder
| sequenceOfPayloadDecoder
| setOrSetOfPayloadDecoder
| setPayloadDecoder
| setOfPayloadDecoder
| choicePayloadDecoder
| anyPayloadDecoder.

(** [typeDecoder.protoComponent]. *)
Definition protoComponentOf (d : PayloadDecoder) : option Asn1Class :=
  match d with
  | rawPayloadDecoder => Some RawPayloadDecoder.protoComponent
  | integerPayloadDecoder => Some IntegerPayloadDecoder.protoComponent
  | booleanPayloadDecoder => Some BooleanPayloadDecoder.protoComponent
  | bitStringPayloadDecoder => Some BitStringPayloadDecoder.protoComponent
  | octetStringPayloadDecoder proto => Some proto
  | nullPayloadDecoder => Some NullPayloadDecoder.protoComponent
  | objectIdentifierPayloadDecoder => Some ObjectIdentifierPayloadDecoder.protoComponent
  | realPayloadDecoder => Some RealPayloadDecoder.protoComponent
  | sequenceOrSequenceOfPayloadDecoder | setOrSetOfPayloadDecoder => None
  | sequencePayloadDecoder => Some univ_Sequence
  | sequenceOfPayloadDecoder => Some univ_SequenceOf
  | setPayloadDecoder => Some univ_Set
  | setOfPayloadDecoder => Some univ_SetOf
  | choicePayloadDecoder => Some ChoicePayloadDecoder.protoComponent
  | anyPayloadDecoder => Some AnyPayloadDecoder.protoComponent
  end.

(** [TAG_MAP], in the order of the source. *)
Definition TAG_MAP : list (TagSet * PayloadDecoder) :=
  [ (classTagSet univ_Integer, integerPayloadDecoder);
    (classTagSet univ_Boolean, booleanPayloadDecoder);
    (classTagSet univ_BitString, bitStringPayloadDecoder);
    (classTagSet univ_OctetString, octetStringPayloadDecoder univ_OctetString);
    (classTagSet univ_Null, nullPayloadDecoder);
    (classTagSet univ_ObjectIdentifier, objectIdentifierPayloadDecoder);
    (classTagSet univ_Enumerated, integerPayloadDecoder);
    (classTagSet univ_Real, realPayloadDecoder);
    (classTagSet univ_Sequence, sequenceOrSequenceOfPayloadDecoder);
    (classTagSet univ_Set, setOrSetOfPayloadDecoder);
    (classTagSet univ_Choice, choicePayloadDecoder);
    (classTagSet char_UTF8String, octetStringPayloadDecoder char_UTF8String);
    (classTagSet char_NumericString, octetStringPayloadDecoder char_NumericString);
    (classTagSet char_PrintableString, octetStringPayloadDecoder char_PrintableString);
    (classTagSet char_TeletexString, octetStringPayloadDecoder char_TeletexString);
    (classTagSet char_VideotexString, octetStringPayloadDecoder char_VideotexString);
    (classTagSet char_IA5String, octetStringPayloadDecoder char_IA5String);
    (classTagSet char_GraphicString, octetStringPayloadDecoder char_GraphicString);
    (classTagSet char_VisibleString, octetStringPayloadDecoder char_VisibleString);
    (classTagSet char_GeneralString, octetStringPayloadDecoder char_GeneralString);
    (classTagSet char_UniversalString, octetStringPayloadDecoder char_UniversalString);
    (classTagSet char_BMPString, octetStringPayloadDecoder char_BMPString);
    (classTagSet useful_ObjectDescriptor, octetStringPayloadDecoder useful_ObjectDescriptor);
    (classTagSet useful_GeneralizedTime, octetStringPayloadDecoder useful_GeneralizedTime);
    (classTagSet useful_UTCTime, octetStringPayloadDecoder useful_UTCTime) ].

(** [tagMap[tagSet]], [None] on KeyError. *)
Fixpoint lookupTagMap (tagMap : list (TagSet * PayloadDecoder)) (tagSet : TagSet)
    : option PayloadDecoder :=
  match tagMap with
  | [] => None
  | (key, decoder) :: rest =>
      if TagSet_eqb key tagSet then Some decoder else lookupTagMap rest tagSet
  end.

Fixpoint lookupTypeMap (typeMap : list (Asn1Class * PayloadDecoder)) (typeId : Asn1Class)
    : option PayloadDecoder :=
  match typeMap with
  | [] => None
  | (key, decoder) :: rest =>
      if bool_decide (key = typeId) then Some decoder else lookupTypeMap rest typeId
  end.

(** [TYPE_MAP]: the ambiguous types, then "non-ambiguous types for faster
    codec lookup", every decoder of [TAG_MAP] under the [typeId] of its
    [protoComponent] unless that is taken. *)
Definition TYPE_MAP : list (Asn1Class * PayloadDecoder) :=
  fold_left
    (fun typeMap entry =>
       match protoComponentOf (snd entry) with
       | Some typeId =>
           match lookupTypeMap typeMap typeId with
           | None => typeMap ++ [(typeId, snd entry)]
           | Some _ => typeMap
           end
       | None => typeMap
       end)
    TAG_MAP
    [ (univ_Set, setPayloadDecoder);
      (univ_SetOf, setOfPayloadDecoder);
      (univ_Sequence, sequencePayloadDecoder);
      (univ_SequenceOf, sequenceOfPayloadDecoder);
      (univ_Choice, choicePayloadDecoder);
      (univ_Any, anyPayloadDecoder) ].

(** The signature of [valueDecoder] and [indefLenValueDecoder]. *)
Definition ValueDecoder : Type :=
  option Asn1Spec -> TagSet -> Z -> State -> DecodeFun -> option SubstrateFun ->
  Options -> Gen Value.

(** [concreteDecoder.valueDecoder]; the string decoders of this codec have
    [supportConstructedForm = True]. *)
Definition valueDecoderOf (fuel : nat) (d : PayloadDecoder) : ValueDecoder :=
  match d with
  | rawPayloadDecoder => RawPayloadDecoder.valueDecoder
  | integerPayloadDecoder =>
      IntegerPayloadDecoder.valueDecoder IntegerPayloadDecoder._createComponent
  | booleanPayloadDecoder => BooleanPayloadDecoder.valueDecoder
  | bitStringPayloadDecoder =>
      BitStringPayloadDecoder.valueDecoder true fuel
  | octetStringPayloadDecoder proto =>
      OctetStringPayloadDecoder.valueDecoder proto true fuel
  | nullPayloadDecoder => NullPayloadDecoder.valueDecoder
  | objectIdentifierPayloadDecoder => ObjectIdentifierPayloadDecoder.valueDecoder
  | realPayloadDecoder => RealPayloadDecoder.valueDecoder
  | sequenceOrSequenceOfPayloadDecoder =>
      ConstructedPayloadDecoderBase.valueDecoder None univ_Sequence univ_SequenceOf fuel
  | sequencePayloadDecoder =>
      ConstructedPayloadDecoderBase.valueDecoder (Some univ_Sequence)
        univ_Sequence univ_SequenceOf fuel
  | sequenceOfPayloadDecoder =>
      ConstructedPayloadDecoderBase.valueDecoder (Some univ_SequenceOf)
        univ_Sequence univ_SequenceOf fuel
  | setOrSetOfPayloadDecoder =>
      ConstructedPayloadDecoderBase.valueDecoder None univ_Set univ_SetOf fuel
  | setPayloadDecoder =>
      ConstructedPayloadDecoderBase.valueDecoder (Some univ_Set) univ_Set univ_SetOf fuel
  | setOfPayloadDecoder =>
      ConstructedPayloadDecoderBase.valueDecoder (Some univ_SetOf) univ_Set univ_SetOf fuel
  | choicePayloadDecoder => ChoicePayloadDecoder.valueDecoder
  | anyPayloadDecoder => AnyPayloadDecoder.valueDecoder
  end.

(** [AbstractPayloadDecoder.indefLenValueDecoder], inherited by the
    decoders that do not define their own. *)
Definition AbstractPayloadDecoder_indefLenValueDecoder : ValueDecoder :=
  fun _ _ _ _ _ _ _ =>
    raise (PyAsn1Error "Indefinite length mode decoder not implemented for %s").

(** [concreteDecoder.indefLenValueDecoder]. *)
Definition indefLenValueDecoderOf (fuel : nat) (d : PayloadDecoder) : ValueDecoder :=
  match d with
  | rawPayloadDecoder => RawPayloadDecoder.indefLenValueDecoder fuel
  | integerPayloadDecoder | booleanPayloadDecoder | nullPayloadDecoder
  | objectIdentifierPayloadDecoder | realPayloadDecoder =>
      AbstractPayloadDecoder_indefLenValueDecoder
  | bitStringPayloadDecoder => BitStringPayloadDecoder.indefLenValueDecoder fuel
  | octetStringPayloadDecoder proto =>
      OctetStringPayloadDecoder.indefLenValueDecoder proto fuel
  | sequenceOrSequenceOfPayloadDecoder =>
      ConstructedPayloadDecoderBase.indefLenValueDecoder None univ_Sequence
        univ_SequenceOf fuel
  | sequencePayloadDecoder =>
      ConstructedPayloadDecoderBase.indefLenValueDecoder (Some univ_Sequence)
        univ_Sequence univ_SequenceOf fuel
  | sequenceOfPayloadDecoder =>
      ConstructedPayloadDecoderBase.indefLenValueDecoder (Some univ_SequenceOf)
        univ_Sequence univ_SequenceOf fuel
  | setOrSetOfPayloadDecoder =>
      ConstructedPayloadDecoderBase.indefLenValueDecoder None univ_Set univ_SetOf fuel
  | setPayloadDecoder =>
      ConstructedPayloadDecoderBase.indefLenValueDecoder (Some univ_Set)
        univ_Set univ_SetOf fuel
  | setOfPayloadDecoder =>
      ConstructedPayloadDecoderBase.indefLenValueDecoder (Some univ_SetOf)
        univ_Set univ_SetOf fuel
  | choicePayloadDecoder => ChoicePayloadDecoder.indefLenValueDecoder fuel
  | anyPayloadDecoder => AnyPayloadDecoder.indefLenValueDecoder fuel
  end.

(** ** The single-item decoder *)

Module SingleItemDecoder.

(** The attributes of a decoder object.  The tag caches [_tagCache] and
    [_tagSetCache] memoise a function of the first tag octet and are not
    represented: a tag is decoded afresh. *)
Record Self : Type := mkSelf {
  _tagMap : list (TagSet * PayloadDecoder);
  _typeMap : list (Asn1Class * PayloadDecoder);
  supportIndefLength : bool;
  defaultErrorState : State;
  defaultRawDecoder : PayloadDecoder
}.

(** The local variables of [__call__] that the states read and write. *)
Record Machine : Type := mkMachine {
  m_state : State;
  m_asn1Spec : option Asn1Spec;
  m_tagSet : option TagSet;
  m_length : option Z;
  m_concreteDecoder : option PayloadDecoder;
  m_substrateFun : option SubstrateFun;
  m_value : Value
}.

Definition setState (st : State) (m : Machine) : Machine :=
  mkMachine st (m_asn1Spec m) (m_tagSet m) (m_length m) (m_concreteDecoder m)
    (m_substrateFun m) (m_value m).

Definition setDecoder (d : option PayloadDecoder) (st : State) (m : Machine) : Machine :=
  mkMachine st (m_asn1Spec m) (m_tagSet m) (m_length m) d (m_substrateFun m) (m_value m).

(** A local variable that holds [None] where an object is needed. *)
Definition need {A : Type} (o : option A) : Gen A :=
  match o with Some a => ret a | None => raise (PyError "TypeError") end.

(** "Look for end-of-octets sentinel". *)
Definition EOO_SENTINEL : list byte := [x00; x00].

(** State [stDecodeTag]. *)
Definition decodeTag (fuel : nat) (tagSet : option TagSet) : Gen TagSet :=
  let* firstByte := readFromStream 1 in
  let* firstOctet := ordOctet firstByte in
  let integerTag := firstOctet in
  let tagClass := Z.land integerTag 0xC0 in
  let tagFormat := Z.land integerTag 0x20 in
  let tagId := Z.land integerTag 0x1F in
  let* tagId :=
    if tagId =? 0x1F then
      whileTrue fuel
        (fun tagId =>
           let* integerByte := readFromStream 1 in
           if negb (nonEmpty integerByte) then
             raise (SubstrateUnderrunError "Short octet stream on long tag decoding")
           else
             let* integerTag := ordOctet integerByte in
             let tagId := Z.lor (Z.shiftl tagId 7) (Z.land integerTag 0x7F) in
             if Z.land integerTag 0x80 =? 0 then ret (Break tagId)
             else ret (Continue tagId))
        0
    else ret tagId in
  let lastTag := mkTag tagClass tagFormat tagId in
  match tagSet with
  | None => ret {| baseTag := None; superTags := [lastTag] |}
  | Some tagSet => ret (TagSet_radd lastTag tagSet)
  end.

(** State [stGetValueDecoderByTag]. *)
Definition getValueDecoderByTag (self : Self) (m : Machine) : Gen Machine :=
  let* tagSet := need (m_tagSet m) in
  match lookupTagMap (_tagMap self) tagSet with
  | Some concreteDecoder => ret (setDecoder (Some concreteDecoder) stDecodeValue m)
  | None =>
      match lookupTagMap (_tagMap self) (TagSet_first tagSet) with
      | Some concreteDecoder => ret (setDecoder (Some concreteDecoder) stDecodeValue m)
      | None => ret (setDecoder None stTryAsExplicitTag m)
      end
  end.

(** State [stGetValueDecoderByAsn1Spec]. *)
Definition getValueDecoderByAsn1Spec (self : Self) (m : Machine) : Gen Machine :=
  let* asn1Spec := need (m_asn1Spec m) in
  let* tagSet := need (m_tagSet m) in
  let chosenSpec :=
    match asn1Spec with
    | TagMap getitem => getitem tagSet
    | Asn1Type _ specTagSet specTagMap _ =>
        if TagSet_eqb tagSet specTagSet
           || match specTagMap tagSet with Some _ => true | None => false end
        then Some asn1Spec else None
    end in
  match chosenSpec with
  | Some chosenSpec =>
      let* typeId := spec_typeId chosenSpec in
      let* concreteDecoder :=
        match lookupTypeMap (_typeMap self) typeId with
        | Some concreteDecoder => ret (Some concreteDecoder)
        | None =>
            let* specTagSet := spec_tagSet chosenSpec in
            match baseTag specTagSet with
            | Some base =>
                ret (lookupTagMap (_tagMap self)
                       {| baseTag := Some base; superTags := [base] |})
            | None => raise (PyError "AttributeError")
            end
        end in
      match concreteDecoder with
      | Some concreteDecoder =>
          ret (mkMachine stDecodeValue (Some chosenSpec) (m_tagSet m) (m_length m)
                 (Some concreteDecoder) (m_substrateFun m) (m_value m))
      | None => ret (setDecoder None stTryAsExplicitTag m)
      end
  | None => ret (setDecoder None stTryAsExplicitTag m)
  end.

(** State [stDecodeValue], for the payload decoder that was chosen. *)
Definition decodeValue (valueDecoder indefLenValueDecoder : ValueDecoder)
    (decodeFun : DecodeFun) (asn1Spec : option Asn1Spec) (tagSet : TagSet)
    (length : Z) (substrateFun : option SubstrateFun) (options : Options) : Gen Value :=
  let substrateFun :=
    match substrateFun with
    | None => if negb (recursiveFlag options) then Some recursiveFlagLambda else None
    | Some f => Some f
    end in
  let* original_position := getTell in
  if length =? -1 then
    indefLenValueDecoder asn1Spec tagSet length stGetValueDecoder decodeFun
      substrateFun options
  else
    let* value := valueDecoder asn1Spec tagSet length stGetValueDecoder decodeFun
                    substrateFun options in
    let* here := getTell in
    let bytesRead := here - original_position in
    if negb (bytesRead =? length) then
      raise (PyAsn1Error "Read %s bytes instead of expected %s.")
    else ret value.

(** State [stTryAsExplicitTag]. *)
Definition tryAsExplicitTag (self : Self) (m : Machine) : Gen Machine :=
  let* tagSet := need (m_tagSet m) in
  match superTags tagSet with
  | tag0 :: _ =>
      if (tagFormat tag0 =? tagFormatConstructed)
         && negb (tagClass tag0 =? tagClassUniversal)
      then ret (setDecoder (Some rawPayloadDecoder) stDecodeValue m)
      else ret (setDecoder None (defaultErrorState self) m)
  | [] => ret (setDecoder None (defaultErrorState self) m)
  end.

Definition when (st : State) (block : Machine -> Gen Machine) (m : Machine)
    : Gen Machine :=
  if bool_decide (m_state m = st) then block m else ret m.

(** One turn of [while state is not stStop]: the chain of [if state is ...]
    blocks.  [fuel] bounds the loops of the payload decoders and
    [decodeFun] is the decoder itself ([self]). *)
Definition turn (self : Self) (fuel : nat) (decodeFun : DecodeFun)
    (options : Options) (m : Machine) : Gen (LoopStep Machine) :=
  let* m :=
    when stDecodeTag
      (fun m =>
         let* tagSet := decodeTag fuel (m_tagSet m) in
         ret (mkMachine stDecodeLength (m_asn1Spec m) (Some tagSet) (m_length m)
                (m_concreteDecoder m) (m_substrateFun m) (m_value m))) m in
  let* m :=
    when stDecodeLength
      (fun m =>
         let* length := decodeLength (supportIndefLength self) in
         ret (mkMachine stGetValueDecoder (m_asn1Spec m) (m_tagSet m) (Some length)
                (m_concreteDecoder m) (m_substrateFun m) (m_value m))) m in
  let* m :=
    when stGetValueDecoder
      (fun m =>
         match m_asn1Spec m with
         | None => ret (setState stGetValueDecoderByTag m)
         | Some _ => ret (setState stGetValueDecoderByAsn1Spec m)
         end) m in
  let* m := when stGetValueDecoderByTag (getValueDecoderByTag self) m in
  let* m := when stGetValueDecoderByAsn1Spec (getValueDecoderByAsn1Spec self) m in
  if bool_decide (m_state m = stDecodeValue) then
    let* concreteDecoder :=
      match m_concreteDecoder m with
      | Some d => ret d
      | None => raise (PyError "UnboundLocalError")
      end in
    let* tagSet := need (m_tagSet m) in
    let* length := need (m_length m) in
    let* value :=
      decodeValue (valueDecoderOf fuel concreteDecoder)
        (indefLenValueDecoderOf fuel concreteDecoder)
        decodeFun (m_asn1Spec m) tagSet length (m_substrateFun m) options in
    ret (Break (mkMachine stStop (m_asn1Spec m) (m_tagSet m) (m_length m)
                  (m_concreteDecoder m) (m_substrateFun m) value))
  else
    let* m := when stTryAsExplicitTag (tryAsExplicitTag self) m in
    let* m :=
      when stDumpRawValue
        (fun m => ret (setDecoder (Some (defaultRawDecoder self)) stDecodeValue m)) m in
    if bool_decide (m_state m = stErrorCondition) then
      raise (PyAsn1Error "%s not in asn1Spec: %r")
    else ret (Continue m).

(** [SingleItemDecoder.__call__]. *)
Fixpoint __call__ (self : Self) (fuel : nat) : DecodeFun :=
  fun asn1Spec tagSet length state substrateFun options =>
    match fuel with
    | O => outOfFuel
    | S fuel' =>
        let allowEooHere := allowEoo options in
        let options := withAllowEoo false options in
        let* sentinel :=
          if allowEooHere && supportIndefLength self then
            let* eoo_candidate := readFromStream 2 in
            if bool_decide (eoo_candidate = EOO_SENTINEL) then ret true
            else let* _ := modify (seek_cur (-2)) in ret false
          else ret false in
        if sentinel : bool then ret endOfOctets
        else
          let* _ := modify setMarkedPosition in
          let* m :=
            while fuel
              (fun m => ret (negb (bool_decide (m_state m = stStop))))
              (turn self fuel' (__call__ self fuel') options)
              (mkMachine state asn1Spec tagSet length None substrateFun noValue) in
          ret (m_value m)
    end.

(** The BER decoder object: [SingleItemDecoder()]. *)
Definition ber : Self :=
  {| _tagMap := TAG_MAP; _typeMap := TYPE_MAP; supportIndefLength := true;
     defaultErrorState := stErrorCondition; defaultRawDecoder := anyPayloadDecoder |}.

End SingleItemDecoder.

(** ** The top-level iterator and the one-shot decoder *)

Module StreamingDecoder.

(** [__iter__]: the items the iterator yields, each with the substrate
    at that moment; the iterator ends with the stream, and an item that
    is not a value ends the list. *)
Fixpoint __iter__ (singleItemDecoder : Gen Value) (fuel : nat) (substrate : Substrate)
    : list (Outcome Value) :=
  match fuel with
  | O => [OutOfFuel]
  | S fuel' =>
      match singleItemDecoder substrate with
      | Yield asn1Object substrate' =>
          Yield asn1Object substrate' ::
            match isEndOfStream substrate' with
            | Yield true _ => []
            | Yield false substrate'' => __iter__ singleItemDecoder fuel' substrate''
            | Underrun => [Underrun]
            | Raise e => [Raise e]
            | OutOfFuel => [OutOfFuel]
            end
      | other => [other]
      end
  end.

End StreamingDecoder.

Module Decoder.

(** What a call returns or raises: the pair [asn1Object, tail] of the
    [return] statement, the [None] of a [for] loop that ends without an
    item, or an exception; [NoResult] is the model's counter running out. *)
Inductive Result : Type :=
| Return (asn1Object : Value) (tail : list byte)
| ReturnNone
| Raised (e : Error)
| NoResult.

(** [Decoder.__call__(substrate, asn1Spec, **options)] over the single-item
    decoder of its streaming decoder.  The keyword options are those of
    [Options]; the other parameters of the single-item decoder keep their
    defaults. *)
Definition __call__ (singleItemDecoder : nat -> DecodeFun) (fuel : nat)
    (substrate : list byte) (asn1Spec : option Asn1Spec) (options : Options) : Result :=
  let substrate := asSeekableStream substrate in
  let streamingDecoder :=
    StreamingDecoder.__iter__
      (singleItemDecoder fuel asn1Spec None None stDecodeTag None options)
      (S fuel) substrate in
  match streamingDecoder with
  | [] => ReturnNone
  | Underrun :: _ => Raised (SubstrateUnderrunError "Short substrate on input")
  | Yield asn1Object substrate :: _ =>
      match readFromStream (-1) substrate with
      | Yield tail _ => Return asn1Object tail
      | Raise EndOfStreamError => Return asn1Object null
      | Raise e => Raised e
      | Underrun => Raised (PyError "TypeError")
      | OutOfFuel => NoResult
      end
  | Raise e :: _ => Raised e
  | OutOfFuel :: _ => NoResult
  end.

End Decoder.

(** [decode = Decoder()], the BER decoder. *)
Definition decode (fuel : nat) (substrate : list byte) (asn1Spec : option Asn1Spec)
    (options : Options) : Decoder.Result :=
  Decoder.__call__ (SingleItemDecoder.__call__ SingleItemDecoder.ber) fuel
    substrate asn1Spec options.

(** * The notions the properties are stated with *)

(** The claim's reading of the long form: the octets as a big-endian
    unsigned number. *)
Fixpoint bigEndianUnsigned (octets : list byte) : Z :=
  match octets with
  | [] => 0
  | b :: rest => ord b * 256 ^ len rest + bigEndianUnsigned rest
  end.

(** A complete sub-identifier: continuation octets (high bit set) and a
    last octet without it. *)
Definition isSubIdentifier (sub : list Z) : Prop :=
  exists body last, sub = body ++ [last] /\ Forall (fun b => 128 <= b) body /\ last < 128.

(** The claim's split of the first combined sub-identifier. *)
Definition firstArcs (s0 : Z) : Z * Z :=
  if s0 <? 40 then (0, s0)
  else if s0 <? 80 then (1, s0 - 40)
  else (2, s0 - 80).

(** A type object, not a tag map: what a payload decoder is given as
    [asn1Spec] once the single-item decoder has chosen it. *)
Definition isTypeObject (asn1Spec : option Asn1Spec) : Prop :=
  match asn1Spec with
  | Some (TagMap _) => False
  | _ => True
  end.

(** The substrate hook the payload decoder is called with
    ([recursiveFlag=False] installs one when the caller gave none). *)
Definition effectiveSubstrateFun (substrateFun : option SubstrateFun) (options : Options)
    : option SubstrateFun :=
  match substrateFun with
  | None => if negb (recursiveFlag options) then Some recursiveFlagLambda else None
  | Some f => Some f
  end.

(** The slots of [asn1Object] and the indices the loop has seen agree. *)
Definition slotsSeen (cls : Asn1Class) (tagSet : TagSet)
    (st : ConstructedPayloadDecoderBase.Record_) : Prop :=
  exists components,
    ConstructedPayloadDecoderBase.rc_asn1Object st = Asn1Constructed cls tagSet components /\
    forall i, i ∈ ConstructedPayloadDecoderBase.rc_seenIndices st
              <-> is_Some (getSlot i components).

(** [asn1Object] is a container with the slots [wanted] filled. *)
Definition slotsFilled (cls : Asn1Class) (tagSet : TagSet) (wanted : list Z)
    (asn1Object : Value) : Prop :=
  exists components,
    asn1Object = Asn1Constructed cls tagSet components /\
    Forall (fun i => is_Some (getSlot i components)) wanted.

(** The children exhibit two distinct tag sets, or share one. *)
Definition distinctTagSets (children : list Value) : Prop :=
  exists c1 c2 t1 t2,
    In c1 children /\ In c2 children /\
    valueTagSet c1 = inr t1 /\ valueTagSet c2 = inr t2 /\
    tagSetKey t1 <> tagSetKey t2.

Definition sameTagSet (children : list Value) : Prop :=
  forall c1 c2 t1 t2,
    In c1 children -> In c2 children ->
    valueTagSet c1 = inr t1 -> valueTagSet c2 = inr t2 ->
    tagSetKey t1 = tagSetKey t2.

(** The tag set the guessed container is given. *)
Definition containerTagSet (cls : Asn1Class) (tagSet : TagSet) : TagSet :=
  {| baseTag := baseTag (classTagSet cls); superTags := superTags tagSet |}.

(** What [_decodeComponentsSchemaless] holds after each turn. *)
Definition schemalessInv (protoRecordComponent protoSequenceComponent : Asn1Class)
    (tagSet : TagSet) (st : ConstructedPayloadDecoderBase.Schemaless) : Prop :=
  let children := ConstructedPayloadDecoderBase.sl_components st in
  let types := ConstructedPayloadDecoderBase.sl_componentTypes st in
  Forall (fun c => exists t, valueTagSet c = inr t) children /\
  (forall k, k ∈ types <->
     exists c t, In c children /\ valueTagSet c = inr t /\ tagSetKey t = k) /\
  ConstructedPayloadDecoderBase.sl_asn1Object st
  = match children with
    | [] => PyNone
    | _ =>
        let cls := if (1 <? size types)%nat then protoRecordComponent
                   else protoSequenceComponent in
        Asn1Constructed cls (containerTagSet cls tagSet) []
    end.

(** The tag a first octet with an identifier below 31 decodes to. *)
Definition shortTag (b : byte) : Tag :=
  mkTag (Z.land (ord b) 0xC0) (Z.land (ord b) 0x20) (Z.land (ord b) 0x1F).

(** The Python value a yielded component was built from: the value itself
    with [native], the payload of the scalar otherwise. *)
Definition holds (component : Value) (value : PyValue) : Prop :=
  match component with
  | Native v | Asn1Scalar _ _ v => v = value
  | _ => False
  end.

(** The cursor and the mark lie within the octets. *)
Definition inBounds (s : Substrate) : Prop :=
  (position s <= length (data s))%nat /\ (markedPosition s <= length (data s))%nat.

(** From [s] to [s']: the octets are the same, and the cursor and the mark
    were moved within them. *)
Definition keeps (s s' : Substrate) : Prop :=
  data s' = data s /\ (inBounds s -> inBounds s').

(** A generator that moves the cursor and the mark of the substrate and
    leaves its octets as they are. *)
Definition keepsData {A : Type} (g : Gen A) : Prop :=
  forall s a s', g s = Yield a s' -> keeps s s'.

(** What every value a generator yields satisfies. *)
Definition results {A : Type} (Q : A -> Prop) (g : Gen A) : Prop :=
  forall s a s', g s = Yield a s' -> Q a.

(** A [substrateFun] of the decoder's own, not a hook of the caller. *)
Definition ownHook (substrateFun : option SubstrateFun) : Prop :=
  match substrateFun with
  | Some (callerSubstrateFun _) => False
  | _ => True
  end.

Definition keepsDataFun (decodeFun : DecodeFun) : Prop :=
  forall asn1Spec tagSet length state substrateFun options,
    ownHook substrateFun ->
    keepsData (decodeFun asn1Spec tagSet length state substrateFun options).

Definition keepsDataDecoder (decoder : ValueDecoder) : Prop :=
  forall decodeFun asn1Spec tagSet length state substrateFun options,
    keepsDataFun decodeFun -> ownHook substrateFun ->
    keepsData (decoder asn1Spec tagSet length state decodeFun substrateFun options).

(** [g'] does what [g] does wherever the counter of [g] suffices. *)
Definition refines {A : Type} (g g' : Gen A) : Prop :=
  forall s, g s <> OutOfFuel -> g' s = g s.

Definition refinesFun (decodeFun decodeFun' : DecodeFun) : Prop :=
  forall asn1Spec tagSet length state substrateFun options,
    refines (decodeFun asn1Spec tagSet length state substrateFun options)
            (decodeFun' asn1Spec tagSet length state substrateFun options).

Definition refinesDecoder (decoder decoder' : ValueDecoder) : Prop :=
  forall decodeFun decodeFun' asn1Spec tagSet length state substrateFun options,
    refinesFun decodeFun decodeFun' ->
    refines (decoder asn1Spec tagSet length state decodeFun substrateFun options)
            (decoder' asn1Spec tagSet length state decodeFun' substrateFun options).

(** The loop variables a turn of a loop leaves. *)
Definition stepState {St : Type} (step : LoopStep St) : St :=
  match step with Continue st | Break st => st end.

(** The machine still holds the [substrateFun] the call was given. *)
Definition sameHook (f : option SubstrateFun) (m : SingleItemDecoder.Machine) : Prop :=
  SingleItemDecoder.m_substrateFun m = f.

(** Inputs the properties are tried on: a substrate positioned after a
    two-octet header, the tag set of a one-tag header, a [decodeFun] for the
    decoders that never call it, and a Sequence spec with two required
    Integer components. *)
Definition afterHeader (octets : list byte) : Substrate :=
  {| data := octets; position := 2; markedPosition := 0 |}.

Definition headerTagSet (format id : Z) : TagSet :=
  {| baseTag := None; superTags := [mkTag tagClassUniversal format id] |}.

Definition noDecodeFun : DecodeFun :=
  fun _ _ _ _ _ _ => raise (PyError "unused").

Definition twoIntegers : NamedTypes :=
  mkNamedTypes
    [ mkNamedType "a" (protoSpec univ_Integer) false false None;
      mkNamedType "b" (protoSpec univ_Integer) false false None ]
    (fun _ => None)
    (fun _ => inl (PyAsn1Error "Type position out of range"))
    (fun _ => inl (PyAsn1Error "Type %s not found"))
    (fun _ _ => inl (PyAsn1Error "Type position out of range"))
    [0; 1] false false.

Definition twoIntegersSpec : Asn1Spec :=
  Asn1Type univ_Sequence (classTagSet univ_Sequence) (fun _ => None)
    (NamedTypesOf twoIntegers).

(** ** Encodings and what they decode to *)

(** The tag set the decoder builds from a header of one tag octet with an
    identifier below 31. *)
Definition headerTags (tagOctet : byte) : TagSet :=
  {| baseTag := None; superTags := [shortTag tagOctet] |}.

(** The payload decoders that define [valueDecoder] for the primitive
    form only and inherit [indefLenValueDecoder] from
    [AbstractPayloadDecoder]. *)
Definition primitiveOnly : list PayloadDecoder :=
  [ integerPayloadDecoder; booleanPayloadDecoder; nullPayloadDecoder;
    objectIdentifierPayloadDecoder; realPayloadDecoder ].

(** What [Decoder.__call__] makes of the first item of the streaming
    decoder, for a single-item decoder that leaves the substrate at [s']:
    the value and the octets from [s'] on, or the exception. *)
Definition outcomeResult (o : Outcome Value) : Decoder.Result :=
  match o with
  | Yield v s' => Decoder.Return v (remaining s')
  | Underrun => Decoder.Raised (SubstrateUnderrunError "Short substrate on input")
  | Raise e => Decoder.Raised e
  | OutOfFuel => Decoder.NoResult
  end.

(** What [_createComponent] builds from a Python value: the value itself
    with [native], an object of the class with the tag set otherwise. *)
Definition component (options : Options) (cls : Asn1Class) (tagSet : TagSet)
    (value : PyValue) : Value :=
  if native options then Native value else Asn1Scalar cls tagSet value.

(** The value of an item the streaming decoder yields. *)
Definition yieldedValue (o : Outcome Value) : option Value :=
  match o with Yield v _ => Some v | _ => None end.

(** A TLV in the short form, given by its length octet and its content:
    it is well-formed when the length octet is below 128 and counts the
    content octets.  [integerTLV] is the TLV under the Integer tag 02 and
    [fragmentTLV f] the one under the tag octet [f]. *)
Definition wellFormedItem (item : byte * list byte) : Prop :=
  ord (fst item) < 128 /\ len (snd item) = ord (fst item).

Definition integerTLV (item : byte * list byte) : list byte :=
  x02 :: fst item :: snd item.

Definition fragmentTLV (f : byte) (item : byte * list byte) : list byte :=
  f :: fst item :: snd item.

(** The Integer a schemaless decoder makes of the content of an Integer
    TLV. *)
Definition integerValue (options : Options) (item : byte * list byte) : Value :=
  if native options then Native (PyInt (from_bytes (snd item) true))
  else Asn1Scalar univ_Integer (headerTags x02) (PyInt (from_bytes (snd item) true)).

(** The low seven bits of the octets as a big-endian number in base 128. *)
Fixpoint base128 (octets : list Z) : Z :=
  match octets with
  | [] => 0
  | b :: rest => Z.land b 0x7F * 128 ^ len rest + base128 rest
  end.

(** A complete sub-identifier that does not start with the octet 0x80. *)
Definition isArc (sub : list byte) : Prop :=
  isSubIdentifier (octs2ints sub) /\ hd x00 sub <> x80.

(** The octets that follow the first octet [fo] of a binary Real: the
    exponent octets, [(fo & 3) + 1] of them, or, when [fo & 3] is 3, as many
    as the octet before them says. *)
Definition realExponentForm (fo : Z) (lengthOctets exponent : list byte) : Prop :=
  (Z.land fo 0x03 <> 3 /\ lengthOctets = [] /\ len exponent = Z.land fo 0x03 + 1) \/
  (Z.land fo 0x03 = 3 /\ exists N, lengthOctets = [N] /\ len exponent = ord N).

(** The type object state [stGetValueDecoderByAsn1Spec] chooses for a tag
    set: the entry of a tag map, or a type object itself when the tag set
    is its own or in its tag map. *)
Definition chosenSpec (asn1Spec : Asn1Spec) (tagSet : TagSet) : option Asn1Spec :=
  match asn1Spec with
  | TagMap getitem => getitem tagSet
  | Asn1Type _ specTagSet specTagMap _ =>
      if TagSet_eqb tagSet specTagSet
         || match specTagMap tagSet with Some _ => true | None => false end
      then Some asn1Spec else None
  end.

(** The payload decoders that hand their content to a [substrateFun]:
    BitString and the string types in both forms, Sequence and Set once the
    tag is constructed. *)
Definition consultsSubstrateFun (d : PayloadDecoder) (tagOctet : byte) : Prop :=
  d = bitStringPayloadDecoder \/
  (exists c, d = octetStringPayloadDecoder c) \/
  ((d = sequenceOrSequenceOfPayloadDecoder \/ d = setOrSetOfPayloadDecoder) /\
   Z.land (ord tagOctet) 0x20 <> 0).

(** Further inputs: an Integer type object, and a Choice with one Integer
    alternative. *)
Definition integerType : Asn1Spec :=
  Asn1Type univ_Integer {| baseTag := Some (mkTag 0 0 2); superTags := [mkTag 0 0 2] |}
    (fun _ => None) NoComponentType.

Definition integerChoice : NamedTypes :=
  mkNamedTypes
    [ mkNamedType "number" integerType false false None ]
    (fun tagSet => if TagSet_eqb tagSet (headerTags x02) then Some integerType else None)
    (fun _ => inl (PyAsn1Error "Type position out of range"))
    (fun tagSet => if TagSet_eqb tagSet (headerTags x02) then inr 0
                   else inl (PyAsn1Error "Type %s not found"))
    (fun _ _ => inl (PyAsn1Error "Type position out of range"))
    [] false false.

Definition integerChoiceSpec : Asn1Spec :=
  Asn1Type univ_Choice {| baseTag := None; superTags := [] |}
    (nt_tagMapUnique integerChoice) (NamedTypesOf integerChoice).

(** * Properties *)

(** ** Octets and arithmetic *)

Lemma ord_range (b : byte) : 0 <= ord b < 256.
Proof.
  unfold ord. pose proof (Byte.to_N_bounded b). lia.
Qed.

Lemma len_nonneg {A : Type} (l : list A) : 0 <= len l.
Proof. unfold len. lia. Qed.

Lemma len_cons {A : Type} (x : A) (l : list A) : len (x :: l) = 1 + len l.
Proof. unfold len. simpl length. lia. Qed.

Lemma len_app {A : Type} (l1 l2 : list A) : len (l1 ++ l2) = len l1 + len l2.
Proof. unfold len. rewrite length_app. lia. Qed.

(** Shifting a byte in with [|] adds it: the low eight bits are free. *)
Lemma lor_shiftl_8 (a b : Z) : 0 <= b < 256 -> Z.lor (Z.shiftl a 8) b = a * 256 + b.
Proof.
  intros Hb.
  assert (Hland : Z.land (Z.shiftl a 8) b = 0).
  { apply Z.bits_inj'. intros n Hn.
    rewrite Z.land_spec, Z.bits_0.
    destruct (Z_lt_le_dec n 8) as [Hlt | Hge].
    - rewrite Z.shiftl_spec_low by lia. reflexivity.
    - replace (Z.testbit b n) with false; [apply andb_false_r |].
      symmetry. destruct (Z.eq_dec b 0) as [-> | Hnz]; [apply Z.bits_0 |].
      apply Z.bits_above_log2; [lia |].
      apply Z.log2_lt_pow2; [lia |].
      apply Z.lt_le_trans with (2 ^ 8); [simpl; lia |].
      apply Z.pow_le_mono_r; lia. }
  rewrite <- Z.lxor_lor by exact Hland.
  rewrite <- Z.add_nocarry_lxor by exact Hland.
  rewrite Z.shiftl_mul_pow2 by lia. reflexivity.
Qed.

Lemma bigEndianUnsigned_nonneg (octets : list byte) : 0 <= bigEndianUnsigned octets.
Proof.
  induction octets as [| b rest IH]; simpl; [lia |].
  pose proof (ord_range b). pose proof (len_nonneg rest).
  assert (0 <= 256 ^ len rest) by (apply Z.pow_nonneg; lia). nia.
Qed.

Lemma fold_shift_bigEndian (octets : list byte) (acc : Z) :
  fold_left (fun length lengthOctet => Z.lor (Z.shiftl length 8) (oct2int lengthOctet))
    octets acc
  = acc * 256 ^ len octets + bigEndianUnsigned octets.
Proof.
  revert acc. induction octets as [| b rest IH]; intros acc.
  - simpl. unfold len. simpl. lia.
  - cbn [fold_left bigEndianUnsigned]. rewrite IH.
    unfold oct2int. rewrite lor_shiftl_8 by apply ord_range.
    rewrite len_cons. rewrite Z.pow_add_r by (pose proof (len_nonneg rest); lia).
    lia.
Qed.

Lemma accumulateLength_bigEndian (octets : list byte) :
  accumulateLength octets = bigEndianUnsigned octets.
Proof. unfold accumulateLength. rewrite fold_shift_bigEndian. lia. Qed.

(** ** Reading the substrate *)

Lemma remaining_seek_cur (s : Substrate) (chunk rest : list byte) :
  remaining s = chunk ++ rest -> remaining (seek_cur (len chunk) s) = rest.
Proof.
  unfold remaining, seek_cur, seek_set, tell, len. cbn [data position].
  intros H. rewrite <- Nat2Z.inj_add, Nat2Z.id.
  rewrite Nat.add_comm, <- skipn_skipn, H.
  rewrite skipn_app, skipn_all, Nat.sub_diag. reflexivity.
Qed.

Lemma readFromStream_app (s : Substrate) (chunk rest : list byte) :
  remaining s = chunk ++ rest ->
  readFromStream (len chunk) s = Yield chunk (seek_cur (len chunk) s).
Proof.
  intros H. unfold readFromStream.
  destruct (len chunk <? 0) eqn:Hneg; [pose proof (len_nonneg chunk); lia |].
  rewrite H, len_app.
  destruct (len chunk <=? len chunk + len rest) eqn:Hle;
    [| pose proof (len_nonneg rest); lia].
  unfold len at 1. rewrite Nat2Z.id, firstn_app, firstn_all, Nat.sub_diag.
  simpl. rewrite app_nil_r. reflexivity.
Qed.

Lemma readFromStream_short (s : Substrate) (size : Z) :
  0 <= size -> len (remaining s) < size -> readFromStream size s = Underrun.
Proof.
  intros H0 H. unfold readFromStream.
  destruct (size <? 0) eqn:Hneg; [lia |].
  destruct (size <=? len (remaining s)) eqn:Hle; [lia | reflexivity].
Qed.

Lemma readFromStream_1 (s : Substrate) (b : byte) (rest : list byte) :
  remaining s = b :: rest -> readFromStream 1 s = Yield [b] (seek_cur 1 s).
Proof. intros H. apply (readFromStream_app s [b] rest H). Qed.

Lemma remaining_seek_1 (s : Substrate) (b : byte) (rest : list byte) :
  remaining s = b :: rest -> remaining (seek_cur 1 s) = rest.
Proof. intros H. apply (remaining_seek_cur s [b] rest H). Qed.

Lemma seek_cur_seek_cur (s : Substrate) (a b : Z) :
  0 <= a -> 0 <= b -> seek_cur b (seek_cur a s) = seek_cur (a + b) s.
Proof.
  intros Ha Hb. unfold seek_cur, seek_set, tell. cbn [data position markedPosition].
  f_equal. lia.
Qed.

Lemma tell_seek_cur (s : Substrate) (a : Z) : 0 <= a -> tell (seek_cur a s) = tell s + a.
Proof. intros Ha. unfold seek_cur, seek_set, tell. cbn [position]. lia. Qed.

(** ** C1: the length octets *)

(** C1.  The first length octet [L0] decides the form: below 128 it is the
    length; above 128 its low seven bits count the octets that follow,
    which are read as a big-endian unsigned number (and the read is an
    underrun when they are not all there); 128 is the indefinite length,
    kept as -1 (and refused by a codec without indefinite lengths).  Read
    by [decode]: 02 82 00 01 05 is an Integer of one content octet, and
    24 80 ... 00 00 an OctetString of indefinite length. *)
Theorem C1_length_octets (supportIndefLength : bool) (s : Substrate)
    (L0 : byte) (rest : list byte) :
  remaining s = L0 :: rest ->
  (ord L0 < 128 ->
     decodeLength supportIndefLength s = Yield (ord L0) (seek_cur 1 s)) /\
  (ord L0 > 128 ->
     let size := Z.land (ord L0) 0x7F in
     (size <= len rest ->
        decodeLength supportIndefLength s
        = Yield (bigEndianUnsigned (firstn (Z.to_nat size) rest))
                (seek_cur (1 + size) s)) /\
     (len rest < size -> decodeLength supportIndefLength s = Underrun)) /\
  (ord L0 = 128 ->
     decodeLength true s = Yield (-1) (seek_cur 1 s) /\
     decodeLength false s
     = Raise (PyAsn1Error "Indefinite length encoding not supported by this codec")) /\
  decode 1 [x02; x82; x00; x01; x05; x07] None defaultOptions
  = Decoder.Return (Asn1Scalar univ_Integer (headerTagSet 0 2) (PyInt 5)) [x07] /\
  decode 4 [x24; x80; x04; x02; xaa; xbb; x04; x02; xcc; xdd; x00; x00] None
    defaultOptions
  = Decoder.Return
      (Asn1Scalar univ_OctetString (headerTagSet 32 4) (PyOctets [xaa; xbb; xcc; xdd]))
      [].
Proof.
  intros Hrem.
  assert (Hlong : decode 1 [x02; x82; x00; x01; x05; x07] None defaultOptions
                  = Decoder.Return
                      (Asn1Scalar univ_Integer (headerTagSet 0 2) (PyInt 5)) [x07])
    by (vm_compute; reflexivity).
  assert (Hindefinite :
            decode 4 [x24; x80; x04; x02; xaa; xbb; x04; x02; xcc; xdd; x00; x00] None
              defaultOptions
            = Decoder.Return
                (Asn1Scalar univ_OctetString (headerTagSet 32 4)
                   (PyOctets [xaa; xbb; xcc; xdd])) [])
    by (vm_compute; reflexivity).
  pose proof (readFromStream_1 s L0 rest Hrem) as Hread.
  pose proof (remaining_seek_1 s L0 rest Hrem) as Hrest.
  pose proof (ord_range L0) as HL0.
  unfold decodeLength, bind. rewrite Hread. cbn [ordOctet ret].
  split; [| split; [| split; [| split; [exact Hlong | exact Hindefinite]]]].
  - intros Hlt. destruct (ord L0 <? 128) eqn:E; [| lia]. cbn [ret].
    destruct (ord L0 =? -1) eqn:E1; [lia |]. reflexivity.
  - intros Hgt. set (size := Z.land (ord L0) 127).
    destruct (ord L0 <? 128) eqn:E; [lia |].
    destruct (ord L0 >? 128) eqn:E2; [| lia].
    assert (Hs0 : 0 <= size) by (apply Z.land_nonneg; lia).
    split.
    + intros Hsize.
      set (chunk := firstn (Z.to_nat size) rest).
      assert (Hlen : len chunk = size).
      { unfold chunk, len in *. rewrite length_firstn. lia. }
      assert (Hsplit : remaining (seek_cur 1 s) = chunk ++ skipn (Z.to_nat size) rest).
      { rewrite Hrest. unfold chunk. symmetry. apply firstn_skipn. }
      pose proof (readFromStream_app _ _ _ Hsplit) as Hread2.
      rewrite Hlen in Hread2. rewrite Hread2.
      rewrite Hlen, Z.eqb_refl. cbn [negb ret].
      rewrite accumulateLength_bigEndian.
      pose proof (bigEndianUnsigned_nonneg chunk).
      destruct (bigEndianUnsigned chunk =? -1) eqn:E3; [lia |]. cbn [andb].
      rewrite seek_cur_seek_cur by lia. reflexivity.
    + intros Hshort.
      rewrite readFromStream_short; [reflexivity | lia |].
      rewrite Hrest. exact Hshort.
  - intros H128.
    destruct (ord L0 <? 128) eqn:E; [lia |].
    destruct (ord L0 >? 128) eqn:E2; [lia |]. split; reflexivity.
Qed.

Lemma C1_length_octets_witness :
  remaining (asSeekableStream [x82; x01; x00; xaa]) = x82 :: [x01; x00; xaa] /\
  decodeLength true (asSeekableStream [x82; x01; x00; xaa])
  = Yield 256 (seek_cur 3 (asSeekableStream [x82; x01; x00; xaa])).
Proof.
  split; [reflexivity |].
  destruct (C1_length_octets true (asSeekableStream [x82; x01; x00; xaa]) x82
              [x01; x00; xaa] eq_refl) as [_ [Hlong _]].
  destruct (Hlong eq_refl) as [Hread _].
  apply Hread. vm_compute. discriminate.
Defined.

(** ** The one-shot decoder over its single-item decoder *)

Lemma readAll_tail (s : Substrate) :
  match readFromStream (-1) s with
  | Yield tail _ => tail = remaining s /\ tail <> []
  | Raise EndOfStreamError => remaining s = []
  | _ => False
  end.
Proof.
  unfold readFromStream. cbn [Z.ltb Z.compare].
  destruct (remaining s) eqn:E; [reflexivity |]. split; [reflexivity | discriminate].
Qed.

Lemma call_first_item (singleItemDecoder : nat -> DecodeFun) (fuel : nat)
    (substrate : list byte) (asn1Spec : option Asn1Spec) (options : Options) :
  Decoder.__call__ singleItemDecoder fuel substrate asn1Spec options
  = match singleItemDecoder fuel asn1Spec None None stDecodeTag None options
            (asSeekableStream substrate) with
    | Yield v s' => Decoder.Return v (remaining s')
    | Underrun => Decoder.Raised (SubstrateUnderrunError "Short substrate on input")
    | Raise e => Decoder.Raised e
    | OutOfFuel => Decoder.NoResult
    end.
Proof.
  unfold Decoder.__call__. cbn [StreamingDecoder.__iter__].
  destruct (singleItemDecoder fuel asn1Spec None None stDecodeTag None options
              (asSeekableStream substrate)) as [v s' | | e |]; try reflexivity.
  pose proof (readAll_tail s') as Htail.
  destruct (readFromStream (-1) s') as [tail s'' | | e |]; try contradiction.
  - destruct Htail as [-> _]. reflexivity.
  - destruct e; try contradiction. rewrite Htail. reflexivity.
Qed.

(** ** Generators *)

Lemma bind_Yield_inv {A B : Type} (m : Gen A) (k : A -> Gen B) (s s2 : Substrate) (b : B) :
  bind m k s = Yield b s2 -> exists a s1, m s = Yield a s1 /\ k a s1 = Yield b s2.
Proof.
  unfold bind. destruct (m s) as [a s1 | | e |]; try discriminate. eauto.
Qed.

Lemma bind_Yield {A B : Type} (m : Gen A) (k : A -> Gen B) (s s1 : Substrate) (a : A) :
  m s = Yield a s1 -> bind m k s = k a s1.
Proof. unfold bind. intros ->. reflexivity. Qed.

Lemma bind_Raise {A B : Type} (m : Gen A) (k : A -> Gen B) (s : Substrate) (e : Error) :
  m s = Raise e -> bind m k s = Raise e.
Proof. unfold bind. intros ->. reflexivity. Qed.

Lemma TagSet_head_Yield (tagSet : TagSet) (tag0 : Tag) (others : list Tag) (s : Substrate) :
  superTags tagSet = tag0 :: others -> TagSet_head tagSet s = Yield tag0 s.
Proof. unfold TagSet_head. intros ->. reflexivity. Qed.

Lemma TagSet_head_inv (tagSet : TagSet) (tag0 : Tag) (s s' : Substrate) :
  TagSet_head tagSet s = Yield tag0 s' ->
  s' = s /\ exists others, superTags tagSet = tag0 :: others.
Proof.
  unfold TagSet_head, ret, raise. destruct (superTags tagSet) as [| t others];
    [discriminate |].
  intros H. injection H as <- <-. eauto.
Qed.

Lemma liftE_inl {A : Type} (e : Error) (s : Substrate) : liftE (inl e : Error + A) s = Raise e.
Proof. reflexivity. Qed.

Lemma liftE_Yield_inv {A : Type} (r : Error + A) (s s' : Substrate) (a : A) :
  liftE r s = Yield a s' -> r = inr a /\ s' = s.
Proof.
  destruct r as [e | a0]; cbn; [discriminate |]. intros H. injection H as <- <-. auto.
Qed.

(** ** ObjectIdentifier: a sub-identifier that starts with 0x80 *)

Lemma construct_stop (next : list Z -> Z -> Error + list Z) (subId nextSubId : Z)
    (rest : list Z) :
  nextSubId < 128 ->
  ObjectIdentifierPayloadDecoder.construct next subId nextSubId rest
  = next rest (Z.shiftl subId 7 + nextSubId).
Proof.
  intros H. destruct rest; cbn; destruct (nextSubId >=? 128) eqn:E; (lia || reflexivity).
Qed.

Lemma construct_continue (next : list Z -> Z -> Error + list Z) (subId nextSubId : Z)
    (b : Z) (rest : list Z) :
  128 <= nextSubId ->
  ObjectIdentifierPayloadDecoder.construct next subId nextSubId (b :: rest)
  = ObjectIdentifierPayloadDecoder.construct next
      (Z.shiftl subId 7 + Z.land nextSubId 0x7F) b rest.
Proof.
  intros H. cbn. destruct (nextSubId >=? 128) eqn:E; [reflexivity | lia].
Qed.

Lemma construct_complete (next : list Z -> Z -> Error + list Z)
    (body : list Z) (last : Z) (more : list Z) :
  Forall (fun b => 128 <= b) body -> last < 128 ->
  forall subId nextSubId, 128 <= nextSubId ->
  exists value,
    ObjectIdentifierPayloadDecoder.construct next subId nextSubId (body ++ last :: more)
    = next more value.
Proof.
  intros Hbody Hlast. induction Hbody as [| b body Hb Hbody IH]; intros subId nextSubId Hn.
  - cbn [app]. rewrite construct_continue by exact Hn.
    rewrite construct_stop by exact Hlast. eauto.
  - cbn [app]. rewrite construct_continue by exact Hn.
    apply IH. exact Hb.
Qed.

Lemma subIdentifiers_step (sub : list Z) (more oid : list Z) :
  isSubIdentifier sub ->
  ObjectIdentifierPayloadDecoder.subIdentifiers (sub ++ more) oid
    = inl (PyAsn1Error "Invalid octet 0x80 in OID encoding")
  \/ exists value,
       ObjectIdentifierPayloadDecoder.subIdentifiers (sub ++ more) oid
       = ObjectIdentifierPayloadDecoder.subIdentifiers more (oid ++ [value]).
Proof.
  intros (body & last & -> & Hbody & Hlast).
  destruct body as [| first body].
  - right. exists last. cbn. destruct (last <? 128) eqn:E; [reflexivity | lia].
  - inversion Hbody as [| ? ? Hfirst Hrest]; subst.
    rewrite <- !app_assoc. cbn [app ObjectIdentifierPayloadDecoder.subIdentifiers].
    destruct (first <? 128) eqn:E; [lia |].
    destruct (first >? 128) eqn:E2; [| left; reflexivity].
    right.
    destruct (construct_complete
                (fun rest subId =>
                   ObjectIdentifierPayloadDecoder.subIdentifiers rest (oid ++ [subId]))
                body last more Hrest Hlast 0 first ltac:(lia)) as [value Hvalue].
    exists value. exact Hvalue.
Qed.

Lemma subIdentifiers_0x80 (subs : list (list Z)) (rest : list Z) :
  Forall isSubIdentifier subs ->
  forall oid,
    ObjectIdentifierPayloadDecoder.subIdentifiers (concat subs ++ 128 :: rest) oid
    = inl (PyAsn1Error "Invalid octet 0x80 in OID encoding").
Proof.
  induction 1 as [| sub subs Hsub Hsubs IH]; intros oid.
  - reflexivity.
  - cbn [concat]. rewrite <- app_assoc.
    destruct (subIdentifiers_step sub (concat subs ++ 128 :: rest) oid Hsub)
      as [Hbad | [value Hnext]]; [exact Hbad |].
    rewrite Hnext. apply IH.
Qed.

(** The content of an ObjectIdentifier TLV that holds, after any
    number of complete sub-identifiers, a sub-identifier starting with the
    octet 0x80 is rejected with the error 'Invalid octet 0x80 in OID
    encoding', whatever follows. *)
Lemma oid_0x80_valueDecoder (asn1Spec : option Asn1Spec) (tagSet : TagSet)
    (tag0 : Tag) (others : list Tag) (state : State) (decodeFun : DecodeFun)
    (substrateFun : option SubstrateFun) (options : Options) (s : Substrate)
    (subs : list (list byte)) (rest tail : list byte) :
  superTags tagSet = tag0 :: others ->
  tagFormat tag0 = tagFormatSimple ->
  Forall (fun sub => isSubIdentifier (octs2ints sub)) subs ->
  remaining s = (concat subs ++ x80 :: rest) ++ tail ->
  ObjectIdentifierPayloadDecoder.valueDecoder asn1Spec tagSet
    (len (concat subs ++ x80 :: rest)) state decodeFun substrateFun options s
  = Raise (PyAsn1Error "Invalid octet 0x80 in OID encoding").
Proof.
  intros Htags Hformat Hsubs Hrem.
  unfold ObjectIdentifierPayloadDecoder.valueDecoder.
  rewrite (bind_Yield _ _ _ _ _ (TagSet_head_Yield _ _ _ s Htags)).
  rewrite Hformat, Z.eqb_refl. cbn [negb].
  rewrite (bind_Yield _ _ _ _ _ (readFromStream_app _ _ _ Hrem)).
  destruct (concat subs ++ x80 :: rest) as [| c0 chunk] eqn:Hchunk.
  { destruct (concat subs); discriminate. }
  cbn [nonEmpty negb]. rewrite <- Hchunk.
  apply bind_Raise.
  unfold octs2ints. rewrite map_app, concat_map. cbn [map].
  change (ord x80) with 128.
  rewrite subIdentifiers_0x80; [reflexivity |].
  apply Forall_map. exact Hsubs.
Qed.

(** ** ObjectIdentifier: the two leading arcs *)

Lemma leadingArcs_firstArcs (oid0 : Z) (tail : list Z) :
  0 <= oid0 ->
  ObjectIdentifierPayloadDecoder.leadingArcs (oid0 :: tail)
  = inr (fst (firstArcs oid0) :: snd (firstArcs oid0) :: tail).
Proof.
  intros H. unfold ObjectIdentifierPayloadDecoder.leadingArcs, firstArcs.
  destruct (oid0 <? 40) eqn:E40.
  - replace (0 <=? oid0) with true by lia. replace (oid0 <=? 39) with true by lia.
    reflexivity.
  - replace (oid0 <=? 39) with false by lia. rewrite andb_false_r.
    destruct (oid0 <? 80) eqn:E80.
    + replace (40 <=? oid0) with true by lia. replace (oid0 <=? 79) with true by lia.
      reflexivity.
    + replace (oid0 <=? 79) with false by lia. rewrite andb_false_r.
      replace (oid0 >=? 80) with true by lia. reflexivity.
Qed.

Lemma construct_inv (next : list Z -> Z -> Error + list Z) (rest : list Z) :
  Forall (fun b => 0 <= b) rest ->
  forall subId nextSubId r,
    0 <= subId -> 0 <= nextSubId ->
    ObjectIdentifierPayloadDecoder.construct next subId nextSubId rest = inr r ->
    exists rest' value,
      0 <= value /\ Forall (fun b => 0 <= b) rest' /\
      (length rest' <= length rest)%nat /\ next rest' value = inr r.
Proof.
  induction 1 as [| b rest Hb Hrest IH]; intros subId nextSubId r Hs Hn Hrun.
  - cbn in Hrun. destruct (nextSubId >=? 128) eqn:E; [discriminate |].
    exists [], (Z.shiftl subId 7 + nextSubId). repeat split; auto.
    pose proof (proj2 (Z.shiftl_nonneg subId 7) Hs). lia.
  - destruct (Z_lt_le_dec nextSubId 128) as [Hlt | Hge].
    + rewrite construct_stop in Hrun by exact Hlt.
      exists (b :: rest), (Z.shiftl subId 7 + nextSubId). repeat split; auto.
      pose proof (proj2 (Z.shiftl_nonneg subId 7) Hs). lia.
    + rewrite construct_continue in Hrun by exact Hge.
      apply IH in Hrun; auto.
      * destruct Hrun as (rest' & value & Hv & Hrest' & Hlen & Hnext).
        exists rest', value. repeat split; auto. simpl. lia.
      * pose proof (proj2 (Z.shiftl_nonneg subId 7) Hs).
        assert (0 <= Z.land nextSubId 127) by (apply Z.land_nonneg; lia). lia.
Qed.

Lemma subIdentifiers_nonneg (n : nat) :
  forall chunk oid r,
    (length chunk <= n)%nat ->
    Forall (fun b => 0 <= b) chunk -> Forall (fun b => 0 <= b) oid ->
    ObjectIdentifierPayloadDecoder.subIdentifiers chunk oid = inr r ->
    Forall (fun b => 0 <= b) r.
Proof.
  induction n as [| n IH]; intros chunk oid r Hlen Hchunk Hoid Hrun.
  - destruct chunk; [| simpl in Hlen; lia]. cbn in Hrun. congruence.
  - destruct chunk as [| subId rest]; [cbn in Hrun; congruence |].
    inversion Hchunk as [| ? ? Hsub Hrest]; subst.
    cbn [ObjectIdentifierPayloadDecoder.subIdentifiers] in Hrun.
    simpl in Hlen.
    destruct (subId <? 128) eqn:E.
    + apply (IH rest (oid ++ [subId]) r); auto; [lia |].
      apply Forall_app. split; auto.
    + destruct (subId >? 128) eqn:E2; [| discriminate].
      apply construct_inv in Hrun; auto; [| lia].
      destruct Hrun as (rest' & value & Hv & Hrest' & Hlen' & Hnext).
      apply (IH rest' (oid ++ [value]) r); auto; [lia |].
      apply Forall_app. split; auto.
Qed.

Lemma createComponent_state (proto : Asn1Class) (asn1Spec : option Asn1Spec)
    (tagSet : TagSet) (value : PyValue) (options : Options) (s s' : Substrate) (v : Value) :
  AbstractSimplePayloadDecoder._createComponent proto asn1Spec tagSet value options s
  = Yield v s' -> s' = s /\ holds v value.
Proof.
  unfold AbstractSimplePayloadDecoder._createComponent, spec_clone, ret, raise.
  destruct (native options); [intros H; injection H as <- <-; split; reflexivity |].
  destruct asn1Spec as [[] |]; intros H; try discriminate;
    injection H as <- <-; split; reflexivity.
Qed.

(** Whenever the ObjectIdentifier decoder yields a value, the octets
    it read decode to sub-identifiers [s0 :: rest] and the value holds the
    arcs [a0; a1] ++ rest with (a0, a1) = (0, s0) for s0 < 40, (1, s0 - 40)
    for 40 <= s0 < 80 and (2, s0 - 80) for s0 >= 80. *)
Lemma oid_valueDecoder_arcs (asn1Spec : option Asn1Spec) (tagSet : TagSet) (length : Z)
    (state : State) (decodeFun : DecodeFun) (substrateFun : option SubstrateFun)
    (options : Options) (s s' : Substrate) (v : Value) :
  ObjectIdentifierPayloadDecoder.valueDecoder asn1Spec tagSet length state decodeFun
    substrateFun options s = Yield v s' ->
  exists chunk s0 rest,
    readFromStream length s = Yield chunk s' /\
    ObjectIdentifierPayloadDecoder.subIdentifiers (octs2ints chunk) [] = inr (s0 :: rest) /\
    0 <= s0 /\
    ObjectIdentifierPayloadDecoder._createComponent asn1Spec tagSet
      (PyTuple (fst (firstArcs s0) :: snd (firstArcs s0) :: rest)) options s'
    = Yield v s' /\
    holds v (PyTuple (fst (firstArcs s0) :: snd (firstArcs s0) :: rest)).
Proof.
  unfold ObjectIdentifierPayloadDecoder.valueDecoder. intros Hrun.
  apply bind_Yield_inv in Hrun as (tag0 & s0 & Htag & Hrun).
  apply TagSet_head_inv in Htag as [-> _].
  destruct (negb (tagFormat tag0 =? tagFormatSimple)); [discriminate |].
  apply bind_Yield_inv in Hrun as (chunk & s1 & Hread & Hrun).
  destruct (negb (nonEmpty chunk)); [discriminate |].
  apply bind_Yield_inv in Hrun as (oid & s2 & Hsub & Hrun).
  apply liftE_Yield_inv in Hsub as [Hsub ->].
  apply bind_Yield_inv in Hrun as (arcs & s3 & Harcs & Hrun).
  apply liftE_Yield_inv in Harcs as [Harcs ->].
  pose proof (createComponent_state _ _ _ _ _ _ _ _ Hrun) as [-> Hholds].
  destruct oid as [| oid0 rest]; [discriminate |].
  assert (Hnonneg : Forall (fun b => 0 <= b) (oid0 :: rest)).
  { apply (subIdentifiers_nonneg (List.length (octs2ints chunk)) (octs2ints chunk) []);
      auto.
    unfold octs2ints. apply Forall_map. apply Forall_forall. intros b _.
    apply ord_range. }
  inversion Hnonneg as [| ? ? H0 _]; subst.
  rewrite leadingArcs_firstArcs in Harcs by exact H0.
  injection Harcs as <-.
  exists chunk, oid0, rest. auto.
Qed.

(** ** The Null decoder *)

Lemma createComponent_Yield (proto : Asn1Class) (asn1Spec : option Asn1Spec)
    (tagSet : TagSet) (value : PyValue) (options : Options) (s : Substrate) :
  isTypeObject asn1Spec ->
  exists v,
    AbstractSimplePayloadDecoder._createComponent proto asn1Spec tagSet value options s
    = Yield v s /\ holds v value.
Proof.
  unfold AbstractSimplePayloadDecoder._createComponent, spec_clone, ret, isTypeObject.
  intros H. destruct (native options); [eexists; split; reflexivity |].
  destruct asn1Spec as [[] |]; [contradiction | |]; eexists; split; reflexivity.
Qed.

(** For a Null TLV (primitive tag) whose content octets are all
    there, the Null decoder yields the empty Null value when the declared
    length is 0 and raises 'Unexpected %d-octet substrate for Null' for
    every other length: a value is yielded exactly when the length is 0. *)
Lemma null_valueDecoder (asn1Spec : option Asn1Spec) (tagSet : TagSet)
    (tag0 : Tag) (others : list Tag) (length : Z) (state : State)
    (decodeFun : DecodeFun) (substrateFun : option SubstrateFun) (options : Options)
    (s : Substrate) :
  superTags tagSet = tag0 :: others ->
  tagFormat tag0 = tagFormatSimple ->
  isTypeObject asn1Spec ->
  0 <= length <= len (remaining s) ->
  let run := NullPayloadDecoder.valueDecoder asn1Spec tagSet length state decodeFun
               substrateFun options s in
  (length = 0 ->
     exists component,
       NullPayloadDecoder._createComponent asn1Spec tagSet (PyStr EmptyString) options s
       = Yield component s /\
       holds component (PyStr EmptyString) /\
       run = Yield component s) /\
  (length <> 0 -> run = Raise (PyAsn1Error "Unexpected %d-octet substrate for Null")) /\
  ((exists v s', run = Yield v s') <-> length = 0).
Proof.
  intros Htags Hformat Hspec Hlen run.
  set (chunk := firstn (Z.to_nat length) (remaining s)).
  assert (Hchunk : len chunk = length).
  { unfold chunk, len in *. rewrite length_firstn. lia. }
  assert (Hsplit : remaining s = chunk ++ skipn (Z.to_nat length) (remaining s)).
  { unfold chunk. symmetry. apply firstn_skipn. }
  pose proof (readFromStream_app _ _ _ Hsplit) as Hread. rewrite Hchunk in Hread.
  assert (Hrun : run =
            bind (NullPayloadDecoder._createComponent asn1Spec tagSet
                    (PyStr EmptyString) options)
                 (fun component =>
                    if nonEmpty chunk
                    then raise (PyAsn1Error "Unexpected %d-octet substrate for Null")
                    else ret component)
                 (seek_cur length s)).
  { subst run. unfold NullPayloadDecoder.valueDecoder.
    rewrite (bind_Yield _ _ _ _ _ (TagSet_head_Yield _ _ _ s Htags)).
    rewrite Hformat, Z.eqb_refl. cbn [negb].
    rewrite (bind_Yield _ _ _ _ _ Hread). reflexivity. }
  destruct (createComponent_Yield univ_Null asn1Spec tagSet (PyStr EmptyString) options
              (seek_cur length s) Hspec) as (component & Hcomp & Hholds).
  fold NullPayloadDecoder._createComponent in Hcomp.
  rewrite (bind_Yield _ _ _ _ _ Hcomp) in Hrun.
  assert (Hzero : length = 0 -> run = Yield component s /\
            NullPayloadDecoder._createComponent asn1Spec tagSet (PyStr EmptyString)
              options s = Yield component s).
  { intros ->.
    assert (Hs : seek_cur 0 s = s).
    { unfold seek_cur, seek_set, tell. destruct s. cbn. f_equal. lia. }
    rewrite Hs in *. split; [| exact Hcomp].
    rewrite Hrun. destruct chunk; [reflexivity | unfold len in Hchunk; simpl in Hchunk; lia]. }
  assert (Hnonzero : length <> 0 ->
            run = Raise (PyAsn1Error "Unexpected %d-octet substrate for Null")).
  { intros Hne. rewrite Hrun.
    destruct chunk; [unfold len in Hchunk; simpl in Hchunk; lia | reflexivity]. }
  split; [| split].
  - intros H0. destruct (Hzero H0). eauto.
  - exact Hnonzero.
  - split.
    + intros (v & s' & Hv). destruct (Z.eq_dec length 0) as [| Hne]; [assumption |].
      rewrite (Hnonzero Hne) in Hv. discriminate.
    + intros H0. destruct (Hzero H0). eauto.
Qed.

(** ** The Real decoder *)

(** A Real TLV (primitive tag) with no content octets is decoded:
    the decoder yields the value 0.0, whereas a binary encoding that stops after its first octet
    raises 'Incomplete floating-point value' and one that has exponent
    octets but no mantissa raises 'Real exponent screwed'. *)
Lemma real_valueDecoder_empty (asn1Spec : option Asn1Spec) (tagSet : TagSet)
    (tag0 : Tag) (others : list Tag) (state : State)
    (decodeFun : DecodeFun) (substrateFun : option SubstrateFun) (options : Options)
    (s : Substrate) :
  superTags tagSet = tag0 :: others ->
  tagFormat tag0 = tagFormatSimple ->
  isTypeObject asn1Spec ->
  (exists component,
     RealPayloadDecoder.valueDecoder asn1Spec tagSet 0 state decodeFun substrateFun
       options s
     = Yield component s /\
     holds component PyFloatZero)
  /\
  (forall fo tail,
     remaining s = fo :: tail -> Z.land (ord fo) 0x80 <> 0 ->
     RealPayloadDecoder.valueDecoder asn1Spec tagSet 1 state decodeFun substrateFun
       options s
     = Raise (PyAsn1Error "Incomplete floating-point value"))
  /\
  (forall fo eo tail,
     remaining s = (fo :: eo) ++ tail -> Z.land (ord fo) 0x80 <> 0 ->
     Z.land (ord fo) 0x03 <> 3 -> eo <> [] -> len eo <= Z.land (ord fo) 0x03 + 1 ->
     RealPayloadDecoder.valueDecoder asn1Spec tagSet (len (fo :: eo)) state decodeFun
       substrateFun options s
     = Raise (PyAsn1Error "Real exponent screwed")).
Proof.
  intros Htags Hformat Hspec.
  assert (Hstart : forall length,
            RealPayloadDecoder.valueDecoder asn1Spec tagSet length state decodeFun
              substrateFun options s
            = bind (readFromStream length)
                (fun chunk =>
                   match chunk with
                   | [] => RealPayloadDecoder._createComponent asn1Spec tagSet
                             PyFloatZero options
                   | chunk0 :: chunk =>
                       let fo := oct2int chunk0 in
                       bind
                         (liftE
                            (if negb (Z.land fo 0x80 =? 0)
                             then RealPayloadDecoder.binaryEncoding fo chunk
                             else if negb (Z.land fo 0x40 =? 0)
                             then inr (PyStr (if Z.land fo 0x01 =? 0 then "inf" else "-inf"))
                             else if Z.land fo 0xc0 =? 0
                             then RealPayloadDecoder.characterEncoding fo chunk
                             else inl (SubstrateUnderrunError "Unknown encoding (tag %s)")))
                         (fun value =>
                            RealPayloadDecoder._createComponent asn1Spec tagSet value options)
                   end) s).
  { intros length. unfold RealPayloadDecoder.valueDecoder.
    rewrite (bind_Yield _ _ _ _ _ (TagSet_head_Yield _ _ _ s Htags)).
    rewrite Hformat, Z.eqb_refl. reflexivity. }
  split; [| split].
  - rewrite Hstart.
    assert (Hread : readFromStream 0 s = Yield [] s).
    { pose proof (readFromStream_app s [] (remaining s) eq_refl) as H.
      replace (seek_cur (len []) s) with s in H; [exact H |].
      unfold seek_cur, seek_set, tell, len. destruct s. cbn. f_equal. lia. }
    rewrite (bind_Yield _ _ _ _ _ Hread).
    apply (createComponent_Yield univ_Real asn1Spec tagSet PyFloatZero options s Hspec).
  - intros fo tail Hrem Hbit. rewrite Hstart.
    rewrite (bind_Yield _ _ _ _ _ (readFromStream_1 _ _ _ Hrem)).
    cbn zeta. unfold oct2int.
    destruct (Z.land (ord fo) 128 =? 0) eqn:E; [lia |]. reflexivity.
  - intros fo eo tail Hrem Hbit Hn4 Heo Hlen. rewrite Hstart.
    rewrite (bind_Yield _ _ _ _ _ (readFromStream_app _ _ _ Hrem)).
    cbn zeta. unfold oct2int.
    destruct (Z.land (ord fo) 128 =? 0) eqn:E; [lia |]. cbn [negb].
    apply bind_Raise. cbn [liftE].
    unfold RealPayloadDecoder.binaryEncoding.
    destruct eo as [| e0 eo']; [contradiction |]. cbn [nonEmpty negb].
    destruct (Z.land (ord fo) 3 + 1 =? 4) eqn:E4; [lia |].
    assert (Hn0 : 0 <= Z.land (ord fo) 3) by (apply Z.land_nonneg; lia).
    rewrite firstn_all2 by (unfold len in Hlen; lia).
    rewrite skipn_all2 by (unfold len in Hlen; lia).
    reflexivity.
Qed.

(** ** State [stDecodeValue]: the consumed octets of a definite-length value *)

(** For a definite length, whatever payload decoder was chosen: when
    state [stDecodeValue] yields a value the substrate has advanced by
    exactly [length] octets, and when the payload decoder returns having
    consumed another number of octets the state raises 'Read %s bytes
    instead of expected %s.' and yields nothing. *)
Lemma decodeValue_consumed (valueDecoder indefLenValueDecoder : ValueDecoder)
    (decodeFun : DecodeFun) (asn1Spec : option Asn1Spec) (tagSet : TagSet) (length : Z)
    (substrateFun : option SubstrateFun) (options : Options) (s : Substrate) :
  length <> -1 ->
  let run := SingleItemDecoder.decodeValue valueDecoder indefLenValueDecoder decodeFun
               asn1Spec tagSet length substrateFun options s in
  (forall value s', run = Yield value s' -> tell s' = tell s + length) /\
  (forall value s',
     valueDecoder asn1Spec tagSet length stGetValueDecoder decodeFun
       (effectiveSubstrateFun substrateFun options) options s = Yield value s' ->
     (tell s' - tell s <> length ->
        run = Raise (PyAsn1Error "Read %s bytes instead of expected %s.")) /\
     (tell s' - tell s = length -> run = Yield value s')).
Proof.
  intros Hdef run.
  assert (Hrun : run =
            bind (valueDecoder asn1Spec tagSet length stGetValueDecoder decodeFun
                    (effectiveSubstrateFun substrateFun options) options)
              (fun value =>
                 bind getTell
                   (fun here =>
                      if negb (here - tell s =? length)
                      then raise (PyAsn1Error "Read %s bytes instead of expected %s.")
                      else ret value)) s).
  { subst run. unfold SingleItemDecoder.decodeValue.
    cbv zeta. fold (effectiveSubstrateFun substrateFun options).
    unfold bind at 1. unfold getTell at 1.
    destruct (length =? -1) eqn:E; [lia | reflexivity]. }
  rewrite Hrun. clear Hrun run.
  split.
  - intros value s' Hrun.
    apply bind_Yield_inv in Hrun as (v & s1 & Hv & Hrun).
    unfold bind, getTell in Hrun.
    destruct (negb (tell s1 - tell s =? length)) eqn:Hcmp; [discriminate |].
    unfold ret in Hrun. injection Hrun as <- <-.
    apply negb_false_iff in Hcmp. lia.
  - intros value s' Hv. rewrite (bind_Yield _ _ _ _ _ Hv).
    unfold bind, getTell. split; intros Hread.
    + destruct (tell s' - tell s =? length) eqn:Hcmp; [lia | reflexivity].
    + destruct (tell s' - tell s =? length) eqn:Hcmp; [reflexivity | lia].
Qed.

(** ** Loop invariants *)

Lemma while_invariant {St : Type} (P : St -> Prop) (cond : St -> Gen bool)
    (body : St -> Gen (LoopStep St)) :
  (forall st s step s1, P st -> body st s = Yield step s1 ->
     match step with Continue st' | Break st' => P st' end) ->
  forall fuel st s st' s', P st -> while fuel cond body st s = Yield st' s' -> P st'.
Proof.
  intros Hbody. induction fuel as [| fuel IH]; intros st s st' s' HP Hrun.
  - discriminate.
  - cbn [while] in Hrun.
    apply bind_Yield_inv in Hrun as (c & s1 & _ & Hrun).
    destruct c.
    + apply bind_Yield_inv in Hrun as (step & s2 & Hstep & Hrun).
      pose proof (Hbody _ _ _ _ HP Hstep) as HP'.
      destruct step as [st1 | st1].
      * eapply IH; eauto.
      * unfold ret in Hrun. injection Hrun as <- <-. exact HP'.
    + unfold ret in Hrun. injection Hrun as <- <-. exact HP.
Qed.

Lemma forEach_invariant {A St : Type} (P : St -> Prop) (body : A -> St -> Gen St) :
  (forall x st s st' s1, P st -> body x st s = Yield st' s1 -> P st') ->
  forall l st s st' s', P st -> forEach l body st s = Yield st' s' -> P st'.
Proof.
  intros Hbody. induction l as [| x l IH]; intros st s st' s' HP Hrun.
  - cbn in Hrun. unfold ret in Hrun. injection Hrun as <- <-. exact HP.
  - cbn [forEach] in Hrun.
    apply bind_Yield_inv in Hrun as (st1 & s1 & Hx & Hrun).
    apply (IH st1 s1 st' s'); [| exact Hrun].
    apply (Hbody x st s st1 s1 HP Hx).
Qed.

(** ** Slots *)

Lemma getSlot_setSlot_eq (idx : Z) (value : Value) (components : list (Z * Value)) :
  getSlot idx (setSlot idx value components) = Some value.
Proof.
  induction components as [| [i v] rest IH]; cbn.
  - rewrite Z.eqb_refl. reflexivity.
  - destruct (i =? idx) eqn:E; cbn; rewrite E; [reflexivity | exact IH].
Qed.

Lemma getSlot_setSlot_ne (idx j : Z) (value : Value) (components : list (Z * Value)) :
  j <> idx -> getSlot j (setSlot idx value components) = getSlot j components.
Proof.
  intros Hne. induction components as [| [i v] rest IH]; cbn.
  - destruct (idx =? j) eqn:E; [lia | reflexivity].
  - destruct (i =? idx) eqn:E; cbn.
    + destruct (i =? j) eqn:E2; [lia | reflexivity].
    + destruct (i =? j); [reflexivity | exact IH].
Qed.

Lemma getSlot_setSlot_filled (idx j : Z) (value : Value) (components : list (Z * Value)) :
  is_Some (getSlot j components) -> is_Some (getSlot j (setSlot idx value components)).
Proof.
  intros H. destruct (Z.eq_dec j idx) as [-> | Hne].
  - rewrite getSlot_setSlot_eq. eauto.
  - rewrite getSlot_setSlot_ne by exact Hne. exact H.
Qed.

Lemma setComponentByPosition_inv (idx : Z) (value asn1Object v : Value) (s s' : Substrate) :
  setComponentByPosition idx value asn1Object s = Yield v s' ->
  exists cls tagSet components,
    asn1Object = Asn1Constructed cls tagSet components /\
    v = Asn1Constructed cls tagSet (setSlot idx value components) /\ s' = s.
Proof.
  unfold setComponentByPosition, ret, raise.
  destruct asn1Object; try discriminate.
  intros H. injection H as <- <-. eauto 6.
Qed.

Lemma issubset_true (required : list Z) (seenIndices : gset Z) :
  issubset required seenIndices = true <-> Forall (fun i => i ∈ seenIndices) required.
Proof.
  unfold issubset. rewrite forallb_forall, Forall_forall.
  split; intros H i Hi.
  - apply list_elem_of_In in Hi. specialize (H i Hi).
    apply bool_decide_eq_true in H. exact H.
  - apply bool_decide_eq_true. apply H. apply list_elem_of_In. exact Hi.
Qed.

(** ** The required components of a record *)

Ltac gen_inv H :=
  repeat first
    [ discriminate H
    | match type of H with
      | bind _ _ _ = Yield _ _ =>
          let a := fresh "a" in
          let s := fresh "s" in
          let Hstep := fresh "Hstep" in
          apply bind_Yield_inv in H as (a & s & Hstep & H)
      | ret _ _ = Yield _ _ => unfold ret in H
      | raise _ _ = Yield _ _ => unfold raise in H
      | (if ?c then _ else _) _ = Yield _ _ => destruct c eqn:?
      | (match ?x with _ => _ end) _ = Yield _ _ => destruct x eqn:?
      end ].

Lemma slotsFilled_set (cls : Asn1Class) (tagSet : TagSet) (wanted : list Z)
    (idx : Z) (value asn1Object v : Value) (s s' : Substrate) :
  slotsFilled cls tagSet wanted asn1Object ->
  setComponentByPosition idx value asn1Object s = Yield v s' ->
  slotsFilled cls tagSet wanted v.
Proof.
  intros (components & -> & Hfilled) Hset.
  apply setComponentByPosition_inv in Hset as (c & t & l & Heq & -> & _).
  injection Heq as <- <- <-.
  exists (setSlot idx value components). split; [reflexivity |].
  eapply Forall_impl; [exact Hfilled |].
  intros i Hi. apply getSlot_setSlot_filled. exact Hi.
Qed.

Lemma storeComponent_slotsSeen (cls : Asn1Class) (tagSet : TagSet)
    (namedTypes : NamedTypes) (isSetType isDeterministic : bool) (component : Value)
    (st st' : ConstructedPayloadDecoderBase.Record_) (s s' : Substrate) :
  slotsSeen cls tagSet st ->
  ConstructedPayloadDecoderBase.storeComponent namedTypes isSetType isDeterministic
    component st s = Yield st' s' ->
  slotsSeen cls tagSet st'.
Proof.
  intros (components & Hobj & Hseen) Hrun.
  unfold ConstructedPayloadDecoderBase.storeComponent in Hrun.
  apply bind_Yield_inv in Hrun as (idx & s1 & _ & Hrun).
  apply bind_Yield_inv in Hrun as (asn1Object & s2 & Hset & Hrun).
  unfold ret in Hrun. injection Hrun as <- <-.
  rewrite Hobj in Hset.
  apply setComponentByPosition_inv in Hset as (c & t & l & Heq & -> & _).
  injection Heq as <- <- <-.
  exists (setSlot idx component components). split; [reflexivity |].
  cbn [ConstructedPayloadDecoderBase.rc_seenIndices]. intros i.
  destruct (Z.eq_dec i idx) as [-> | Hne].
  - rewrite getSlot_setSlot_eq. split; [eauto | set_solver].
  - rewrite getSlot_setSlot_ne by exact Hne. rewrite <- Hseen. set_solver.
Qed.

Lemma decodeRecordComponents_slotsSeen (cls : Asn1Class) (tagSet : TagSet)
    (fuel : nat) (namedTypes : NamedTypes) (isSetType isDeterministic : bool)
    (original_position length : Z) (decodeFun : DecodeFun) (options : Options)
    (st : ConstructedPayloadDecoderBase.Record_) (s s' : Substrate) :
  ConstructedPayloadDecoderBase.decodeRecordComponents fuel namedTypes isSetType
    isDeterministic original_position length decodeFun options
    (Asn1Constructed cls tagSet []) s = Yield st s' ->
  slotsSeen cls tagSet st.
Proof.
  unfold ConstructedPayloadDecoderBase.decodeRecordComponents.
  apply while_invariant.
  - intros st0 s0 step s1 HP Hbody.
    apply bind_Yield_inv in Hbody as (componentType & s2 & _ & Hbody).
    apply bind_Yield_inv in Hbody as (component & s3 & _ & Hbody).
    apply bind_Yield_inv in Hbody as (st1 & s4 & Hstore & Hbody).
    unfold ret in Hbody. injection Hbody as <- <-.
    eapply storeComponent_slotsSeen; eauto.
  - exists []. split; [reflexivity |]. intros i. cbn. split.
    + intros H. set_solver.
    + intros [x Hx]. discriminate.
Qed.

Lemma decodeRecordComponentsIndef_slotsSeen (cls : Asn1Class) (tagSet : TagSet)
    (fuel : nat) (namedTypes : NamedTypes) (isSetType isDeterministic : bool)
    (decodeFun : DecodeFun) (options : Options)
    (st : ConstructedPayloadDecoderBase.Record_) (s s' : Substrate) :
  ConstructedPayloadDecoderBase.decodeRecordComponentsIndef fuel namedTypes isSetType
    isDeterministic decodeFun options (Asn1Constructed cls tagSet []) s = Yield st s' ->
  slotsSeen cls tagSet st.
Proof.
  unfold ConstructedPayloadDecoderBase.decodeRecordComponentsIndef, whileTrue.
  apply while_invariant.
  - intros st0 s0 step s1 HP Hbody.
    apply bind_Yield_inv in Hbody as (componentType & s2 & _ & Hbody).
    apply bind_Yield_inv in Hbody as (component & s3 & _ & Hbody).
    destruct (isEndOfOctets component).
    + unfold ret in Hbody. injection Hbody as <- <-. exact HP.
    + apply bind_Yield_inv in Hbody as (st1 & s4 & Hstore & Hbody).
      unfold ret in Hbody. injection Hbody as <- <-.
      eapply storeComponent_slotsSeen; eauto.
  - exists []. split; [reflexivity |]. intros i. cbn. split.
    + intros H. set_solver.
    + intros [x Hx]. discriminate.
Qed.

Lemma resolveOpenTypes_slotsFilled (cls : Asn1Class) (tagSet : TagSet) (wanted : list Z)
    (indef : bool) (namedTypes : NamedTypes) (decodeFun : DecodeFun) (options : Options)
    (asn1Object v : Value) (s s' : Substrate) :
  slotsFilled cls tagSet wanted asn1Object ->
  ConstructedPayloadDecoderBase.resolveOpenTypes indef namedTypes decodeFun options
    asn1Object s = Yield v s' ->
  slotsFilled cls tagSet wanted v.
Proof.
  unfold ConstructedPayloadDecoderBase.resolveOpenTypes. intros HP Hrun.
  destruct (negb _).
  { unfold ret in Hrun. injection Hrun as <- <-. exact HP. }
  revert Hrun. apply forEach_invariant; [| exact HP].
  clear HP asn1Object v s s'. intros [idx namedType] obj s obj' s' HP Hbody.
  gen_inv Hbody;
    try (injection Hbody as <- <-; exact HP);
    try (eapply slotsFilled_set; [exact HP | exact Hbody]).
Qed.

Lemma record_valueDecoder_eq (indef : bool) (protoComponent : option Asn1Class)
    (protoRecordComponent protoSequenceComponent : Asn1Class) (fuel : nat)
    (typeId : Asn1Class) (specTagSet : TagSet) (specTagMap : TagSet -> option Asn1Spec)
    (namedTypes : NamedTypes) (tagSet : TagSet) (tag0 : Tag) (others : list Tag)
    (length : Z) (state : State) (decodeFun : DecodeFun) (options : Options)
    (s : Substrate) :
  superTags tagSet = tag0 :: others ->
  tagFormat tag0 = tagFormatConstructed ->
  ConstructedPayloadDecoderBase.isRecordType typeId = true ->
  let asn1Spec := Some (Asn1Type typeId specTagSet specTagMap (NamedTypesOf namedTypes)) in
  let isSetType := bool_decide (typeId = univ_Set) in
  let isDeterministic := negb isSetType && negb (nt_hasOptionalOrDefault namedTypes) in
  (if indef
   then ConstructedPayloadDecoderBase.indefLenValueDecoder protoComponent
          protoRecordComponent protoSequenceComponent fuel asn1Spec tagSet length state
          decodeFun None options s
   else ConstructedPayloadDecoderBase.valueDecoder protoComponent
          protoRecordComponent protoSequenceComponent fuel asn1Spec tagSet length state
          decodeFun None options s)
  = bind
      (if indef
       then ConstructedPayloadDecoderBase.decodeRecordComponentsIndef fuel namedTypes
              isSetType isDeterministic decodeFun options
              (Asn1Constructed typeId specTagSet [])
       else ConstructedPayloadDecoderBase.decodeRecordComponents fuel namedTypes
              isSetType isDeterministic (tell s) length decodeFun options
              (Asn1Constructed typeId specTagSet []))
      (ConstructedPayloadDecoderBase.finishRecord indef namedTypes decodeFun options) s.
Proof.
  intros Htags Hformat Hrecord asn1Spec isSetType isDeterministic.
  destruct indef.
  - unfold ConstructedPayloadDecoderBase.indefLenValueDecoder.
    rewrite (bind_Yield _ _ _ _ _ (TagSet_head_Yield _ _ _ s Htags)).
    rewrite Hformat, Z.eqb_refl. cbn [negb]. subst asn1Spec. cbv iota.
    unfold spec_cloneEmpty, spec_typeId,
      ConstructedPayloadDecoderBase.spec_namedTypes, spec_componentType.
    unfold bind at 1, ret at 1. unfold bind at 1, ret at 1.
    rewrite Hrecord. unfold bind at 1. unfold bind at 1, ret at 1. unfold ret at 1.
    reflexivity.
  - unfold ConstructedPayloadDecoderBase.valueDecoder.
    rewrite (bind_Yield _ _ _ _ _ (TagSet_head_Yield _ _ _ s Htags)).
    rewrite Hformat, Z.eqb_refl. cbn [negb]. subst asn1Spec. cbv iota.
    unfold bind at 1, getTell at 1.
    unfold spec_cloneEmpty, spec_typeId,
      ConstructedPayloadDecoderBase.spec_namedTypes, spec_componentType.
    unfold bind at 1, ret at 1. unfold bind at 1, ret at 1.
    rewrite Hrecord. unfold bind at 1. unfold bind at 1, ret at 1. unfold ret at 1.
    reflexivity.
Qed.

(** A Sequence or Set decoded against a spec whose catalogue is not
    empty, in the definite or the indefinite form: a yielded value is the
    record with every index of the required set filled; and when the
    component loop has ended, the indices it stored are exactly the filled
    slots and the decoder raises 'ASN.1 object %s has uninitialized
    components' if a required index is not among them. *)
Lemma record_required_components (indef : bool) (protoComponent : option Asn1Class)
    (protoRecordComponent protoSequenceComponent : Asn1Class) (fuel : nat)
    (typeId : Asn1Class) (specTagSet : TagSet) (specTagMap : TagSet -> option Asn1Spec)
    (namedTypes : NamedTypes) (tagSet : TagSet) (tag0 : Tag) (others : list Tag)
    (length : Z) (state : State) (decodeFun : DecodeFun) (options : Options)
    (s : Substrate) :
  superTags tagSet = tag0 :: others ->
  tagFormat tag0 = tagFormatConstructed ->
  ConstructedPayloadDecoderBase.isRecordType typeId = true ->
  nt_items namedTypes <> [] ->
  let asn1Spec := Some (Asn1Type typeId specTagSet specTagMap (NamedTypesOf namedTypes)) in
  let isSetType := bool_decide (typeId = univ_Set) in
  let isDeterministic := negb isSetType && negb (nt_hasOptionalOrDefault namedTypes) in
  let run :=
    if indef
    then ConstructedPayloadDecoderBase.indefLenValueDecoder protoComponent
           protoRecordComponent protoSequenceComponent fuel asn1Spec tagSet length state
           decodeFun None options s
    else ConstructedPayloadDecoderBase.valueDecoder protoComponent
           protoRecordComponent protoSequenceComponent fuel asn1Spec tagSet length state
           decodeFun None options s in
  let loop :=
    if indef
    then ConstructedPayloadDecoderBase.decodeRecordComponentsIndef fuel namedTypes
           isSetType isDeterministic decodeFun options
           (Asn1Constructed typeId specTagSet []) s
    else ConstructedPayloadDecoderBase.decodeRecordComponents fuel namedTypes
           isSetType isDeterministic (tell s) length decodeFun options
           (Asn1Constructed typeId specTagSet []) s in
  (forall v s', run = Yield v s' ->
     slotsFilled typeId specTagSet (nt_requiredComponents namedTypes) v) /\
  (forall st s1, loop = Yield st s1 ->
     exists components,
       ConstructedPayloadDecoderBase.rc_asn1Object st
       = Asn1Constructed typeId specTagSet components /\
       (forall i, i ∈ ConstructedPayloadDecoderBase.rc_seenIndices st
                  <-> is_Some (getSlot i components)) /\
       (~ Forall (fun i => is_Some (getSlot i components))
            (nt_requiredComponents namedTypes) ->
        run = Raise (PyAsn1Error "ASN.1 object %s has uninitialized components"))).
Proof.
  intros Htags Hformat Hrecord Hitems asn1Spec isSetType isDeterministic run loop.
  assert (Hrun : run =
            bind (fun s => loop)
              (ConstructedPayloadDecoderBase.finishRecord indef namedTypes decodeFun
                 options) s).
  { subst run loop.
    pose proof (record_valueDecoder_eq indef protoComponent protoRecordComponent
                  protoSequenceComponent fuel typeId specTagSet specTagMap namedTypes
                  tagSet tag0 others length state decodeFun options s Htags Hformat
                  Hrecord) as Heq.
    cbv zeta in Heq. fold asn1Spec isSetType isDeterministic in Heq.
    rewrite Heq. unfold bind. destruct indef; reflexivity. }
  assert (Hseen : forall st s1, loop = Yield st s1 -> slotsSeen typeId specTagSet st).
  { intros st s1 Hloop. subst loop. destruct indef.
    - eapply decodeRecordComponentsIndef_slotsSeen; eauto.
    - eapply decodeRecordComponents_slotsSeen; eauto. }
  assert (Hnonempty : nonEmpty (nt_items namedTypes) = true).
  { destruct (nt_items namedTypes); [contradiction | reflexivity]. }
  split.
  - intros v s' Hv. rewrite Hrun in Hv.
    apply bind_Yield_inv in Hv as (st & s1 & Hloop & Hfinish).
    destruct (Hseen st s1 Hloop) as (components & Hobj & Hiff).
    unfold ConstructedPayloadDecoderBase.finishRecord in Hfinish.
    rewrite Hnonempty in Hfinish.
    destruct (issubset _ _) eqn:Hsub; [| discriminate]. cbn [negb] in Hfinish.
    apply issubset_true in Hsub.
    assert (Hfilled : slotsFilled typeId specTagSet (nt_requiredComponents namedTypes)
                        (ConstructedPayloadDecoderBase.rc_asn1Object st)).
    { exists components. split; [exact Hobj |].
      eapply Forall_impl; [exact Hsub |]. intros i Hi. apply Hiff. exact Hi. }
    destruct (nt_hasOpenTypes namedTypes).
    + eapply resolveOpenTypes_slotsFilled; eauto.
    + unfold ret in Hfinish. injection Hfinish as <- <-. exact Hfilled.
  - intros st s1 Hloop.
    destruct (Hseen st s1 Hloop) as (components & Hobj & Hiff).
    exists components. split; [exact Hobj |]. split; [exact Hiff |].
    intros Hmissing. rewrite Hrun. unfold bind. rewrite Hloop.
    unfold ConstructedPayloadDecoderBase.finishRecord. rewrite Hnonempty.
    destruct (issubset _ _) eqn:Hsub; [| reflexivity].
    exfalso. apply Hmissing. apply issubset_true in Hsub.
    eapply Forall_impl; [exact Hsub |]. intros i Hi. apply Hiff. exact Hi.
Qed.

(** ** The container guessed without a schema *)

Lemma size_gt_1_distinct (X : gset TagSetKey) :
  (1 < size X)%nat <-> exists x y, x ∈ X /\ y ∈ X /\ x <> y.
Proof.
  split.
  - intros Hsize.
    destruct (size_pos_elem_of X ltac:(lia)) as [x Hx].
    assert (HX : X = {[x]} ∪ X) by set_solver.
    assert (Hrest : (0 < size (X ∖ {[x]}))%nat).
    { rewrite HX in Hsize. rewrite size_union_alt, size_singleton in Hsize. lia. }
    destruct (size_pos_elem_of _ Hrest) as [y Hy].
    exists x, y. set_solver.
  - intros (x & y & Hx & Hy & Hne).
    assert (Hsub : ({[x]} ∪ {[y]} : gset TagSetKey) ⊆ X) by set_solver.
    apply subseteq_size in Hsub.
    rewrite size_union, !size_singleton in Hsub by set_solver. lia.
Qed.

Lemma guessContainer_inv (protoRecordComponent protoSequenceComponent : Asn1Class)
    (tagSet : TagSet) (component : Value)
    (st st' : ConstructedPayloadDecoderBase.Schemaless) (s s' : Substrate) :
  schemalessInv protoRecordComponent protoSequenceComponent tagSet st ->
  ConstructedPayloadDecoderBase.guessContainer protoRecordComponent
    protoSequenceComponent tagSet component st s = Yield st' s' ->
  schemalessInv protoRecordComponent protoSequenceComponent tagSet st'.
Proof.
  intros (Hall & Htypes & Hobj) Hrun.
  unfold ConstructedPayloadDecoderBase.guessContainer in Hrun.
  apply bind_Yield_inv in Hrun as (t & s1 & Ht & Hrun).
  apply liftE_Yield_inv in Ht as [Ht ->].
  unfold ret in Hrun. injection Hrun as <- <-.
  unfold schemalessInv.
  cbn [ConstructedPayloadDecoderBase.sl_components
       ConstructedPayloadDecoderBase.sl_componentTypes
       ConstructedPayloadDecoderBase.sl_asn1Object].
  split; [| split].
  - apply Forall_app. split; [exact Hall |]. constructor; [eauto | constructor].
  - intros k. rewrite elem_of_union, elem_of_singleton, Htypes. split.
    + intros [-> | (c & t0 & Hin & Hc & Hk)].
      * exists component, t. split; [apply in_or_app; right; left; reflexivity | auto].
      * exists c, t0. split; [apply in_or_app; left; exact Hin | auto].
    + intros (c & t0 & Hin & Hc & Hk). apply in_app_or in Hin as [Hin | [<- | []]].
      * right. eauto.
      * left. congruence.
  - destruct (ConstructedPayloadDecoderBase.sl_components st ++ [component]) eqn:E;
      [destruct (ConstructedPayloadDecoderBase.sl_components st); discriminate |].
    reflexivity.
Qed.

Lemma setSlot_append (idx : Z) (value : Value) (components : list (Z * Value)) :
  Forall (fun slot => fst slot < idx) components ->
  setSlot idx value components = components ++ [(idx, value)].
Proof.
  induction 1 as [| [i v] rest Hi Hrest IH]; cbn; [reflexivity |].
  cbn in Hi. destruct (i =? idx) eqn:E; [lia |]. rewrite IH. reflexivity.
Qed.

Lemma fill_slots (cls : Asn1Class) (tagSet : TagSet) (children : list Value) :
  forall (idx : Z) (filled : list (Z * Value)) (s : Substrate),
    Forall (fun slot => fst slot < idx) filled ->
    forEach (enumerateFrom idx children)
      (fun '(idx, component) asn1Object =>
         setComponentByPosition idx component asn1Object)
      (Asn1Constructed cls tagSet filled) s
    = Yield (Asn1Constructed cls tagSet (filled ++ enumerateFrom idx children)) s.
Proof.
  induction children as [| c children IH]; intros idx filled s Hfilled.
  - cbn. rewrite app_nil_r. reflexivity.
  - cbn [enumerateFrom forEach]. unfold bind.
    cbn [setComponentByPosition ret].
    rewrite setSlot_append by exact Hfilled.
    rewrite IH.
    + rewrite <- app_assoc. reflexivity.
    + apply Forall_app. split.
      * eapply Forall_impl; [exact Hfilled |]. intros slot Hslot. cbn in *. lia.
      * constructor; [cbn; lia | constructor].
Qed.

(** What schemaless decoding of a constructed value yields is either
    [None], when no child was decoded, or a container of the decoded
    children, in order: the record type when two children have distinct
    tag sets, the homogeneous type when all children have the same tag
    set; its tag set carries the tags of the outer tag set. *)
Lemma schemaless_container (protoRecordComponent protoSequenceComponent : Asn1Class)
    (fuel : nat) (tagSet : TagSet) (decodeFun : DecodeFun) (length : Z)
    (options : Options) (s s' : Substrate) (v : Value) :
  ConstructedPayloadDecoderBase._decodeComponentsSchemaless protoRecordComponent
    protoSequenceComponent fuel tagSet decodeFun length options s = Yield v s' ->
  v = PyNone \/
  exists children cls,
    children <> [] /\
    v = Asn1Constructed cls (containerTagSet cls tagSet) (enumerateFrom 0 children) /\
    superTags (containerTagSet cls tagSet) = superTags tagSet /\
    (distinctTagSets children -> cls = protoRecordComponent) /\
    (sameTagSet children -> cls = protoSequenceComponent).
Proof.
  unfold ConstructedPayloadDecoderBase._decodeComponentsSchemaless. intros Hrun.
  apply bind_Yield_inv in Hrun as (original_position & s0 & _ & Hrun).
  apply bind_Yield_inv in Hrun as (st & s1 & Hloop & Hrun).
  assert (Hinv : schemalessInv protoRecordComponent protoSequenceComponent tagSet st).
  { revert Hloop. apply while_invariant.
    - intros st0 s2 step s3 HP Hbody.
      apply bind_Yield_inv in Hbody as (component & s4 & _ & Hbody).
      destruct (_ && _).
      + unfold ret in Hbody. injection Hbody as <- <-. exact HP.
      + apply bind_Yield_inv in Hbody as (st1 & s5 & Hguess & Hbody).
        unfold ret in Hbody. injection Hbody as <- <-.
        eapply guessContainer_inv; eauto.
    - split; [constructor | split; [| reflexivity]].
      intros k. cbn. split; [set_solver | intros (c & t & [] & _)]. }
  destruct Hinv as (Hall & Htypes & Hobj).
  destruct (ConstructedPayloadDecoderBase.sl_components st) as [| c0 children] eqn:Hchildren.
  - left. rewrite Hobj in Hrun. cbn in Hrun. unfold ret in Hrun. congruence.
  - right. rewrite Hobj in Hrun. cbv zeta in Hrun.
    set (cls := if (1 <? size (ConstructedPayloadDecoderBase.sl_componentTypes st))%nat
                then protoRecordComponent else protoSequenceComponent) in *.
    rewrite fill_slots in Hrun by constructor.
    injection Hrun as <- <-.
    exists (c0 :: children), cls. split; [discriminate |].
    split; [reflexivity |]. split; [reflexivity |]. split.
    + intros (c1 & c2 & t1 & t2 & H1 & H2 & Ht1 & Ht2 & Hne).
      subst cls.
      replace (1 <? size (ConstructedPayloadDecoderBase.sl_componentTypes st))%nat
        with true; [reflexivity |].
      symmetry. apply Nat.ltb_lt. apply size_gt_1_distinct.
      exists (tagSetKey t1), (tagSetKey t2).
      split; [apply Htypes; eauto | split; [apply Htypes; eauto | exact Hne]].
    + intros Hsame. subst cls.
      replace (1 <? size (ConstructedPayloadDecoderBase.sl_componentTypes st))%nat
        with false; [reflexivity |].
      symmetry. apply Nat.ltb_ge.
      destruct (le_lt_dec (size (ConstructedPayloadDecoderBase.sl_componentTypes st)) 1)
        as [Hle | Hgt]; [exact Hle |].
      apply size_gt_1_distinct in Hgt as (x & y & Hx & Hy & Hne).
      apply Htypes in Hx as (c1 & t1 & H1 & Ht1 & <-).
      apply Htypes in Hy as (c2 & t2 & H2 & Ht2 & <-).
      exfalso. apply Hne. apply (Hsame c1 c2 t1 t2 H1 H2 Ht1 Ht2).
Qed.

(** ** Running the single-item decoder over a short tag *)

Lemma decodeTag_short (fuel : nat) (s : Substrate) (b : byte) (rest : list byte) :
  remaining s = b :: rest -> Z.land (ord b) 0x1F <> 0x1F ->
  SingleItemDecoder.decodeTag fuel None s
  = Yield {| baseTag := None; superTags := [shortTag b] |} (seek_cur 1 s).
Proof.
  intros Hrem Hshort. unfold SingleItemDecoder.decodeTag.
  rewrite (bind_Yield _ _ _ _ _ (readFromStream_1 _ _ _ Hrem)).
  cbn [ordOctet]. unfold bind at 1, ret at 1.
  destruct (Z.land (ord b) 31 =? 31) eqn:E; [lia |].
  reflexivity.
Qed.

Lemma decodeLength_short (supportIndefLength : bool) (s : Substrate) (b : byte)
    (rest : list byte) :
  remaining s = b :: rest -> ord b < 128 ->
  decodeLength supportIndefLength s = Yield (ord b) (seek_cur 1 s).
Proof.
  intros Hrem Hshort. unfold decodeLength.
  rewrite (bind_Yield _ _ _ _ _ (readFromStream_1 _ _ _ Hrem)).
  cbn [ordOctet]. unfold bind at 1, ret at 1.
  destruct (ord b <? 128) eqn:E; [| lia].
  unfold bind, ret. pose proof (ord_range b).
  destruct (ord b =? -1) eqn:E1; [lia |]. reflexivity.
Qed.

Lemma decodeLength_indefinite (s : Substrate) (rest : list byte) :
  remaining s = x80 :: rest -> decodeLength true s = Yield (-1) (seek_cur 1 s).
Proof.
  intros Hrem. unfold decodeLength.
  rewrite (bind_Yield _ _ _ _ _ (readFromStream_1 _ _ _ Hrem)). reflexivity.
Qed.

Ltac machine_fields :=
  cbn [SingleItemDecoder.m_state SingleItemDecoder.m_tagSet SingleItemDecoder.m_asn1Spec
       SingleItemDecoder.m_length SingleItemDecoder.m_concreteDecoder
       SingleItemDecoder.m_substrateFun SingleItemDecoder.m_value SingleItemDecoder.need].

Ltac state_taken :=
  unfold SingleItemDecoder.when at 1; machine_fields;
  rewrite bool_decide_eq_true_2 by reflexivity.

Ltac state_skipped :=
  unfold SingleItemDecoder.when at 1; machine_fields;
  rewrite bool_decide_eq_false_2 by discriminate.

(** One turn of the machine from [stDecodeTag], without a spec, for a short
    tag that the tag map knows: the turn ends in [stDecodeValue]. *)
Lemma turn_by_tag (self : SingleItemDecoder.Self) (fuel : nat) (decodeFun : DecodeFun)
    (options : Options) (substrateFun : option SubstrateFun) (s s2 : Substrate)
    (tagOctet : byte) (rest : list byte) (length : Z) (d : PayloadDecoder) :
  remaining s = tagOctet :: rest ->
  Z.land (ord tagOctet) 0x1F <> 0x1F ->
  decodeLength (SingleItemDecoder.supportIndefLength self) (seek_cur 1 s)
  = Yield length s2 ->
  let tagSet := {| baseTag := None; superTags := [shortTag tagOctet] |} in
  lookupTagMap (SingleItemDecoder._tagMap self) tagSet = Some d ->
  SingleItemDecoder.turn self fuel decodeFun options
    (SingleItemDecoder.mkMachine stDecodeTag None None None None substrateFun noValue) s
  = bind
      (SingleItemDecoder.decodeValue (valueDecoderOf fuel d) (indefLenValueDecoderOf fuel d)
         decodeFun None tagSet length substrateFun options)
      (fun value =>
         ret (Break (SingleItemDecoder.mkMachine stStop None (Some tagSet)
                       (Some length) (Some d) substrateFun value)))
      s2.
Proof.
  intros Hrem Htag Hlen tagSet Hlookup.
  unfold SingleItemDecoder.turn.
  state_taken. unfold bind at 1. unfold bind at 1.
  rewrite (decodeTag_short fuel s tagOctet _ Hrem Htag). fold tagSet. unfold ret at 1.
  state_taken. unfold bind at 1. unfold bind at 1.
  rewrite Hlen. unfold ret at 1.
  state_taken. unfold bind at 1. unfold ret at 1.
  unfold SingleItemDecoder.setState. machine_fields.
  state_taken. unfold bind at 1. unfold SingleItemDecoder.getValueDecoderByTag.
  machine_fields. unfold bind at 1. unfold ret at 1. rewrite Hlookup. unfold ret at 1.
  unfold SingleItemDecoder.setDecoder. machine_fields.
  state_skipped. unfold bind at 1. unfold ret at 1. machine_fields.
  rewrite bool_decide_eq_true_2 by reflexivity.
  unfold bind at 1. unfold ret at 1.
  unfold bind at 1. unfold ret at 1.
  unfold bind at 1. unfold ret at 1.
  reflexivity.
Qed.

(** The decoder called at a short tag that the tag map knows: the payload
    decoder of the tag runs right after the header. *)
Lemma call_by_tag (self : SingleItemDecoder.Self) (fuel : nat)
    (options : Options) (substrateFun : option SubstrateFun) (s s2 : Substrate)
    (tagOctet : byte) (rest : list byte) (length : Z) (d : PayloadDecoder) :
  remaining s = tagOctet :: rest ->
  Z.land (ord tagOctet) 0x1F <> 0x1F ->
  decodeLength (SingleItemDecoder.supportIndefLength self)
    (seek_cur 1 (setMarkedPosition s)) = Yield length s2 ->
  allowEoo options = false ->
  let tagSet := {| baseTag := None; superTags := [shortTag tagOctet] |} in
  lookupTagMap (SingleItemDecoder._tagMap self) tagSet = Some d ->
  SingleItemDecoder.__call__ self (S fuel) None None None stDecodeTag substrateFun options s
  = SingleItemDecoder.decodeValue (valueDecoderOf fuel d) (indefLenValueDecoderOf fuel d)
      (SingleItemDecoder.__call__ self fuel) None tagSet length
      substrateFun (withAllowEoo false options) s2.
Proof.
  intros Hrem Htag Hlen Heoo tagSet Hlookup.
  cbn [SingleItemDecoder.__call__]. rewrite Heoo. cbn [andb].
  unfold bind at 1. unfold ret at 1. unfold bind at 1. unfold modify at 1.
  unfold bind at 1. cbn [while].
  unfold bind at 1. unfold ret at 1.
  cbn [SingleItemDecoder.m_state]. rewrite bool_decide_eq_false_2 by discriminate.
  cbn [negb]. unfold bind at 1.
  rewrite (turn_by_tag self fuel _ _ substrateFun (setMarkedPosition s) s2 tagOctet
             rest length d); auto.
  fold tagSet. unfold bind.
  destruct (SingleItemDecoder.decodeValue _ _ _ _ _ _ _ _ _); reflexivity.
Qed.

(** The decoder called where end-of-octets is allowed, at the sentinel. *)
Lemma call_at_sentinel (self : SingleItemDecoder.Self) (fuel : nat)
    (asn1Spec : option Asn1Spec) (tagSet : option TagSet) (length : option Z)
    (state : State) (substrateFun : option SubstrateFun) (options : Options)
    (s : Substrate) (rest : list byte) :
  remaining s = x00 :: x00 :: rest ->
  allowEoo options = true ->
  SingleItemDecoder.supportIndefLength self = true ->
  SingleItemDecoder.__call__ self (S fuel) asn1Spec tagSet length state substrateFun
    options s
  = Yield endOfOctets (seek_cur 2 s).
Proof.
  intros Hrem Heoo Hindef.
  cbn [SingleItemDecoder.__call__]. rewrite Heoo, Hindef. cbn [andb].
  unfold bind at 1. unfold bind at 1.
  pose proof (readFromStream_app s [x00; x00] rest Hrem) as Hread.
  change (len [x00; x00]) with 2 in Hread. rewrite Hread. reflexivity.
Qed.

(** ** C9: a constructed value without content, decoded without a schema *)

Lemma schemaless_zero_length (protoRecordComponent protoSequenceComponent : Asn1Class)
    (fuel : nat) (tagSet : TagSet) (decodeFun : DecodeFun) (options : Options)
    (s : Substrate) :
  ConstructedPayloadDecoderBase._decodeComponentsSchemaless protoRecordComponent
    protoSequenceComponent (S fuel) tagSet decodeFun 0 options s
  = Yield PyNone s.
Proof.
  unfold ConstructedPayloadDecoderBase._decodeComponentsSchemaless.
  unfold bind at 1, getTell at 1. cbn [while Z.eqb].
  unfold bind at 1. unfold bind at 1. unfold bind at 1, getTell at 1. unfold ret at 1.
  replace (tell s <? tell s + 0) with false by lia. unfold ret at 1.
  reflexivity.
Qed.

Lemma schemaless_at_sentinel (protoRecordComponent protoSequenceComponent : Asn1Class)
    (self : SingleItemDecoder.Self) (fuel : nat) (tagSet : TagSet) (options : Options)
    (s : Substrate) (rest : list byte) :
  remaining s = x00 :: x00 :: rest ->
  SingleItemDecoder.supportIndefLength self = true ->
  ConstructedPayloadDecoderBase._decodeComponentsSchemaless protoRecordComponent
    protoSequenceComponent (S fuel) tagSet (SingleItemDecoder.__call__ self (S fuel))
    (-1) (withAllowEoo true options) s
  = Yield PyNone (seek_cur 2 s).
Proof.
  intros Hrem Hindef.
  unfold ConstructedPayloadDecoderBase._decodeComponentsSchemaless.
  unfold bind at 1, getTell at 1. cbn [while Z.eqb Pos.eqb].
  unfold bind at 1. unfold bind at 1. unfold ret at 1. unfold bind at 1. unfold bind at 1.
  rewrite (call_at_sentinel self fuel None None None stDecodeTag None
             (withAllowEoo true options) s rest Hrem eq_refl Hindef).
  reflexivity.
Qed.

Lemma constructed_schemaless (indef : bool) (protoComponent : option Asn1Class)
    (protoRecordComponent protoSequenceComponent : Asn1Class) (fuel : nat)
    (tagSet : TagSet) (tag0 : Tag) (others : list Tag) (length : Z) (state : State)
    (decodeFun : DecodeFun) (options : Options) (s : Substrate) :
  superTags tagSet = tag0 :: others ->
  tagFormat tag0 = tagFormatConstructed ->
  (if indef
   then ConstructedPayloadDecoderBase.indefLenValueDecoder protoComponent
          protoRecordComponent protoSequenceComponent fuel None tagSet length state
          decodeFun None options s
   else ConstructedPayloadDecoderBase.valueDecoder protoComponent
          protoRecordComponent protoSequenceComponent fuel None tagSet length state
          decodeFun None options s)
  = ConstructedPayloadDecoderBase._decodeComponentsSchemaless protoRecordComponent
      protoSequenceComponent fuel tagSet decodeFun length
      (if indef then withAllowEoo true options else options) s.
Proof.
  intros Htags Hformat. destruct indef.
  - unfold ConstructedPayloadDecoderBase.indefLenValueDecoder.
    rewrite (bind_Yield _ _ _ _ _ (TagSet_head_Yield _ _ _ s Htags)).
    rewrite Hformat, Z.eqb_refl. reflexivity.
  - unfold ConstructedPayloadDecoderBase.valueDecoder.
    rewrite (bind_Yield _ _ _ _ _ (TagSet_head_Yield _ _ _ s Htags)).
    rewrite Hformat, Z.eqb_refl. reflexivity.
Qed.

Ltac header_read :=
  first [ eapply (decodeLength_short true _ x00); [reflexivity | vm_compute; reflexivity]
        | eapply decodeLength_indefinite; reflexivity ].

Ltac by_tag fuel tagOctet :=
  erewrite (call_by_tag SingleItemDecoder.ber fuel defaultOptions None _ _ tagOctet);
    [| reflexivity | vm_compute; discriminate | header_read | reflexivity
     | vm_compute; reflexivity ].

(** The payload decoder the tag map gives for the tags 30 and 31. *)
Lemma decodeValue_empty_definite (d : PayloadDecoder) (fuel : nat) (tagSet : TagSet)
    (tag0 : Tag) (others : list Tag) (decodeFun : DecodeFun) (s : Substrate) :
  d = sequenceOrSequenceOfPayloadDecoder \/ d = setOrSetOfPayloadDecoder ->
  superTags tagSet = tag0 :: others ->
  tagFormat tag0 = tagFormatConstructed ->
  SingleItemDecoder.decodeValue (valueDecoderOf (S fuel) d)
    (indefLenValueDecoderOf (S fuel) d) decodeFun None tagSet 0 None
    (withAllowEoo false defaultOptions) s
  = Yield PyNone s.
Proof.
  intros Hd Htags Hformat. unfold SingleItemDecoder.decodeValue. cbv zeta.
  cbn [recursiveFlag defaultOptions withAllowEoo negb Z.eqb].
  unfold bind at 1, getTell at 1. unfold bind at 1.
  destruct Hd as [-> | ->]; cbn [valueDecoderOf];
    rewrite (constructed_schemaless false _ _ _ _ _ _ _ _ _ _ _ _ Htags Hformat);
    rewrite schemaless_zero_length; unfold bind, getTell, ret;
    replace (tell s - tell s =? 0) with true by lia; reflexivity.
Qed.

Lemma decodeValue_empty_indefinite (d : PayloadDecoder) (fuel : nat) (tagSet : TagSet)
    (tag0 : Tag) (others : list Tag) (s : Substrate) (rest : list byte) :
  d = sequenceOrSequenceOfPayloadDecoder \/ d = setOrSetOfPayloadDecoder ->
  superTags tagSet = tag0 :: others ->
  tagFormat tag0 = tagFormatConstructed ->
  remaining s = x00 :: x00 :: rest ->
  SingleItemDecoder.decodeValue (valueDecoderOf (S fuel) d)
    (indefLenValueDecoderOf (S fuel) d)
    (SingleItemDecoder.__call__ SingleItemDecoder.ber (S fuel)) None tagSet (-1) None
    (withAllowEoo false defaultOptions) s
  = Yield PyNone (seek_cur 2 s).
Proof.
  intros Hd Htags Hformat Hrem. unfold SingleItemDecoder.decodeValue. cbv zeta.
  cbn [recursiveFlag defaultOptions withAllowEoo negb Z.eqb Pos.eqb].
  unfold bind at 1, getTell at 1.
  destruct Hd as [-> | ->]; cbn [indefLenValueDecoderOf];
    rewrite (constructed_schemaless true _ _ _ _ _ _ _ _ _ _ _ _ Htags Hformat);
    apply (schemaless_at_sentinel _ _ SingleItemDecoder.ber fuel tagSet _ s rest Hrem
             eq_refl).
Qed.

(** C9.  Without a spec, a Sequence or Set TLV with no content octets,
    whether of definite length 0 or of indefinite length with the
    end-of-octets sentinel right after the header, decodes to [None], not
    to an empty container; the octets after it are returned as the tail. *)
Theorem C9_schemaless_empty_constructed (fuel : nat) (tagOctet : byte) (tail : list byte) :
  tagOctet = x30 \/ tagOctet = x31 ->
  decode (S (S fuel)) (tagOctet :: x00 :: tail) None defaultOptions
  = Decoder.Return PyNone tail /\
  decode (S (S fuel)) (tagOctet :: x80 :: x00 :: x00 :: tail) None defaultOptions
  = Decoder.Return PyNone tail.
Proof.
  intros Htag. split.
  - unfold decode. rewrite call_first_item.
    destruct Htag as [-> | ->].
    + by_tag (S fuel) x30.
      erewrite decodeValue_empty_definite; [reflexivity | left | |]; reflexivity.
    + by_tag (S fuel) x31.
      erewrite decodeValue_empty_definite; [reflexivity | right | |]; reflexivity.
  - unfold decode. rewrite call_first_item.
    destruct Htag as [-> | ->].
    + by_tag (S fuel) x30.
      erewrite decodeValue_empty_indefinite; [reflexivity | left | | |]; reflexivity.
    + by_tag (S fuel) x31.
      erewrite decodeValue_empty_indefinite; [reflexivity | right | | |]; reflexivity.
Qed.

Lemma C9_schemaless_empty_constructed_witness :
  (x30 = x30 \/ x30 = x31) /\
  decode 2 [x30; x00] None defaultOptions = Decoder.Return PyNone [] /\
  decode 2 [x30; x80; x00; x00] None defaultOptions = Decoder.Return PyNone [].
Proof.
  split; [left; reflexivity |].
  apply (C9_schemaless_empty_constructed 0 x30 []). left. reflexivity.
Defined.

(** ** The octets of the substrate are kept *)

Lemma keeps_refl (s : Substrate) : keeps s s.
Proof. split; auto. Qed.

Lemma keeps_trans (s1 s2 s3 : Substrate) : keeps s1 s2 -> keeps s2 s3 -> keeps s1 s3.
Proof. intros [H1 B1] [H2 B2]. split; [congruence | auto]. Qed.

Lemma keeps_seek_set (pos : Z) (s : Substrate) :
  (Z.to_nat pos <= length (data s))%nat -> keeps s (seek_set pos s).
Proof. intros H. split; [reflexivity |]. intros [_ Hm]. split; assumption. Qed.

Lemma keeps_seek_back (off : Z) (s : Substrate) : off <= 0 -> keeps s (seek_cur off s).
Proof.
  intros H. split; [reflexivity |]. intros [Hp Hm]. split; [| exact Hm].
  unfold seek_cur, seek_set, tell. cbn [position data]. lia.
Qed.

Lemma keeps_setMarkedPosition (s : Substrate) : keeps s (setMarkedPosition s).
Proof. split; [reflexivity |]. intros [Hp _]. split; exact Hp. Qed.

Lemma keepsData_ret {A : Type} (a : A) : keepsData (ret a).
Proof. intros s a' s' H. unfold ret in H. injection H as _ <-. apply keeps_refl. Qed.

Lemma keepsData_raise {A : Type} (e : Error) : keepsData (@raise A e).
Proof. intros s a s' H. discriminate. Qed.

Lemma keepsData_outOfFuel {A : Type} : keepsData (@outOfFuel A).
Proof. intros s a s' H. discriminate. Qed.

Lemma keepsData_bind {A B : Type} (m : Gen A) (k : A -> Gen B) :
  keepsData m -> (forall a, keepsData (k a)) -> keepsData (bind m k).
Proof.
  intros Hm Hk s b s' H. apply bind_Yield_inv in H as (a & s1 & H1 & H2).
  exact (keeps_trans _ _ _ (Hm _ _ _ H1) (Hk a _ _ _ H2)).
Qed.

Lemma keepsData_bind_results {A B : Type} (Q : A -> Prop) (m : Gen A) (k : A -> Gen B) :
  keepsData m -> results Q m -> (forall a, Q a -> keepsData (k a)) -> keepsData (bind m k).
Proof.
  intros Hm HQ Hk s b s' H. apply bind_Yield_inv in H as (a & s1 & H1 & H2).
  exact (keeps_trans _ _ _ (Hm _ _ _ H1) (Hk a (HQ _ _ _ H1) _ _ _ H2)).
Qed.

Lemma keepsData_getTell : keepsData getTell.
Proof. intros s a s' H. unfold getTell in H. injection H as _ <-. apply keeps_refl. Qed.

Lemma keepsData_modify (f : Substrate -> Substrate) :
  (forall s, keeps s (f s)) -> keepsData (modify f).
Proof. intros Hf s a s' H. unfold modify in H. injection H as _ <-. apply Hf. Qed.

Lemma keepsData_readFromStream (size : Z) : keepsData (readFromStream size).
Proof.
  intros s a s' H. unfold readFromStream in H.
  assert (Hrem : inBounds s ->
                 (position s + length (remaining s) = length (data s))%nat).
  { intros [Hp _]. unfold remaining. rewrite length_skipn. lia. }
  destruct (size <? 0) eqn:Hsize.
  - destruct (remaining s) as [| b r] eqn:E; [discriminate |]. injection H as _ <-.
    split; [reflexivity |]. intros Hb. specialize (Hrem Hb). destruct Hb as [Hp Hm].
    split; [| exact Hm].
    unfold seek_cur, seek_set, tell, len. cbn [position data]. lia.
  - destruct (size <=? len (remaining s)) eqn:Hle; [| discriminate].
    injection H as _ <-.
    split; [reflexivity |]. intros Hb. specialize (Hrem Hb). destruct Hb as [Hp Hm].
    split; [| exact Hm].
    unfold seek_cur, seek_set, tell, len in *. cbn [position data]. lia.
Qed.

Lemma keepsData_isEndOfStream : keepsData isEndOfStream.
Proof.
  intros s a s' H. unfold isEndOfStream in H. injection H as _ <-. apply keeps_refl.
Qed.

Lemma keepsData_ordOctet (chunk : list byte) : keepsData (ordOctet chunk).
Proof.
  unfold ordOctet. destruct chunk as [| b [| ]];
    auto using @keepsData_ret, @keepsData_raise.
Qed.

Lemma keepsData_liftE {A : Type} (r : Error + A) : keepsData (liftE r).
Proof. destruct r; [apply keepsData_raise | apply keepsData_ret]. Qed.

Lemma keepsData_while {St : Type} (cond : St -> Gen bool) (body : St -> Gen (LoopStep St)) :
  (forall st, keepsData (cond st)) -> (forall st, keepsData (body st)) ->
  forall fuel st, keepsData (while fuel cond body st).
Proof.
  intros Hcond Hbody. induction fuel as [| fuel IH]; intros st.
  - apply keepsData_outOfFuel.
  - cbn [while]. apply keepsData_bind; [apply Hcond |]. intros [].
    + apply keepsData_bind; [apply Hbody |]. intros []; [apply IH | apply keepsData_ret].
    + apply keepsData_ret.
Qed.

Lemma keepsData_while_invariant {St : Type} (P : St -> Prop) (cond : St -> Gen bool)
    (body : St -> Gen (LoopStep St)) :
  (forall st, keepsData (cond st)) ->
  (forall st, P st -> keepsData (body st)) ->
  (forall st, P st -> results (fun step => P (stepState step)) (body st)) ->
  forall fuel st, P st -> keepsData (while fuel cond body st).
Proof.
  intros Hcond Hbody Hinv. induction fuel as [| fuel IH]; intros st HP.
  - apply keepsData_outOfFuel.
  - cbn [while]. apply keepsData_bind; [apply Hcond |]. intros [|]; [| apply keepsData_ret].
    intros s st' s' Hrun. apply bind_Yield_inv in Hrun as (step & s1 & Hstep & Hrun).
    apply (keeps_trans _ _ _ (Hbody st HP _ _ _ Hstep)).
    pose proof (Hinv st HP _ _ _ Hstep) as HP'.
    destruct step as [st1 | st1]; cbn in HP'.
    + apply (IH st1 HP' _ _ _ Hrun).
    + apply (keepsData_ret _ _ _ _ Hrun).
Qed.

Lemma keepsData_forEach {A St : Type} (body : A -> St -> Gen St) :
  (forall x st, keepsData (body x st)) ->
  forall l st, keepsData (forEach l body st).
Proof.
  intros Hbody. induction l as [| x l IH]; intros st.
  - apply keepsData_ret.
  - cbn [forEach]. apply keepsData_bind; [apply Hbody | apply IH].
Qed.

Lemma keepsData_onStream {A : Type} (octets : list byte) (g : Gen A) :
  keepsData (onStream octets g).
Proof.
  intros s a s' H. unfold onStream in H.
  destruct (g (asSeekableStream octets)); try discriminate.
  injection H as _ <-. apply keeps_refl.
Qed.

Lemma keepsData_exceptIndexError {A : Type} (g : Gen A) (e : Error) :
  keepsData g -> keepsData (exceptIndexError g e).
Proof.
  intros Hg s a s' H. unfold exceptIndexError in H.
  destruct (g s) as [a0 s0 | | e0 |] eqn:E; try discriminate.
  - injection H as <- <-. apply (Hg _ _ _ E).
  - destruct e0; try discriminate. destruct (String.eqb _ _); discriminate.
Qed.

Create HintDb keeps discriminated.

#[export] Hint Resolve keepsData_ret keepsData_raise keepsData_outOfFuel keepsData_getTell
  keepsData_readFromStream keepsData_isEndOfStream keepsData_ordOctet keepsData_liftE
  keepsData_onStream : keeps.

(** One step through the syntax of a generator. *)
Ltac keeps_step :=
  match goal with
  | |- keepsData (bind _ _) => apply keepsData_bind; [| intros ?]
  | |- keepsData (while _ _ _ _) => apply keepsData_while; intros ?
  | |- keepsData (whileTrue _ _ _) => unfold whileTrue; apply keepsData_while; intros ?
  | |- keepsData (forEach _ _ _) => apply keepsData_forEach; intros ? ?
  | |- keepsData (exceptIndexError _ _) => apply keepsData_exceptIndexError
  | |- keepsData (modify (seek_cur _)) =>
      apply keepsData_modify; intros ?; apply keeps_seek_back; lia
  | |- keepsData (modify setMarkedPosition) =>
      apply keepsData_modify; exact keeps_setMarkedPosition
  | |- keepsData (if ?c then _ else _) => destruct c
  | |- keepsData (match ?x with _ => _ end) => destruct x
  | |- keepsData (let '(_, _) := ?p in _) => destruct p
  | |- keepsData ((let '(_, _) := ?p in _) _) => destruct p
  | |- keepsData _ => solve [auto with keeps]
  end.

Ltac keeps := repeat keeps_step.

Lemma keepsData_createComponent (proto : Asn1Class) (asn1Spec : option Asn1Spec)
    (tagSet : TagSet) (value : PyValue) (options : Options) :
  keepsData (AbstractSimplePayloadDecoder._createComponent proto asn1Spec tagSet value
               options).
Proof. unfold AbstractSimplePayloadDecoder._createComponent, spec_clone. keeps. Qed.

Lemma keepsData_callSubstrateFun (f : SubstrateFun) (asn1Object : Value) (length : Z)
    (options : Options) :
  ownHook (Some f) -> keepsData (callSubstrateFun f asn1Object length options).
Proof.
  intros H. destruct f; cbn in H; [| | contradiction]; unfold callSubstrateFun; keeps.
Qed.

Lemma keepsData_TagSet_head (tagSet : TagSet) : keepsData (TagSet_head tagSet).
Proof. unfold TagSet_head. keeps. Qed.

Lemma keepsData_asOctets (v : Value) : keepsData (asOctets v).
Proof. unfold asOctets. keeps. Qed.

Lemma keepsData_setComponentByPosition (idx : Z) (value asn1Object : Value) :
  keepsData (setComponentByPosition idx value asn1Object).
Proof. unfold setComponentByPosition. keeps. Qed.

Lemma keepsData_getComponentByPosition (idx : Z) (asn1Object : Value) :
  keepsData (getComponentByPosition idx asn1Object).
Proof. unfold getComponentByPosition. keeps. Qed.

#[export] Hint Resolve keepsData_createComponent keepsData_TagSet_head keepsData_asOctets
  keepsData_setComponentByPosition keepsData_getComponentByPosition : keeps.

Lemma keepsData_nt_getitem (n : NamedTypes) (idx : Z) : keepsData (nt_getitem n idx).
Proof. unfold nt_getitem. keeps. Qed.

Lemma keepsData_value_typeId (v : Value) : keepsData (value_typeId v).
Proof. unfold value_typeId. keeps. Qed.

Lemma keepsData_value_asOctets (v : Value) : keepsData (value_asOctets v).
Proof. unfold value_asOctets. keeps. Qed.

Lemma keepsData_getComponentByName (n : NamedTypes) (name : string) (v : Value) :
  keepsData (getComponentByName n name v).
Proof. unfold getComponentByName. keeps. Qed.

Lemma keepsData_spec_typeId (a : Asn1Spec) : keepsData (spec_typeId a).
Proof. unfold spec_typeId. keeps. Qed.

Lemma keepsData_spec_tagSet (a : Asn1Spec) : keepsData (spec_tagSet a).
Proof. unfold spec_tagSet. keeps. Qed.

Lemma keepsData_spec_componentType (a : Asn1Spec) : keepsData (spec_componentType a).
Proof. unfold spec_componentType. keeps. Qed.

Lemma keepsData_spec_cloneEmpty (a : Asn1Spec) : keepsData (spec_cloneEmpty a).
Proof. unfold spec_cloneEmpty. keeps. Qed.

#[export] Hint Resolve keepsData_nt_getitem keepsData_value_typeId
  keepsData_value_asOctets keepsData_getComponentByName keepsData_spec_typeId
  keepsData_spec_tagSet keepsData_spec_componentType keepsData_spec_cloneEmpty : keeps.

(** A payload decoder: its own syntax, the [decodeFun] it was handed and
    the [substrateFun] it calls. *)
Ltac keeps_decoder_step :=
  first
    [ keeps_step
    | match goal with
      | H : keepsDataFun ?f |- keepsData (?f _ _ _ _ _ _) => apply H; exact I
      end
    | apply keepsData_callSubstrateFun; assumption ].

Ltac keeps_decoder := repeat keeps_decoder_step.

Lemma keepsData_simple :
  keepsDataDecoder RawPayloadDecoder.valueDecoder /\
  keepsDataDecoder
    (IntegerPayloadDecoder.valueDecoder IntegerPayloadDecoder._createComponent) /\
  keepsDataDecoder BooleanPayloadDecoder.valueDecoder /\
  keepsDataDecoder NullPayloadDecoder.valueDecoder /\
  keepsDataDecoder ObjectIdentifierPayloadDecoder.valueDecoder /\
  keepsDataDecoder RealPayloadDecoder.valueDecoder /\
  keepsDataDecoder AbstractPayloadDecoder_indefLenValueDecoder.
Proof.
  repeat apply conj;
    intros decodeFun asn1Spec tagSet length state substrateFun options Hfun Hown;
    unfold RawPayloadDecoder.valueDecoder, RawPayloadDecoder._createComponent,
      BooleanPayloadDecoder.valueDecoder, IntegerPayloadDecoder.valueDecoder,
      IntegerPayloadDecoder._createComponent, BooleanPayloadDecoder._createComponent,
      NullPayloadDecoder.valueDecoder, NullPayloadDecoder._createComponent,
      ObjectIdentifierPayloadDecoder.valueDecoder,
      ObjectIdentifierPayloadDecoder._createComponent,
      RealPayloadDecoder.valueDecoder, RealPayloadDecoder._createComponent,
      AbstractPayloadDecoder_indefLenValueDecoder;
    keeps_decoder.
Qed.

Lemma keepsData_strings (fuel : nat) (proto : Asn1Class) :
  keepsDataDecoder (RawPayloadDecoder.indefLenValueDecoder fuel) /\
  keepsDataDecoder (BitStringPayloadDecoder.valueDecoder true fuel) /\
  keepsDataDecoder (BitStringPayloadDecoder.indefLenValueDecoder fuel) /\
  keepsDataDecoder (OctetStringPayloadDecoder.valueDecoder proto true fuel) /\
  keepsDataDecoder (OctetStringPayloadDecoder.indefLenValueDecoder proto fuel).
Proof.
  repeat apply conj;
    intros decodeFun asn1Spec tagSet length state substrateFun options Hfun Hown;
    unfold RawPayloadDecoder.indefLenValueDecoder, RawPayloadDecoder._createComponent,
      BitStringPayloadDecoder.valueDecoder, BitStringPayloadDecoder.indefLenValueDecoder,
      BitStringPayloadDecoder._createComponent, BitStringPayloadDecoder.appendFragment,
      OctetStringPayloadDecoder.valueDecoder, OctetStringPayloadDecoder.indefLenValueDecoder,
      OctetStringPayloadDecoder.collectFragments, OctetStringPayloadDecoder._createComponent;
    keeps_decoder.
Qed.

Lemma keepsData_constructed (protoComponent : option Asn1Class)
    (protoRecordComponent protoSequenceComponent : Asn1Class) (fuel : nat) :
  keepsDataDecoder (ConstructedPayloadDecoderBase.valueDecoder protoComponent
                      protoRecordComponent protoSequenceComponent fuel) /\
  keepsDataDecoder (ConstructedPayloadDecoderBase.indefLenValueDecoder protoComponent
                      protoRecordComponent protoSequenceComponent fuel).
Proof.
  repeat apply conj;
    intros decodeFun asn1Spec tagSet length state substrateFun options Hfun Hown;
    unfold ConstructedPayloadDecoderBase.valueDecoder,
      ConstructedPayloadDecoderBase.indefLenValueDecoder,
      ConstructedPayloadDecoderBase._decodeComponentsSchemaless,
      ConstructedPayloadDecoderBase.guessContainer,
      ConstructedPayloadDecoderBase.hookObject,
      ConstructedPayloadDecoderBase.decodeRecordComponents,
      ConstructedPayloadDecoderBase.decodeRecordComponentsIndef,
      ConstructedPayloadDecoderBase.componentSchema,
      ConstructedPayloadDecoderBase.storeComponent,
      ConstructedPayloadDecoderBase.finishRecord,
      ConstructedPayloadDecoderBase.resolveOpenTypes,
      ConstructedPayloadDecoderBase.spec_namedTypes,
      ConstructedPayloadDecoderBase.spec_elementType;
    keeps_decoder.
Qed.

Lemma keepsData_choice_any (fuel : nat) :
  keepsDataDecoder ChoicePayloadDecoder.valueDecoder /\
  keepsDataDecoder (ChoicePayloadDecoder.indefLenValueDecoder fuel) /\
  keepsDataDecoder AnyPayloadDecoder.valueDecoder /\
  keepsDataDecoder (AnyPayloadDecoder.indefLenValueDecoder fuel).
Proof.
  assert (Hback : forall s, keeps s (seek_set (Z.of_nat (markedPosition s)) s)).
  { intros s. split; [reflexivity |]. intros [_ Hm]. split; [| exact Hm].
    unfold seek_set. cbn [position data]. lia. }
  assert (Hmark : forall length : Z,
            keepsData (fun s => Yield (length + (tell s - Z.of_nat (markedPosition s)))
                                  (seek_set (Z.of_nat (markedPosition s)) s))).
  { intros length s a s' H. injection H as _ <-. apply Hback. }
  assert (Hheader : keepsData
            (let* fullPosition := (fun s => Yield (Z.of_nat (markedPosition s)) s) in
             let* currentPosition := getTell in
             let* _ := modify (seek_set fullPosition) in
             readFromStream (currentPosition - fullPosition))).
  { intros s a s' H. unfold bind, getTell, modify in H.
    exact (keeps_trans _ _ _ (Hback s) (keepsData_readFromStream _ _ _ _ H)). }
  repeat apply conj;
    intros decodeFun asn1Spec tagSet length state substrateFun options Hfun Hown;
    unfold ChoicePayloadDecoder.valueDecoder, ChoicePayloadDecoder.indefLenValueDecoder,
      ChoicePayloadDecoder.cloneObject, ChoicePayloadDecoder.choiceNamedTypes,
      ChoicePayloadDecoder.setComponentByType,
      ConstructedPayloadDecoderBase.spec_namedTypes,
      AnyPayloadDecoder.valueDecoder, AnyPayloadDecoder.indefLenValueDecoder,
      AnyPayloadDecoder._createComponent;
    repeat first [ exact (Hmark _) | exact Hheader | keeps_decoder_step ].
Qed.

Lemma keepsData_dispatch (fuel : nat) (d : PayloadDecoder) :
  keepsDataDecoder (valueDecoderOf fuel d) /\
  keepsDataDecoder (indefLenValueDecoderOf fuel d).
Proof.
  pose proof keepsData_simple as (? & ? & ? & ? & ? & ? & ?).
  pose proof (keepsData_choice_any fuel) as (? & ? & ? & ?).
  destruct d; cbn [valueDecoderOf indefLenValueDecoderOf];
    try (destruct (keepsData_strings fuel univ_Any) as (? & ? & ? & ? & ?));
    split; auto; try apply keepsData_constructed.
  - apply (keepsData_strings fuel proto).
  - apply (keepsData_strings fuel proto).
Qed.

Lemma results_bind {A B : Type} (Q : A -> Prop) (R : B -> Prop) (m : Gen A)
    (k : A -> Gen B) :
  results Q m -> (forall a, Q a -> results R (k a)) -> results R (bind m k).
Proof.
  intros Hm Hk s b s' H. apply bind_Yield_inv in H as (a & s1 & H1 & H2).
  exact (Hk a (Hm _ _ _ H1) _ _ _ H2).
Qed.

Lemma results_any {A : Type} (g : Gen A) : results (fun _ => True) g.
Proof. intros s a s' _. exact I. Qed.

Lemma results_ret {A : Type} (Q : A -> Prop) (a : A) : Q a -> results Q (ret a).
Proof. intros H s a' s' E. unfold ret in E. injection E as <- _. exact H. Qed.

Lemma results_raise {A : Type} (Q : A -> Prop) (e : Error) : results Q (raise e).
Proof. intros s a s' E. discriminate. Qed.

(** The states of the single-item decoder pass the hook [f] on. *)
Ltac results_step f :=
  match goal with
  | |- results _ (bind (SingleItemDecoder.when _ _ _) _) =>
      apply (results_bind (sameHook f)); [unfold SingleItemDecoder.when | intros ? ?]
  | |- results _ (bind _ _) =>
      apply (results_bind (fun _ => True)); [apply results_any | intros ? _]
  | |- results _ (ret _) => apply results_ret; cbn; assumption
  | |- results _ (raise _) => apply results_raise
  | |- results _ (if ?c then _ else _) => destruct c
  | |- results _ (match ?x with _ => _ end) => destruct x
  end.

Ltac unfold_states :=
  unfold SingleItemDecoder.turn, sameHook;
  unfold SingleItemDecoder.getValueDecoderByTag, SingleItemDecoder.getValueDecoderByAsn1Spec,
    SingleItemDecoder.tryAsExplicitTag, SingleItemDecoder.need,
    SingleItemDecoder.setDecoder, SingleItemDecoder.setState.

Lemma turn_sameHook (self : SingleItemDecoder.Self) (fuel : nat) (decodeFun : DecodeFun)
    (options : Options) (f : option SubstrateFun) (m : SingleItemDecoder.Machine) :
  sameHook f m ->
  results (fun step => sameHook f (stepState step))
    (SingleItemDecoder.turn self fuel decodeFun options m).
Proof.
  revert m. unfold_states. intros m Hm. repeat results_step f.
Qed.

Lemma keepsData_decodeTag (fuel : nat) (tagSet : option TagSet) :
  keepsData (SingleItemDecoder.decodeTag fuel tagSet).
Proof. unfold SingleItemDecoder.decodeTag. keeps. Qed.

Lemma keepsData_decodeLength (supportIndefLength : bool) :
  keepsData (decodeLength supportIndefLength).
Proof. unfold decodeLength. keeps. Qed.

#[export] Hint Resolve keepsData_decodeTag keepsData_decodeLength : keeps.

Lemma keepsData_decodeValue (fuel : nat) (d : PayloadDecoder) (decodeFun : DecodeFun)
    (asn1Spec : option Asn1Spec) (tagSet : TagSet) (length : Z)
    (substrateFun : option SubstrateFun) (options : Options) :
  keepsDataFun decodeFun -> ownHook substrateFun ->
  keepsData (SingleItemDecoder.decodeValue (valueDecoderOf fuel d)
               (indefLenValueDecoderOf fuel d) decodeFun asn1Spec tagSet length
               substrateFun options).
Proof.
  intros Hfun Hown. unfold SingleItemDecoder.decodeValue. cbv zeta.
  fold (effectiveSubstrateFun substrateFun options).
  assert (Hown' : ownHook (effectiveSubstrateFun substrateFun options)).
  { unfold effectiveSubstrateFun. destruct substrateFun; [exact Hown |].
    destruct (negb _); exact I. }
  destruct (keepsData_dispatch fuel d) as [Hdef Hindef].
  apply keepsData_bind; [apply keepsData_getTell | intros original_position].
  destruct (length =? -1); [apply Hindef; assumption |].
  apply keepsData_bind; [apply Hdef; assumption | intros value]. keeps.
Qed.

Ltac keeps_state f m Hm :=
  repeat match goal with
         | |- keepsData (bind (SingleItemDecoder.when _ _ _) _) =>
             apply (keepsData_bind_results (sameHook f));
               [ unfold SingleItemDecoder.when; keeps
               | unfold SingleItemDecoder.when, sameHook; repeat results_step f
               | unfold sameHook; clear m Hm; intros m Hm ]
         end.

Lemma keepsData_turn (self : SingleItemDecoder.Self) (fuel : nat) (decodeFun : DecodeFun)
    (options : Options) (m : SingleItemDecoder.Machine) :
  keepsDataFun decodeFun -> ownHook (SingleItemDecoder.m_substrateFun m) ->
  keepsData (SingleItemDecoder.turn self fuel decodeFun options m).
Proof.
  intros Hfun Hown.
  set (f := SingleItemDecoder.m_substrateFun m) in Hown.
  assert (Hm : sameHook f m) by reflexivity. clearbody f. revert m Hm.
  unfold_states. intros m Hm.
  keeps_state f m Hm.
  destruct (bool_decide _).
  - repeat (apply keepsData_bind; [solve [keeps] | intros ?]).
    apply keepsData_bind; [| intros ?; keeps].
    apply keepsData_decodeValue; [exact Hfun | rewrite Hm; exact Hown].
  - keeps_state f m Hm. keeps.
Qed.

Lemma keepsData_call (self : SingleItemDecoder.Self) (fuel : nat) :
  keepsDataFun (SingleItemDecoder.__call__ self fuel).
Proof.
  induction fuel as [| fuel IH];
    intros asn1Spec tagSet length state substrateFun options Hown.
  - apply keepsData_outOfFuel.
  - cbn [SingleItemDecoder.__call__]. cbv zeta.
    apply keepsData_bind; [keeps |]. intros [|]; [apply keepsData_ret |].
    apply keepsData_bind; [keeps | intros _].
    apply keepsData_bind; [| intros ?; apply keepsData_ret].
    apply (keepsData_while_invariant (sameHook substrateFun)).
    + intros st. apply keepsData_ret.
    + intros st Hst. apply keepsData_turn; [exact IH | rewrite Hst; exact Hown].
    + intros st Hst. apply turn_sameHook. exact Hst.
    + reflexivity.
Qed.

(** ** A larger counter changes no result *)

Lemma refines_refl {A : Type} (g : Gen A) : refines g g.
Proof. intros s _. reflexivity. Qed.

Lemma refines_outOfFuel {A : Type} (g : Gen A) : refines outOfFuel g.
Proof. intros s H. contradiction H. reflexivity. Qed.

Lemma refines_bind {A B : Type} (m m' : Gen A) (k k' : A -> Gen B) :
  refines m m' -> (forall a, refines (k a) (k' a)) -> refines (bind m k) (bind m' k').
Proof.
  intros Hm Hk s H. unfold bind in *.
  destruct (m s) as [a s1 | | e |] eqn:E.
  - rewrite (Hm s) by (rewrite E; discriminate). rewrite E. apply Hk. exact H.
  - rewrite (Hm s) by (rewrite E; discriminate). rewrite E. reflexivity.
  - rewrite (Hm s) by (rewrite E; discriminate). rewrite E. reflexivity.
  - contradiction H. reflexivity.
Qed.

Lemma refines_while {St : Type} (cond : St -> Gen bool)
    (body body' : St -> Gen (LoopStep St)) :
  (forall st, refines (body st) (body' st)) ->
  forall fuel fuel', (fuel <= fuel')%nat ->
  forall st, refines (while fuel cond body st) (while fuel' cond body' st).
Proof.
  intros Hbody. induction fuel as [| fuel IH]; intros fuel' Hle st.
  - apply refines_outOfFuel.
  - destruct fuel' as [| fuel']; [lia |]. cbn [while].
    apply refines_bind; [apply refines_refl |]. intros [|]; [| apply refines_refl].
    apply refines_bind; [apply Hbody |]. intros [st' | st']; [| apply refines_refl].
    apply IH. lia.
Qed.

Lemma refines_forEach {A St : Type} (body body' : A -> St -> Gen St) :
  (forall x st, refines (body x st) (body' x st)) ->
  forall l st, refines (forEach l body st) (forEach l body' st).
Proof.
  intros Hbody. induction l as [| x l IH]; intros st.
  - apply refines_refl.
  - cbn [forEach]. apply refines_bind; [apply Hbody | apply IH].
Qed.

Lemma refines_onStream {A : Type} (octets : list byte) (g g' : Gen A) :
  refines g g' -> refines (onStream octets g) (onStream octets g').
Proof.
  intros Hg s H. unfold onStream in *.
  destruct (g (asSeekableStream octets)) as [a s1 | | e |] eqn:E;
    try (rewrite (Hg _) by (rewrite E; discriminate); rewrite E; reflexivity).
  contradiction H. reflexivity.
Qed.

Lemma refines_exceptIndexError {A : Type} (g g' : Gen A) (e : Error) :
  refines g g' -> refines (exceptIndexError g e) (exceptIndexError g' e).
Proof.
  intros Hg s H. unfold exceptIndexError in *.
  destruct (g s) as [a s1 | | e0 |] eqn:E;
    try (rewrite (Hg _) by (rewrite E; discriminate); rewrite E; reflexivity).
  contradiction H. reflexivity.
Qed.

Ltac refines_step :=
  match goal with
  | |- refines ?g ?g => apply refines_refl
  | |- refines (bind _ _) (bind _ _) => apply refines_bind; [| intros ?]
  | |- refines (while _ _ _ _) (while _ _ _ _) =>
      apply refines_while; [intros ? | lia]
  | |- refines (whileTrue _ _ _) (whileTrue _ _ _) =>
      unfold whileTrue; apply refines_while; [intros ? | lia]
  | |- refines (forEach _ _ _) (forEach _ _ _) => apply refines_forEach; intros ? ?
  | |- refines (onStream _ _) (onStream _ _) => apply refines_onStream
  | |- refines (exceptIndexError _ _) (exceptIndexError _ _) =>
      apply refines_exceptIndexError
  | H : refinesFun ?f ?f' |- refines (?f _ _ _ _ _ _) (?f' _ _ _ _ _ _) => apply H
  | |- refines (if ?c then _ else _) (if ?c then _ else _) => destruct c
  | |- refines (match ?x with _ => _ end) (match ?x with _ => _ end) => destruct x
  | |- refines ((let '(_, _) := ?p in _) _) ((let '(_, _) := ?p in _) _) => destruct p
  end.

Ltac refines_tac := repeat refines_step.

Lemma refines_constructed (protoComponent : option Asn1Class)
    (protoRecordComponent protoSequenceComponent : Asn1Class) (fuel fuel' : nat) :
  (fuel <= fuel')%nat ->
  refinesDecoder
    (ConstructedPayloadDecoderBase.valueDecoder protoComponent
       protoRecordComponent protoSequenceComponent fuel)
    (ConstructedPayloadDecoderBase.valueDecoder protoComponent
       protoRecordComponent protoSequenceComponent fuel') /\
  refinesDecoder
    (ConstructedPayloadDecoderBase.indefLenValueDecoder protoComponent
       protoRecordComponent protoSequenceComponent fuel)
    (ConstructedPayloadDecoderBase.indefLenValueDecoder protoComponent
       protoRecordComponent protoSequenceComponent fuel').
Proof.
  intros Hle.
  split; intros decodeFun decodeFun' asn1Spec tagSet length state substrateFun options Hfun;
    unfold ConstructedPayloadDecoderBase.valueDecoder,
      ConstructedPayloadDecoderBase.indefLenValueDecoder,
      ConstructedPayloadDecoderBase._decodeComponentsSchemaless,
      ConstructedPayloadDecoderBase.decodeRecordComponents,
      ConstructedPayloadDecoderBase.decodeRecordComponentsIndef,
      ConstructedPayloadDecoderBase.finishRecord,
      ConstructedPayloadDecoderBase.resolveOpenTypes;
    refines_tac.
Qed.

Lemma refines_strings (fuel fuel' : nat) (proto : Asn1Class) :
  (fuel <= fuel')%nat ->
  refinesDecoder (RawPayloadDecoder.indefLenValueDecoder fuel)
                 (RawPayloadDecoder.indefLenValueDecoder fuel') /\
  refinesDecoder (BitStringPayloadDecoder.valueDecoder true fuel)
                 (BitStringPayloadDecoder.valueDecoder true fuel') /\
  refinesDecoder (BitStringPayloadDecoder.indefLenValueDecoder fuel)
                 (BitStringPayloadDecoder.indefLenValueDecoder fuel') /\
  refinesDecoder (OctetStringPayloadDecoder.valueDecoder proto true fuel)
                 (OctetStringPayloadDecoder.valueDecoder proto true fuel') /\
  refinesDecoder (OctetStringPayloadDecoder.indefLenValueDecoder proto fuel)
                 (OctetStringPayloadDecoder.indefLenValueDecoder proto fuel') /\
  refinesDecoder (ChoicePayloadDecoder.indefLenValueDecoder fuel)
                 (ChoicePayloadDecoder.indefLenValueDecoder fuel') /\
  refinesDecoder (AnyPayloadDecoder.indefLenValueDecoder fuel)
                 (AnyPayloadDecoder.indefLenValueDecoder fuel').
Proof.
  intros Hle.
  repeat apply conj;
    intros decodeFun decodeFun' asn1Spec tagSet length state substrateFun options Hfun;
    unfold RawPayloadDecoder.indefLenValueDecoder,
      BitStringPayloadDecoder.valueDecoder, BitStringPayloadDecoder.indefLenValueDecoder,
      OctetStringPayloadDecoder.valueDecoder, OctetStringPayloadDecoder.indefLenValueDecoder,
      OctetStringPayloadDecoder.collectFragments,
      ChoicePayloadDecoder.indefLenValueDecoder, AnyPayloadDecoder.indefLenValueDecoder;
    refines_tac.
Qed.

Lemma refines_fuelless (decoder : ValueDecoder) :
  decoder = RawPayloadDecoder.valueDecoder \/
  decoder = ChoicePayloadDecoder.valueDecoder ->
  refinesDecoder decoder decoder.
Proof.
  intros [-> | ->];
    intros decodeFun decodeFun' asn1Spec tagSet length state substrateFun options Hfun;
    unfold RawPayloadDecoder.valueDecoder, ChoicePayloadDecoder.valueDecoder;
    refines_tac.
Qed.

Lemma refines_dispatch (fuel fuel' : nat) (d : PayloadDecoder) :
  (fuel <= fuel')%nat ->
  refinesDecoder (valueDecoderOf fuel d) (valueDecoderOf fuel' d) /\
  refinesDecoder (indefLenValueDecoderOf fuel d) (indefLenValueDecoderOf fuel' d).
Proof.
  intros Hle.
  assert (Hsame : forall decoder : ValueDecoder,
            (forall a t l st f f' sf o, decoder a t l st f sf o = decoder a t l st f' sf o) ->
            refinesDecoder decoder decoder).
  { intros decoder Heq decodeFun decodeFun' asn1Spec tagSet length state substrateFun
      options _.
    rewrite (Heq _ _ _ _ decodeFun decodeFun'). apply refines_refl. }
  pose proof (refines_strings fuel fuel' univ_Any Hle) as (? & ? & ? & _ & _ & ? & ?).
  destruct d; cbn [valueDecoderOf indefLenValueDecoderOf]; split;
    lazymatch goal with
    | |- refinesDecoder (ConstructedPayloadDecoderBase.valueDecoder _ _ _ _) _ =>
        exact (proj1 (refines_constructed _ _ _ fuel fuel' Hle))
    | |- refinesDecoder (ConstructedPayloadDecoderBase.indefLenValueDecoder _ _ _ _) _ =>
        exact (proj2 (refines_constructed _ _ _ fuel fuel' Hle))
    | |- refinesDecoder (OctetStringPayloadDecoder.valueDecoder ?proto _ _) _ =>
        exact (proj1 (proj2 (proj2 (proj2 (refines_strings fuel fuel' proto Hle)))))
    | |- refinesDecoder (OctetStringPayloadDecoder.indefLenValueDecoder ?proto _) _ =>
        exact (proj1 (proj2 (proj2 (proj2 (proj2
                 (refines_strings fuel fuel' proto Hle))))))
    | |- refinesDecoder RawPayloadDecoder.valueDecoder _ =>
        apply refines_fuelless; left; reflexivity
    | |- refinesDecoder ChoicePayloadDecoder.valueDecoder _ =>
        apply refines_fuelless; right; reflexivity
    | |- refinesDecoder ?decoder ?decoder => apply Hsame; reflexivity
    | |- _ => assumption
    end.
Qed.

Lemma refines_decodeValue (fuel fuel' : nat) (d : PayloadDecoder)
    (decodeFun decodeFun' : DecodeFun) (asn1Spec : option Asn1Spec) (tagSet : TagSet)
    (length : Z) (substrateFun : option SubstrateFun) (options : Options) :
  (fuel <= fuel')%nat -> refinesFun decodeFun decodeFun' ->
  refines
    (SingleItemDecoder.decodeValue (valueDecoderOf fuel d) (indefLenValueDecoderOf fuel d)
       decodeFun asn1Spec tagSet length substrateFun options)
    (SingleItemDecoder.decodeValue (valueDecoderOf fuel' d) (indefLenValueDecoderOf fuel' d)
       decodeFun' asn1Spec tagSet length substrateFun options).
Proof.
  intros Hle Hfun. destruct (refines_dispatch fuel fuel' d Hle) as [Hdef Hindef].
  unfold SingleItemDecoder.decodeValue. cbv zeta.
  apply refines_bind; [apply refines_refl | intros original_position].
  destruct (length =? -1); [apply Hindef; exact Hfun |].
  apply refines_bind; [apply Hdef; exact Hfun | intros value]. apply refines_refl.
Qed.

Lemma refines_turn (self : SingleItemDecoder.Self) (fuel fuel' : nat)
    (decodeFun decodeFun' : DecodeFun) (options : Options)
    (m : SingleItemDecoder.Machine) :
  (fuel <= fuel')%nat -> refinesFun decodeFun decodeFun' ->
  refines (SingleItemDecoder.turn self fuel decodeFun options m)
          (SingleItemDecoder.turn self fuel' decodeFun' options m).
Proof.
  intros Hle Hfun. unfold SingleItemDecoder.turn.
  apply refines_bind.
  { unfold SingleItemDecoder.when. destruct (bool_decide _); [| apply refines_refl].
    apply refines_bind; [| intros ?; apply refines_refl].
    unfold SingleItemDecoder.decodeTag. refines_tac. }
  intros m1. repeat (apply refines_bind; [apply refines_refl | intros ?]).
  destruct (bool_decide _); [| apply refines_refl].
  repeat (apply refines_bind; [apply refines_refl | intros ?]).
  apply refines_bind; [| intros ?; apply refines_refl].
  apply refines_decodeValue; assumption.
Qed.

Lemma refines_call (self : SingleItemDecoder.Self) (fuel : nat) :
  forall fuel', (fuel <= fuel')%nat ->
  refinesFun (SingleItemDecoder.__call__ self fuel) (SingleItemDecoder.__call__ self fuel').
Proof.
  induction fuel as [| fuel IH]; intros fuel' Hle
    asn1Spec tagSet length state substrateFun options.
  - apply refines_outOfFuel.
  - destruct fuel' as [| fuel']; [lia |].
    cbn [SingleItemDecoder.__call__]. cbv zeta.
    apply refines_bind; [apply refines_refl |]. intros [|]; [apply refines_refl |].
    apply refines_bind; [apply refines_refl | intros _].
    apply refines_bind; [| intros ?; apply refines_refl].
    apply refines_while; [| lia]. intros m.
    apply refines_turn; [lia |]. apply IH. lia.
Qed.

Lemma decode_fuel (fuel fuel' : nat) (substrate : list byte) (asn1Spec : option Asn1Spec)
    (options : Options) :
  (fuel <= fuel')%nat ->
  decode fuel substrate asn1Spec options <> Decoder.NoResult ->
  decode fuel' substrate asn1Spec options = decode fuel substrate asn1Spec options.
Proof.
  intros Hle. unfold decode. rewrite !call_first_item. intros Hresult.
  rewrite (refines_call SingleItemDecoder.ber fuel fuel' Hle); [reflexivity |].
  intros Hout. rewrite Hout in Hresult. contradiction Hresult. reflexivity.
Qed.

(** ** C2: the one-shot decoder *)

(** C2.  [decode] runs the single-item decoder once over the octets.  When
    that yields a value, the call returns the value and the octets after the
    cursor, and these are the rest of the input: the input is the consumed
    octets, as many as the cursor has advanced, followed by the tail.  When
    it signals an underrun the call raises SubstrateUnderrunError, and an
    exception of the decoder is raised as it is.  A pair is returned in no
    other case, and [None] never.  What the call returns or raises is what
    it returns or raises under every larger bound of the model's counter. *)
Theorem C2_one_shot (fuel : nat) (substrate : list byte) (asn1Spec : option Asn1Spec)
    (options : Options) :
  let first := SingleItemDecoder.__call__ SingleItemDecoder.ber fuel asn1Spec None None
                 stDecodeTag None options (asSeekableStream substrate) in
  let result := decode fuel substrate asn1Spec options in
  (forall v s', first = Yield v s' ->
     result = Decoder.Return v (skipn (position s') substrate) /\
     data s' = substrate /\ (position s' <= length substrate)%nat) /\
  (first = Underrun ->
     result = Decoder.Raised (SubstrateUnderrunError "Short substrate on input")) /\
  (forall e, first = Raise e -> result = Decoder.Raised e) /\
  (forall v tail, result = Decoder.Return v tail ->
     exists consumed s',
       first = Yield v s' /\ substrate = consumed ++ tail /\
       length consumed = position s') /\
  result <> Decoder.ReturnNone /\
  (forall fuel', (fuel <= fuel')%nat -> result <> Decoder.NoResult ->
     decode fuel' substrate asn1Spec options = result).
Proof.
  intros first result.
  assert (Hfuel : forall fuel', (fuel <= fuel')%nat -> result <> Decoder.NoResult ->
                    decode fuel' substrate asn1Spec options = result).
  { intros fuel' Hle Hresult.
    exact (decode_fuel fuel fuel' substrate asn1Spec options Hle Hresult). }
  assert (Hresult : result
                    = match first with
                      | Yield v s' => Decoder.Return v (remaining s')
                      | Underrun =>
                          Decoder.Raised (SubstrateUnderrunError "Short substrate on input")
                      | Raise e => Decoder.Raised e
                      | OutOfFuel => Decoder.NoResult
                      end).
  { subst result first. unfold decode. apply call_first_item. }
  assert (Hkeeps : forall v s', first = Yield v s' ->
                     data s' = substrate /\ (position s' <= length substrate)%nat).
  { intros v s' Hfirst.
    destruct (keepsData_call SingleItemDecoder.ber fuel asn1Spec None None stDecodeTag None
                options I _ _ _ Hfirst) as [Hdata Hbounds].
    cbn [data asSeekableStream] in Hdata. split; [exact Hdata |].
    destruct Hbounds as [Hp _]; [split; cbn; lia |]. rewrite Hdata in Hp. exact Hp. }
  clearbody result first. subst result.
  split; [| split; [| split; [| split; [| split; [| exact Hfuel]]]]].
  - intros v s' ->. destruct (Hkeeps v s' eq_refl) as [Hs' Hp].
    unfold remaining. rewrite Hs'. auto.
  - intros ->. reflexivity.
  - intros e ->. reflexivity.
  - intros v tail Hreturn.
    destruct first as [v0 s' | | e |]; try discriminate.
    injection Hreturn as <- <-.
    destruct (Hkeeps v0 s' eq_refl) as [Hs' Hp].
    exists (firstn (position s') substrate), s'. split; [reflexivity |].
    unfold remaining. rewrite Hs'. split; [symmetry; apply firstn_skipn |].
    rewrite length_firstn. lia.
  - destruct first; discriminate.
Qed.

(** ** A whole TLV with a short header, decoded without a schema *)

Lemma readFromStream_0 (s : Substrate) : readFromStream 0 s = Yield [] s.
Proof.
  pose proof (readFromStream_app s [] (remaining s) eq_refl) as H.
  replace (seek_cur (len []) s) with s in H; [exact H |].
  unfold seek_cur, seek_set, tell, len. destruct s. cbn. f_equal. lia.
Qed.

(** State [stDecodeValue] for a definite length: the payload decoder, then
    the comparison of the octets read with the length. *)
Lemma decodeValue_definite (valueDecoder indefLenValueDecoder : ValueDecoder)
    (decodeFun : DecodeFun) (asn1Spec : option Asn1Spec) (tagSet : TagSet) (length : Z)
    (substrateFun : option SubstrateFun) (options : Options) (s : Substrate) :
  length <> -1 ->
  SingleItemDecoder.decodeValue valueDecoder indefLenValueDecoder decodeFun
    asn1Spec tagSet length substrateFun options s
  = bind (valueDecoder asn1Spec tagSet length stGetValueDecoder decodeFun
            (effectiveSubstrateFun substrateFun options) options)
      (fun value =>
         bind getTell
           (fun here =>
              if negb (here - tell s =? length)
              then raise (PyAsn1Error "Read %s bytes instead of expected %s.")
              else ret value)) s.
Proof.
  intros Hdef. unfold SingleItemDecoder.decodeValue.
  cbv zeta. fold (effectiveSubstrateFun substrateFun options).
  unfold bind at 1. unfold getTell at 1.
  destruct (length =? -1) eqn:E; [lia | reflexivity].
Qed.

(** [decode] over a tag octet the tag map knows and a short-form length
    octet: the payload decoder of the tag runs on the substrate after the
    two header octets. *)
Lemma decode_short_header (fuel : nat) (tagOctet L : byte) (rest : list byte)
    (d : PayloadDecoder) :
  Z.land (ord tagOctet) 0x1F <> 0x1F ->
  ord L < 128 ->
  let tagSet := {| baseTag := None; superTags := [shortTag tagOctet] |} in
  lookupTagMap TAG_MAP tagSet = Some d ->
  decode (S fuel) (tagOctet :: L :: rest) None defaultOptions
  = match SingleItemDecoder.decodeValue (valueDecoderOf fuel d)
            (indefLenValueDecoderOf fuel d)
            (SingleItemDecoder.__call__ SingleItemDecoder.ber fuel) None tagSet (ord L)
            None defaultOptions (afterHeader (tagOctet :: L :: rest)) with
    | Yield v s' => Decoder.Return v (remaining s')
    | Underrun => Decoder.Raised (SubstrateUnderrunError "Short substrate on input")
    | Raise e => Decoder.Raised e
    | OutOfFuel => Decoder.NoResult
    end.
Proof.
  intros Htag HL tagSet Hlookup. unfold decode. rewrite call_first_item.
  erewrite (call_by_tag SingleItemDecoder.ber fuel defaultOptions None _ _ tagOctet);
    [reflexivity | reflexivity | exact Htag | | reflexivity | exact Hlookup].
  exact (decodeLength_short true
           (seek_cur 1 (setMarkedPosition (asSeekableStream (tagOctet :: L :: rest))))
           L rest eq_refl HL).
Qed.

Lemma decode_definite (fuel : nat) (tagOctet L : byte) (rest : list byte)
    (d : PayloadDecoder) :
  Z.land (ord tagOctet) 0x1F <> 0x1F ->
  ord L < 128 ->
  let tagSet := {| baseTag := None; superTags := [shortTag tagOctet] |} in
  let s := afterHeader (tagOctet :: L :: rest) in
  lookupTagMap TAG_MAP tagSet = Some d ->
  decode (S fuel) (tagOctet :: L :: rest) None defaultOptions
  = match valueDecoderOf fuel d None tagSet (ord L) stGetValueDecoder
            (SingleItemDecoder.__call__ SingleItemDecoder.ber fuel) None defaultOptions s with
    | Yield v s' =>
        if tell s' - tell s =? ord L then Decoder.Return v (remaining s')
        else Decoder.Raised (PyAsn1Error "Read %s bytes instead of expected %s.")
    | Underrun => Decoder.Raised (SubstrateUnderrunError "Short substrate on input")
    | Raise e => Decoder.Raised e
    | OutOfFuel => Decoder.NoResult
    end.
Proof.
  intros Htag HL tagSet s Hlookup.
  rewrite (decode_short_header fuel tagOctet L rest d Htag HL Hlookup).
  fold tagSet s. pose proof (ord_range L).
  rewrite decodeValue_definite by lia.
  cbn [effectiveSubstrateFun recursiveFlag defaultOptions negb].
  unfold bind at 1.
  destruct (valueDecoderOf fuel d None tagSet (ord L) stGetValueDecoder _ None
              defaultOptions s) as [v s' | | e |]; try reflexivity.
  unfold bind, getTell.
  destruct (tell s' - tell s =? ord L); reflexivity.
Qed.

(** ** C3: a sub-identifier that starts with 0x80 *)

Lemma oid_0x80_tlv (fuel : nat) (L : byte) (subs : list (list byte))
    (rest tail : list byte) :
  ord L < 128 ->
  Forall (fun sub => isSubIdentifier (octs2ints sub)) subs ->
  len (concat subs ++ x80 :: rest) = ord L ->
  decode (S fuel) (x06 :: L :: (concat subs ++ x80 :: rest) ++ tail) None defaultOptions
  = Decoder.Raised (PyAsn1Error "Invalid octet 0x80 in OID encoding").
Proof.
  intros HL Hsubs Hlen.
  rewrite (decode_definite fuel x06 L _ objectIdentifierPayloadDecoder);
    [| vm_compute; discriminate | exact HL | reflexivity].
  cbn [valueDecoderOf]. rewrite <- Hlen.
  erewrite oid_0x80_valueDecoder;
    [reflexivity | reflexivity | reflexivity | exact Hsubs | reflexivity].
Qed.

(** C3.  An ObjectIdentifier whose content holds, after any number of
    complete sub-identifiers, a sub-identifier that starts with the octet
    0x80 is rejected with the error 'Invalid octet 0x80 in OID encoding',
    whatever follows: by the payload decoder, under every spec and every
    option, and by [decode] over the whole TLV, of which the octets
    06 02 80 01 are an instance. *)
Theorem C3_oid_0x80_rejected :
  (forall (asn1Spec : option Asn1Spec) (tagSet : TagSet) (tag0 : Tag) (others : list Tag)
          (state : State) (decodeFun : DecodeFun) (substrateFun : option SubstrateFun)
          (options : Options) (s : Substrate) (subs : list (list byte))
          (rest tail : list byte),
     superTags tagSet = tag0 :: others ->
     tagFormat tag0 = tagFormatSimple ->
     Forall (fun sub => isSubIdentifier (octs2ints sub)) subs ->
     remaining s = (concat subs ++ x80 :: rest) ++ tail ->
     ObjectIdentifierPayloadDecoder.valueDecoder asn1Spec tagSet
       (len (concat subs ++ x80 :: rest)) state decodeFun substrateFun options s
     = Raise (PyAsn1Error "Invalid octet 0x80 in OID encoding")) /\
  (forall (fuel : nat) (L : byte) (subs : list (list byte)) (rest tail : list byte),
     ord L < 128 ->
     Forall (fun sub => isSubIdentifier (octs2ints sub)) subs ->
     len (concat subs ++ x80 :: rest) = ord L ->
     decode (S fuel) (x06 :: L :: (concat subs ++ x80 :: rest) ++ tail) None
       defaultOptions
     = Decoder.Raised (PyAsn1Error "Invalid octet 0x80 in OID encoding")) /\
  decode 1 [x06; x02; x80; x01] None defaultOptions
  = Decoder.Raised (PyAsn1Error "Invalid octet 0x80 in OID encoding").
Proof.
  split; [| split].
  - intros asn1Spec tagSet tag0 others state decodeFun substrateFun options s subs rest
      tail Htags Hformat Hsubs Hrem.
    exact (oid_0x80_valueDecoder asn1Spec tagSet tag0 others state decodeFun substrateFun
             options s subs rest tail Htags Hformat Hsubs Hrem).
  - intros. apply oid_0x80_tlv; assumption.
  - apply (oid_0x80_tlv 0 x02 [] [x01] []); [reflexivity | constructor | reflexivity].
Qed.

Lemma C3_oid_0x80_rejected_witness :
  decode 1 [x06; x04; x2a; x80; x01; x05] None defaultOptions
  = Decoder.Raised (PyAsn1Error "Invalid octet 0x80 in OID encoding").
Proof.
  apply (proj1 (proj2 C3_oid_0x80_rejected) 0%nat x04 [[x2a]] [x01; x05] []);
    [reflexivity | | reflexivity].
  constructor; [| constructor].
  exists [], 42. split; [reflexivity | split; [constructor | lia]].
Defined.

(** ** C7: the two leading arcs *)

Lemma oid_tlv_arcs (fuel : nat) (L : byte) (content tail : list byte)
    (s0 : Z) (rest : list Z) :
  ord L < 128 -> len content = ord L ->
  ObjectIdentifierPayloadDecoder.subIdentifiers (octs2ints content) [] = inr (s0 :: rest) ->
  decode (S fuel) (x06 :: L :: content ++ tail) None defaultOptions
  = Decoder.Return
      (Asn1Scalar univ_ObjectIdentifier (headerTagSet 0 6)
         (PyTuple (fst (firstArcs s0) :: snd (firstArcs s0) :: rest)))
      tail.
Proof.
  intros HL Hlen Hsub.
  rewrite (decode_definite fuel x06 L _ objectIdentifierPayloadDecoder);
    [| vm_compute; discriminate | exact HL | reflexivity].
  cbn [valueDecoderOf].
  set (s := afterHeader (x06 :: L :: content ++ tail)).
  assert (Hrem : remaining s = content ++ tail) by reflexivity.
  assert (Hs0 : 0 <= s0).
  { assert (Hall : Forall (fun b => 0 <= b) (s0 :: rest)).
    { apply (subIdentifiers_nonneg (List.length (octs2ints content)) (octs2ints content) []);
        auto.
      unfold octs2ints. apply Forall_map. apply Forall_forall. intros b _.
      apply ord_range. }
    inversion Hall; assumption. }
  unfold ObjectIdentifierPayloadDecoder.valueDecoder.
  unfold bind at 1. cbn [TagSet_head superTags ret].
  change (tagFormat (shortTag x06) =? tagFormatSimple) with true. cbn [negb].
  unfold bind at 1. rewrite <- Hlen. rewrite (readFromStream_app s content tail Hrem).
  destruct content as [| c0 content]; [discriminate |]. cbn [nonEmpty negb].
  unfold bind at 1. rewrite Hsub. cbn [liftE ret]. unfold bind at 1.
  rewrite leadingArcs_firstArcs by exact Hs0. cbn [liftE ret].
  cbn [ObjectIdentifierPayloadDecoder._createComponent
       AbstractSimplePayloadDecoder._createComponent native defaultOptions ret].
  rewrite tell_seek_cur by (unfold len; lia).
  replace (tell s + len (c0 :: content) - tell s =? len (c0 :: content)) with true
    by (symmetry; apply Z.eqb_eq; lia).
  rewrite (remaining_seek_cur s (c0 :: content) tail Hrem). reflexivity.
Qed.

(** C7.  Whenever the ObjectIdentifier decoder yields a value, the octets
    it read decode to sub-identifiers [s0 :: rest] and the value holds the
    arcs [a0; a1] ++ rest with (a0, a1) = (0, s0) for s0 < 40, (1, s0 - 40)
    for 40 <= s0 < 80 and (2, s0 - 80) for s0 >= 80.  [decode] returns that
    value for a whole TLV whose content decodes to sub-identifiers, and the
    TLV 06 03 2A 03 04 decodes to 1.2.3.4. *)
Theorem C7_oid_leading_arcs :
  (forall (asn1Spec : option Asn1Spec) (tagSet : TagSet) (length : Z) (state : State)
          (decodeFun : DecodeFun) (substrateFun : option SubstrateFun)
          (options : Options) (s s' : Substrate) (v : Value),
     ObjectIdentifierPayloadDecoder.valueDecoder asn1Spec tagSet length state decodeFun
       substrateFun options s = Yield v s' ->
     exists chunk s0 rest,
       readFromStream length s = Yield chunk s' /\
       ObjectIdentifierPayloadDecoder.subIdentifiers (octs2ints chunk) []
       = inr (s0 :: rest) /\
       0 <= s0 /\
       holds v (PyTuple (fst (firstArcs s0) :: snd (firstArcs s0) :: rest))) /\
  (forall (fuel : nat) (L : byte) (content tail : list byte) (s0 : Z) (rest : list Z),
     ord L < 128 -> len content = ord L ->
     ObjectIdentifierPayloadDecoder.subIdentifiers (octs2ints content) []
     = inr (s0 :: rest) ->
     decode (S fuel) (x06 :: L :: content ++ tail) None defaultOptions
     = Decoder.Return
         (Asn1Scalar univ_ObjectIdentifier (headerTagSet 0 6)
            (PyTuple (fst (firstArcs s0) :: snd (firstArcs s0) :: rest)))
         tail) /\
  decode 1 [x06; x03; x2a; x03; x04] None defaultOptions
  = Decoder.Return
      (Asn1Scalar univ_ObjectIdentifier (headerTagSet 0 6) (PyTuple [1; 2; 3; 4])) [].
Proof.
  split; [| split].
  - intros asn1Spec tagSet length state decodeFun substrateFun options s s' v Hrun.
    destruct (oid_valueDecoder_arcs asn1Spec tagSet length state decodeFun substrateFun
                options s s' v Hrun)
      as (chunk & s0 & rest & Hread & Hsub & Hs0 & _ & Hholds).
    exists chunk, s0, rest. auto.
  - intros fuel L content tail s0 rest HL Hlen Hsub.
    exact (oid_tlv_arcs fuel L content tail s0 rest HL Hlen Hsub).
  - exact (oid_tlv_arcs 0 x03 [x2a; x03; x04] [] 42 [3; 4] eq_refl eq_refl eq_refl).
Qed.

Lemma C7_oid_leading_arcs_witness :
  decode 1 [x06; x02; x88; x37; xff] None defaultOptions
  = Decoder.Return
      (Asn1Scalar univ_ObjectIdentifier (headerTagSet 0 6) (PyTuple [2; 999])) [xff].
Proof.
  exact (proj1 (proj2 C7_oid_leading_arcs) 0%nat x02 [x88; x37] [xff] 1079 []
           eq_refl eq_refl eq_refl).
Defined.

(** ** C8: Null *)

Lemma null_tlv (fuel : nat) (L : byte) (content tail : list byte) :
  ord L < 128 -> len content = ord L ->
  decode (S fuel) (x05 :: L :: content ++ tail) None defaultOptions
  = if ord L =? 0
    then Decoder.Return (Asn1Scalar univ_Null (headerTagSet 0 5) (PyStr EmptyString)) tail
    else Decoder.Raised (PyAsn1Error "Unexpected %d-octet substrate for Null").
Proof.
  intros HL Hlen.
  rewrite (decode_definite fuel x05 L (content ++ tail) nullPayloadDecoder);
    [| vm_compute; discriminate | exact HL | reflexivity].
  cbn [valueDecoderOf].
  set (s := afterHeader (x05 :: L :: content ++ tail)).
  assert (Hrem : remaining s = content ++ tail) by reflexivity.
  unfold NullPayloadDecoder.valueDecoder.
  unfold bind at 1. cbn [TagSet_head superTags ret].
  change (tagFormat (shortTag x05) =? tagFormatSimple) with true. cbn [negb].
  unfold bind at 1. rewrite <- Hlen. rewrite (readFromStream_app s content tail Hrem).
  unfold bind at 1.
  cbn [NullPayloadDecoder._createComponent AbstractSimplePayloadDecoder._createComponent
       native defaultOptions ret].
  destruct content as [| c0 content].
  - reflexivity.
  - cbn [nonEmpty raise].
    destruct (len (c0 :: content) =? 0) eqn:E; [unfold len in E; simpl in E; lia |].
    reflexivity.
Qed.

(** C8.  For a Null TLV (primitive tag) whose content octets are all
    there, the Null decoder yields the empty Null value when the declared
    length is 0 and raises 'Unexpected %d-octet substrate for Null' for
    every other length: a value is yielded exactly when the length is 0.
    So does [decode] over the whole TLV: 05 00 is the empty Null value and
    05 01 00 is rejected. *)
Theorem C8_null_length :
  (forall (asn1Spec : option Asn1Spec) (tagSet : TagSet) (tag0 : Tag) (others : list Tag)
          (length : Z) (state : State) (decodeFun : DecodeFun)
          (substrateFun : option SubstrateFun) (options : Options) (s : Substrate),
     superTags tagSet = tag0 :: others ->
     tagFormat tag0 = tagFormatSimple ->
     isTypeObject asn1Spec ->
     0 <= length <= len (remaining s) ->
     let run := NullPayloadDecoder.valueDecoder asn1Spec tagSet length state decodeFun
                  substrateFun options s in
     (length = 0 ->
        exists component,
          holds component (PyStr EmptyString) /\ run = Yield component s) /\
     (length <> 0 -> run = Raise (PyAsn1Error "Unexpected %d-octet substrate for Null")) /\
     ((exists v s', run = Yield v s') <-> length = 0)) /\
  (forall (fuel : nat) (L : byte) (content tail : list byte),
     ord L < 128 -> len content = ord L ->
     decode (S fuel) (x05 :: L :: content ++ tail) None defaultOptions
     = if ord L =? 0
       then Decoder.Return
              (Asn1Scalar univ_Null (headerTagSet 0 5) (PyStr EmptyString)) tail
       else Decoder.Raised (PyAsn1Error "Unexpected %d-octet substrate for Null")) /\
  decode 1 [x05; x00] None defaultOptions
  = Decoder.Return (Asn1Scalar univ_Null (headerTagSet 0 5) (PyStr EmptyString)) [] /\
  decode 1 [x05; x01; x00] None defaultOptions
  = Decoder.Raised (PyAsn1Error "Unexpected %d-octet substrate for Null").
Proof.
  split; [| split; [| split]].
  - intros asn1Spec tagSet tag0 others length state decodeFun substrateFun options s
      Htags Hformat Hspec Hlen run.
    destruct (null_valueDecoder asn1Spec tagSet tag0 others length state decodeFun
                substrateFun options s Htags Hformat Hspec Hlen)
      as (Hzero & Hnonzero & Hiff).
    split; [| split; [exact Hnonzero | exact Hiff]].
    intros H0. destruct (Hzero H0) as (component & _ & Hholds & Hrun). eauto.
  - intros fuel L content tail HL Hlen. exact (null_tlv fuel L content tail HL Hlen).
  - exact (null_tlv 0 x00 [] [] eq_refl eq_refl).
  - exact (null_tlv 0 x01 [x00] [] eq_refl eq_refl).
Qed.

Lemma C8_null_length_witness :
  decode 1 [x05; x02; xaa; xbb; xcc] None defaultOptions
  = Decoder.Raised (PyAsn1Error "Unexpected %d-octet substrate for Null").
Proof.
  exact (proj1 (proj2 C8_null_length) 0%nat x02 [xaa; xbb] [xcc] eq_refl eq_refl).
Defined.

(** ** C10: Real *)

Lemma real_tlv (fuel : nat) (L : byte) (content tail : list byte) :
  ord L < 128 -> len content = ord L ->
  decode (S fuel) (x09 :: L :: content ++ tail) None defaultOptions
  = match RealPayloadDecoder.valueDecoder None (headerTagSet 0 9) (ord L)
            stGetValueDecoder (SingleItemDecoder.__call__ SingleItemDecoder.ber fuel)
            None defaultOptions (afterHeader (x09 :: L :: content ++ tail)) with
    | Yield v _ => Decoder.Return v tail
    | Underrun => Decoder.Raised (SubstrateUnderrunError "Short substrate on input")
    | Raise e => Decoder.Raised e
    | OutOfFuel => Decoder.NoResult
    end.
Proof.
  intros HL Hlen.
  rewrite (decode_definite fuel x09 L (content ++ tail) realPayloadDecoder);
    [| vm_compute; discriminate | exact HL | reflexivity].
  cbn [valueDecoderOf].
  change {| baseTag := None; superTags := [shortTag x09] |} with (headerTagSet 0 9).
  set (s := afterHeader (x09 :: L :: content ++ tail)).
  assert (Hrem : remaining s = content ++ tail) by reflexivity.
  destruct (RealPayloadDecoder.valueDecoder None (headerTagSet 0 9) (ord L)
              stGetValueDecoder _ None defaultOptions s) as [v s' | | e |] eqn:Hrun;
    try reflexivity.
  unfold RealPayloadDecoder.valueDecoder in Hrun.
  apply bind_Yield_inv in Hrun as (tag0 & s1 & Htag & Hrun).
  apply TagSet_head_inv in Htag as [-> _].
  destruct (negb (tagFormat tag0 =? tagFormatSimple)); [discriminate |].
  apply bind_Yield_inv in Hrun as (chunk & s2 & Hread & Hrun).
  rewrite <- Hlen in Hread. rewrite (readFromStream_app s content tail Hrem) in Hread.
  injection Hread as <- <-.
  assert (Hs' : s' = seek_cur (len content) s).
  { destruct content as [| chunk0 content].
    - apply createComponent_state in Hrun as [-> _]. reflexivity.
    - cbv zeta in Hrun. apply bind_Yield_inv in Hrun as (value & s3 & Hvalue & Hrun).
      apply liftE_Yield_inv in Hvalue as [_ ->].
      apply createComponent_state in Hrun as [-> _]. reflexivity. }
  subst s'. rewrite tell_seek_cur by (unfold len; lia). rewrite Hlen.
  replace (tell s + ord L - tell s =? ord L) with true by (symmetry; apply Z.eqb_eq; lia).
  rewrite <- Hlen. rewrite (remaining_seek_cur s content tail Hrem). reflexivity.
Qed.

(** C10.  A Real TLV (primitive tag) with no content octets is decoded:
    the decoder yields the value 0.0, whereas a binary encoding that stops
    after its first octet raises 'Incomplete floating-point value' and one
    that has exponent octets but no mantissa raises 'Real exponent
    screwed'.  So does [decode] over the whole TLV: 09 00 is the Real 0.0,
    09 01 80 and 09 02 80 01 are rejected. *)
Theorem C10_real_empty :
  (forall (asn1Spec : option Asn1Spec) (tagSet : TagSet) (tag0 : Tag) (others : list Tag)
          (state : State) (decodeFun : DecodeFun) (substrateFun : option SubstrateFun)
          (options : Options) (s : Substrate),
     superTags tagSet = tag0 :: others ->
     tagFormat tag0 = tagFormatSimple ->
     isTypeObject asn1Spec ->
     (exists component,
        RealPayloadDecoder.valueDecoder asn1Spec tagSet 0 state decodeFun substrateFun
          options s
        = Yield component s /\
        holds component PyFloatZero) /\
     (forall fo tail,
        remaining s = fo :: tail -> Z.land (ord fo) 0x80 <> 0 ->
        RealPayloadDecoder.valueDecoder asn1Spec tagSet 1 state decodeFun substrateFun
          options s
        = Raise (PyAsn1Error "Incomplete floating-point value")) /\
     (forall fo eo tail,
        remaining s = (fo :: eo) ++ tail -> Z.land (ord fo) 0x80 <> 0 ->
        Z.land (ord fo) 0x03 <> 3 -> eo <> [] -> len eo <= Z.land (ord fo) 0x03 + 1 ->
        RealPayloadDecoder.valueDecoder asn1Spec tagSet (len (fo :: eo)) state decodeFun
          substrateFun options s
        = Raise (PyAsn1Error "Real exponent screwed"))) /\
  (forall (fuel : nat) (tail : list byte),
     decode (S fuel) (x09 :: x00 :: tail) None defaultOptions
     = Decoder.Return (Asn1Scalar univ_Real (headerTagSet 0 9) PyFloatZero) tail) /\
  (forall (fuel : nat) (fo : byte) (tail : list byte),
     Z.land (ord fo) 0x80 <> 0 ->
     decode (S fuel) (x09 :: x01 :: fo :: tail) None defaultOptions
     = Decoder.Raised (PyAsn1Error "Incomplete floating-point value")) /\
  decode 1 [x09; x02; x80; x01] None defaultOptions
  = Decoder.Raised (PyAsn1Error "Real exponent screwed").
Proof.
  split; [| split; [| split]].
  - intros asn1Spec tagSet tag0 others state decodeFun substrateFun options s
      Htags Hformat Hspec.
    exact (real_valueDecoder_empty asn1Spec tagSet tag0 others state decodeFun
             substrateFun options s Htags Hformat Hspec).
  - intros fuel tail.
    pose proof (real_tlv fuel x00 [] tail eq_refl eq_refl) as Htlv.
    cbn [app] in Htlv. rewrite Htlv. clear Htlv.
    destruct (real_valueDecoder_empty None (headerTagSet 0 9) (mkTag 0 0 9) []
                stGetValueDecoder (SingleItemDecoder.__call__ SingleItemDecoder.ber fuel)
                None defaultOptions (afterHeader (x09 :: x00 :: tail))
                eq_refl eq_refl I) as [(component & Hrun & _) _].
    change (ord x00) with 0. rewrite Hrun.
    unfold RealPayloadDecoder.valueDecoder in Hrun.
    unfold bind at 1 in Hrun. cbn [TagSet_head headerTagSet superTags ret] in Hrun.
    change (tagFormat (mkTag tagClassUniversal 0 9) =? tagFormatSimple) with true in Hrun.
    cbn [negb] in Hrun. unfold bind at 1 in Hrun. rewrite readFromStream_0 in Hrun.
    cbn in Hrun. unfold ret in Hrun. injection Hrun as <-. reflexivity.
  - intros fuel fo tail Hfo.
    pose proof (real_tlv fuel x01 [fo] tail eq_refl eq_refl) as Htlv.
    cbn [app] in Htlv. rewrite Htlv. clear Htlv.
    destruct (real_valueDecoder_empty None (headerTagSet 0 9) (mkTag 0 0 9) []
                stGetValueDecoder (SingleItemDecoder.__call__ SingleItemDecoder.ber fuel)
                None defaultOptions (afterHeader (x09 :: x01 :: fo :: tail))
                eq_refl eq_refl I) as (_ & Hshort & _).
    change (ord x01) with 1. rewrite (Hshort fo tail eq_refl Hfo). reflexivity.
  - vm_compute. reflexivity.
Qed.

Lemma C10_real_empty_witness :
  decode 1 [x09; x00; x05; x00] None defaultOptions
  = Decoder.Return (Asn1Scalar univ_Real (headerTagSet 0 9) PyFloatZero) [x05; x00].
Proof.
  exact (proj1 (proj2 C10_real_empty) 0%nat [x05; x00]).
Defined.

(** ** C4: the consumed octets of a definite-length value *)

Lemma definite_tlv_consumed (fuel : nat) (tagOctet L : byte) (rest : list byte)
    (d : PayloadDecoder) (v : Value) (tail : list byte) :
  Z.land (ord tagOctet) 0x1F <> 0x1F ->
  ord L < 128 ->
  lookupTagMap TAG_MAP {| baseTag := None; superTags := [shortTag tagOctet] |} = Some d ->
  decode (S fuel) (tagOctet :: L :: rest) None defaultOptions = Decoder.Return v tail ->
  exists content, rest = content ++ tail /\ len content = ord L.
Proof.
  intros Htag HL Hlookup.
  rewrite (decode_definite fuel tagOctet L rest d Htag HL Hlookup).
  set (s := afterHeader (tagOctet :: L :: rest)).
  destruct (valueDecoderOf fuel d None _ (ord L) stGetValueDecoder _ None defaultOptions s)
    as [v0 s' | | e |] eqn:Hrun; try discriminate.
  destruct (tell s' - tell s =? ord L) eqn:Hread; [| discriminate].
  intros H. injection H as <- <-.
  destruct (keepsData_dispatch fuel d) as [Hdef _].
  destruct (Hdef _ None _ _ _ None _ (keepsData_call SingleItemDecoder.ber fuel) I
              _ _ _ Hrun) as [Hdata Hbounds].
  destruct Hbounds as [Hp _]; [split; cbn; lia |].
  pose proof (ord_range L). apply Z.eqb_eq in Hread.
  unfold tell in Hread. rewrite Hdata in Hp.
  cbn [position data s afterHeader length] in *.
  exists (firstn (Z.to_nat (ord L)) rest). split.
  - unfold remaining. rewrite Hdata. cbn [data].
    replace (position s') with (2 + Z.to_nat (ord L))%nat by lia.
    cbn [skipn Nat.add]. symmetry. apply firstn_skipn.
  - unfold len. rewrite length_firstn. lia.
Qed.

(** C4.  For a definite length, whatever payload decoder was chosen: when
    state [stDecodeValue] yields a value the substrate has advanced by
    exactly [length] octets, and when the payload decoder returns having
    consumed another number of octets the state raises 'Read %s bytes
    instead of expected %s.' and yields nothing.  So a TLV that [decode]
    returns a value for is its two header octets, as many content octets as
    the length octet declares, and the tail; and 30 02 02 02 01 01, whose
    Integer child runs past the two octets of the Sequence, is rejected. *)
Theorem C4_definite_length_consumed :
  (forall (valueDecoder indefLenValueDecoder : ValueDecoder) (decodeFun : DecodeFun)
          (asn1Spec : option Asn1Spec) (tagSet : TagSet) (length : Z)
          (substrateFun : option SubstrateFun) (options : Options) (s : Substrate),
     length <> -1 ->
     let run := SingleItemDecoder.decodeValue valueDecoder indefLenValueDecoder decodeFun
                  asn1Spec tagSet length substrateFun options s in
     (forall value s', run = Yield value s' -> tell s' = tell s + length) /\
     (forall value s',
        valueDecoder asn1Spec tagSet length stGetValueDecoder decodeFun
          (effectiveSubstrateFun substrateFun options) options s = Yield value s' ->
        (tell s' - tell s <> length ->
           run = Raise (PyAsn1Error "Read %s bytes instead of expected %s.")) /\
        (tell s' - tell s = length -> run = Yield value s'))) /\
  (forall (fuel : nat) (tagOctet L : byte) (rest : list byte) (d : PayloadDecoder)
          (v : Value) (tail : list byte),
     Z.land (ord tagOctet) 0x1F <> 0x1F ->
     ord L < 128 ->
     lookupTagMap TAG_MAP {| baseTag := None; superTags := [shortTag tagOctet] |}
     = Some d ->
     decode (S fuel) (tagOctet :: L :: rest) None defaultOptions = Decoder.Return v tail ->
     exists content, rest = content ++ tail /\ len content = ord L) /\
  decode 3 [x30; x02; x02; x02; x01; x01] None defaultOptions
  = Decoder.Raised (PyAsn1Error "Read %s bytes instead of expected %s.").
Proof.
  split; [| split].
  - intros valueDecoder indefLenValueDecoder decodeFun asn1Spec tagSet length
      substrateFun options s Hdef.
    exact (decodeValue_consumed valueDecoder indefLenValueDecoder decodeFun asn1Spec
             tagSet length substrateFun options s Hdef).
  - intros fuel tagOctet L rest d v tail Htag HL Hlookup Hrun.
    exact (definite_tlv_consumed fuel tagOctet L rest d v tail Htag HL Hlookup Hrun).
  - vm_compute. reflexivity.
Qed.

Lemma C4_definite_length_consumed_witness :
  exists content, [x01; x07; x09] = content ++ [x09] /\ len content = ord x02.
Proof.
  apply (proj1 (proj2 C4_definite_length_consumed) 0%nat x02 x02 [x01; x07; x09]
           integerPayloadDecoder
           (Asn1Scalar univ_Integer (headerTagSet 0 2) (PyInt 263)) [x09]);
    [vm_compute; discriminate | reflexivity | reflexivity | vm_compute; reflexivity].
Defined.

(** ** C6: the container guessed without a schema *)

Lemma schemaless_tlv (fuel : nat) (tagOctet L : byte) (rest : list byte)
    (v : Value) (tail : list byte) :
  tagOctet = x30 \/ tagOctet = x31 ->
  ord L < 128 ->
  decode (S fuel) (tagOctet :: L :: rest) None defaultOptions = Decoder.Return v tail ->
  let tagSet := {| baseTag := None; superTags := [shortTag tagOctet] |} in
  let record := if bool_decide (tagOctet = x30) then univ_Sequence else univ_Set in
  let homogeneous := if bool_decide (tagOctet = x30) then univ_SequenceOf else univ_SetOf in
  v = PyNone \/
  exists children cls,
    children <> [] /\
    v = Asn1Constructed cls (containerTagSet cls tagSet) (enumerateFrom 0 children) /\
    (distinctTagSets children -> cls = record) /\
    (sameTagSet children -> cls = homogeneous).
Proof.
  intros Htag HL Hrun tagSet record homogeneous.
  assert (Hd : exists d,
            lookupTagMap TAG_MAP tagSet = Some d /\
            valueDecoderOf fuel d
            = ConstructedPayloadDecoderBase.valueDecoder None record homogeneous fuel).
  { destruct Htag as [-> | ->]; eexists; split; reflexivity. }
  destruct Hd as (d & Hlookup & Hd).
  rewrite (decode_definite fuel tagOctet L rest d) in Hrun;
    [| destruct Htag as [-> | ->]; vm_compute; discriminate | exact HL | exact Hlookup].
  rewrite Hd in Hrun. fold tagSet in Hrun.
  set (s := afterHeader (tagOctet :: L :: rest)) in *.
  rewrite (constructed_schemaless false None record homogeneous fuel tagSet
             (shortTag tagOctet) [] (ord L) stGetValueDecoder _ defaultOptions s eq_refl)
    in Hrun; [| destruct Htag as [-> | ->]; reflexivity].
  destruct (ConstructedPayloadDecoderBase._decodeComponentsSchemaless _ _ _ _ _ _ _ s)
    as [v0 s' | | e |] eqn:Hloop; try discriminate.
  destruct (tell s' - tell s =? ord L); [| discriminate].
  injection Hrun as <- <-.
  apply schemaless_container in Hloop
    as [-> | (children & cls & Hne & -> & _ & Hrec & Hhom)]; [left; reflexivity |].
  right. exists children, cls. auto.
Qed.

(** C6.  What schemaless decoding of a constructed value yields is either
    [None], when no child was decoded, or a container of the decoded
    children, in order: the record type when two children have distinct
    tag sets, the homogeneous type when all children have the same tag
    set; its tag set carries the tags of the outer tag set.  So it is for
    a Sequence or Set TLV that [decode] returns a value for: 30 06 02 01 01
    04 01 02 is a Sequence of an Integer and an OctetString, and 30 06 02 01
    01 02 01 02 a SequenceOf of two Integers. *)
Theorem C6_schemaless_container :
  (forall (protoRecordComponent protoSequenceComponent : Asn1Class) (fuel : nat)
          (tagSet : TagSet) (decodeFun : DecodeFun) (length : Z) (options : Options)
          (s s' : Substrate) (v : Value),
     ConstructedPayloadDecoderBase._decodeComponentsSchemaless protoRecordComponent
       protoSequenceComponent fuel tagSet decodeFun length options s = Yield v s' ->
     v = PyNone \/
     exists children cls,
       children <> [] /\
       v = Asn1Constructed cls (containerTagSet cls tagSet) (enumerateFrom 0 children) /\
       superTags (containerTagSet cls tagSet) = superTags tagSet /\
       (distinctTagSets children -> cls = protoRecordComponent) /\
       (sameTagSet children -> cls = protoSequenceComponent)) /\
  (forall (fuel : nat) (tagOctet L : byte) (rest : list byte) (v : Value)
          (tail : list byte),
     tagOctet = x30 \/ tagOctet = x31 ->
     ord L < 128 ->
     decode (S fuel) (tagOctet :: L :: rest) None defaultOptions = Decoder.Return v tail ->
     let tagSet := {| baseTag := None; superTags := [shortTag tagOctet] |} in
     let record := if bool_decide (tagOctet = x30) then univ_Sequence else univ_Set in
     let homogeneous :=
       if bool_decide (tagOctet = x30) then univ_SequenceOf else univ_SetOf in
     v = PyNone \/
     exists children cls,
       children <> [] /\
       v = Asn1Constructed cls (containerTagSet cls tagSet) (enumerateFrom 0 children) /\
       (distinctTagSets children -> cls = record) /\
       (sameTagSet children -> cls = homogeneous)) /\
  decode 4 [x30; x06; x02; x01; x01; x04; x01; x02] None defaultOptions
  = Decoder.Return
      (Asn1Constructed univ_Sequence (containerTagSet univ_Sequence (headerTagSet 32 16))
         [(0, Asn1Scalar univ_Integer (headerTagSet 0 2) (PyInt 1));
          (1, Asn1Scalar univ_OctetString (headerTagSet 0 4) (PyOctets [x02]))]) [] /\
  decode 4 [x30; x06; x02; x01; x01; x02; x01; x02] None defaultOptions
  = Decoder.Return
      (Asn1Constructed univ_SequenceOf
         (containerTagSet univ_SequenceOf (headerTagSet 32 16))
         [(0, Asn1Scalar univ_Integer (headerTagSet 0 2) (PyInt 1));
          (1, Asn1Scalar univ_Integer (headerTagSet 0 2) (PyInt 2))]) [].
Proof.
  split; [| split; [| split]].
  - intros protoRecordComponent protoSequenceComponent fuel tagSet decodeFun length
      options s s' v Hrun.
    exact (schemaless_container protoRecordComponent protoSequenceComponent fuel tagSet
             decodeFun length options s s' v Hrun).
  - intros fuel tagOctet L rest v tail Htag HL Hrun.
    exact (schemaless_tlv fuel tagOctet L rest v tail Htag HL Hrun).
  - vm_compute. reflexivity.
  - vm_compute. reflexivity.
Qed.

Lemma C6_schemaless_container_witness :
  Asn1Constructed univ_Set (containerTagSet univ_Set (headerTagSet 32 17))
    [(0, Asn1Scalar univ_Boolean (headerTagSet 0 1) (PyInt 1));
     (1, Asn1Scalar univ_Null (headerTagSet 0 5) (PyStr EmptyString))]
  = PyNone \/
  exists children cls,
    children <> [] /\
    Asn1Constructed univ_Set (containerTagSet univ_Set (headerTagSet 32 17))
      [(0, Asn1Scalar univ_Boolean (headerTagSet 0 1) (PyInt 1));
       (1, Asn1Scalar univ_Null (headerTagSet 0 5) (PyStr EmptyString))]
    = Asn1Constructed cls (containerTagSet cls (headerTagSet 32 17))
        (enumerateFrom 0 children) /\
    (distinctTagSets children -> cls = univ_Set) /\
    (sameTagSet children -> cls = univ_SetOf).
Proof.
  apply (proj1 (proj2 C6_schemaless_container) 3%nat x31 x05
           [x01; x01; xff; x05; x00]
           (Asn1Constructed univ_Set (containerTagSet univ_Set (headerTagSet 32 17))
              [(0, Asn1Scalar univ_Boolean (headerTagSet 0 1) (PyInt 1));
               (1, Asn1Scalar univ_Null (headerTagSet 0 5) (PyStr EmptyString))])
           []);
    [right; reflexivity | reflexivity | vm_compute; reflexivity].
Defined.

(** ** C5: the required components of a record *)

(** C5.  A Sequence or Set decoded against a spec whose catalogue is not
    empty, in the definite or the indefinite form: a yielded value is the
    record with every index of the required set filled; and when the
    component loop has ended, the indices it stored are exactly the filled
    slots and the decoder raises 'ASN.1 object %s has uninitialized
    components' if a required index is not among them.  Against a Sequence
    of two required Integers, [decode] rejects 30 03 02 01 05 and 30 80 02 01
    05 00 00, which hold one, and returns the record for 30 06 02 01 05 02 01
    06. *)
Theorem C5_required_components :
  (forall (indef : bool) (protoComponent : option Asn1Class)
          (protoRecordComponent protoSequenceComponent : Asn1Class) (fuel : nat)
          (typeId : Asn1Class) (specTagSet : TagSet)
          (specTagMap : TagSet -> option Asn1Spec) (namedTypes : NamedTypes)
          (tagSet : TagSet) (tag0 : Tag) (others : list Tag) (length : Z) (state : State)
          (decodeFun : DecodeFun) (options : Options) (s : Substrate),
     superTags tagSet = tag0 :: others ->
     tagFormat tag0 = tagFormatConstructed ->
     ConstructedPayloadDecoderBase.isRecordType typeId = true ->
     nt_items namedTypes <> [] ->
     let asn1Spec :=
       Some (Asn1Type typeId specTagSet specTagMap (NamedTypesOf namedTypes)) in
     let isSetType := bool_decide (typeId = univ_Set) in
     let isDeterministic :=
       negb isSetType && negb (nt_hasOptionalOrDefault namedTypes) in
     let run :=
       if indef
       then ConstructedPayloadDecoderBase.indefLenValueDecoder protoComponent
              protoRecordComponent protoSequenceComponent fuel asn1Spec tagSet length
              state decodeFun None options s
       else ConstructedPayloadDecoderBase.valueDecoder protoComponent
              protoRecordComponent protoSequenceComponent fuel asn1Spec tagSet length
              state decodeFun None options s in
     let loop :=
       if indef
       then ConstructedPayloadDecoderBase.decodeRecordComponentsIndef fuel namedTypes
              isSetType isDeterministic decodeFun options
              (Asn1Constructed typeId specTagSet []) s
       else ConstructedPayloadDecoderBase.decodeRecordComponents fuel namedTypes
              isSetType isDeterministic (tell s) length decodeFun options
              (Asn1Constructed typeId specTagSet []) s in
     (forall v s', run = Yield v s' ->
        slotsFilled typeId specTagSet (nt_requiredComponents namedTypes) v) /\
     (forall st s1, loop = Yield st s1 ->
        exists components,
          ConstructedPayloadDecoderBase.rc_asn1Object st
          = Asn1Constructed typeId specTagSet components /\
          (forall i, i ∈ ConstructedPayloadDecoderBase.rc_seenIndices st
                     <-> is_Some (getSlot i components)) /\
          (~ Forall (fun i => is_Some (getSlot i components))
               (nt_requiredComponents namedTypes) ->
           run = Raise (PyAsn1Error "ASN.1 object %s has uninitialized components")))) /\
  decode 4 [x30; x03; x02; x01; x05] (Some twoIntegersSpec) defaultOptions
  = Decoder.Raised (PyAsn1Error "ASN.1 object %s has uninitialized components") /\
  decode 4 [x30; x80; x02; x01; x05; x00; x00] (Some twoIntegersSpec) defaultOptions
  = Decoder.Raised (PyAsn1Error "ASN.1 object %s has uninitialized components") /\
  decode 4 [x30; x06; x02; x01; x05; x02; x01; x06] (Some twoIntegersSpec) defaultOptions
  = Decoder.Return
      (Asn1Constructed univ_Sequence (classTagSet univ_Sequence)
         [(0, Asn1Scalar univ_Integer (classTagSet univ_Integer) (PyInt 5));
          (1, Asn1Scalar univ_Integer (classTagSet univ_Integer) (PyInt 6))]) [].
Proof.
  split; [| split; [| split]].
  - intros indef protoComponent protoRecordComponent protoSequenceComponent fuel typeId
      specTagSet specTagMap namedTypes tagSet tag0 others length state decodeFun options
      s Htags Hformat Hrecord Hitems.
    exact (record_required_components indef protoComponent protoRecordComponent
             protoSequenceComponent fuel typeId specTagSet specTagMap namedTypes tagSet
             tag0 others length state decodeFun options s Htags Hformat Hrecord Hitems).
  - vm_compute. reflexivity.
  - vm_compute. reflexivity.
  - vm_compute. reflexivity.
Qed.

Lemma C5_required_components_witness :
  slotsFilled univ_Sequence (classTagSet univ_Sequence) [0; 1]
    (Asn1Constructed univ_Sequence (classTagSet univ_Sequence)
       [(0, Asn1Scalar univ_Integer (classTagSet univ_Integer) (PyInt 5));
        (1, Asn1Scalar univ_Integer (classTagSet univ_Integer) (PyInt 6))]).
Proof.
  assert (Hitems : nt_items twoIntegers <> []) by discriminate.
  eapply (proj1 (proj1 C5_required_components false (Some univ_Sequence) univ_Sequence
                   univ_SequenceOf 3%nat univ_Sequence (classTagSet univ_Sequence)
                   (fun _ => None) twoIntegers (headerTagSet 32 16) (mkTag 0 32 16) [] 6
                   stGetValueDecoder (SingleItemDecoder.__call__ SingleItemDecoder.ber 3)
                   defaultOptions (afterHeader [x30; x06; x02; x01; x05; x02; x01; x06])
                   eq_refl eq_refl eq_refl Hitems)).
  vm_compute. reflexivity.
Defined.

(** ** The decoder run on short inputs *)

Example decode_three_integers :
  decode 5 [x30; x09; x02; x01; x01; x02; x01; x02; x02; x01; x03] None defaultOptions
  = Decoder.Return
      (Asn1Constructed univ_SequenceOf
         (containerTagSet univ_SequenceOf (headerTagSet 32 16))
         [(0, Asn1Scalar univ_Integer (headerTagSet 0 2) (PyInt 1));
          (1, Asn1Scalar univ_Integer (headerTagSet 0 2) (PyInt 2));
          (2, Asn1Scalar univ_Integer (headerTagSet 0 2) (PyInt 3))]) [].
Proof. vm_compute. reflexivity. Qed.

Example decode_booleans :
  decode 1 [x01; x01; xff] None defaultOptions
  = Decoder.Return (Asn1Scalar univ_Boolean (headerTagSet 0 1) (PyInt 1)) [] /\
  decode 1 [x01; x01; x00] None defaultOptions
  = Decoder.Return (Asn1Scalar univ_Boolean (headerTagSet 0 1) (PyInt 0)) [] /\
  decode 1 [x01; x01; x7f] None defaultOptions
  = Decoder.Return (Asn1Scalar univ_Boolean (headerTagSet 0 1) (PyInt 1)) [].
Proof. repeat split; vm_compute; reflexivity. Qed.

Example decode_negative_integer :
  decode 1 [x02; x02; xff; x7f] None defaultOptions
  = Decoder.Return (Asn1Scalar univ_Integer (headerTagSet 0 2) (PyInt (-129))) [].
Proof. vm_compute. reflexivity. Qed.

Example decode_explicit_tag :
  decode 2 [xa0; x03; x02; x01; x05] None defaultOptions
  = Decoder.Return
      (Asn1Scalar univ_Integer
         {| baseTag := None;
            superTags := [mkTag tagClassUniversal tagFormatSimple 2;
                          mkTag tagClassContext tagFormatConstructed 0] |}
         (PyInt 5)) [].
Proof. vm_compute. reflexivity. Qed.

Example decode_long_tag_unknown :
  decode 3 [x1f; x81; x01; x00] None defaultOptions
  = Decoder.Raised (PyAsn1Error "%s not in asn1Spec: %r").
Proof. vm_compute. reflexivity. Qed.

Example decode_short_input :
  decode 1 [] None defaultOptions
  = Decoder.Raised (SubstrateUnderrunError "Short substrate on input") /\
  decode 1 [x02] None defaultOptions
  = Decoder.Raised (SubstrateUnderrunError "Short substrate on input") /\
  decode 1 [x02; x05; x01] None defaultOptions
  = Decoder.Raised (SubstrateUnderrunError "Short substrate on input") /\
  decode 3 [x30; x80; x02; x01; x05] None defaultOptions
  = Decoder.Raised (SubstrateUnderrunError "Short substrate on input").
Proof. repeat split; vm_compute; reflexivity. Qed.

Example decode_mixed_string_forms :
  decode 4 [x30; x08; x04; x01; xaa; x24; x03; x04; x01; xbb] None defaultOptions
  = Decoder.Return
      (Asn1Constructed univ_SequenceOf
         (containerTagSet univ_SequenceOf (headerTagSet 32 16))
         [(0, Asn1Scalar univ_OctetString (headerTagSet 0 4) (PyOctets [xaa]));
          (1, Asn1Scalar univ_OctetString (headerTagSet 32 4) (PyOctets [xbb]))]) [].
Proof. vm_compute. reflexivity. Qed.

(** * The decoder on whole encodings *)

(** ** Two's complement *)

Lemma fold_mul_bigEndian (octets : list byte) (acc : Z) :
  fold_left (fun acc b => acc * 256 + ord b) octets acc
  = acc * 256 ^ len octets + bigEndianUnsigned octets.
Proof.
  revert acc. induction octets as [| b rest IH]; intros acc.
  - simpl. unfold len. simpl. lia.
  - cbn [fold_left bigEndianUnsigned]. rewrite IH.
    rewrite len_cons. rewrite Z.pow_add_r by (pose proof (len_nonneg rest); lia).
    lia.
Qed.

Lemma from_bytes_unsigned_bigEndian (octets : list byte) :
  from_bytes_unsigned octets = bigEndianUnsigned octets.
Proof. unfold from_bytes_unsigned. rewrite fold_mul_bigEndian. lia. Qed.

Lemma pow256_pos (n : Z) : 0 <= n -> 0 < 256 ^ n.
Proof. intros. apply Z.pow_pos_nonneg; lia. Qed.

Lemma bigEndianUnsigned_lt (octets : list byte) :
  bigEndianUnsigned octets < 256 ^ len octets.
Proof.
  induction octets as [| b rest IH].
  - vm_compute. reflexivity.
  - cbn [bigEndianUnsigned]. rewrite len_cons.
    pose proof (len_nonneg rest). rewrite Z.pow_add_r by lia.
    pose proof (ord_range b). pose proof (pow256_pos (len rest)). change (256 ^ 1) with 256. nia.
Qed.

Lemma bigEndianUnsigned_zero (octets : list byte) :
  bigEndianUnsigned octets = 0 <-> forallb (fun b => ord b =? 0) octets = true.
Proof.
  induction octets as [| b rest IH].
  - simpl. tauto.
  - cbn [bigEndianUnsigned forallb].
    pose proof (ord_range b). pose proof (bigEndianUnsigned_nonneg rest).
    pose proof (pow256_pos (len rest) (len_nonneg rest)).
    rewrite andb_true_iff, <- IH, Z.eqb_eq. split.
    + intros Hz. assert (ord b = 0) by nia. split; [assumption | nia].
    + intros [-> ->]. lia.
Qed.

Lemma pow2_8 (n : Z) : 0 <= n -> 2 ^ (8 * n) = 256 ^ n.
Proof. intros. rewrite Z.pow_mul_r by lia. reflexivity. Qed.

(** two's complement *)
Lemma from_bytes_signed (octets : list byte) :
  exists k, (k = 0 \/ k = 1) /\
    from_bytes octets true = bigEndianUnsigned octets - k * 256 ^ len octets /\
    - 256 ^ len octets <= 2 * from_bytes octets true < 256 ^ len octets.
Proof.
  destruct octets as [| b rest].
  - exists 0. vm_compute. intuition discriminate.
  - unfold from_bytes. cbn [andb]. rewrite from_bytes_unsigned_bigEndian.
    pose proof (len_nonneg (b :: rest)). rewrite pow2_8 by lia.
    pose proof (ord_range b). pose proof (bigEndianUnsigned_nonneg rest).
    pose proof (bigEndianUnsigned_lt rest).
    pose proof (pow256_pos (len rest) (len_nonneg rest)).
    assert (Hpow : 256 ^ len (b :: rest) = 256 * 256 ^ len rest).
    { rewrite len_cons. rewrite Z.pow_add_r by (pose proof (len_nonneg rest); lia).
      reflexivity. }
    cbn [bigEndianUnsigned]. rewrite Hpow.
    destruct (128 <=? ord b) eqn:E.
    + exists 1. split; [right; reflexivity |]. split; [lia |]. nia.
    + exists 0. split; [left; reflexivity |]. split; [lia |]. nia.
Qed.

Lemma from_bytes_zero (octets : list byte) :
  (from_bytes octets true =? 0) = forallb (fun b => ord b =? 0) octets.
Proof.
  destruct (from_bytes_signed octets) as (k & Hk & Hv & Hrange).
  pose proof (bigEndianUnsigned_nonneg octets). pose proof (bigEndianUnsigned_lt octets).
  pose proof (bigEndianUnsigned_zero octets) as Hz.
  destruct (forallb (fun b => ord b =? 0) octets) eqn:E.
  - assert (Hzero : bigEndianUnsigned octets = 0) by (apply Hz; reflexivity).
    apply Z.eqb_eq. destruct Hk as [-> | ->]; [lia |].
    exfalso. rewrite Hv, Hzero in Hrange. lia.
  - apply Z.eqb_neq. intros Hv0.
    assert (bigEndianUnsigned octets <> 0) by (intros Hzero; apply Hz in Hzero; congruence).
    destruct Hk as [-> | ->]; lia.
Qed.

(** ** The single-item decoder, wherever it stands *)

Lemma seek_back_2 (s : Substrate) : seek_cur (-2) (seek_cur 2 s) = s.
Proof.
  unfold seek_cur, seek_set, tell. destruct s as [d p m]. cbn [data position markedPosition].
  f_equal. lia.
Qed.

(** Where end-of-octets is allowed and the next two octets are not the
    sentinel, the call goes on as one that does not allow it. *)
Lemma call_not_at_sentinel (self : SingleItemDecoder.Self) (fuel : nat)
    (asn1Spec : option Asn1Spec) (tagSet : option TagSet) (length : option Z)
    (state : State) (substrateFun : option SubstrateFun) (options : Options)
    (s : Substrate) (a b : byte) (rest : list byte) :
  remaining s = a :: b :: rest ->
  [a; b] <> SingleItemDecoder.EOO_SENTINEL ->
  SingleItemDecoder.__call__ self fuel asn1Spec tagSet length state substrateFun options s
  = SingleItemDecoder.__call__ self fuel asn1Spec tagSet length state substrateFun
      (withAllowEoo false options) s.
Proof.
  intros Hrem Hne. destruct fuel as [| fuel]; [reflexivity |].
  cbn [SingleItemDecoder.__call__ allowEoo withAllowEoo andb].
  destruct (allowEoo options && SingleItemDecoder.supportIndefLength self) eqn:E;
    [| reflexivity].
  unfold bind at 1. unfold bind at 1.
  pose proof (readFromStream_app s [a; b] rest Hrem) as Hread.
  change (len [a; b]) with 2 in Hread. rewrite Hread.
  rewrite bool_decide_eq_false_2 by exact Hne.
  unfold bind at 1, modify at 1. rewrite seek_back_2. unfold ret at 1.
  reflexivity.
Qed.

(** One turn of the machine from [stDecodeTag] under a spec that accepts
    the tag. *)
Lemma turn_by_spec (self : SingleItemDecoder.Self) (fuel : nat) (decodeFun : DecodeFun)
    (options : Options) (substrateFun : option SubstrateFun) (s s2 : Substrate)
    (tagOctet : byte) (rest : list byte) (length : Z) (d : PayloadDecoder)
    (asn1Spec chosenSpec : Asn1Spec) :
  remaining s = tagOctet :: rest ->
  Z.land (ord tagOctet) 0x1F <> 0x1F ->
  decodeLength (SingleItemDecoder.supportIndefLength self) (seek_cur 1 s)
  = Yield length s2 ->
  let tagSet := {| baseTag := None; superTags := [shortTag tagOctet] |} in
  (forall m_value,
     SingleItemDecoder.getValueDecoderByAsn1Spec self
       (SingleItemDecoder.mkMachine stGetValueDecoderByAsn1Spec (Some asn1Spec)
          (Some tagSet) (Some length) None substrateFun m_value) s2
     = Yield (SingleItemDecoder.mkMachine stDecodeValue (Some chosenSpec) (Some tagSet)
                (Some length) (Some d) substrateFun m_value) s2) ->
  SingleItemDecoder.turn self fuel decodeFun options
    (SingleItemDecoder.mkMachine stDecodeTag (Some asn1Spec) None None None substrateFun
       noValue) s
  = bind
      (SingleItemDecoder.decodeValue (valueDecoderOf fuel d) (indefLenValueDecoderOf fuel d)
         decodeFun (Some chosenSpec) tagSet length substrateFun options)
      (fun value =>
         ret (Break (SingleItemDecoder.mkMachine stStop (Some chosenSpec) (Some tagSet)
                       (Some length) (Some d) substrateFun value)))
      s2.
Proof.
  intros Hrem Htag Hlen tagSet Hchoose.
  unfold SingleItemDecoder.turn.
  state_taken. unfold bind at 1. unfold bind at 1.
  rewrite (decodeTag_short fuel s tagOctet _ Hrem Htag). fold tagSet. unfold ret at 1.
  state_taken. unfold bind at 1. unfold bind at 1.
  rewrite Hlen. unfold ret at 1.
  state_taken. unfold bind at 1. unfold ret at 1.
  unfold SingleItemDecoder.setState. machine_fields.
  state_skipped. unfold bind at 1. unfold ret at 1.
  state_taken. unfold bind at 1.
  rewrite Hchoose. machine_fields.
  rewrite bool_decide_eq_true_2 by reflexivity.
  unfold bind at 1. unfold ret at 1.
  unfold bind at 1. unfold ret at 1.
  unfold bind at 1. unfold ret at 1.
  reflexivity.
Qed.

Lemma call_by_spec (self : SingleItemDecoder.Self) (fuel : nat)
    (options : Options) (substrateFun : option SubstrateFun) (s s2 : Substrate)
    (tagOctet : byte) (rest : list byte) (length : Z) (d : PayloadDecoder)
    (asn1Spec chosenSpec : Asn1Spec) :
  remaining s = tagOctet :: rest ->
  Z.land (ord tagOctet) 0x1F <> 0x1F ->
  decodeLength (SingleItemDecoder.supportIndefLength self)
    (seek_cur 1 (setMarkedPosition s)) = Yield length s2 ->
  allowEoo options = false ->
  let tagSet := {| baseTag := None; superTags := [shortTag tagOctet] |} in
  (forall m_value,
     SingleItemDecoder.getValueDecoderByAsn1Spec self
       (SingleItemDecoder.mkMachine stGetValueDecoderByAsn1Spec (Some asn1Spec)
          (Some tagSet) (Some length) None substrateFun m_value) s2
     = Yield (SingleItemDecoder.mkMachine stDecodeValue (Some chosenSpec) (Some tagSet)
                (Some length) (Some d) substrateFun m_value) s2) ->
  SingleItemDecoder.__call__ self (S fuel) (Some asn1Spec) None None stDecodeTag
    substrateFun options s
  = SingleItemDecoder.decodeValue (valueDecoderOf fuel d) (indefLenValueDecoderOf fuel d)
      (SingleItemDecoder.__call__ self fuel) (Some chosenSpec) tagSet length
      substrateFun (withAllowEoo false options) s2.
Proof.
  intros Hrem Htag Hlen Heoo tagSet Hchoose.
  cbn [SingleItemDecoder.__call__]. rewrite Heoo. cbn [andb].
  unfold bind at 1. unfold ret at 1. unfold bind at 1. unfold modify at 1.
  unfold bind at 1. cbn [while].
  unfold bind at 1. unfold ret at 1.
  cbn [SingleItemDecoder.m_state]. rewrite bool_decide_eq_false_2 by discriminate.
  cbn [negb]. unfold bind at 1.
  rewrite (turn_by_spec self fuel _ _ substrateFun (setMarkedPosition s) s2 tagOctet
             rest length d asn1Spec chosenSpec); auto.
  fold tagSet. unfold bind.
  destruct (SingleItemDecoder.decodeValue _ _ _ _ _ _ _ _ _); reflexivity.
Qed.

(** The header of two octets read from any position. *)
Lemma decodeLength_after_tag (s : Substrate) (tagOctet L : byte) (rest : list byte) :
  remaining s = tagOctet :: L :: rest -> ord L < 128 ->
  decodeLength true (seek_cur 1 (setMarkedPosition s))
  = Yield (ord L) (seek_cur 2 (setMarkedPosition s)).
Proof.
  intros Hrem HL.
  assert (Hrem' : remaining (setMarkedPosition s) = tagOctet :: L :: rest) by exact Hrem.
  rewrite (decodeLength_short true _ L rest (remaining_seek_1 _ _ _ Hrem') HL).
  rewrite seek_cur_seek_cur by lia. reflexivity.
Qed.

Lemma remaining_after_header (s : Substrate) (tagOctet L : byte) (rest : list byte) :
  remaining s = tagOctet :: L :: rest ->
  remaining (seek_cur 2 (setMarkedPosition s)) = rest.
Proof.
  intros Hrem.
  assert (Hrem' : remaining (setMarkedPosition s) = [tagOctet; L] ++ rest) by exact Hrem.
  exact (remaining_seek_cur _ _ _ Hrem').
Qed.

(** The decoder called without a spec at a two-octet header whose tag the
    tag map knows: the payload decoder, then the length check. *)
Lemma call_definite (fuel : nat) (options : Options) (s : Substrate)
    (tagOctet L : byte) (rest : list byte) (d : PayloadDecoder) :
  remaining s = tagOctet :: L :: rest ->
  Z.land (ord tagOctet) 0x1F <> 0x1F ->
  ord L < 128 ->
  allowEoo options = false ->
  let tagSet := {| baseTag := None; superTags := [shortTag tagOctet] |} in
  let s2 := seek_cur 2 (setMarkedPosition s) in
  lookupTagMap TAG_MAP tagSet = Some d ->
  SingleItemDecoder.__call__ SingleItemDecoder.ber (S fuel) None None None stDecodeTag None
    options s
  = bind (valueDecoderOf fuel d None tagSet (ord L) stGetValueDecoder
            (SingleItemDecoder.__call__ SingleItemDecoder.ber fuel)
            (effectiveSubstrateFun None options) (withAllowEoo false options))
      (fun value =>
         bind getTell
           (fun here =>
              if negb (here - tell s2 =? ord L)
              then raise (PyAsn1Error "Read %s bytes instead of expected %s.")
              else ret value)) s2.
Proof.
  intros Hrem Htag HL Heoo tagSet s2 Hlookup.
  rewrite (call_by_tag SingleItemDecoder.ber fuel options None s s2 tagOctet (L :: rest)
             (ord L) d Hrem Htag (decodeLength_after_tag s tagOctet L rest Hrem HL) Heoo
             Hlookup).
  fold tagSet. pose proof (ord_range L).
  rewrite decodeValue_definite by lia. reflexivity.
Qed.

(** ** A TLV under a tag the tag map knows *)

Lemma known_tag_not_zero (tagOctet : byte) (d : PayloadDecoder) :
  lookupTagMap TAG_MAP (headerTags tagOctet) = Some d -> tagOctet <> x00.
Proof. intros H ->. vm_compute in H. discriminate. Qed.

(** [decode] under any options, over a tag octet the tag map knows and any
    length octets. *)
Lemma decode_by_tag (fuel : nat) (options : Options) (tagOctet L : byte)
    (rest : list byte) (length : Z) (s2 : Substrate) (d : PayloadDecoder) :
  Z.land (ord tagOctet) 0x1F <> 0x1F ->
  lookupTagMap TAG_MAP (headerTags tagOctet) = Some d ->
  decodeLength true
    (seek_cur 1 (setMarkedPosition (asSeekableStream (tagOctet :: L :: rest))))
  = Yield length s2 ->
  decode (S fuel) (tagOctet :: L :: rest) None options
  = outcomeResult
      (SingleItemDecoder.decodeValue (valueDecoderOf fuel d) (indefLenValueDecoderOf fuel d)
         (SingleItemDecoder.__call__ SingleItemDecoder.ber fuel) None (headerTags tagOctet)
         length None (withAllowEoo false options) s2).
Proof.
  intros Htag Hlookup Hlen. unfold decode. rewrite call_first_item.
  rewrite (call_not_at_sentinel SingleItemDecoder.ber (S fuel) None None None stDecodeTag
             None options (asSeekableStream (tagOctet :: L :: rest)) tagOctet L rest
             eq_refl).
  2:{ intros Heq. apply (known_tag_not_zero tagOctet d Hlookup).
      unfold SingleItemDecoder.EOO_SENTINEL in Heq. congruence. }
  rewrite (call_by_tag SingleItemDecoder.ber fuel (withAllowEoo false options) None
             (asSeekableStream (tagOctet :: L :: rest)) s2 tagOctet (L :: rest) length d
             eq_refl Htag Hlen eq_refl Hlookup).
  reflexivity.
Qed.

Lemma decode_by_tag_definite (fuel : nat) (options : Options) (tagOctet L : byte)
    (rest : list byte) (d : PayloadDecoder) :
  Z.land (ord tagOctet) 0x1F <> 0x1F ->
  lookupTagMap TAG_MAP (headerTags tagOctet) = Some d ->
  ord L < 128 ->
  let s := afterHeader (tagOctet :: L :: rest) in
  decode (S fuel) (tagOctet :: L :: rest) None options
  = outcomeResult
      (bind (valueDecoderOf fuel d None (headerTags tagOctet) (ord L) stGetValueDecoder
               (SingleItemDecoder.__call__ SingleItemDecoder.ber fuel)
               (effectiveSubstrateFun None options) (withAllowEoo false options))
         (fun value =>
            bind getTell
              (fun here =>
                 if negb (here - 2 =? ord L)
                 then raise (PyAsn1Error "Read %s bytes instead of expected %s.")
                 else ret value)) s).
Proof.
  intros Htag Hlookup HL s.
  rewrite (decode_by_tag fuel options tagOctet L rest (ord L) s d Htag Hlookup).
  - pose proof (ord_range L). rewrite decodeValue_definite by lia. reflexivity.
  - exact (decodeLength_short true
             (seek_cur 1 (setMarkedPosition (asSeekableStream (tagOctet :: L :: rest))))
             L rest eq_refl HL).
Qed.

Lemma decode_by_tag_indefinite (fuel : nat) (options : Options) (tagOctet : byte)
    (rest : list byte) (d : PayloadDecoder) :
  Z.land (ord tagOctet) 0x1F <> 0x1F ->
  lookupTagMap TAG_MAP (headerTags tagOctet) = Some d ->
  decode (S fuel) (tagOctet :: x80 :: rest) None options
  = outcomeResult
      (indefLenValueDecoderOf fuel d None (headerTags tagOctet) (-1) stGetValueDecoder
         (SingleItemDecoder.__call__ SingleItemDecoder.ber fuel)
         (effectiveSubstrateFun None options) (withAllowEoo false options)
         (afterHeader (tagOctet :: x80 :: rest))).
Proof.
  intros Htag Hlookup.
  rewrite (decode_by_tag fuel options tagOctet x80 rest (-1)
             (afterHeader (tagOctet :: x80 :: rest)) d Htag Hlookup).
  - reflexivity.
  - exact (decodeLength_indefinite
             (seek_cur 1 (setMarkedPosition (asSeekableStream (tagOctet :: x80 :: rest))))
             rest eq_refl).
Qed.

(** ** Integer *)

Lemma integer_valueDecoder_read
    (self_createComponent : option Asn1Spec -> TagSet -> PyValue -> Options -> Gen Value)
    (asn1Spec : option Asn1Spec) (tagSet : TagSet) (tag0 : Tag) (others : list Tag)
    (state : State) (decodeFun : DecodeFun) (substrateFun : option SubstrateFun)
    (options : Options) (s : Substrate) (content rest : list byte) :
  superTags tagSet = tag0 :: others ->
  tagFormat tag0 = tagFormatSimple ->
  remaining s = content ++ rest ->
  IntegerPayloadDecoder.valueDecoder self_createComponent asn1Spec tagSet (len content)
    state decodeFun substrateFun options s
  = self_createComponent asn1Spec tagSet (PyInt (from_bytes content true)) options
      (seek_cur (len content) s).
Proof.
  intros Htags Hformat Hrem. unfold IntegerPayloadDecoder.valueDecoder.
  rewrite (bind_Yield _ _ _ _ _ (TagSet_head_Yield _ _ _ s Htags)).
  rewrite Hformat, Z.eqb_refl. cbn [negb].
  rewrite (bind_Yield _ _ _ _ _ (readFromStream_app s content rest Hrem)).
  destruct content; reflexivity.
Qed.

Lemma tell_afterHeader_read (octets : list byte) (n : Z) :
  0 <= n -> tell (seek_cur n (afterHeader octets)) - 2 = n.
Proof.
  intros Hn. rewrite tell_seek_cur by exact Hn.
  change (tell (afterHeader octets)) with 2. lia.
Qed.

(** X1.  An Integer (tag 02) or Enumerated (tag 0A) TLV in the short form
    decodes, under any options and without a schema, to an Integer holding
    the two's complement reading of its content octets: the big-endian
    unsigned number, less [256 ^ n] when that is at least half of
    [256 ^ n], for [n] content octets (0 for no octets).  The value is a
    native number with [native] and an Integer object with the tag set of
    the header otherwise; the octets after the TLV are the tail. *)
Theorem X1_integer_tlv (fuel : nat) (options : Options) (tagOctet L : byte)
    (content tail : list byte) :
  tagOctet = x02 \/ tagOctet = x0a ->
  ord L < 128 -> len content = ord L ->
  exists v,
    decode (S fuel) (tagOctet :: L :: content ++ tail) None options
    = Decoder.Return
        (if native options then Native (PyInt v)
         else Asn1Scalar univ_Integer (headerTags tagOctet) (PyInt v))
        tail /\
    (v = bigEndianUnsigned content \/
     v = bigEndianUnsigned content - 256 ^ len content) /\
    - 256 ^ len content <= 2 * v < 256 ^ len content.
Proof.
  intros Htag HL Hlen. exists (from_bytes content true).
  destruct (from_bytes_signed content) as (k & Hk & Hv & Hrange).
  split; [| split; [destruct Hk as [-> | ->]; [left | right]; lia | exact Hrange]].
  assert (Hshort : Z.land (ord tagOctet) 0x1F <> 0x1F)
    by (destruct Htag as [-> | ->]; vm_compute; discriminate).
  assert (Hlookup : lookupTagMap TAG_MAP (headerTags tagOctet) = Some integerPayloadDecoder)
    by (destruct Htag as [-> | ->]; reflexivity).
  assert (Hformat : tagFormat (shortTag tagOctet) = tagFormatSimple)
    by (destruct Htag as [-> | ->]; reflexivity).
  rewrite (decode_by_tag_definite fuel options tagOctet L (content ++ tail)
             integerPayloadDecoder Hshort Hlookup HL).
  cbn [valueDecoderOf]. rewrite <- Hlen. unfold bind at 1.
  rewrite (integer_valueDecoder_read _ None (headerTags tagOctet) (shortTag tagOctet) []
             stGetValueDecoder _ _ _ (afterHeader (tagOctet :: L :: content ++ tail))
             content tail eq_refl Hformat eq_refl).
  unfold IntegerPayloadDecoder._createComponent,
    AbstractSimplePayloadDecoder._createComponent.
  cbn [native withAllowEoo IntegerPayloadDecoder.protoComponent].
  pose proof (remaining_seek_cur (afterHeader (tagOctet :: L :: content ++ tail)) content
                tail eq_refl) as Hrest.
  destruct (native options); unfold ret at 1; unfold bind, getTell;
    rewrite tell_afterHeader_read by apply len_nonneg;
    rewrite Z.eqb_refl; cbn [negb ret outcomeResult]; rewrite Hrest; reflexivity.
Qed.

Lemma X1_integer_tlv_witness :
  exists v,
    decode 1 [x02; x02; xff; x7f; x05] None defaultOptions
    = Decoder.Return (Asn1Scalar univ_Integer (headerTags x02) (PyInt v)) [x05] /\
    (v = 65407 \/ v = 65407 - 65536) /\ - 65536 <= 2 * v < 65536.
Proof.
  exact (X1_integer_tlv 0 defaultOptions x02 x02 [xff; x7f] [x05]
           (or_introl eq_refl) eq_refl eq_refl).
Defined.

(** X2.  A Boolean TLV (tag 01) in the short form decodes to 0 when all its
    content octets are zero (or there is none) and to 1 otherwise, whatever
    the number of content octets. *)
Theorem X2_boolean_tlv (fuel : nat) (options : Options) (L : byte)
    (content tail : list byte) :
  ord L < 128 -> len content = ord L ->
  let truth := if forallb (fun b => ord b =? 0) content then 0 else 1 in
  decode (S fuel) (x01 :: L :: content ++ tail) None options
  = Decoder.Return
      (if native options then Native (PyInt truth)
       else Asn1Scalar univ_Boolean (headerTags x01) (PyInt truth))
      tail.
Proof.
  intros HL Hlen truth.
  rewrite (decode_by_tag_definite fuel options x01 L (content ++ tail)
             booleanPayloadDecoder);
    [| vm_compute; discriminate | reflexivity | exact HL].
  cbn [valueDecoderOf]. rewrite <- Hlen. unfold bind at 1.
  unfold BooleanPayloadDecoder.valueDecoder.
  rewrite (integer_valueDecoder_read _ None (headerTags x01) (shortTag x01) []
             stGetValueDecoder _ _ _ (afterHeader (x01 :: L :: content ++ tail))
             content tail eq_refl eq_refl eq_refl).
  unfold BooleanPayloadDecoder._createComponent,
    AbstractSimplePayloadDecoder._createComponent.
  cbn [native withAllowEoo BooleanPayloadDecoder.protoComponent].
  rewrite from_bytes_zero. fold truth.
  pose proof (remaining_seek_cur (afterHeader (x01 :: L :: content ++ tail)) content
                tail eq_refl) as Hrest.
  destruct (native options); unfold ret at 1; unfold bind, getTell;
    rewrite tell_afterHeader_read by apply len_nonneg;
    rewrite Z.eqb_refl; cbn [negb ret outcomeResult]; rewrite Hrest; reflexivity.
Qed.

Lemma X2_boolean_tlv_witness :
  decode 1 [x01; x02; x00; x80; xaa] None defaultOptions
  = Decoder.Return (Asn1Scalar univ_Boolean (headerTags x01) (PyInt 1)) [xaa].
Proof.
  exact (X2_boolean_tlv 0 defaultOptions x02 [x00; x80] [xaa] eq_refl eq_refl).
Defined.

(** ** The scalar types in a form their decoders do not have, and the string types *)

Lemma known_tag_short (tagOctet : byte) (d : PayloadDecoder) :
  lookupTagMap TAG_MAP (headerTags tagOctet) = Some d -> Z.land (ord tagOctet) 0x1F <> 0x1F.
Proof. intros H. destruct tagOctet; vm_compute in H |- *; discriminate. Qed.

Lemma primitiveOnly_constructed (fuel : nat) (d : PayloadDecoder)
    (asn1Spec : option Asn1Spec) (tagSet : TagSet) (tag0 : Tag) (others : list Tag)
    (length : Z) (state : State) (decodeFun : DecodeFun)
    (substrateFun : option SubstrateFun) (options : Options) (s : Substrate) :
  In d primitiveOnly ->
  superTags tagSet = tag0 :: others ->
  tagFormat tag0 <> tagFormatSimple ->
  valueDecoderOf fuel d asn1Spec tagSet length state decodeFun substrateFun options s
  = Raise (PyAsn1Error "Simple tag format expected").
Proof.
  intros Hd Htags Hformat.
  assert (Hne : (tagFormat tag0 =? tagFormatSimple) = false) by (apply Z.eqb_neq; exact Hformat).
  unfold primitiveOnly in Hd. cbn [In] in Hd.
  destruct Hd as [<- | [<- | [<- | [<- | [<- | []]]]]]; cbn [valueDecoderOf];
    [ unfold IntegerPayloadDecoder.valueDecoder
    | unfold BooleanPayloadDecoder.valueDecoder, IntegerPayloadDecoder.valueDecoder
    | unfold NullPayloadDecoder.valueDecoder
    | unfold ObjectIdentifierPayloadDecoder.valueDecoder
    | unfold RealPayloadDecoder.valueDecoder ];
    rewrite (bind_Yield _ _ _ _ _ (TagSet_head_Yield _ _ _ s Htags));
    rewrite Hne; reflexivity.
Qed.

(** X3.  The Integer, Boolean, Null, ObjectIdentifier and Real payload
    decoders raise "Simple tag format expected" for a tag set whose first
    tag is not primitive; so does [decode] for the constructed forms 21,
    22, 25, 26, 29 and 2A of their tags with a short length, whatever
    follows. *)
Theorem X3_primitive_only_constructed :
  (forall (fuel : nat) (d : PayloadDecoder) (asn1Spec : option Asn1Spec) (tagSet : TagSet)
          (tag0 : Tag) (others : list Tag) (length : Z) (state : State)
          (decodeFun : DecodeFun) (substrateFun : option SubstrateFun)
          (options : Options) (s : Substrate),
     In d primitiveOnly ->
     superTags tagSet = tag0 :: others ->
     tagFormat tag0 <> tagFormatSimple ->
     valueDecoderOf fuel d asn1Spec tagSet length state decodeFun substrateFun options s
     = Raise (PyAsn1Error "Simple tag format expected")) /\
  (forall (fuel : nat) (options : Options) (tagOctet L : byte) (rest : list byte),
     In tagOctet [x21; x22; x25; x26; x29; x2a] ->
     ord L < 128 ->
     decode (S fuel) (tagOctet :: L :: rest) None options
     = Decoder.Raised (PyAsn1Error "Simple tag format expected")).
Proof.
  split.
  - intros. eapply primitiveOnly_constructed; eassumption.
  - intros fuel options tagOctet L rest Htag HL.
    assert (Hd : exists d, lookupTagMap TAG_MAP (headerTags tagOctet) = Some d /\
                           In d primitiveOnly /\
                           tagFormat (shortTag tagOctet) <> tagFormatSimple).
    { cbn [In] in Htag.
      destruct Htag as [<- | [<- | [<- | [<- | [<- | [<- | []]]]]]];
        eexists; (split; [reflexivity |]); (split; [| vm_compute; discriminate]);
        unfold primitiveOnly; cbn [In]; tauto. }
    destruct Hd as (d & Hlookup & Hd & Hformat).
    rewrite (decode_by_tag_definite fuel options tagOctet L rest d
               (known_tag_short tagOctet d Hlookup) Hlookup HL).
    unfold bind at 1.
    rewrite (primitiveOnly_constructed fuel d None (headerTags tagOctet) (shortTag tagOctet)
               [] _ _ _ _ _ _ Hd eq_refl Hformat).
    reflexivity.
Qed.

Lemma X3_primitive_only_constructed_witness :
  decode 1 [x22; x01; x05] None defaultOptions
  = Decoder.Raised (PyAsn1Error "Simple tag format expected").
Proof.
  apply (proj2 X3_primitive_only_constructed 0%nat defaultOptions x22 x01 [x05]);
    [cbn [In]; tauto | reflexivity].
Defined.

(** X4.  The indefinite length 80 after the tag of a Boolean, Integer, Null,
    ObjectIdentifier, Real or Enumerated, primitive or constructed, raises
    "Indefinite length mode decoder not implemented for %s", whatever
    follows and under any options. *)
Theorem X4_primitive_only_indefinite (fuel : nat) (options : Options) (tagOctet : byte)
    (rest : list byte) :
  In tagOctet [x01; x02; x05; x06; x09; x0a; x21; x22; x25; x26; x29; x2a] ->
  decode (S fuel) (tagOctet :: x80 :: rest) None options
  = Decoder.Raised (PyAsn1Error "Indefinite length mode decoder not implemented for %s").
Proof.
  intros Htag.
  assert (Hd : exists d, lookupTagMap TAG_MAP (headerTags tagOctet) = Some d /\
                         In d primitiveOnly).
  { cbn [In] in Htag.
    repeat (destruct Htag as [<- | Htag];
            [eexists; (split; [reflexivity |]); unfold primitiveOnly; cbn [In]; tauto |]).
    destruct Htag. }
  destruct Hd as (d & Hlookup & Hd).
  rewrite (decode_by_tag_indefinite fuel options tagOctet rest d
             (known_tag_short tagOctet d Hlookup) Hlookup).
  unfold primitiveOnly in Hd. cbn [In] in Hd.
  destruct Hd as [<- | [<- | [<- | [<- | [<- | []]]]]]; reflexivity.
Qed.

Lemma X4_primitive_only_indefinite_witness :
  decode 1 [x02; x80; x01; x05; x00; x00] None defaultOptions
  = Decoder.Raised (PyAsn1Error "Indefinite length mode decoder not implemented for %s").
Proof.
  apply (X4_primitive_only_indefinite 0 defaultOptions x02 [x01; x05; x00; x00]).
  cbn [In]. tauto.
Defined.

(** X5.  With [recursiveFlag] on, a primitive TLV in the short form under a
    tag the tag map gives a string decoder for (OctetString, the character
    strings, the time and descriptor types) decodes to a value of that
    class holding the content octets as they are. *)
Theorem X5_string_primitive (fuel : nat) (options : Options) (tagOctet L : byte)
    (content tail : list byte) (c : Asn1Class) :
  lookupTagMap TAG_MAP (headerTags tagOctet) = Some (octetStringPayloadDecoder c) ->
  Z.land (ord tagOctet) 0x20 = 0 ->
  recursiveFlag options = true ->
  ord L < 128 -> len content = ord L ->
  decode (S fuel) (tagOctet :: L :: content ++ tail) None options
  = Decoder.Return
      (if native options then Native (PyOctets content)
       else Asn1Scalar c (headerTags tagOctet) (PyOctets content))
      tail.
Proof.
  intros Hlookup Hprimitive Hrec HL Hlen.
  rewrite (decode_by_tag_definite fuel options tagOctet L (content ++ tail)
             (octetStringPayloadDecoder c) (known_tag_short tagOctet _ Hlookup) Hlookup HL).
  cbn [valueDecoderOf]. unfold effectiveSubstrateFun. rewrite Hrec. cbn [negb].
  unfold OctetStringPayloadDecoder.valueDecoder.
  unfold bind at 1. unfold bind at 1. cbn [TagSet_head headerTags superTags ret].
  change (tagFormat (shortTag tagOctet)) with (Z.land (ord tagOctet) 0x20).
  rewrite Hprimitive. cbn [Z.eqb tagFormatSimple].
  unfold bind at 1. rewrite <- Hlen.
  rewrite (readFromStream_app (afterHeader (tagOctet :: L :: content ++ tail)) content tail
             eq_refl).
  unfold OctetStringPayloadDecoder._createComponent,
    AbstractSimplePayloadDecoder._createComponent.
  cbn [native withAllowEoo].
  pose proof (remaining_seek_cur (afterHeader (tagOctet :: L :: content ++ tail)) content
                tail eq_refl) as Hrest.
  destruct (native options); unfold ret at 1; unfold bind, getTell;
    rewrite tell_afterHeader_read by apply len_nonneg;
    rewrite Z.eqb_refl; cbn [negb ret outcomeResult]; rewrite Hrest; reflexivity.
Qed.

Lemma X5_string_primitive_witness :
  decode 1 [x0c; x02; x68; x69; x00] None defaultOptions
  = Decoder.Return (Asn1Scalar char_UTF8String (headerTags x0c) (PyOctets [x68; x69])) [x00].
Proof.
  exact (X5_string_primitive 0 defaultOptions x0c x02 [x68; x69] [x00] char_UTF8String
           eq_refl eq_refl eq_refl eq_refl eq_refl).
Defined.

(** ** BitString *)

(** X6.  A primitive BitString TLV (tag 03) in the short form, with
    [recursiveFlag] on: with the length 0, or nothing after the header, the
    decoder raises "Empty BIT STRING substrate"; with a first content octet
    above 7 it raises "Trailing bits overflow %s"; otherwise it returns the
    bit string of the octets after the first, with the first as the count
    of padding bits. *)
Theorem X6_bitstring_primitive (fuel : nat) (options : Options) (L : byte)
    (rest : list byte) :
  recursiveFlag options = true ->
  ord L < 128 ->
  let result := decode (S fuel) (x03 :: L :: rest) None options in
  (ord L = 0 \/ rest = [] ->
     result = Decoder.Raised (PyAsn1Error "Empty BIT STRING substrate")) /\
  (forall (pad : byte) (content tail : list byte),
     rest = pad :: content ++ tail -> len content = ord L - 1 ->
     result
     = if ord pad >? 7 then Decoder.Raised (PyAsn1Error "Trailing bits overflow %s")
       else Decoder.Return
              (if native options then Native (PyBits [(content, ord pad)])
               else Asn1Scalar univ_BitString (headerTags x03) (PyBits [(content, ord pad)]))
              tail).
Proof.
  intros Hrec HL result. unfold result.
  rewrite (decode_by_tag_definite fuel options x03 L rest bitStringPayloadDecoder);
    [| vm_compute; discriminate | reflexivity | exact HL].
  cbn [valueDecoderOf]. unfold effectiveSubstrateFun. rewrite Hrec. cbn [negb].
  unfold BitStringPayloadDecoder.valueDecoder.
  split.
  - intros [H0 | Hrest].
    + rewrite H0. reflexivity.
    + subst rest. unfold bind at 1.
      destruct (ord L =? 0); reflexivity.
  - intros pad content tail Hrest Hlen. subst rest.
    pose proof (len_nonneg content).
    destruct (ord L =? 0) eqn:E0; [lia |].
    unfold bind at 1. unfold bind at 1.
    change (isEndOfStream (afterHeader (x03 :: L :: pad :: content ++ tail)))
      with (Yield false (afterHeader (x03 :: L :: pad :: content ++ tail)) : Outcome bool).
    unfold bind at 1. cbn [TagSet_head headerTags superTags ret].
    change (tagFormat (shortTag x03) =? tagFormatSimple) with true. cbv iota.
    unfold bind at 1.
    set (s := afterHeader (x03 :: L :: pad :: content ++ tail)).
    rewrite (readFromStream_1 s pad (content ++ tail) eq_refl).
    unfold bind at 1. cbn [ordOctet ret].
    destruct (ord pad >? 7); [reflexivity |].
    unfold bind at 1. rewrite <- Hlen.
    rewrite (readFromStream_app (seek_cur 1 s) content tail eq_refl).
    unfold BitStringPayloadDecoder._createComponent,
      AbstractSimplePayloadDecoder._createComponent, BitStringPayloadDecoder.fromOctetString.
    cbn [native withAllowEoo app].
    pose proof (remaining_seek_cur (seek_cur 1 s) content tail eq_refl) as Hrest.
    assert (Htell : tell (seek_cur (len content) (seek_cur 1 s)) - 2 = ord L).
    { rewrite !tell_seek_cur by lia. change (tell s) with 2. lia. }
    destruct (native options); unfold ret at 1; unfold bind, getTell;
      rewrite Htell, Z.eqb_refl; cbn [negb ret outcomeResult]; rewrite Hrest; reflexivity.
Qed.

Lemma X6_bitstring_primitive_witness :
  decode 1 [x03; x02; x04; xf0; xaa] None defaultOptions
  = Decoder.Return
      (Asn1Scalar univ_BitString (headerTags x03) (PyBits [([xf0], 4)])) [xaa].
Proof.
  exact (proj2 (X6_bitstring_primitive 0 defaultOptions x02 [x04; xf0; xaa] eq_refl eq_refl)
           x04 [xf0] [xaa] eq_refl eq_refl).
Defined.

(** ** A tag the tag map does not know *)

(** The states after [stGetValueDecoderByTag] for a tag set the tag map does
    not know: [stTryAsExplicitTag], then the raw decoder or the error. *)
Lemma turn_unknown_tag (self : SingleItemDecoder.Self) (fuel : nat) (decodeFun : DecodeFun)
    (options : Options) (substrateFun : option SubstrateFun) (s s2 : Substrate)
    (tagOctet : byte) (rest : list byte) (length : Z) :
  remaining s = tagOctet :: rest ->
  Z.land (ord tagOctet) 0x1F <> 0x1F ->
  decodeLength (SingleItemDecoder.supportIndefLength self) (seek_cur 1 s)
  = Yield length s2 ->
  lookupTagMap (SingleItemDecoder._tagMap self) (headerTags tagOctet) = None ->
  SingleItemDecoder.defaultErrorState self = stErrorCondition ->
  SingleItemDecoder.turn self fuel decodeFun options
    (SingleItemDecoder.mkMachine stDecodeTag None None None None substrateFun noValue) s
  = if (Z.land (ord tagOctet) 0x20 =? tagFormatConstructed)
       && negb (Z.land (ord tagOctet) 0xC0 =? tagClassUniversal)
    then
      Yield (Continue (SingleItemDecoder.mkMachine stDecodeValue None
                         (Some (headerTags tagOctet)) (Some length)
                         (Some rawPayloadDecoder) substrateFun noValue)) s2
    else Raise (PyAsn1Error "%s not in asn1Spec: %r").
Proof.
  intros Hrem Htag Hlen Hlookup Herr.
  unfold SingleItemDecoder.turn.
  state_taken. unfold bind at 1. unfold bind at 1.
  rewrite (decodeTag_short fuel s tagOctet _ Hrem Htag). unfold ret at 1.
  state_taken. unfold bind at 1. unfold bind at 1.
  rewrite Hlen. unfold ret at 1.
  state_taken. unfold bind at 1. unfold ret at 1.
  unfold SingleItemDecoder.setState. machine_fields.
  state_taken. unfold bind at 1. unfold SingleItemDecoder.getValueDecoderByTag.
  machine_fields. unfold bind at 1. unfold ret at 1.
  fold (headerTags tagOctet). rewrite Hlookup.
  change (TagSet_first (headerTags tagOctet)) with (headerTags tagOctet).
  rewrite Hlookup. unfold ret at 1.
  unfold SingleItemDecoder.setDecoder. machine_fields.
  state_skipped. unfold bind at 1. unfold ret at 1. machine_fields.
  rewrite bool_decide_eq_false_2 by discriminate.
  state_taken. unfold bind at 1. unfold SingleItemDecoder.tryAsExplicitTag.
  machine_fields. unfold bind at 1. unfold ret at 1.
  cbn [headerTags superTags shortTag tagFormat tagClass].
  destruct ((Z.land (ord tagOctet) 32 =? tagFormatConstructed)
            && negb (Z.land (ord tagOctet) 192 =? tagClassUniversal)).
  - unfold ret at 1. unfold SingleItemDecoder.setDecoder. machine_fields.
    state_skipped. unfold bind at 1. unfold ret at 1. machine_fields.
    rewrite bool_decide_eq_false_2 by discriminate. reflexivity.
  - unfold ret at 1. unfold SingleItemDecoder.setDecoder. machine_fields.
    rewrite Herr.
    state_skipped. unfold bind at 1. unfold ret at 1. machine_fields.
    rewrite bool_decide_eq_true_2 by reflexivity. reflexivity.
Qed.

(** X7.  Without a schema and without [allowEoo], a header with a tag the
    tag map does not know, primitive or of the universal class, and a
    length octet of at most 80 (the short or the indefinite form) makes the
    decoder raise "%s not in asn1Spec: %r", whatever follows. *)
Theorem X7_unknown_tag (fuel : nat) (options : Options) (tagOctet L : byte)
    (rest : list byte) :
  Z.land (ord tagOctet) 0x1F <> 0x1F ->
  lookupTagMap TAG_MAP (headerTags tagOctet) = None ->
  Z.land (ord tagOctet) 0x20 = 0 \/ Z.land (ord tagOctet) 0xC0 = 0 ->
  ord L <= 128 ->
  allowEoo options = false ->
  decode (S fuel) (tagOctet :: L :: rest) None options
  = Decoder.Raised (PyAsn1Error "%s not in asn1Spec: %r").
Proof.
  intros Htag Hlookup Hform HL Heoo. unfold decode. rewrite call_first_item.
  set (s := asSeekableStream (tagOctet :: L :: rest)).
  assert (Hlen : exists length s2,
             decodeLength true (seek_cur 1 (setMarkedPosition s)) = Yield length s2).
  { destruct (Z.eq_dec (ord L) 128) as [H128 | Hne].
    - assert (L = x80) as ->.
      { destruct L; vm_compute in H128; try discriminate. reflexivity. }
      eexists _, _.
      exact (decodeLength_indefinite (seek_cur 1 (setMarkedPosition s)) rest eq_refl).
    - eexists _, _.
      exact (decodeLength_short true (seek_cur 1 (setMarkedPosition s)) L rest eq_refl
               ltac:(lia)). }
  destruct Hlen as (length & s2 & Hlen).
  cbn [SingleItemDecoder.__call__]. rewrite Heoo. cbn [andb].
  unfold bind at 1. unfold ret at 1. unfold bind at 1. unfold modify at 1.
  unfold bind at 1. cbn [while].
  unfold bind at 1. unfold ret at 1.
  cbn [SingleItemDecoder.m_state]. rewrite bool_decide_eq_false_2 by discriminate.
  cbn [negb]. unfold bind at 1.
  rewrite (turn_unknown_tag SingleItemDecoder.ber fuel _ _ None (setMarkedPosition s) s2
             tagOctet (L :: rest) length eq_refl Htag Hlen Hlookup eq_refl).
  replace ((Z.land (ord tagOctet) 32 =? tagFormatConstructed)
           && negb (Z.land (ord tagOctet) 192 =? tagClassUniversal)) with false;
    [reflexivity |].
  symmetry. destruct Hform as [-> | ->]; [reflexivity |].
  apply andb_false_r.
Qed.

Lemma X7_unknown_tag_witness :
  decode 1 [x00; x00] None defaultOptions
  = Decoder.Raised (PyAsn1Error "%s not in asn1Spec: %r").
Proof.
  apply (X7_unknown_tag 0 defaultOptions x00 x00 []);
    [vm_compute; discriminate | reflexivity | left; reflexivity | vm_compute; discriminate
    | reflexivity].
Defined.

(** ** An explicit tag *)

Lemma decodeTag_short_onto (fuel : nat) (s : Substrate) (b : byte) (rest : list byte)
    (tagSet : TagSet) :
  remaining s = b :: rest -> Z.land (ord b) 0x1F <> 0x1F ->
  SingleItemDecoder.decodeTag fuel (Some tagSet) s
  = Yield (TagSet_radd (shortTag b) tagSet) (seek_cur 1 s).
Proof.
  intros Hrem Hshort. unfold SingleItemDecoder.decodeTag.
  rewrite (bind_Yield _ _ _ _ _ (readFromStream_1 _ _ _ Hrem)).
  cbn [ordOctet]. unfold bind at 1, ret at 1.
  destruct (Z.land (ord b) 31 =? 31) eqn:E; [lia |].
  reflexivity.
Qed.

(** The keys of the tag map are single tags: a tag set of two tags is not
    among them. *)
Lemma lookupTagMap_two_tags (inner outer : Tag) (base : option Tag) :
  lookupTagMap TAG_MAP {| baseTag := base; superTags := [inner; outer] |} = None.
Proof.
  unfold TAG_MAP. cbn [lookupTagMap].
  unfold TagSet_eqb, tagSetKey. cbn [classTagSet universalTagSet initTagSet superTags map].
  repeat (rewrite bool_decide_eq_false_2 by discriminate). reflexivity.
Qed.

(** A turn that starts in [stDecodeValue]. *)
Lemma turn_decodeValue (self : SingleItemDecoder.Self) (fuel : nat) (decodeFun : DecodeFun)
    (options : Options) (asn1Spec : option Asn1Spec) (tagSet : TagSet) (length : Z)
    (d : PayloadDecoder) (substrateFun : option SubstrateFun) (value0 : Value)
    (s : Substrate) :
  SingleItemDecoder.turn self fuel decodeFun options
    (SingleItemDecoder.mkMachine stDecodeValue asn1Spec (Some tagSet) (Some length)
       (Some d) substrateFun value0) s
  = bind
      (SingleItemDecoder.decodeValue (valueDecoderOf fuel d) (indefLenValueDecoderOf fuel d)
         decodeFun asn1Spec tagSet length substrateFun options)
      (fun value =>
         ret (Break (SingleItemDecoder.mkMachine stStop asn1Spec (Some tagSet)
                       (Some length) (Some d) substrateFun value)))
      s.
Proof.
  unfold SingleItemDecoder.turn.
  do 5 (state_skipped; unfold bind at 1; unfold ret at 1).
  machine_fields. rewrite bool_decide_eq_true_2 by reflexivity.
  unfold bind at 1. unfold ret at 1.
  unfold bind at 1. unfold ret at 1.
  unfold bind at 1. unfold ret at 1.
  reflexivity.
Qed.

(** The decoder called by the raw decoder under an outer tag, at a short
    tag the tag map knows: the tag is put before the outer one and its
    payload decoder is found by the first tag alone. *)
Lemma call_under_tag (fuel : nat) (options : Options) (s : Substrate)
    (outer : TagSet) (outerTag : Tag) (outerLength : option Z)
    (tagOctet L : byte) (rest : list byte) (d : PayloadDecoder) :
  superTags outer = [outerTag] ->
  baseTag outer = None ->
  remaining s = tagOctet :: L :: rest ->
  Z.land (ord tagOctet) 0x1F <> 0x1F ->
  ord L < 128 ->
  allowEoo options = false ->
  lookupTagMap TAG_MAP (headerTags tagOctet) = Some d ->
  SingleItemDecoder.__call__ SingleItemDecoder.ber (S fuel) None (Some outer) outerLength
    stDecodeTag None options s
  = SingleItemDecoder.decodeValue (valueDecoderOf fuel d) (indefLenValueDecoderOf fuel d)
      (SingleItemDecoder.__call__ SingleItemDecoder.ber fuel) None
      (TagSet_radd (shortTag tagOctet) outer) (ord L) None (withAllowEoo false options)
      (seek_cur 2 (setMarkedPosition s)).
Proof.
  intros Houter Hbase Hrem Htag HL Heoo Hlookup.
  cbn [SingleItemDecoder.__call__]. rewrite Heoo. cbn [andb].
  unfold bind at 1. unfold ret at 1. unfold bind at 1. unfold modify at 1.
  unfold bind at 1. cbn [while].
  unfold bind at 1. unfold ret at 1.
  cbn [SingleItemDecoder.m_state]. rewrite bool_decide_eq_false_2 by discriminate.
  cbn [negb]. unfold bind at 1.
  unfold SingleItemDecoder.turn.
  state_taken. unfold bind at 1. unfold bind at 1.
  rewrite (decodeTag_short_onto fuel (setMarkedPosition s) tagOctet _ outer Hrem Htag).
  unfold ret at 1.
  state_taken. unfold bind at 1. unfold bind at 1.
  change (SingleItemDecoder.supportIndefLength SingleItemDecoder.ber) with true.
  rewrite (decodeLength_after_tag s tagOctet L rest Hrem HL). unfold ret at 1.
  state_taken. unfold bind at 1. unfold ret at 1.
  unfold SingleItemDecoder.setState. machine_fields.
  state_taken. unfold bind at 1. unfold SingleItemDecoder.getValueDecoderByTag.
  machine_fields. unfold bind at 1. unfold ret at 1.
  change (SingleItemDecoder._tagMap SingleItemDecoder.ber) with TAG_MAP.
  assert (Htwo : lookupTagMap TAG_MAP (TagSet_radd (shortTag tagOctet) outer) = None).
  { unfold TagSet_radd. rewrite Houter. apply lookupTagMap_two_tags. }
  rewrite Htwo.
  assert (Hfirst : TagSet_first (TagSet_radd (shortTag tagOctet) outer) = headerTags tagOctet).
  { unfold TagSet_first, TagSet_radd, headerTags. cbn [baseTag superTags firstn].
    rewrite Hbase. reflexivity. }
  rewrite Hfirst, Hlookup. unfold ret at 1.
  unfold SingleItemDecoder.setDecoder. machine_fields.
  state_skipped. unfold bind at 1. unfold ret at 1. machine_fields.
  rewrite bool_decide_eq_true_2 by reflexivity.
  unfold bind at 1. unfold ret at 1.
  unfold bind at 1. unfold ret at 1.
  unfold bind at 1. unfold ret at 1.
  unfold bind.
  destruct (SingleItemDecoder.decodeValue _ _ _ _ _ _ _ _ _); reflexivity.
Qed.

Lemma nonuniversal_unknown (tagOctet : byte) :
  Z.land (ord tagOctet) 0xC0 <> 0 -> lookupTagMap TAG_MAP (headerTags tagOctet) = None.
Proof. intros H. destruct tagOctet; vm_compute in H |- *; congruence. Qed.

(** The decoder called without a spec at a constructed tag of a class other
    than universal: the tag map does not know it, and the raw decoder is
    run on its content. *)
Lemma call_explicit (fuel : nat) (options : Options) (s : Substrate)
    (tagOctet L : byte) (rest : list byte) :
  remaining s = tagOctet :: L :: rest ->
  Z.land (ord tagOctet) 0x1F <> 0x1F ->
  Z.land (ord tagOctet) 0x20 <> 0 ->
  Z.land (ord tagOctet) 0xC0 <> 0 ->
  ord L < 128 ->
  allowEoo options = false ->
  SingleItemDecoder.__call__ SingleItemDecoder.ber (S (S fuel)) None None None stDecodeTag
    None options s
  = SingleItemDecoder.decodeValue (valueDecoderOf (S fuel) rawPayloadDecoder)
      (indefLenValueDecoderOf (S fuel) rawPayloadDecoder)
      (SingleItemDecoder.__call__ SingleItemDecoder.ber (S fuel)) None
      (headerTags tagOctet) (ord L) None (withAllowEoo false options)
      (seek_cur 2 (setMarkedPosition s)).
Proof.
  intros Hrem Htag Hcons Hclass HL Heoo.
  pose proof (nonuniversal_unknown tagOctet Hclass) as Hunknown.
  remember (S fuel) as fuel1 eqn:Hfuel.
  cbn [SingleItemDecoder.__call__]. rewrite Heoo. cbn [andb].
  unfold bind at 1. unfold ret at 1. unfold bind at 1. unfold modify at 1.
  unfold bind at 1. cbn [while].
  unfold bind at 1. unfold ret at 1.
  cbn [SingleItemDecoder.m_state]. rewrite bool_decide_eq_false_2 by discriminate.
  cbn [negb]. unfold bind at 1.
  rewrite (turn_unknown_tag SingleItemDecoder.ber fuel1 _ _ None (setMarkedPosition s)
             (seek_cur 2 (setMarkedPosition s)) tagOctet _ (ord L) Hrem Htag
             (decodeLength_after_tag s tagOctet L _ Hrem HL) Hunknown eq_refl).
  replace (Z.land (ord tagOctet) 32 =? tagFormatConstructed) with true.
  2:{ symmetry. apply Z.eqb_eq. destruct tagOctet; vm_compute in Hcons |- *; congruence. }
  replace (Z.land (ord tagOctet) 192 =? tagClassUniversal) with false
    by (symmetry; apply Z.eqb_neq; exact Hclass).
  cbn [andb negb].
  rewrite Hfuel at 1. cbn [while].
  unfold bind at 1. unfold ret at 1.
  cbn [SingleItemDecoder.m_state]. rewrite bool_decide_eq_false_2 by discriminate.
  cbn [negb]. unfold bind at 1.
  rewrite turn_decodeValue.
  unfold bind.
  destruct (SingleItemDecoder.decodeValue _ _ _ _ _ _ _ _ _); reflexivity.
Qed.

(** X8.  Without a schema, a constructed tag of a class other than universal
    that the tag map does not know is taken as an explicit tag: the TLV
    inside it is decoded with the outer tag in its tag set.  Around an
    Integer TLV in the short form, the result is the Integer with the tag
    set of both tags when the outer length is that of the inner TLV, and
    "Read %s bytes instead of expected %s." otherwise. *)
Theorem X8_explicit_tag (fuel : nat) (options : Options) (tagOctet L l : byte)
    (content tail : list byte) :
  Z.land (ord tagOctet) 0x1F <> 0x1F ->
  Z.land (ord tagOctet) 0x20 <> 0 ->
  Z.land (ord tagOctet) 0xC0 <> 0 ->
  recursiveFlag options = true ->
  ord L < 128 -> ord l < 128 -> len content = ord l ->
  decode (S (S fuel)) (tagOctet :: L :: x02 :: l :: content ++ tail) None options
  = if ord L =? 2 + ord l
    then Decoder.Return
           (if native options then Native (PyInt (from_bytes content true))
            else Asn1Scalar univ_Integer
                   {| baseTag := None; superTags := [shortTag x02; shortTag tagOctet] |}
                   (PyInt (from_bytes content true)))
           tail
    else Decoder.Raised (PyAsn1Error "Read %s bytes instead of expected %s.").
Proof.
  intros Htag Hcons Hclass Hrec HL Hl Hlen.
  unfold decode. rewrite call_first_item.
  set (input := tagOctet :: L :: x02 :: l :: content ++ tail).
  rewrite (call_not_at_sentinel SingleItemDecoder.ber (S (S fuel)) None None None
             stDecodeTag None options (asSeekableStream input) tagOctet L
             (x02 :: l :: content ++ tail) eq_refl).
  2:{ intros Heq. injection Heq as -> _. apply Hclass. reflexivity. }
  set (s := asSeekableStream input).
  rewrite (call_explicit fuel (withAllowEoo false options) s tagOctet L
             (x02 :: l :: content ++ tail) eq_refl Htag Hcons Hclass HL eq_refl).
  pose proof (ord_range L). pose proof (ord_range l).
  rewrite decodeValue_definite by lia.
  unfold effectiveSubstrateFun. cbn [recursiveFlag withAllowEoo].
  rewrite Hrec. cbn [negb].
  cbn [valueDecoderOf]. unfold RawPayloadDecoder.valueDecoder.
  set (s2 := seek_cur 2 (setMarkedPosition s)).
  assert (Hrem2 : remaining s2 = x02 :: l :: content ++ tail) by reflexivity.
  unfold bind at 1.
  rewrite (call_under_tag fuel (withAllowEoo false options) s2 (headerTags tagOctet)
             (shortTag tagOctet) _ x02 l
             (content ++ tail) integerPayloadDecoder eq_refl eq_refl Hrem2
             ltac:(vm_compute; discriminate) Hl eq_refl eq_refl).
  rewrite decodeValue_definite by lia.
  cbn [valueDecoderOf]. rewrite <- Hlen.
  set (s4 := seek_cur 2 (setMarkedPosition s2)).
  assert (Hrem4 : remaining s4 = content ++ tail) by reflexivity.
  unfold bind at 1.
  rewrite (integer_valueDecoder_read _ None
             (TagSet_radd (shortTag x02) (headerTags tagOctet))
             (shortTag x02) [shortTag tagOctet]
             stGetValueDecoder _ _ _ s4 content tail eq_refl eq_refl Hrem4).
  unfold IntegerPayloadDecoder._createComponent,
    AbstractSimplePayloadDecoder._createComponent.
  cbn [native withAllowEoo IntegerPayloadDecoder.protoComponent].
  pose proof (remaining_seek_cur s4 content tail Hrem4) as Hrest.
  pose proof (len_nonneg content).
  assert (Htell4 : tell (seek_cur (len content) s4) - tell s4 = len content)
    by (rewrite tell_seek_cur by lia; lia).
  assert (Htell2 : tell (seek_cur (len content) s4) - tell s2 = 2 + len content).
  { rewrite tell_seek_cur by lia. change (tell s4) with 4. change (tell s2) with 2. lia. }
  destruct (native options); unfold ret at 1; unfold bind, getTell;
    rewrite Htell4, Z.eqb_refl; cbn [negb ret]; rewrite Htell2;
    rewrite (Z.eqb_sym (2 + len content) (ord L));
    destruct (ord L =? 2 + len content); cbn [negb raise ret];
    try rewrite Hrest; reflexivity.
Qed.

Lemma X8_explicit_tag_witness :
  decode 2 [xa0; x03; x02; x01; x05; xff] None defaultOptions
  = Decoder.Return
      (Asn1Scalar univ_Integer
         {| baseTag := None; superTags := [shortTag x02; shortTag xa0] |} (PyInt 5))
      [xff].
Proof.
  exact (X8_explicit_tag 0 defaultOptions xa0 x03 x01 [x05] [xff]
           ltac:(vm_compute; discriminate) ltac:(vm_compute; discriminate)
           ltac:(vm_compute; discriminate) eq_refl eq_refl eq_refl eq_refl).
Defined.

(** ** Input that ends too early *)




(** ** Integer TLVs one after the other *)

(** The decoder called at an Integer TLV, wherever it stands. *)
Lemma call_integer (fuel : nat) (options : Options) (s : Substrate)
    (item : byte * list byte) (rest : list byte) :
  remaining s = integerTLV item ++ rest ->
  ord (fst item) < 128 -> len (snd item) = ord (fst item) ->
  allowEoo options = false ->
  exists s',
    SingleItemDecoder.__call__ SingleItemDecoder.ber (S fuel) None None None stDecodeTag
      None options s
    = Yield (integerValue options item) s' /\
    remaining s' = rest /\ tell s' = tell s + len (integerTLV item).
Proof.
  destruct item as [L content]. unfold integerTLV. cbn [fst snd app].
  intros Hrem HL Hlen Heoo.
  exists (seek_cur (len content) (seek_cur 2 (setMarkedPosition s))).
  pose proof (remaining_after_header s x02 L (content ++ rest) Hrem) as Hrem2.
  split; [| split; [exact (remaining_seek_cur _ content rest Hrem2) |]].
  2:{ pose proof (len_nonneg content). rewrite !tell_seek_cur by lia. rewrite !len_cons.
      change (tell (setMarkedPosition s)) with (tell s). lia. }
  rewrite (call_definite fuel options s x02 L (content ++ rest) integerPayloadDecoder
             Hrem ltac:(vm_compute; discriminate) HL Heoo eq_refl).
  cbn [valueDecoderOf]. rewrite <- Hlen. unfold bind at 1.
  rewrite (integer_valueDecoder_read _ None (headerTags x02) (shortTag x02) []
             stGetValueDecoder _ _ _ _ content rest eq_refl eq_refl Hrem2).
  unfold IntegerPayloadDecoder._createComponent,
    AbstractSimplePayloadDecoder._createComponent, integerValue.
  cbn [native withAllowEoo IntegerPayloadDecoder.protoComponent snd].
  pose proof (len_nonneg content).
  destruct (native options); unfold ret at 1; unfold bind, getTell;
    rewrite tell_seek_cur by lia;
    replace (tell (seek_cur 2 (setMarkedPosition s)) + len content
             - tell (seek_cur 2 (setMarkedPosition s)) =? len content) with true
      by (symmetry; apply Z.eqb_eq; lia);
    reflexivity.
Qed.

Lemma iter_integers (fuel : nat) (options : Options) (items : list (byte * list byte)) :
  allowEoo options = false ->
  Forall (fun item => ord (fst item) < 128 /\ len (snd item) = ord (fst item)) items ->
  items <> [] ->
  forall (n : nat) (s : Substrate),
    (length items <= n)%nat ->
    remaining s = concat (map integerTLV items) ->
    map yieldedValue
      (StreamingDecoder.__iter__
         (SingleItemDecoder.__call__ SingleItemDecoder.ber (S fuel) None None None
            stDecodeTag None options) n s)
    = map (fun item => Some (integerValue options item)) items.
Proof.
  intros Heoo Hitems. induction Hitems as [| item more [HL Hlen] Hmore IH];
    intros Hne n s Hn Hrem; [contradiction |].
  destruct n as [| n]; [simpl in Hn; lia |].
  cbn [concat map] in Hrem.
  destruct (call_integer fuel options s item (concat (map integerTLV more)) Hrem HL Hlen
              Heoo) as (s' & Hcall & Hrem' & _).
  cbn [StreamingDecoder.__iter__]. rewrite Hcall. cbn [map yieldedValue]. f_equal.
  unfold isEndOfStream. rewrite Hrem'.
  destruct more as [| item2 more].
  - reflexivity.
  - cbn [concat map integerTLV app].
    apply IH; [discriminate | simpl in Hn |- *; lia | exact Hrem'].
Qed.

(** ** Numbers in base 128 *)

Lemma len_nil {A : Type} : len (@nil A) = 0.
Proof. reflexivity. Qed.

Lemma lor_shiftl_7 (a b : Z) : 0 <= b < 128 -> Z.lor (Z.shiftl a 7) b = a * 128 + b.
Proof.
  intros Hb.
  assert (Hland : Z.land (Z.shiftl a 7) b = 0).
  { apply Z.bits_inj'. intros n Hn.
    rewrite Z.land_spec, Z.bits_0.
    destruct (Z_lt_le_dec n 7) as [Hlt | Hge].
    - rewrite Z.shiftl_spec_low by lia. reflexivity.
    - replace (Z.testbit b n) with false; [apply andb_false_r |].
      symmetry. destruct (Z.eq_dec b 0) as [-> | Hnz]; [apply Z.bits_0 |].
      apply Z.bits_above_log2; [lia |].
      apply Z.log2_lt_pow2; [lia |].
      apply Z.lt_le_trans with (2 ^ 7); [simpl; lia |].
      apply Z.pow_le_mono_r; lia. }
  rewrite <- Z.lxor_lor by exact Hland.
  rewrite <- Z.add_nocarry_lxor by exact Hland.
  rewrite Z.shiftl_mul_pow2 by lia. reflexivity.
Qed.

Lemma land_7F_range (b : Z) : 0 <= Z.land b 0x7F < 128.
Proof.
  split; [apply Z.land_nonneg; right; lia |].
  assert (H : Z.land b 127 = b mod 2 ^ 7) by (apply (Z.land_ones b 7); lia).
  rewrite H. apply Z.mod_pos_bound. reflexivity.
Qed.

Lemma land_7F_low (b : Z) : 0 <= b < 128 -> Z.land b 0x7F = b.
Proof.
  intros Hb. assert (H : Z.land b 127 = b mod 2 ^ 7) by (apply (Z.land_ones b 7); lia).
  rewrite H. apply Z.mod_small. simpl. lia.
Qed.

Lemma high_bit (o : byte) : (Z.land (ord o) 0x80 =? 0) = (ord o <? 128).
Proof. destruct o; reflexivity. Qed.

Lemma base128_app (octets : list Z) (last : Z) :
  base128 (octets ++ [last]) = base128 octets * 128 + Z.land last 0x7F.
Proof.
  induction octets as [| b rest IH].
  - cbn [app base128]. change (128 ^ len (@nil Z)) with 1. lia.
  - cbn [app base128]. rewrite IH, len_app.
    change (len [last]) with 1.
    rewrite Z.pow_add_r by (pose proof (len_nonneg rest); lia).
    change (128 ^ 1) with 128. lia.
Qed.

(** ** The identifier octets of a long tag *)

Lemma whileTrue_step {St : Type} (fuel : nat) (body : St -> Gen (LoopStep St)) (st : St)
    (s : Substrate) :
  whileTrue (S fuel) body st s
  = match body st s with
    | Yield (Continue st') s' => whileTrue fuel body st' s'
    | Yield (Break st') s' => Yield st' s'
    | Underrun => Underrun
    | Raise e => Raise e
    | OutOfFuel => OutOfFuel
    end.
Proof.
  unfold whileTrue. cbn [while]. unfold bind at 1. unfold ret at 1. unfold bind at 1.
  destruct (body st s) as [[st' | st'] s' | | e |]; reflexivity.
Qed.

Lemma while_step {St : Type} (fuel : nat) (cond : St -> Gen bool)
    (body : St -> Gen (LoopStep St)) (st : St) (s : Substrate) :
  while (S fuel) cond body st s
  = match cond st s with
    | Yield true s1 =>
        match body st s1 with
        | Yield (Continue st') s' => while fuel cond body st' s'
        | Yield (Break st') s' => Yield st' s'
        | Underrun => Underrun
        | Raise e => Raise e
        | OutOfFuel => OutOfFuel
        end
    | Yield false s1 => Yield st s1
    | Underrun => Underrun
    | Raise e => Raise e
    | OutOfFuel => OutOfFuel
    end.
Proof.
  cbn [while]. unfold bind at 1.
  destruct (cond st s) as [[|] s1 | | e |]; try reflexivity.
  unfold bind at 1.
  destruct (body st s1) as [[st' | st'] s' | | e |]; reflexivity.
Qed.

Lemma long_tag_loop (rest : list byte) (last : byte) (body : list byte) :
  Forall (fun o => 128 <= ord o) body -> ord last < 128 ->
  forall (fuel : nat) (tagId : Z) (s : Substrate),
    (length body < fuel)%nat ->
    remaining s = body ++ last :: rest ->
    whileTrue fuel
      (fun tagId =>
         let* integerByte := readFromStream 1 in
         if negb (nonEmpty integerByte) then
           raise (SubstrateUnderrunError "Short octet stream on long tag decoding")
         else
           let* integerTag := ordOctet integerByte in
           let tagId := Z.lor (Z.shiftl tagId 7) (Z.land integerTag 0x7F) in
           if Z.land integerTag 0x80 =? 0 then ret (Break tagId)
           else ret (Continue tagId))
      tagId s
    = Yield (tagId * 128 ^ (len body + 1) + base128 (octs2ints (body ++ [last])))
        (seek_cur (len body + 1) s).
Proof.
  intros Hbody Hlast. induction Hbody as [| o body Ho Hbody IH];
    intros fuel tagId s Hfuel Hrem.
  - destruct fuel as [| fuel]; [simpl in Hfuel; lia |].
    cbn [app] in Hrem. rewrite whileTrue_step.
    unfold bind at 1.
    rewrite (readFromStream_1 s last rest Hrem). cbn [nonEmpty negb].
    unfold bind at 1. cbn [ordOctet]. unfold ret at 1.
    rewrite high_bit. replace (ord last <? 128) with true by lia.
    unfold ret at 1.
    rewrite lor_shiftl_7 by apply land_7F_range.
    cbn [app octs2ints map base128]. rewrite ?(@len_nil byte), ?(@len_nil Z).
    change (0 + 1) with 1. change (128 ^ 1) with 128. change (128 ^ 0) with 1.
    f_equal. lia.
  - destruct fuel as [| fuel]; [simpl in Hfuel; lia |].
    cbn [app] in Hrem. rewrite whileTrue_step.
    unfold bind at 1.
    rewrite (readFromStream_1 s o _ Hrem). cbn [nonEmpty negb].
    unfold bind at 1. cbn [ordOctet]. unfold ret at 1.
    rewrite high_bit. replace (ord o <? 128) with false by lia.
    unfold ret at 1.
    rewrite (IH fuel _ (seek_cur 1 s)); [| simpl in Hfuel; lia
                                         | exact (remaining_seek_1 s o _ Hrem)].
    rewrite lor_shiftl_7 by apply land_7F_range.
    rewrite seek_cur_seek_cur by (pose proof (len_nonneg body); lia).
    pose proof (len_nonneg body).
    f_equal.
    + cbn [app octs2ints map base128]. rewrite len_cons.
      fold (octs2ints (body ++ [last])).
      replace (len (octs2ints (body ++ [last]))) with (len (body ++ [last]))
        by (unfold octs2ints, len; rewrite length_map; reflexivity).
      rewrite len_app. change (len [last]) with 1.
      replace (1 + len body + 1) with (1 + (len body + 1)) by lia.
      rewrite (Z.pow_add_r 128 1) by lia. change (128 ^ 1) with 128. lia.
    + f_equal. rewrite len_cons. lia.
Qed.

(** X11.  A first octet with the low five bits set starts a long tag: the
    identifier is the base-128 number of the low seven bits of the octets
    that follow, up to and including the first one without the high bit;
    the class and the format are those of the first octet, and the cursor
    is left after the last octet of the tag. *)
Theorem X11_long_tag (fuel : nat) (tagSet : option TagSet) (s : Substrate)
    (first last : byte) (body rest : list byte) :
  remaining s = first :: body ++ last :: rest ->
  Z.land (ord first) 0x1F = 0x1F ->
  Forall (fun o => 128 <= ord o) body -> ord last < 128 ->
  (length body < fuel)%nat ->
  let lastTag := mkTag (Z.land (ord first) 0xC0) (Z.land (ord first) 0x20)
                   (base128 (octs2ints (body ++ [last]))) in
  SingleItemDecoder.decodeTag fuel tagSet s
  = Yield (match tagSet with
           | None => {| baseTag := None; superTags := [lastTag] |}
           | Some tagSet => TagSet_radd lastTag tagSet
           end)
      (seek_cur (2 + len body) s).
Proof.
  intros Hrem Hlong Hbody Hlast Hfuel lastTag.
  unfold SingleItemDecoder.decodeTag.
  rewrite (bind_Yield _ _ _ _ _ (readFromStream_1 _ _ _ Hrem)).
  cbn [ordOctet]. unfold bind at 1, ret at 1.
  rewrite Hlong. change (31 =? 31) with true. cbv iota. unfold bind at 1.
  pose proof (long_tag_loop rest last body Hbody Hlast fuel 0 (seek_cur 1 s) Hfuel
                (remaining_seek_1 s first _ Hrem)) as Hloop.
  cbv zeta in Hloop |- *. rewrite Hloop.
  rewrite seek_cur_seek_cur by (pose proof (len_nonneg body); lia).
  replace (1 + (len body + 1)) with (2 + len body) by lia.
  cbn [Z.mul Z.add]. fold lastTag.
  destruct tagSet; reflexivity.
Qed.

Lemma X11_long_tag_witness :
  SingleItemDecoder.decodeTag 2 None (asSeekableStream [x5f; x81; x02; x00])
  = Yield {| baseTag := None; superTags := [mkTag 0x40 0 130] |}
      (seek_cur 3 (asSeekableStream [x5f; x81; x02; x00])).
Proof.
  apply (X11_long_tag 2 None (asSeekableStream [x5f; x81; x02; x00]) x5f x02 [x81] [x00]
           eq_refl eq_refl);
    [constructor; [vm_compute; discriminate | constructor] | reflexivity
    | cbn [length]; lia].
Defined.

(** ** ObjectIdentifier: the sub-identifiers as numbers in base 128 *)

Lemma construct_value (next : list Z -> Z -> Error + list Z) (body : list Z) (last : Z)
    (more : list Z) :
  Forall (fun b => 128 <= b) body -> 0 <= last < 128 ->
  forall subId nextSubId, 128 <= nextSubId ->
    ObjectIdentifierPayloadDecoder.construct next subId nextSubId (body ++ last :: more)
    = next more (subId * 128 ^ (len body + 2) + base128 (nextSubId :: body ++ [last])).
Proof.
  intros Hbody Hlast. induction Hbody as [| b body Hb Hbody IH]; intros subId nextSubId Hn.
  - cbn [app]. rewrite construct_continue by exact Hn.
    rewrite construct_stop by lia. f_equal.
    rewrite !Z.shiftl_mul_pow2 by lia.
    cbn [base128 app]. rewrite (@len_nil Z). change (len [last]) with 1.
    rewrite (land_7F_low last Hlast).
    change (0 + 2) with 2. change (2 ^ 7) with 128. change (128 ^ 2) with (128 * 128).
    change (128 ^ 1) with 128. change (128 ^ 0) with 1. lia.
  - cbn [app]. rewrite construct_continue by exact Hn.
    rewrite IH by exact Hb. f_equal.
    rewrite Z.shiftl_mul_pow2 by lia. change (2 ^ 7) with 128.
    pose proof (len_nonneg body).
    cbn [base128 app]. rewrite !len_cons, !len_app. change (len [last]) with 1.
    replace (1 + len body + 2) with (1 + (len body + 2)) by lia.
    replace (1 + (len body + 1)) with (len body + 2) by lia.
    rewrite (Z.pow_add_r 128 1) by lia. change (128 ^ 1) with 128.
    replace (len body + 1) with (len body + 1) by lia.
    lia.
Qed.

Lemma isArc_value (sub : list byte) (more oid : list Z) :
  isArc sub ->
  ObjectIdentifierPayloadDecoder.subIdentifiers (octs2ints sub ++ more) oid
  = ObjectIdentifierPayloadDecoder.subIdentifiers more (oid ++ [base128 (octs2ints sub)]).
Proof.
  intros [(body & last & Hsub & Hbody & Hlast) Hhd].
  assert (Hlast0 : 0 <= last).
  { assert (Hin : In last (octs2ints sub))
      by (rewrite Hsub; apply in_or_app; right; left; reflexivity).
    unfold octs2ints in Hin. apply in_map_iff in Hin as (b & <- & _). apply ord_range. }
  destruct body as [| first body].
  - rewrite Hsub. cbn [app ObjectIdentifierPayloadDecoder.subIdentifiers].
    replace (last <? 128) with true by lia.
    cbn [base128]. rewrite (@len_nil Z). change (128 ^ 0) with 1.
    rewrite land_7F_low by lia. repeat f_equal. lia.
  - inversion Hbody as [| ? ? Hfirst Hrest]; subst.
    assert (Hne : first <> 128).
    { destruct sub as [| b0 sub']; [discriminate |].
      cbn [octs2ints map app] in Hsub. injection Hsub as Hb0 _.
      cbn [hd] in Hhd. intros ->. apply Hhd.
      destruct b0; vm_compute in Hb0; try discriminate. reflexivity. }
    rewrite Hsub. rewrite <- !app_assoc.
    cbn [app ObjectIdentifierPayloadDecoder.subIdentifiers].
    replace (first <? 128) with false by lia.
    replace (first >? 128) with true by lia.
    rewrite (construct_value _ body last more Hrest ltac:(lia) 0 first Hfirst).
    cbn [Z.mul Z.add]. reflexivity.
Qed.

Lemma subIdentifiers_value (subs : list (list byte)) :
  Forall isArc subs ->
  forall oid,
    ObjectIdentifierPayloadDecoder.subIdentifiers (octs2ints (concat subs)) oid
    = inr (oid ++ map (fun sub => base128 (octs2ints sub)) subs).
Proof.
  induction 1 as [| sub subs Hsub Hsubs IH]; intros oid.
  - cbn. rewrite app_nil_r. reflexivity.
  - cbn [concat map]. unfold octs2ints at 1. rewrite map_app.
    fold (octs2ints sub). fold (octs2ints (concat subs)).
    rewrite (isArc_value sub _ oid Hsub). rewrite IH.
    rewrite <- app_assoc. reflexivity.
Qed.

(** X12.  An ObjectIdentifier TLV whose content is a run of complete
    sub-identifiers, none starting with the octet 80, decodes to the arcs
    they denote in base 128, the first sub-identifier split into the first
    two arcs. *)
Theorem X12_oid_value (fuel : nat) (L : byte) (sub0 : list byte) (subs : list (list byte))
    (tail : list byte) :
  ord L < 128 ->
  Forall isArc (sub0 :: subs) ->
  len (concat (sub0 :: subs)) = ord L ->
  let s0 := base128 (octs2ints sub0) in
  decode (S fuel) (x06 :: L :: concat (sub0 :: subs) ++ tail) None defaultOptions
  = Decoder.Return
      (Asn1Scalar univ_ObjectIdentifier (headerTags x06)
         (PyTuple (fst (firstArcs s0) :: snd (firstArcs s0)
                     :: map (fun sub => base128 (octs2ints sub)) subs)))
      tail.
Proof.
  intros HL Hsubs Hlen s0.
  apply (oid_tlv_arcs fuel L (concat (sub0 :: subs)) tail s0
           (map (fun sub => base128 (octs2ints sub)) subs) HL Hlen).
  rewrite (subIdentifiers_value (sub0 :: subs) Hsubs []). reflexivity.
Qed.

Lemma X12_oid_value_witness :
  decode 1 [x06; x06; x2a; x86; x48; x86; xf7; x0d] None defaultOptions
  = Decoder.Return
      (Asn1Scalar univ_ObjectIdentifier (headerTags x06) (PyTuple [1; 2; 840; 113549])) [].
Proof.
  apply (X12_oid_value 0 x06 [x2a] [[x86; x48]; [x86; xf7; x0d]] [] eq_refl);
    [| reflexivity].
  constructor; [| constructor; [| constructor; [| constructor]]];
    (split; [| vm_compute; discriminate]).
  - exists [], 42. split; [reflexivity | split; [constructor | lia]].
  - exists [134], 72.
    split; [reflexivity | split; [constructor; [lia | constructor] | lia]].
  - exists [134; 247], 13.
    split; [reflexivity
           | split; [constructor; [lia | constructor; [lia | constructor]] | lia]].
Defined.

(** ** ObjectIdentifier: malformed content *)

Lemma subIdentifiers_arcs (subs : list (list byte)) (more : list Z) :
  Forall isArc subs ->
  forall oid,
    ObjectIdentifierPayloadDecoder.subIdentifiers (octs2ints (concat subs) ++ more) oid
    = ObjectIdentifierPayloadDecoder.subIdentifiers more
        (oid ++ map (fun sub => base128 (octs2ints sub)) subs).
Proof.
  induction 1 as [| sub subs Hsub Hsubs IH]; intros oid.
  - cbn [concat octs2ints map app]. rewrite app_nil_r. reflexivity.
  - cbn [concat map]. unfold octs2ints at 1. rewrite map_app.
    fold (octs2ints sub). fold (octs2ints (concat subs)).
    rewrite <- app_assoc.
    rewrite (isArc_value sub _ oid Hsub). rewrite IH.
    rewrite <- app_assoc. reflexivity.
Qed.

Lemma construct_truncated (next : list Z -> Z -> Error + list Z) (body : list Z) :
  Forall (fun b => 128 <= b) body ->
  forall subId nextSubId, 128 <= nextSubId ->
    ObjectIdentifierPayloadDecoder.construct next subId nextSubId body
    = inl (SubstrateUnderrunError "Short substrate for sub-OID past %s").
Proof.
  induction 1 as [| b body Hb Hbody IH]; intros subId nextSubId Hn.
  - cbn. destruct (nextSubId >=? 128) eqn:E; [reflexivity | lia].
  - rewrite construct_continue by exact Hn. apply IH. exact Hb.
Qed.

Lemma subIdentifiers_truncated (partial : list byte) (oid : list Z) :
  partial <> [] -> Forall (fun o => 128 <= ord o) partial -> hd x00 partial <> x80 ->
  ObjectIdentifierPayloadDecoder.subIdentifiers (octs2ints partial) oid
  = inl (SubstrateUnderrunError "Short substrate for sub-OID past %s").
Proof.
  intros Hne Hall Hhd. destruct partial as [| first body]; [contradiction |].
  inversion Hall as [| ? ? Hfirst Hbody]; subst.
  cbn [hd] in Hhd.
  assert (ord first <> 128).
  { intros H128. apply Hhd. destruct first; vm_compute in H128; try discriminate.
    reflexivity. }
  cbn [octs2ints map ObjectIdentifierPayloadDecoder.subIdentifiers].
  replace (ord first <? 128) with false by lia.
  replace (ord first >? 128) with true by lia.
  apply construct_truncated; [| exact Hfirst].
  apply Forall_map. exact Hbody.
Qed.

(** X13.  An ObjectIdentifier with no content raises "Empty substrate"; one
    whose content ends inside a sub-identifier, after complete ones, raises
    SubstrateUnderrunError "Short substrate for sub-OID past %s". *)
Theorem X13_oid_malformed :
  (forall (fuel : nat) (options : Options) (tail : list byte),
     decode (S fuel) (x06 :: x00 :: tail) None options
     = Decoder.Raised (PyAsn1Error "Empty substrate")) /\
  (forall (fuel : nat) (options : Options) (L : byte) (subs : list (list byte))
          (partial tail : list byte),
     ord L < 128 ->
     Forall isArc subs ->
     partial <> [] -> Forall (fun o => 128 <= ord o) partial -> hd x00 partial <> x80 ->
     len (concat subs ++ partial) = ord L ->
     decode (S fuel) (x06 :: L :: (concat subs ++ partial) ++ tail) None options
     = Decoder.Raised (SubstrateUnderrunError "Short substrate for sub-OID past %s")).
Proof.
  split.
  - intros fuel options tail.
    rewrite (decode_by_tag_definite fuel options x06 x00 tail
               objectIdentifierPayloadDecoder);
      [| vm_compute; discriminate | reflexivity | reflexivity].
    cbn [valueDecoderOf]. unfold ObjectIdentifierPayloadDecoder.valueDecoder.
    unfold bind at 1. unfold bind at 1. cbn [TagSet_head headerTags superTags ret].
    change (tagFormat (shortTag x06) =? tagFormatSimple) with true. cbn [negb].
    unfold bind at 1. change (ord x00) with 0. rewrite readFromStream_0.
    reflexivity.
  - intros fuel options L subs partial tail HL Hsubs Hne Hall Hhd Hlen.
    rewrite (decode_by_tag_definite fuel options x06 L ((concat subs ++ partial) ++ tail)
               objectIdentifierPayloadDecoder);
      [| vm_compute; discriminate | reflexivity | exact HL].
    cbn [valueDecoderOf]. unfold ObjectIdentifierPayloadDecoder.valueDecoder.
    unfold bind at 1. unfold bind at 1. cbn [TagSet_head headerTags superTags ret].
    change (tagFormat (shortTag x06) =? tagFormatSimple) with true. cbn [negb].
    unfold bind at 1. rewrite <- Hlen.
    rewrite (readFromStream_app
               (afterHeader (x06 :: L :: (concat subs ++ partial) ++ tail))
               (concat subs ++ partial) tail eq_refl).
    destruct (concat subs ++ partial) as [| c0 chunk] eqn:Hchunk.
    { destruct (concat subs); [cbn in Hchunk; contradiction | discriminate]. }
    cbn [nonEmpty negb]. rewrite <- Hchunk.
    unfold bind at 1. unfold octs2ints at 1. rewrite map_app.
    fold (octs2ints (concat subs)). fold (octs2ints partial).
    rewrite (subIdentifiers_arcs subs (octs2ints partial) Hsubs []).
    rewrite (subIdentifiers_truncated partial _ Hne Hall Hhd).
    reflexivity.
Qed.

Lemma X13_oid_malformed_witness :
  decode 1 [x06; x02; x2a; x86; x00] None defaultOptions
  = Decoder.Raised (SubstrateUnderrunError "Short substrate for sub-OID past %s").
Proof.
  apply (proj2 X13_oid_malformed 0%nat defaultOptions x02 [[x2a]] [x86] [x00]);
    [reflexivity | | discriminate | | vm_compute; discriminate | reflexivity].
  - constructor; [| constructor]. split; [| vm_compute; discriminate].
    exists [], 42. split; [reflexivity | split; [constructor | lia]].
  - constructor; [vm_compute; discriminate | constructor].
Defined.

(** ** Real: the binary encoding *)

Lemma shiftIn_bigEndian (acc : Z) (octets : list byte) :
  RealPayloadDecoder.shiftIn acc octets = acc * 256 ^ len octets + bigEndianUnsigned octets.
Proof. unfold RealPayloadDecoder.shiftIn. apply fold_shift_bigEndian. Qed.

Lemma firstn_len_app {A : Type} (l1 l2 : list A) :
  firstn (Z.to_nat (len l1)) (l1 ++ l2) = l1.
Proof.
  unfold len. rewrite Nat2Z.id, firstn_app, firstn_all, Nat.sub_diag.
  cbn [firstn]. apply app_nil_r.
Qed.

Lemma skipn_len_app {A : Type} (l1 l2 : list A) :
  skipn (Z.to_nat (len l1)) (l1 ++ l2) = l2.
Proof.
  unfold len. rewrite Nat2Z.id, skipn_app, skipn_all, Nat.sub_diag. reflexivity.
Qed.

Lemma binaryEncoding_value (fo : Z) (lengthOctets : list byte) (eo0 : byte)
    (exponent mantissa : list byte) :
  realExponentForm fo lengthOctets (eo0 :: exponent) ->
  mantissa <> [] ->
  let b := Z.land (Z.shiftr fo 4) 0x03 in
  let sf := Z.land (Z.shiftr fo 2) 0x03 in
  let e := bigEndianUnsigned (eo0 :: exponent)
           - (if ord eo0 <? 128 then 0 else 256 ^ len (eo0 :: exponent)) in
  let p := bigEndianUnsigned mantissa in
  RealPayloadDecoder.binaryEncoding fo (lengthOctets ++ (eo0 :: exponent) ++ mantissa)
  = if b >? 2 then inl (PyAsn1Error "Illegal Real base")
    else inr (PyRealTriple ((if Z.land fo 0x40 =? 0 then p else - p) * 2 ^ sf) 2
                (if b =? 1 then e * 3 else if b =? 2 then e * 4 else e)).
Proof.
  intros Hform Hmant b sf e p.
  unfold RealPayloadDecoder.binaryEncoding.
  set (eo := eo0 :: exponent) in *.
  assert (Hsplit :
            (let n := Z.land fo 3 + 1 in
             if n =? 4
             then match lengthOctets ++ eo ++ mantissa with
                  | c0 :: chunk' => (oct2int c0, chunk')
                  | [] => (n, lengthOctets ++ eo ++ mantissa)
                  end
             else (n, lengthOctets ++ eo ++ mantissa))
            = (len eo, eo ++ mantissa)).
  { cbv zeta. destruct Hform as [(Hn & -> & Hlen) | (Hn & N & -> & Hlen)].
    - destruct (Z.land fo 3 + 1 =? 4) eqn:E; [lia |]. rewrite Hlen. reflexivity.
    - rewrite Hn. cbn [Z.add Z.eqb Pos.add Pos.eqb app]. unfold oct2int.
      rewrite Hlen. reflexivity. }
  assert (Hnonempty : nonEmpty (lengthOctets ++ eo ++ mantissa) = true).
  { destruct lengthOctets; reflexivity. }
  rewrite Hnonempty. cbn [negb]. cbv zeta in Hsplit |- *. rewrite Hsplit.
  rewrite firstn_len_app, skipn_len_app.
  unfold eo at 1.
  assert (Hm : nonEmpty mantissa = true) by (destruct mantissa; [contradiction | reflexivity]).
  rewrite Hm. cbn [negb].
  fold b. destruct (b >? 2); [reflexivity |].
  rewrite !shiftIn_bigEndian. unfold oct2int. rewrite high_bit.
  fold eo. fold p. fold sf.
  assert (He : (if ord eo0 <? 128 then 0 else -1) * 256 ^ len eo + bigEndianUnsigned eo = e).
  { unfold e. destruct (ord eo0 <? 128); lia. }
  rewrite He. replace (0 * 256 ^ len mantissa + p) with p by lia.
  reflexivity.
Qed.

(** The Real payload decoder on content it has in full: the content is read
    and its first octet chooses the encoding. *)
Lemma real_valueDecoder_content (fuel : nat) (options : Options) (L fo : byte)
    (chunk tail : list byte) (value : Error + PyValue) :
  ord L < 128 -> len (fo :: chunk) = ord L ->
  (if negb (Z.land (ord fo) 0x80 =? 0) then RealPayloadDecoder.binaryEncoding (ord fo) chunk
   else if negb (Z.land (ord fo) 0x40 =? 0) then
     inr (PyStr (if Z.land (ord fo) 0x01 =? 0 then "inf" else "-inf"))
   else if Z.land (ord fo) 0xc0 =? 0 then RealPayloadDecoder.characterEncoding (ord fo) chunk
   else inl (SubstrateUnderrunError "Unknown encoding (tag %s)")) = value ->
  decode (S fuel) (x09 :: L :: (fo :: chunk) ++ tail) None options
  = match value with
    | inl e => Decoder.Raised e
    | inr v => Decoder.Return (component options univ_Real (headerTags x09) v) tail
    end.
Proof.
  intros HL Hlen Hvalue.
  rewrite (decode_by_tag_definite fuel options x09 L ((fo :: chunk) ++ tail)
             realPayloadDecoder);
    [| vm_compute; discriminate | reflexivity | exact HL].
  cbn [valueDecoderOf]. unfold RealPayloadDecoder.valueDecoder.
  unfold bind at 1. unfold bind at 1. cbn [TagSet_head headerTags superTags ret].
  change (tagFormat (shortTag x09) =? tagFormatSimple) with true. cbn [negb].
  unfold bind at 1. rewrite <- Hlen.
  set (s := afterHeader (x09 :: L :: (fo :: chunk) ++ tail)).
  rewrite (readFromStream_app s (fo :: chunk) tail eq_refl).
  unfold oct2int. cbv zeta. rewrite Hvalue.
  destruct value as [e | v]; [reflexivity |].
  unfold bind at 1. cbn [liftE ret].
  unfold RealPayloadDecoder._createComponent,
    AbstractSimplePayloadDecoder._createComponent, component.
  cbn [native withAllowEoo RealPayloadDecoder.protoComponent].
  pose proof (remaining_seek_cur s (fo :: chunk) tail eq_refl) as Hrest.
  destruct (native options); unfold ret at 1; unfold bind, getTell;
    unfold s; rewrite tell_afterHeader_read by apply len_nonneg;
    rewrite Z.eqb_refl; cbn [negb ret outcomeResult]; fold s; rewrite Hrest; reflexivity.
Qed.

(** X14.  A Real TLV whose first content octet has the bit 80 set is in the
    binary encoding: the exponent octets (their number taken from the low
    two bits of the first octet, or from the next octet) are a two's
    complement number, times 3 for the base 8 and times 4 for the base 16;
    the octets after them are the unsigned mantissa, negated when the bit 40
    is set and scaled by 2 to the scale bits.  The result is the triple of
    mantissa, 2 and exponent; the base bits 3 raise "Illegal Real base". *)
Theorem X14_real_binary (fuel : nat) (options : Options) (L fo eo0 : byte)
    (lengthOctets exponent mantissa tail : list byte) :
  ord L < 128 ->
  Z.land (ord fo) 0x80 <> 0 ->
  realExponentForm (ord fo) lengthOctets (eo0 :: exponent) ->
  mantissa <> [] ->
  len (fo :: lengthOctets ++ (eo0 :: exponent) ++ mantissa) = ord L ->
  let b := Z.land (Z.shiftr (ord fo) 4) 0x03 in
  let sf := Z.land (Z.shiftr (ord fo) 2) 0x03 in
  let e := bigEndianUnsigned (eo0 :: exponent)
           - (if ord eo0 <? 128 then 0 else 256 ^ len (eo0 :: exponent)) in
  let p := bigEndianUnsigned mantissa in
  decode (S fuel)
    (x09 :: L :: (fo :: lengthOctets ++ (eo0 :: exponent) ++ mantissa) ++ tail) None options
  = if b >? 2 then Decoder.Raised (PyAsn1Error "Illegal Real base")
    else Decoder.Return
           (component options univ_Real (headerTags x09)
              (PyRealTriple ((if Z.land (ord fo) 0x40 =? 0 then p else - p) * 2 ^ sf) 2
                 (if b =? 1 then e * 3 else if b =? 2 then e * 4 else e)))
           tail.
Proof.
  intros HL Hbinary Hform Hmant Hlen b sf e p.
  rewrite (real_valueDecoder_content fuel options L fo _ tail _ HL Hlen eq_refl).
  replace (Z.land (ord fo) 128 =? 0) with false by (symmetry; apply Z.eqb_neq; exact Hbinary).
  cbn [negb].
  rewrite (binaryEncoding_value (ord fo) lengthOctets eo0 exponent mantissa Hform Hmant).
  fold b. destruct (b >? 2); reflexivity.
Qed.

Lemma X14_real_binary_witness :
  decode 1 [x09; x03; x80; xfb; x05] None defaultOptions
  = Decoder.Return (Asn1Scalar univ_Real (headerTags x09) (PyRealTriple 5 2 (-5))) [].
Proof.
  apply (X14_real_binary 0 defaultOptions x03 x80 xfb [] [] [x05] []);
    [reflexivity | vm_compute; discriminate | | discriminate | reflexivity].
  left. split; [vm_compute; discriminate | split; reflexivity].
Defined.

Lemma bind_Raise_inv {A B : Type} (m : Gen A) (k : A -> Gen B) (s : Substrate) (e : Error) :
  bind m k s = Raise e ->
  m s = Raise e \/ exists a s1, m s = Yield a s1 /\ k a s1 = Raise e.
Proof.
  unfold bind. destruct (m s) as [a s1 | | e' |]; try discriminate.
  - intros H. right. eauto.
  - intros H. left. injection H as ->. reflexivity.
Qed.

(** The encoding a first octet chooses is never the unknown one: with the
    bits 0x80 and 0x40 clear, the test [fo & 0xc0 == 0] holds. *)
Lemma real_encoding_known (fo : byte) (chunk : list byte) :
  (if negb (Z.land (ord fo) 0x80 =? 0) then RealPayloadDecoder.binaryEncoding (ord fo) chunk
   else if negb (Z.land (ord fo) 0x40 =? 0) then
     inr (PyStr (if Z.land (ord fo) 0x01 =? 0 then "inf" else "-inf"))
   else if Z.land (ord fo) 0xc0 =? 0 then RealPayloadDecoder.characterEncoding (ord fo) chunk
   else inl (SubstrateUnderrunError "Unknown encoding (tag %s)"))
  <> inl (SubstrateUnderrunError "Unknown encoding (tag %s)").
Proof.
  destruct (negb (Z.land (ord fo) 128 =? 0)) eqn:E80.
  - unfold RealPayloadDecoder.binaryEncoding.
    destruct (negb (nonEmpty chunk)); [discriminate |].
    cbv zeta.
    destruct (if Z.land (ord fo) 3 + 1 =? 4 then _ else _) as [n chunk'].
    destruct (firstn (Z.to_nat n) chunk'); [discriminate |].
    destruct (negb (nonEmpty (skipn (Z.to_nat n) chunk'))); [discriminate |].
    destruct (Z.land (Z.shiftr (ord fo) 4) 3 >? 2); discriminate.
  - destruct (negb (Z.land (ord fo) 64 =? 0)) eqn:E40; [discriminate |].
    replace (Z.land (ord fo) 192 =? 0) with true.
    2:{ destruct fo; vm_compute in E80, E40 |- *; congruence. }
    unfold RealPayloadDecoder.characterEncoding.
    destruct (negb (nonEmpty chunk)); [discriminate |].
    repeat (match goal with |- context [if ?c then _ else _] => destruct c end;
            [discriminate |]).
    discriminate.
Qed.

(** X15.  A Real TLV whose first content octet has the bit 80 clear and the
    bit 40 set decodes to "inf", or to "-inf" when the lowest bit is set,
    whatever octets follow in the content.  And the Real decoder never
    raises its SubstrateUnderrunError "Unknown encoding (tag %s)": one of
    the three encodings is always chosen. *)
Theorem X15_real_special :
  (forall (fuel : nat) (options : Options) (L fo : byte) (chunk tail : list byte),
     ord L < 128 -> len (fo :: chunk) = ord L ->
     Z.land (ord fo) 0x80 = 0 -> Z.land (ord fo) 0x40 <> 0 ->
     decode (S fuel) (x09 :: L :: (fo :: chunk) ++ tail) None options
     = Decoder.Return
         (component options univ_Real (headerTags x09)
            (PyStr (if Z.land (ord fo) 0x01 =? 0 then "inf" else "-inf")))
         tail) /\
  (forall (asn1Spec : option Asn1Spec) (tagSet : TagSet) (length : Z) (state : State)
          (decodeFun : DecodeFun) (substrateFun : option SubstrateFun)
          (options : Options) (s : Substrate),
     RealPayloadDecoder.valueDecoder asn1Spec tagSet length state decodeFun substrateFun
       options s
     <> Raise (SubstrateUnderrunError "Unknown encoding (tag %s)")).
Proof.
  split.
  - intros fuel options L fo chunk tail HL Hlen H80 H40.
    rewrite (real_valueDecoder_content fuel options L fo chunk tail _ HL Hlen eq_refl).
    rewrite H80. cbn [Z.eqb negb].
    replace (Z.land (ord fo) 64 =? 0) with false by (symmetry; apply Z.eqb_neq; exact H40).
    reflexivity.
  - intros asn1Spec tagSet length state decodeFun substrateFun options s Hraise.
    assert (Hcreate : forall value s1,
               RealPayloadDecoder._createComponent asn1Spec tagSet value options s1
               <> Raise (SubstrateUnderrunError "Unknown encoding (tag %s)")).
    { intros value s1. unfold RealPayloadDecoder._createComponent,
        AbstractSimplePayloadDecoder._createComponent, spec_clone, ret, raise.
      destruct (native options); [discriminate |].
      destruct asn1Spec as [[] |]; discriminate. }
    unfold RealPayloadDecoder.valueDecoder in Hraise.
    apply bind_Raise_inv in Hraise as [Hhead | (tag0 & s1 & _ & Hraise)].
    { unfold TagSet_head in Hhead. destruct (superTags tagSet); discriminate. }
    destruct (negb (tagFormat tag0 =? tagFormatSimple)); [discriminate |].
    apply bind_Raise_inv in Hraise as [Hread | (chunk & s2 & _ & Hraise)].
    { unfold readFromStream in Hread.
      destruct (length <? 0); [destruct (remaining s1); discriminate |].
      destruct (length <=? len (remaining s1)); discriminate. }
    destruct chunk as [| chunk0 chunk]; [exact (Hcreate _ _ Hraise) |].
    cbv zeta in Hraise. unfold oct2int in Hraise.
    apply bind_Raise_inv in Hraise as [Hvalue | (value & s3 & _ & Hraise)].
    + pose proof (real_encoding_known chunk0 chunk) as Hknown.
      destruct (if negb (Z.land (ord chunk0) 128 =? 0) then _ else _) as [e | v];
        [| discriminate].
      unfold liftE, raise in Hvalue. injection Hvalue as ->. apply Hknown. reflexivity.
    + exact (Hcreate _ _ Hraise).
Qed.

Lemma X15_real_special_witness :
  decode 1 [x09; x01; x41; x00] None defaultOptions
  = Decoder.Return (Asn1Scalar univ_Real (headerTags x09) (PyStr "-inf")) [x00].
Proof.
  exact (proj1 X15_real_special 0%nat defaultOptions x01 x41 [] [x00] eq_refl eq_refl
           eq_refl ltac:(vm_compute; discriminate)).
Defined.

(** ** Decoding under a schema *)

(** State [stGetValueDecoderByAsn1Spec] for a chosen type object whose
    [typeId] the type map knows. *)
Lemma byAsn1Spec_chosen (self : SingleItemDecoder.Self) (asn1Spec : Asn1Spec)
    (tagSet : TagSet) (length : Z) (substrateFun : option SubstrateFun) (value0 : Value)
    (s : Substrate) (c : Asn1Class) (specTagSet : TagSet)
    (specTagMap : TagSet -> option Asn1Spec) (ct : ComponentType) (d : PayloadDecoder) :
  chosenSpec asn1Spec tagSet = Some (Asn1Type c specTagSet specTagMap ct) ->
  lookupTypeMap (SingleItemDecoder._typeMap self) c = Some d ->
  SingleItemDecoder.getValueDecoderByAsn1Spec self
    (SingleItemDecoder.mkMachine stGetValueDecoderByAsn1Spec (Some asn1Spec) (Some tagSet)
       (Some length) None substrateFun value0) s
  = Yield (SingleItemDecoder.mkMachine stDecodeValue
             (Some (Asn1Type c specTagSet specTagMap ct)) (Some tagSet) (Some length)
             (Some d) substrateFun value0) s.
Proof.
  intros Hchosen Hlookup. unfold SingleItemDecoder.getValueDecoderByAsn1Spec.
  machine_fields. unfold bind at 1. unfold ret at 1. unfold bind at 1. unfold ret at 1.
  unfold chosenSpec in Hchosen. rewrite Hchosen.
  unfold bind at 1. cbn [spec_typeId]. unfold ret at 1.
  rewrite Hlookup. unfold bind at 1. unfold ret at 1. reflexivity.
Qed.

(** The decoder called under a spec at a two-octet header whose tag the
    spec accepts. *)
Lemma call_by_spec_definite (fuel : nat) (options : Options)
    (substrateFun : option SubstrateFun) (s : Substrate)
    (tagOctet L : byte) (rest : list byte) (asn1Spec : Asn1Spec) (c : Asn1Class)
    (specTagSet : TagSet) (specTagMap : TagSet -> option Asn1Spec) (ct : ComponentType)
    (d : PayloadDecoder) :
  remaining s = tagOctet :: L :: rest ->
  Z.land (ord tagOctet) 0x1F <> 0x1F ->
  ord L < 128 ->
  allowEoo options = false ->
  chosenSpec asn1Spec (headerTags tagOctet) = Some (Asn1Type c specTagSet specTagMap ct) ->
  lookupTypeMap TYPE_MAP c = Some d ->
  let s2 := seek_cur 2 (setMarkedPosition s) in
  SingleItemDecoder.__call__ SingleItemDecoder.ber (S fuel) (Some asn1Spec) None None
    stDecodeTag substrateFun options s
  = bind (valueDecoderOf fuel d (Some (Asn1Type c specTagSet specTagMap ct))
            (headerTags tagOctet) (ord L) stGetValueDecoder
            (SingleItemDecoder.__call__ SingleItemDecoder.ber fuel)
            (effectiveSubstrateFun substrateFun options) (withAllowEoo false options))
      (fun value =>
         bind getTell
           (fun here =>
              if negb (here - tell s2 =? ord L)
              then raise (PyAsn1Error "Read %s bytes instead of expected %s.")
              else ret value)) s2.
Proof.
  intros Hrem Htag HL Heoo Hchosen Hlookup s2.
  rewrite (call_by_spec SingleItemDecoder.ber fuel options substrateFun s s2 tagOctet
             (L :: rest) (ord L) d asn1Spec (Asn1Type c specTagSet specTagMap ct) Hrem Htag
             (decodeLength_after_tag s tagOctet L rest Hrem HL) Heoo).
  - pose proof (ord_range L). rewrite decodeValue_definite by lia. reflexivity.
  - intros m_value. apply byAsn1Spec_chosen; assumption.
Qed.

(** One turn of the machine under a spec that does not accept the tag. *)
Lemma turn_spec_mismatch (self : SingleItemDecoder.Self) (fuel : nat)
    (decodeFun : DecodeFun) (options : Options) (substrateFun : option SubstrateFun)
    (s s2 : Substrate) (tagOctet : byte) (rest : list byte) (length : Z)
    (asn1Spec : Asn1Spec) :
  remaining s = tagOctet :: rest ->
  Z.land (ord tagOctet) 0x1F <> 0x1F ->
  decodeLength (SingleItemDecoder.supportIndefLength self) (seek_cur 1 s)
  = Yield length s2 ->
  chosenSpec asn1Spec (headerTags tagOctet) = None ->
  SingleItemDecoder.defaultErrorState self = stErrorCondition ->
  SingleItemDecoder.turn self fuel decodeFun options
    (SingleItemDecoder.mkMachine stDecodeTag (Some asn1Spec) None None None substrateFun
       noValue) s
  = if (Z.land (ord tagOctet) 0x20 =? tagFormatConstructed)
       && negb (Z.land (ord tagOctet) 0xC0 =? tagClassUniversal)
    then
      Yield (Continue (SingleItemDecoder.mkMachine stDecodeValue (Some asn1Spec)
                         (Some (headerTags tagOctet)) (Some length)
                         (Some rawPayloadDecoder) substrateFun noValue)) s2
    else Raise (PyAsn1Error "%s not in asn1Spec: %r").
Proof.
  intros Hrem Htag Hlen Hchosen Herr.
  unfold SingleItemDecoder.turn.
  state_taken. unfold bind at 1. unfold bind at 1.
  rewrite (decodeTag_short fuel s tagOctet _ Hrem Htag). unfold ret at 1.
  state_taken. unfold bind at 1. unfold bind at 1.
  rewrite Hlen. unfold ret at 1.
  state_taken. unfold bind at 1. unfold ret at 1.
  unfold SingleItemDecoder.setState. machine_fields.
  state_skipped. unfold bind at 1. unfold ret at 1.
  state_taken. unfold bind at 1. unfold SingleItemDecoder.getValueDecoderByAsn1Spec.
  machine_fields. unfold bind at 1. unfold ret at 1. unfold bind at 1. unfold ret at 1.
  fold (headerTags tagOctet). unfold chosenSpec in Hchosen. rewrite Hchosen.
  unfold ret at 1.
  unfold SingleItemDecoder.setDecoder. machine_fields.
  rewrite bool_decide_eq_false_2 by discriminate.
  state_taken. unfold bind at 1. unfold SingleItemDecoder.tryAsExplicitTag.
  machine_fields. unfold bind at 1. unfold ret at 1.
  cbn [headerTags superTags shortTag tagFormat tagClass].
  destruct ((Z.land (ord tagOctet) 32 =? tagFormatConstructed)
            && negb (Z.land (ord tagOctet) 192 =? tagClassUniversal)).
  - unfold ret at 1. unfold SingleItemDecoder.setDecoder. machine_fields.
    state_skipped. unfold bind at 1. unfold ret at 1. machine_fields.
    rewrite bool_decide_eq_false_2 by discriminate. reflexivity.
  - unfold ret at 1. unfold SingleItemDecoder.setDecoder. machine_fields.
    rewrite Herr.
    state_skipped. unfold bind at 1. unfold ret at 1. machine_fields.
    rewrite bool_decide_eq_true_2 by reflexivity. reflexivity.
Qed.

Lemma decodeLength_any (s : Substrate) (L : byte) (rest : list byte) :
  remaining s = L :: rest -> ord L <= 128 ->
  exists length s2, decodeLength true s = Yield length s2.
Proof.
  intros Hrem HL. destruct (Z.eq_dec (ord L) 128) as [H128 | Hne].
  - assert (L = x80) as ->.
    { destruct L; vm_compute in H128; try discriminate. reflexivity. }
    eexists _, _. exact (decodeLength_indefinite s rest Hrem).
  - eexists _, _. exact (decodeLength_short true s L rest Hrem ltac:(lia)).
Qed.

(** X16.  Under a schema that does not accept the tag set of the header (a
    tag map without an entry for it, or a type object it is neither the tag
    set of nor in the tag map of), and without [allowEoo], a tag that is
    primitive or of the universal class, with a length octet of at most 80,
    makes the decoder raise "%s not in asn1Spec: %r". *)
Theorem X16_schema_mismatch (fuel : nat) (options : Options) (asn1Spec : Asn1Spec)
    (tagOctet L : byte) (rest : list byte) :
  Z.land (ord tagOctet) 0x1F <> 0x1F ->
  chosenSpec asn1Spec (headerTags tagOctet) = None ->
  Z.land (ord tagOctet) 0x20 = 0 \/ Z.land (ord tagOctet) 0xC0 = 0 ->
  ord L <= 128 ->
  allowEoo options = false ->
  decode (S fuel) (tagOctet :: L :: rest) (Some asn1Spec) options
  = Decoder.Raised (PyAsn1Error "%s not in asn1Spec: %r").
Proof.
  intros Htag Hchosen Hform HL Heoo. unfold decode. rewrite call_first_item.
  set (s := asSeekableStream (tagOctet :: L :: rest)).
  destruct (decodeLength_any (seek_cur 1 (setMarkedPosition s)) L rest eq_refl HL)
    as (length & s2 & Hlen).
  cbn [SingleItemDecoder.__call__]. rewrite Heoo. cbn [andb].
  unfold bind at 1. unfold ret at 1. unfold bind at 1. unfold modify at 1.
  unfold bind at 1. cbn [while].
  unfold bind at 1. unfold ret at 1.
  cbn [SingleItemDecoder.m_state]. rewrite bool_decide_eq_false_2 by discriminate.
  cbn [negb]. unfold bind at 1.
  rewrite (turn_spec_mismatch SingleItemDecoder.ber fuel _ _ None (setMarkedPosition s) s2
             tagOctet (L :: rest) length asn1Spec eq_refl Htag Hlen Hchosen eq_refl).
  replace ((Z.land (ord tagOctet) 32 =? tagFormatConstructed)
           && negb (Z.land (ord tagOctet) 192 =? tagClassUniversal)) with false;
    [reflexivity |].
  symmetry. destruct Hform as [-> | ->]; [reflexivity |].
  apply andb_false_r.
Qed.

Lemma X16_schema_mismatch_witness :
  decode 1 [x04; x01; x05] (Some (protoSpec univ_Integer)) defaultOptions
  = Decoder.Raised (PyAsn1Error "%s not in asn1Spec: %r").
Proof.
  apply (X16_schema_mismatch 0 defaultOptions (protoSpec univ_Integer) x04 x01 [x05]);
    [vm_compute; discriminate | reflexivity | left; reflexivity | vm_compute; discriminate
    | reflexivity].
Defined.

(** X17.  Under an Integer type object that accepts the tag set of the
    header, whatever the tag (an implicitly tagged Integer, say), a
    primitive TLV in the short form decodes to the two's complement reading
    of its content, as an object with the tag set of the type object, not
    of the header. *)
Theorem X17_integer_by_schema (fuel : nat) (options : Options) (tagOctet L : byte)
    (content tail : list byte) (specTagSet : TagSet)
    (specTagMap : TagSet -> option Asn1Spec) (ct : ComponentType) :
  let asn1Spec := Asn1Type univ_Integer specTagSet specTagMap ct in
  Z.land (ord tagOctet) 0x1F <> 0x1F ->
  Z.land (ord tagOctet) 0x20 = 0 ->
  chosenSpec asn1Spec (headerTags tagOctet) = Some asn1Spec ->
  allowEoo options = false ->
  ord L < 128 -> len content = ord L ->
  decode (S fuel) (tagOctet :: L :: content ++ tail) (Some asn1Spec) options
  = Decoder.Return
      (component options univ_Integer specTagSet (PyInt (from_bytes content true))) tail.
Proof.
  intros asn1Spec Htag Hprimitive Hchosen Heoo HL Hlen.
  unfold decode. rewrite call_first_item.
  set (s := asSeekableStream (tagOctet :: L :: content ++ tail)).
  rewrite (call_by_spec_definite fuel options None s tagOctet L (content ++ tail) asn1Spec
             univ_Integer specTagSet specTagMap ct integerPayloadDecoder eq_refl Htag HL
             Heoo Hchosen eq_refl).
  cbn [valueDecoderOf]. rewrite <- Hlen. unfold bind at 1.
  set (s2 := seek_cur 2 (setMarkedPosition s)).
  rewrite (integer_valueDecoder_read _ _ (headerTags tagOctet) (shortTag tagOctet) []
             stGetValueDecoder _ _ _ s2 content tail eq_refl Hprimitive eq_refl).
  unfold IntegerPayloadDecoder._createComponent,
    AbstractSimplePayloadDecoder._createComponent, component.
  cbn [native withAllowEoo spec_clone].
  pose proof (remaining_seek_cur s2 content tail eq_refl) as Hrest.
  pose proof (len_nonneg content).
  assert (Htell : tell (seek_cur (len content) s2) - tell s2 = len content)
    by (rewrite tell_seek_cur by lia; lia).
  destruct (native options); unfold ret at 1; unfold bind, getTell;
    rewrite Htell, Z.eqb_refl; cbn [negb ret]; rewrite Hrest; reflexivity.
Qed.

Lemma X17_integer_by_schema_witness :
  decode 1 [x80; x01; xff]
    (Some (Asn1Type univ_Integer
             {| baseTag := Some (mkTag 0 0 2); superTags := [mkTag 0x80 0 0] |}
             (fun _ => None) NoComponentType))
    defaultOptions
  = Decoder.Return
      (Asn1Scalar univ_Integer
         {| baseTag := Some (mkTag 0 0 2); superTags := [mkTag 0x80 0 0] |} (PyInt (-1)))
      [].
Proof.
  exact (X17_integer_by_schema 0 defaultOptions x80 x01 [xff] []
           {| baseTag := Some (mkTag 0 0 2); superTags := [mkTag 0x80 0 0] |}
           (fun _ => None) NoComponentType
           ltac:(vm_compute; discriminate) eq_refl eq_refl eq_refl eq_refl eq_refl).
Defined.

(** ** Any under a schema *)

(** X18.  Under an Any type object that accepts the tag set of the header,
    a TLV in the short form decodes to an Any holding the content octets
    when the tag set of the header is that of the type object (a tagged
    Any), and the whole TLV, header included, when it is not (an untagged
    Any). *)
Theorem X18_any_by_schema (fuel : nat) (options : Options) (tagOctet L : byte)
    (content tail : list byte) (specTagSet : TagSet)
    (specTagMap : TagSet -> option Asn1Spec) (ct : ComponentType) :
  let asn1Spec := Asn1Type univ_Any specTagSet specTagMap ct in
  Z.land (ord tagOctet) 0x1F <> 0x1F ->
  chosenSpec asn1Spec (headerTags tagOctet) = Some asn1Spec ->
  allowEoo options = false ->
  recursiveFlag options = true ->
  ord L < 128 -> len content = ord L ->
  decode (S fuel) (tagOctet :: L :: content ++ tail) (Some asn1Spec) options
  = Decoder.Return
      (component options univ_Any specTagSet
         (PyOctets (if TagSet_eqb (headerTags tagOctet) specTagSet then content
                    else tagOctet :: L :: content)))
      tail.
Proof.
  intros asn1Spec Htag Hchosen Heoo Hrec HL Hlen.
  unfold decode. rewrite call_first_item.
  set (input := tagOctet :: L :: content ++ tail).
  set (s := asSeekableStream input).
  rewrite (call_by_spec_definite fuel options None s tagOctet L (content ++ tail) asn1Spec
             univ_Any specTagSet specTagMap ct anyPayloadDecoder eq_refl Htag HL
             Heoo Hchosen eq_refl).
  cbn [valueDecoderOf]. unfold effectiveSubstrateFun. rewrite Hrec. cbn [negb].
  unfold AnyPayloadDecoder.valueDecoder. cbv zeta.
  cbn [AnyPayloadDecoder.matchesSpec].
  set (s2 := seek_cur 2 (setMarkedPosition s)).
  pose proof (len_nonneg content).
  unfold AnyPayloadDecoder._createComponent,
    AbstractSimplePayloadDecoder._createComponent, component.
  cbn [native withAllowEoo spec_clone].
  destruct (TagSet_eqb (headerTags tagOctet) specTagSet); cbn [negb].
  - unfold bind at 1. unfold bind at 1. unfold ret at 1. unfold bind at 1.
    rewrite <- Hlen. rewrite (readFromStream_app s2 content tail eq_refl).
    pose proof (remaining_seek_cur s2 content tail eq_refl) as Hrest.
    assert (Htell : tell (seek_cur (len content) s2) - tell s2 = len content)
      by (rewrite tell_seek_cur by lia; lia).
    destruct (native options); unfold ret at 1; unfold bind, getTell;
      rewrite Htell, Z.eqb_refl; cbn [negb ret]; rewrite Hrest; reflexivity.
  - unfold bind at 1. unfold bind at 1.
    change (Z.of_nat (markedPosition s2)) with 0. change (tell s2) with 2.
    change (seek_set 0 s2) with (setMarkedPosition s).
    unfold bind at 1.
    replace (ord L + (2 - 0)) with (len (tagOctet :: L :: content))
      by (rewrite !len_cons; lia).
    rewrite (readFromStream_app (setMarkedPosition s) (tagOctet :: L :: content) tail
               eq_refl).
    pose proof (remaining_seek_cur (setMarkedPosition s) (tagOctet :: L :: content) tail
                  eq_refl) as Hrest.
    assert (Htell : tell (seek_cur (len (tagOctet :: L :: content)) (setMarkedPosition s))
                    - 2 = ord L).
    { rewrite tell_seek_cur by apply len_nonneg. rewrite !len_cons.
      change (tell (setMarkedPosition s)) with 0. lia. }
    destruct (native options); unfold ret at 1; unfold bind, getTell;
      rewrite Htell, Z.eqb_refl; cbn [negb ret]; rewrite Hrest; reflexivity.
Qed.

Lemma X18_any_by_schema_witness :
  decode 1 [x02; x01; x05; xff]
    (Some (Asn1Type univ_Any {| baseTag := None; superTags := [] |}
             (fun _ => Some (TagMap (fun _ => None))) NoComponentType))
    defaultOptions
  = Decoder.Return
      (Asn1Scalar univ_Any {| baseTag := None; superTags := [] |}
         (PyOctets [x02; x01; x05]))
      [xff].
Proof.
  exact (X18_any_by_schema 0 defaultOptions x02 x01 [x05] [xff]
           {| baseTag := None; superTags := [] |}
           (fun _ => Some (TagMap (fun _ => None))) NoComponentType
           ltac:(vm_compute; discriminate) eq_refl eq_refl eq_refl eq_refl eq_refl).
Defined.

(** ** Loops over the items of a content *)

(** A loop [while substrate.tell() - original_position < length] whose
    body decodes one item per turn, run over the encodings of a list of
    items that make up the content. *)
Lemma while_items {St Item : Type} (enc : Item -> list byte) (step : St -> Item -> St)
    (ok : Item -> Prop) (Inv : St -> Prop) (cond : St -> Gen bool)
    (body : St -> Gen (LoopStep St)) (original_position length : Z) :
  (forall st s, cond st s = Yield (tell s - original_position <? length) s) ->
  (forall item, ok item -> enc item <> []) ->
  (forall st item rest s,
     ok item -> Inv st -> remaining s = enc item ++ rest ->
     exists s',
       body st s = Yield (Continue (step st item)) s' /\
       remaining s' = rest /\ tell s' = tell s + len (enc item) /\ Inv (step st item)) ->
  forall (items : list Item), Forall ok items ->
  forall (fuel : nat) (st : St) (s : Substrate) (tail : list byte),
    (List.length items < fuel)%nat ->
    Inv st ->
    remaining s = concat (map enc items) ++ tail ->
    tell s + len (concat (map enc items)) = original_position + length ->
    exists s',
      while fuel cond body st s = Yield (fold_left step items st) s' /\
      remaining s' = tail /\ tell s' = original_position + length.
Proof.
  intros Hcond Hnonempty Hbody items Hitems.
  induction Hitems as [| item items Hok Hitems IH]; intros fuel st s tail Hfuel Hinv Hrem Htell.
  - destruct fuel as [| fuel]; [simpl in Hfuel; lia |].
    exists s. rewrite while_step, Hcond.
    cbn [concat map] in Htell. change (len (@nil byte)) with 0 in Htell.
    replace (tell s - original_position <? length) with false by lia.
    cbn [fold_left]. split; [reflexivity | split; [exact Hrem | lia]].
  - destruct fuel as [| fuel]; [simpl in Hfuel; lia |].
    cbn [concat map] in Hrem, Htell. rewrite <- app_assoc in Hrem. rewrite len_app in Htell.
    destruct (Hbody st item _ s Hok Hinv Hrem) as (s1 & Hrun & Hrem1 & Htell1 & Hinv1).
    assert (Hpos : 0 < len (enc item)).
    { pose proof (Hnonempty item Hok). destruct (enc item); [contradiction |].
      rewrite len_cons. pose proof (len_nonneg l). lia. }
    pose proof (len_nonneg (concat (map enc items))).
    rewrite while_step, Hcond.
    replace (tell s - original_position <? length) with true by lia.
    rewrite Hrun. cbn [fold_left].
    apply IH; [simpl in Hfuel; lia | exact Hinv1 | exact Hrem1 | lia].
Qed.

(** A loop [while True] whose body decodes one item per turn and breaks at
    the end-of-octets sentinel, run over the encodings of a list of items
    followed by the sentinel. *)
Lemma whileTrue_items {St Item : Type} (enc : Item -> list byte) (step : St -> Item -> St)
    (ok : Item -> Prop) (Inv : St -> Prop) (body : St -> Gen (LoopStep St)) :
  (forall st item rest s,
     ok item -> Inv st -> remaining s = enc item ++ rest ->
     exists s',
       body st s = Yield (Continue (step st item)) s' /\
       remaining s' = rest /\ Inv (step st item)) ->
  (forall st rest s,
     Inv st -> remaining s = x00 :: x00 :: rest ->
     exists s', body st s = Yield (Break st) s' /\ remaining s' = rest) ->
  forall (items : list Item), Forall ok items ->
  forall (fuel : nat) (st : St) (s : Substrate) (tail : list byte),
    (List.length items < fuel)%nat ->
    Inv st ->
    remaining s = concat (map enc items) ++ x00 :: x00 :: tail ->
    exists s',
      whileTrue fuel body st s = Yield (fold_left step items st) s' /\
      remaining s' = tail.
Proof.
  intros Hbody Hbreak items Hitems.
  induction Hitems as [| item items Hok Hitems IH]; intros fuel st s tail Hfuel Hinv Hrem.
  - destruct fuel as [| fuel]; [simpl in Hfuel; lia |].
    cbn [concat map app] in Hrem.
    destruct (Hbreak st tail s Hinv Hrem) as (s' & Hrun & Hrem').
    exists s'. rewrite whileTrue_step, Hrun. split; [reflexivity | exact Hrem'].
  - destruct fuel as [| fuel]; [simpl in Hfuel; lia |].
    cbn [concat map] in Hrem. rewrite <- app_assoc in Hrem.
    destruct (Hbody st item _ s Hok Hinv Hrem) as (s1 & Hrun & Hrem1 & Hinv1).
    rewrite whileTrue_step, Hrun. cbn [fold_left].
    apply IH; [simpl in Hfuel; lia | exact Hinv1 | exact Hrem1].
Qed.

(** ** SequenceOf and SetOf under a schema *)

(** The decoder called under an Integer type object at an Integer TLV,
    wherever it stands. *)
Lemma call_integer_by_spec (fuel : nat) (options : Options) (s : Substrate)
    (item : byte * list byte) (rest : list byte) (ets : TagSet)
    (etm : TagSet -> option Asn1Spec) (ect : ComponentType) :
  let elem := Asn1Type univ_Integer ets etm ect in
  chosenSpec elem (headerTags x02) = Some elem ->
  wellFormedItem item ->
  allowEoo options = false ->
  remaining s = integerTLV item ++ rest ->
  exists s',
    SingleItemDecoder.__call__ SingleItemDecoder.ber (S fuel) (Some elem) None None
      stDecodeTag None options s
    = Yield (component options univ_Integer ets (PyInt (from_bytes (snd item) true))) s' /\
    remaining s' = rest /\ tell s' = tell s + len (integerTLV item).
Proof.
  destruct item as [L content]. unfold integerTLV, wellFormedItem. cbn [fst snd app].
  intros Hchosen [HL Hlen] Heoo Hrem.
  set (elem := Asn1Type univ_Integer ets etm ect) in *.
  exists (seek_cur (len content) (seek_cur 2 (setMarkedPosition s))).
  pose proof (remaining_after_header s x02 L (content ++ rest) Hrem) as Hrem2.
  pose proof (len_nonneg content).
  split; [| split; [exact (remaining_seek_cur _ content rest Hrem2) |]].
  - rewrite (call_by_spec_definite fuel options None s x02 L (content ++ rest) elem
               univ_Integer ets etm ect integerPayloadDecoder Hrem
               ltac:(vm_compute; discriminate) HL Heoo Hchosen eq_refl).
    cbn [valueDecoderOf]. rewrite <- Hlen. unfold bind at 1.
    rewrite (integer_valueDecoder_read _ _ (headerTags x02) (shortTag x02) []
               stGetValueDecoder _ _ _ _ content rest eq_refl eq_refl Hrem2).
    unfold IntegerPayloadDecoder._createComponent,
      AbstractSimplePayloadDecoder._createComponent, component.
    cbn [native withAllowEoo spec_clone elem].
    destruct (native options); unfold ret at 1; unfold bind, getTell;
      rewrite tell_seek_cur by lia;
      replace (tell (seek_cur 2 (setMarkedPosition s)) + len content
               - tell (seek_cur 2 (setMarkedPosition s)) =? len content) with true
        by (symmetry; apply Z.eqb_eq; lia);
      reflexivity.
  - rewrite !tell_seek_cur by lia. rewrite !len_cons.
    change (tell (setMarkedPosition s)) with (tell s). lia.
Qed.

(** The slots a loop fills one after the other, from index 0. *)
Lemma fold_setSlot (cls : Asn1Class) (tagSet : TagSet) (values : list Value) :
  forall (idx : Z) (filled : list (Z * Value)),
    Forall (fun slot => fst slot < idx) filled ->
    fold_left
      (fun (st : Z * Value) (value : Value) =>
         match snd st with
         | Asn1Constructed cls tagSet components =>
             (fst st + 1, Asn1Constructed cls tagSet (setSlot (fst st) value components))
         | _ => st
         end)
      values (idx, Asn1Constructed cls tagSet filled)
    = (idx + len values,
       Asn1Constructed cls tagSet (filled ++ enumerateFrom idx values)).
Proof.
  induction values as [| v values IH]; intros idx filled Hfilled.
  - cbn [fold_left enumerateFrom]. rewrite app_nil_r. rewrite (@len_nil Value).
    f_equal. lia.
  - cbn [fold_left enumerateFrom fst snd].
    rewrite setSlot_append by exact Hfilled.
    rewrite IH.
    + rewrite <- app_assoc. rewrite len_cons. f_equal. lia.
    + apply Forall_app. split.
      * eapply Forall_impl; [exact Hfilled |]. intros slot Hslot. cbn in *. lia.
      * constructor; [cbn; lia | constructor].
Qed.

Lemma constructed_bit (tagOctet : byte) :
  Z.land (ord tagOctet) 0x20 <> 0 -> Z.land (ord tagOctet) 0x20 = tagFormatConstructed.
Proof. intros H. destruct tagOctet; vm_compute in H |- *; congruence. Qed.

Lemma fold_left_map_items {St Item V : Type} (f : St -> V -> St) (g : Item -> V)
    (items : list Item) (st : St) :
  fold_left (fun st item => f st (g item)) items st = fold_left f (map g items) st.
Proof.
  revert st. induction items as [| item items IH]; intros st; [reflexivity |].
  cbn [fold_left map]. apply IH.
Qed.

(** X19.  Under a SequenceOf or SetOf type object with an Integer element
    type, a constructed TLV of definite length whose content is a run of
    well-formed Integer TLVs decodes to the container of the type object
    with the values at the positions 0, 1, ... in the order of the octets,
    each with the tag set of the element type. *)
Theorem X19_sequence_of_by_schema (fuel : nat) (options : Options) (tagOctet L : byte)
    (items : list (byte * list byte)) (tail : list byte) (c : Asn1Class)
    (specTagSet : TagSet) (specTagMap : TagSet -> option Asn1Spec)
    (ets : TagSet) (etm : TagSet -> option Asn1Spec) (ect : ComponentType) :
  let elem := Asn1Type univ_Integer ets etm ect in
  let asn1Spec := Asn1Type c specTagSet specTagMap (ElementType elem) in
  c = univ_SequenceOf \/ c = univ_SetOf ->
  Z.land (ord tagOctet) 0x1F <> 0x1F ->
  Z.land (ord tagOctet) 0x20 <> 0 ->
  chosenSpec asn1Spec (headerTags tagOctet) = Some asn1Spec ->
  chosenSpec elem (headerTags x02) = Some elem ->
  allowEoo options = false -> recursiveFlag options = true -> native options = false ->
  Forall wellFormedItem items ->
  ord L < 128 -> len (concat (map integerTLV items)) = ord L ->
  (List.length items <= fuel)%nat ->
  decode (S (S fuel)) (tagOctet :: L :: concat (map integerTLV items) ++ tail)
    (Some asn1Spec) options
  = Decoder.Return
      (Asn1Constructed c specTagSet
         (enumerateFrom 0
            (map (fun item => Asn1Scalar univ_Integer ets (PyInt (from_bytes (snd item) true)))
               items)))
      tail.
Proof.
  intros elem asn1Spec Hc Htag Hcons Hchosen Helem Heoo Hrec Hnative Hitems HL Hlen Hfuel.
  unfold decode. rewrite call_first_item.
  set (input := tagOctet :: L :: concat (map integerTLV items) ++ tail).
  set (s := asSeekableStream input).
  set (d := if bool_decide (c = univ_SequenceOf) then sequenceOfPayloadDecoder
            else setOfPayloadDecoder).
  assert (Hd : lookupTypeMap TYPE_MAP c = Some d)
    by (destruct Hc as [-> | ->]; reflexivity).
  rewrite (call_by_spec_definite (S fuel) options None s tagOctet L _ asn1Spec
             c specTagSet specTagMap (ElementType elem) d eq_refl Htag HL Heoo Hchosen Hd).
  set (s2 := seek_cur 2 (setMarkedPosition s)).
  set (options' := withAllowEoo false options).
  assert (Hvd : exists proto protoRecord protoSequence,
             valueDecoderOf (S fuel) d
             = ConstructedPayloadDecoderBase.valueDecoder proto protoRecord protoSequence
                 (S fuel)).
  { destruct Hc as [-> | ->]; eexists _, _, _; reflexivity. }
  destruct Hvd as (proto & protoRecord & protoSequence & ->).
  unfold effectiveSubstrateFun. rewrite Hrec. cbn [negb].
  unfold ConstructedPayloadDecoderBase.valueDecoder.
  unfold bind at 1. unfold bind at 1. cbn [TagSet_head headerTags superTags ret].
  change (tagFormat (shortTag tagOctet)) with (Z.land (ord tagOctet) 0x20).
  rewrite (constructed_bit tagOctet Hcons), Z.eqb_refl. cbn [negb].
  unfold bind at 1, getTell at 1.
  unfold bind at 1. cbn [spec_cloneEmpty asn1Spec ret].
  unfold bind at 1. cbn [spec_typeId ret].
  assert (Hrecord : ConstructedPayloadDecoderBase.isRecordType c = false)
    by (destruct Hc as [-> | ->]; reflexivity).
  rewrite Hrecord.
  unfold bind at 1.
  change (ConstructedPayloadDecoderBase.spec_elementType
            (Asn1Type c specTagSet specTagMap (ElementType elem)) s2)
    with (Yield (Some elem) s2 : Outcome (option Asn1Spec)).
  unfold bind at 1.
  set (value := fun item : byte * list byte =>
                  Asn1Scalar univ_Integer ets (PyInt (from_bytes (snd item) true))).
  set (step := fun (st : Z * Value) (item : byte * list byte) =>
                 match snd st with
                 | Asn1Constructed cls tagSet components =>
                     (fst st + 1,
                      Asn1Constructed cls tagSet (setSlot (fst st) (value item) components))
                 | _ => st
                 end).
  set (body := fun '(idx, asn1Object) =>
                 let* component :=
                   SingleItemDecoder.__call__ SingleItemDecoder.ber (S fuel) (Some elem) None
                     None stDecodeTag None options' in
                 let* asn1Object := setComponentByPosition idx component asn1Object in
                 ret (Continue (idx + 1, asn1Object))).
  set (Inv := fun st : Z * Value =>
                exists cls tagSet components,
                  snd st = Asn1Constructed cls tagSet components).
  assert (Hnonempty : forall item, wellFormedItem item -> integerTLV item <> []).
  { intros item _. destruct item. discriminate. }
  assert (Hbody : forall st item rest s0,
             wellFormedItem item -> Inv st -> remaining s0 = integerTLV item ++ rest ->
             exists s1,
               body st s0 = Yield (Continue (step st item)) s1 /\
               remaining s1 = rest /\ tell s1 = tell s0 + len (integerTLV item) /\
               Inv (step st item)).
  { intros [idx obj] item rest s0 Hok (cls & tagSet & components & Hobj) Hrem0.
    cbn [snd] in Hobj. subst obj.
    destruct (call_integer_by_spec fuel options' s0 item rest ets etm ect Helem Hok eq_refl
                Hrem0) as (s1 & Hcall & Hrem1 & Htell1).
    exists s1. split; [| split; [exact Hrem1 | split; [exact Htell1 |]]].
    - unfold body. unfold bind at 1. fold elem in Hcall. rewrite Hcall.
      unfold component. cbn [native options' withAllowEoo]. rewrite Hnative.
      reflexivity.
    - unfold Inv, step. cbn [snd]. eauto. }
  destruct (while_items integerTLV step wellFormedItem Inv
              (fun _ => let* here := getTell in ret (here - tell s2 <? ord L))
              body (tell s2) (ord L)
              (fun _ _ => eq_refl) Hnonempty Hbody items Hitems (S fuel)
              (0, Asn1Constructed c specTagSet []) s2 tail ltac:(lia)
              ltac:(unfold Inv; cbn [snd]; eauto) eq_refl ltac:(lia))
    as (s' & Hloop & Hrem' & Htell').
  - fold body. rewrite Hloop.
    unfold step. rewrite (fold_left_map_items
                             (fun (st : Z * Value) (v : Value) =>
                                match snd st with
                                | Asn1Constructed cls tagSet components =>
                                    (fst st + 1,
                                     Asn1Constructed cls tagSet (setSlot (fst st) v components))
                                | _ => st
                                end) value items).
    rewrite (fold_setSlot c specTagSet (map value items) 0 [] ltac:(constructor)).
    cbn [app]. unfold ret at 1. unfold bind, getTell.
    replace (tell s' - tell s2 =? ord L) with true by (symmetry; apply Z.eqb_eq; lia).
    cbn [negb ret]. rewrite Hrem'. reflexivity.
Qed.

Lemma X19_sequence_of_by_schema_witness :
  decode 4 [x30; x06; x02; x01; x05; x02; x01; xff]
    (Some (Asn1Type univ_SequenceOf
             {| baseTag := Some (mkTag 0 0x20 0x10); superTags := [mkTag 0 0x20 0x10] |}
             (fun _ => None)
             (ElementType
                (Asn1Type univ_Integer
                   {| baseTag := Some (mkTag 0 0 2); superTags := [mkTag 0 0 2] |}
                   (fun _ => None) NoComponentType))))
    defaultOptions
  = Decoder.Return
      (Asn1Constructed univ_SequenceOf
         {| baseTag := Some (mkTag 0 0x20 0x10); superTags := [mkTag 0 0x20 0x10] |}
         [ (0, Asn1Scalar univ_Integer
                 {| baseTag := Some (mkTag 0 0 2); superTags := [mkTag 0 0 2] |} (PyInt 5));
           (1, Asn1Scalar univ_Integer
                 {| baseTag := Some (mkTag 0 0 2); superTags := [mkTag 0 0 2] |}
                 (PyInt (-1))) ])
      [].
Proof.
  apply (X19_sequence_of_by_schema 2 defaultOptions x30 x06 [(x01, [x05]); (x01, [xff])] []
           univ_SequenceOf
           {| baseTag := Some (mkTag 0 0x20 0x10); superTags := [mkTag 0 0x20 0x10] |}
           (fun _ => None)
           {| baseTag := Some (mkTag 0 0 2); superTags := [mkTag 0 0 2] |}
           (fun _ => None) NoComponentType);
    try reflexivity; try (vm_compute; discriminate).
  - left. reflexivity.
  - constructor; [split; reflexivity | constructor; [split; reflexivity | constructor]].
Defined.

(** ** The constructed form of the string types *)

Lemma string_decoder_by_type (tagOctet : byte) (c : Asn1Class) :
  lookupTagMap TAG_MAP (headerTags tagOctet) = Some (octetStringPayloadDecoder c) ->
  lookupTypeMap TYPE_MAP c = Some (octetStringPayloadDecoder c).
Proof.
  intros H. destruct tagOctet; vm_compute in H; try discriminate;
    injection H as <-; reflexivity.
Qed.

(** The decoder called for a fragment of a string: the collector reads the
    content of the fragment and yields it. *)
Lemma call_fragment (fuel : nat) (options : Options) (s : Substrate) (c : Asn1Class)
    (f : byte) (item : byte * list byte) (rest : list byte) :
  lookupTypeMap TYPE_MAP c = Some (octetStringPayloadDecoder c) ->
  Z.land (ord f) 0x1F <> 0x1F ->
  f <> x00 ->
  chosenSpec (protoSpec c) (headerTags f) = Some (protoSpec c) ->
  wellFormedItem item ->
  remaining s = fragmentTLV f item ++ rest ->
  exists s',
    SingleItemDecoder.__call__ SingleItemDecoder.ber (S fuel) (Some (protoSpec c)) None None
      stDecodeTag (Some substrateCollector) options s
    = Yield (Native (PyOctets (snd item))) s' /\
    remaining s' = rest /\ tell s' = tell s + len (fragmentTLV f item).
Proof.
  destruct item as [L content]. unfold fragmentTLV, wellFormedItem. cbn [fst snd app].
  intros Htype Htag Hf Hchosen [HL Hlen] Hrem.
  exists (seek_cur (len content) (seek_cur 2 (setMarkedPosition s))).
  pose proof (remaining_after_header s f L (content ++ rest) Hrem) as Hrem2.
  pose proof (len_nonneg content).
  split; [| split; [exact (remaining_seek_cur _ content rest Hrem2) |]].
  - rewrite (call_not_at_sentinel SingleItemDecoder.ber (S fuel) _ None None stDecodeTag _
               options s f L (content ++ rest) Hrem).
    2:{ unfold SingleItemDecoder.EOO_SENTINEL. congruence. }
    rewrite (call_by_spec_definite fuel (withAllowEoo false options)
               (Some substrateCollector) s f L (content ++ rest) (protoSpec c)
               c (classTagSet c) _ NoComponentType (octetStringPayloadDecoder c) Hrem Htag HL
               eq_refl Hchosen Htype).
    cbn [valueDecoderOf effectiveSubstrateFun].
    unfold OctetStringPayloadDecoder.valueDecoder.
    unfold bind at 1. unfold bind at 1.
    unfold OctetStringPayloadDecoder._createComponent,
      AbstractSimplePayloadDecoder._createComponent.
    cbn [spec_clone]. unfold callSubstrateFun.
    rewrite <- Hlen.
    destruct (native (withAllowEoo false (withAllowEoo false options)));
      unfold ret at 1; unfold bind at 1;
      rewrite (readFromStream_app _ content rest Hrem2);
      unfold ret at 1; unfold bind, getTell;
      rewrite tell_seek_cur by lia;
      replace (tell (seek_cur 2 (setMarkedPosition s)) + len content
               - tell (seek_cur 2 (setMarkedPosition s)) =? len content) with true
        by (symmetry; apply Z.eqb_eq; lia);
      reflexivity.
  - rewrite !tell_seek_cur by lia. rewrite !len_cons.
    change (tell (setMarkedPosition s)) with (tell s). lia.
Qed.

Lemma fold_left_app_concat (items : list (byte * list byte)) (header : list byte) :
  fold_left (fun header item => header ++ snd item) items header
  = header ++ concat (map snd items).
Proof.
  revert header. induction items as [| item items IH]; intros header.
  - cbn. rewrite app_nil_r. reflexivity.
  - cbn [fold_left map concat]. rewrite IH, <- app_assoc. reflexivity.
Qed.

(** X20.  The constructed form of a string type of definite length, whose
    content is a run of well-formed fragments under a tag the string type
    accepts, decodes to the concatenation of the contents of the fragments,
    in order. *)
Theorem X20_string_constructed (fuel : nat) (options : Options) (tagOctet L f : byte)
    (items : list (byte * list byte)) (tail : list byte) (c : Asn1Class) :
  lookupTagMap TAG_MAP (headerTags tagOctet) = Some (octetStringPayloadDecoder c) ->
  Z.land (ord tagOctet) 0x20 <> 0 ->
  Z.land (ord f) 0x1F <> 0x1F -> f <> x00 ->
  chosenSpec (protoSpec c) (headerTags f) = Some (protoSpec c) ->
  recursiveFlag options = true ->
  Forall wellFormedItem items ->
  ord L < 128 -> len (concat (map (fragmentTLV f) items)) = ord L ->
  (List.length items <= fuel)%nat ->
  decode (S (S fuel)) (tagOctet :: L :: concat (map (fragmentTLV f) items) ++ tail) None
    options
  = Decoder.Return
      (component options c (headerTags tagOctet) (PyOctets (concat (map snd items)))) tail.
Proof.
  intros Hlookup Hcons Hf Hf0 Hchosen Hrec Hitems HL Hlen Hfuel.
  pose proof (string_decoder_by_type tagOctet c Hlookup) as Htype.
  rewrite (decode_by_tag_definite (S fuel) options tagOctet L _
             (octetStringPayloadDecoder c) (known_tag_short tagOctet _ Hlookup) Hlookup HL).
  cbn [valueDecoderOf]. unfold effectiveSubstrateFun. rewrite Hrec. cbn [negb].
  unfold OctetStringPayloadDecoder.valueDecoder.
  unfold bind at 1. unfold bind at 1. cbn [TagSet_head headerTags superTags ret].
  change (tagFormat (shortTag tagOctet)) with (Z.land (ord tagOctet) 0x20).
  rewrite (constructed_bit tagOctet Hcons).
  change (tagFormatConstructed =? tagFormatSimple) with false. cbv iota. cbn [negb].
  cbv zeta. unfold bind at 1, getTell at 1. unfold bind at 1.
  set (s2 := afterHeader (tagOctet :: L :: concat (map (fragmentTLV f) items) ++ tail)).
  set (options' := withAllowEoo false options).
  set (body := fun header : list byte =>
                 let* component :=
                   SingleItemDecoder.__call__ SingleItemDecoder.ber (S fuel)
                     (Some (protoSpec c)) None None stDecodeTag (Some substrateCollector)
                     options' in
                 let* component := asOctets component in
                 ret (Continue (header ++ component))).
  assert (Hnonempty : forall item, wellFormedItem item -> fragmentTLV f item <> []).
  { intros item _. discriminate. }
  assert (Hbody : forall st item rest s0,
             wellFormedItem item -> True -> remaining s0 = fragmentTLV f item ++ rest ->
             exists s1,
               body st s0 = Yield (Continue (st ++ snd item)) s1 /\
               remaining s1 = rest /\ tell s1 = tell s0 + len (fragmentTLV f item) /\ True).
  { intros st item rest s0 Hok _ Hrem0.
    destruct (call_fragment fuel options' s0 c f item rest Htype Hf Hf0 Hchosen Hok Hrem0)
      as (s1 & Hcall & Hrem1 & Htell1).
    exists s1. split; [| auto].
    unfold body. unfold bind at 1. rewrite Hcall. reflexivity. }
  destruct (while_items (fragmentTLV f) (fun st item => st ++ snd item) wellFormedItem
              (fun _ => True)
              (fun _ => let* here := getTell in ret (here - tell s2 <? ord L))
              body (tell s2) (ord L)
              (fun _ _ => eq_refl) Hnonempty Hbody items Hitems (S fuel) null s2 tail
              ltac:(lia) I eq_refl ltac:(lia))
    as (s' & Hloop & Hrem' & Htell').
  fold body. rewrite Hloop. rewrite fold_left_app_concat. cbn [null app].
  unfold OctetStringPayloadDecoder._createComponent,
    AbstractSimplePayloadDecoder._createComponent, component.
  cbn [native options' withAllowEoo].
  change (tell s2) with 2 in Htell'.
  destruct (native options); unfold ret at 1; unfold bind, getTell;
    replace (tell s' - 2 =? ord L) with true by (symmetry; apply Z.eqb_eq; lia);
    cbn [negb ret outcomeResult]; rewrite Hrem'; reflexivity.
Qed.

Lemma X20_string_constructed_witness :
  decode 4 [x24; x07; x04; x02; xaa; xbb; x04; x01; xcc; xff] None defaultOptions
  = Decoder.Return
      (Asn1Scalar univ_OctetString (headerTags x24) (PyOctets [xaa; xbb; xcc])) [xff].
Proof.
  apply (X20_string_constructed 2 defaultOptions x24 x07 x04
           [(x02, [xaa; xbb]); (x01, [xcc])] [xff] univ_OctetString);
    try reflexivity; try (vm_compute; discriminate).
  constructor; [split; reflexivity | constructor; [split; reflexivity | constructor]].
Defined.

(** X21.  The indefinite-length form of a string type, a run of well-formed
    fragments closed by the end-of-octets octets 00 00, decodes to the
    concatenation of the contents of the fragments, and the octets after
    the end-of-octets are the tail. *)
Theorem X21_string_indefinite (fuel : nat) (options : Options) (tagOctet f : byte)
    (items : list (byte * list byte)) (tail : list byte) (c : Asn1Class) :
  lookupTagMap TAG_MAP (headerTags tagOctet) = Some (octetStringPayloadDecoder c) ->
  Z.land (ord f) 0x1F <> 0x1F -> f <> x00 ->
  chosenSpec (protoSpec c) (headerTags f) = Some (protoSpec c) ->
  recursiveFlag options = true ->
  Forall wellFormedItem items ->
  (List.length items <= fuel)%nat ->
  decode (S (S fuel))
    (tagOctet :: x80 :: concat (map (fragmentTLV f) items) ++ x00 :: x00 :: tail) None
    options
  = Decoder.Return
      (component options c (headerTags tagOctet) (PyOctets (concat (map snd items)))) tail.
Proof.
  intros Hlookup Hf Hf0 Hchosen Hrec Hitems Hfuel.
  pose proof (string_decoder_by_type tagOctet c Hlookup) as Htype.
  rewrite (decode_by_tag_indefinite (S fuel) options tagOctet _
             (octetStringPayloadDecoder c) (known_tag_short tagOctet _ Hlookup) Hlookup).
  cbn [indefLenValueDecoderOf]. unfold effectiveSubstrateFun. rewrite Hrec. cbn [negb].
  unfold OctetStringPayloadDecoder.indefLenValueDecoder,
    OctetStringPayloadDecoder.collectFragments.
  cbv zeta. unfold bind at 1.
  set (s2 := afterHeader
               (tagOctet :: x80 :: concat (map (fragmentTLV f) items) ++ x00 :: x00 :: tail)).
  set (options' := withAllowEoo true (withAllowEoo false options)).
  set (body := fun header : list byte =>
                 let* component :=
                   SingleItemDecoder.__call__ SingleItemDecoder.ber (S fuel)
                     (Some (protoSpec c)) None None stDecodeTag (Some substrateCollector)
                     options' in
                 match component with
                 | endOfOctets => ret (Break header)
                 | _ =>
                     let* component := asOctets component in
                     ret (Continue (header ++ component))
                 end).
  assert (Hbody : forall st item rest s0,
             wellFormedItem item -> True -> remaining s0 = fragmentTLV f item ++ rest ->
             exists s1,
               body st s0 = Yield (Continue (st ++ snd item)) s1 /\
               remaining s1 = rest /\ True).
  { intros st item rest s0 Hok _ Hrem0.
    destruct (call_fragment fuel options' s0 c f item rest Htype Hf Hf0 Hchosen Hok Hrem0)
      as (s1 & Hcall & Hrem1 & Htell1).
    exists s1. split; [| auto].
    unfold body. unfold bind at 1. rewrite Hcall. reflexivity. }
  assert (Hbreak : forall st rest s0,
             True -> remaining s0 = x00 :: x00 :: rest ->
             exists s1, body st s0 = Yield (Break st) s1 /\ remaining s1 = rest).
  { intros st rest s0 _ Hrem0. exists (seek_cur 2 s0). split.
    - unfold body. unfold bind at 1.
      rewrite (call_at_sentinel SingleItemDecoder.ber fuel _ None None stDecodeTag _ options'
                 s0 rest Hrem0 eq_refl eq_refl).
      reflexivity.
    - exact (remaining_seek_cur s0 [x00; x00] rest Hrem0). }
  destruct (whileTrue_items (fragmentTLV f) (fun st item => st ++ snd item) wellFormedItem
              (fun _ => True) body Hbody Hbreak items Hitems (S fuel) null s2 tail
              ltac:(lia) I eq_refl)
    as (s' & Hloop & Hrem').
  fold body. rewrite Hloop. rewrite fold_left_app_concat. cbn [null app].
  unfold OctetStringPayloadDecoder._createComponent,
    AbstractSimplePayloadDecoder._createComponent, component.
  cbn [native withAllowEoo].
  destruct (native options); unfold ret; cbn [outcomeResult]; rewrite Hrem'; reflexivity.
Qed.

Lemma X21_string_indefinite_witness :
  decode 4 [x24; x80; x04; x02; xaa; xbb; x04; x01; xcc; x00; x00; xff] None defaultOptions
  = Decoder.Return
      (Asn1Scalar univ_OctetString (headerTags x24) (PyOctets [xaa; xbb; xcc])) [xff].
Proof.
  apply (X21_string_indefinite 2 defaultOptions x24 x04
           [(x02, [xaa; xbb]); (x01, [xcc])] [xff] univ_OctetString);
    try reflexivity; try (vm_compute; discriminate).
  constructor; [split; reflexivity | constructor; [split; reflexivity | constructor]].
Defined.

(** ** Choice *)

(** The decoder called by the Choice decoder for an untagged choice: the
    header is read already, and the machine starts in [stGetValueDecoder]
    with the tag map of the alternatives. *)
Lemma call_for_alternative (fuel : nat) (options : Options) (s : Substrate)
    (asn1Spec : Asn1Spec) (tagSet : TagSet) (length : Z) (c : Asn1Class)
    (specTagSet : TagSet) (specTagMap : TagSet -> option Asn1Spec) (ct : ComponentType)
    (d : PayloadDecoder) :
  allowEoo options = false ->
  chosenSpec asn1Spec tagSet = Some (Asn1Type c specTagSet specTagMap ct) ->
  lookupTypeMap TYPE_MAP c = Some d ->
  SingleItemDecoder.__call__ SingleItemDecoder.ber (S fuel) (Some asn1Spec) (Some tagSet)
    (Some length) stGetValueDecoder None options s
  = SingleItemDecoder.decodeValue (valueDecoderOf fuel d) (indefLenValueDecoderOf fuel d)
      (SingleItemDecoder.__call__ SingleItemDecoder.ber fuel)
      (Some (Asn1Type c specTagSet specTagMap ct)) tagSet length None
      (withAllowEoo false options) (setMarkedPosition s).
Proof.
  intros Heoo Hchosen Hlookup.
  cbn [SingleItemDecoder.__call__]. rewrite Heoo. cbn [andb].
  unfold bind at 1. unfold ret at 1. unfold bind at 1. unfold modify at 1.
  unfold bind at 1. cbn [while].
  unfold bind at 1. unfold ret at 1.
  cbn [SingleItemDecoder.m_state]. rewrite bool_decide_eq_false_2 by discriminate.
  cbn [negb]. unfold bind at 1.
  unfold SingleItemDecoder.turn.
  state_skipped. unfold bind at 1. unfold ret at 1.
  state_skipped. unfold bind at 1. unfold ret at 1.
  state_taken. unfold bind at 1. unfold ret at 1.
  unfold SingleItemDecoder.setState. machine_fields.
  state_skipped. unfold bind at 1. unfold ret at 1.
  state_taken. unfold bind at 1.
  rewrite (byAsn1Spec_chosen SingleItemDecoder.ber asn1Spec tagSet length None noValue
             (setMarkedPosition s) c specTagSet specTagMap ct d Hchosen Hlookup).
  machine_fields. rewrite bool_decide_eq_true_2 by reflexivity.
  unfold bind at 1. unfold ret at 1.
  unfold bind at 1. unfold ret at 1.
  unfold bind at 1. unfold ret at 1.
  unfold bind.
  destruct (SingleItemDecoder.decodeValue _ _ _ _ _ _ _ _ _); reflexivity.
Qed.

(** X22.  Under an untagged Choice type object, a primitive TLV whose tag
    set the catalogue maps to an Integer alternative decodes to the Choice
    holding that Integer at the position the catalogue gives for the
    effective tag set of the alternative. *)
Theorem X22_choice_alternative (fuel : nat) (options : Options) (tagOctet L : byte)
    (content tail : list byte) (specTagSet : TagSet)
    (specTagMap : TagSet -> option Asn1Spec) (namedTypes : NamedTypes)
    (ets : TagSet) (etm : TagSet -> option Asn1Spec) (ect : ComponentType) (idx : Z) :
  let alternative := Asn1Type univ_Integer ets etm ect in
  let asn1Spec := Asn1Type univ_Choice specTagSet specTagMap (NamedTypesOf namedTypes) in
  Z.land (ord tagOctet) 0x1F <> 0x1F ->
  Z.land (ord tagOctet) 0x20 = 0 ->
  TagSet_eqb specTagSet (headerTags tagOctet) = false ->
  chosenSpec asn1Spec (headerTags tagOctet) = Some asn1Spec ->
  nt_tagMapUnique namedTypes (headerTags tagOctet) = Some alternative ->
  nt_getPositionByType namedTypes ets = inr idx ->
  allowEoo options = false -> recursiveFlag options = true -> native options = false ->
  ord L < 128 -> len content = ord L ->
  decode (S (S fuel)) (tagOctet :: L :: content ++ tail) (Some asn1Spec) options
  = Decoder.Return
      (Asn1Constructed univ_Choice specTagSet
         [(idx, Asn1Scalar univ_Integer ets (PyInt (from_bytes content true)))])
      tail.
Proof.
  intros alternative asn1Spec Htag Hprimitive Huntagged Hchosen Halt Hpos Heoo Hrec Hnative
    HL Hlen.
  unfold decode. rewrite call_first_item.
  set (s := asSeekableStream (tagOctet :: L :: content ++ tail)).
  rewrite (call_by_spec_definite (S fuel) options None s tagOctet L (content ++ tail)
             asn1Spec univ_Choice specTagSet specTagMap (NamedTypesOf namedTypes)
             choicePayloadDecoder eq_refl Htag HL Heoo Hchosen eq_refl).
  set (s2 := seek_cur 2 (setMarkedPosition s)).
  cbn [valueDecoderOf]. unfold effectiveSubstrateFun. rewrite Hrec. cbn [negb].
  unfold ChoicePayloadDecoder.valueDecoder.
  unfold bind at 1. unfold bind at 1.
  cbn [ChoicePayloadDecoder.cloneObject spec_cloneEmpty asn1Spec ret].
  unfold bind at 1.
  change (ChoicePayloadDecoder.choiceNamedTypes
            (Some (Asn1Type univ_Choice specTagSet specTagMap (NamedTypesOf namedTypes))) s2)
    with (Yield namedTypes s2 : Outcome NamedTypes).
  cbv zeta. unfold bind at 1. cbn [valueTagSet liftE ret].
  rewrite Huntagged.
  unfold bind at 1.
  rewrite (call_for_alternative fuel (withAllowEoo false options) s2
             (TagMap (nt_tagMapUnique namedTypes)) (headerTags tagOctet) (ord L)
             univ_Integer ets etm ect integerPayloadDecoder eq_refl Halt eq_refl).
  pose proof (ord_range L).
  rewrite decodeValue_definite by lia.
  cbn [valueDecoderOf]. rewrite <- Hlen. unfold bind at 1.
  rewrite (integer_valueDecoder_read _ _ (headerTags tagOctet) (shortTag tagOctet) []
             stGetValueDecoder _ _ _ (setMarkedPosition s2) content tail eq_refl Hprimitive
             eq_refl).
  unfold IntegerPayloadDecoder._createComponent,
    AbstractSimplePayloadDecoder._createComponent.
  cbn [native withAllowEoo spec_clone]. rewrite Hnative.
  pose proof (len_nonneg content).
  set (s3 := seek_cur (len content) (setMarkedPosition s2)).
  assert (Htell : tell s3 - tell (setMarkedPosition s2) = len content)
    by (unfold s3; rewrite tell_seek_cur by lia; lia).
  unfold ret at 1. unfold bind at 1, getTell at 1.
  rewrite Htell, Z.eqb_refl. cbn [negb]. unfold ret at 1.
  unfold bind at 1. cbn [effectiveTagSet liftE ret].
  unfold ChoicePayloadDecoder.setComponentByType.
  unfold bind at 1. rewrite Hpos. cbn [liftE ret].
  unfold bind, getTell.
  change (tell s2) with (tell (setMarkedPosition s2)).
  rewrite Htell, Z.eqb_refl. cbn [negb ret].
  pose proof (remaining_seek_cur (setMarkedPosition s2) content tail eq_refl) as Hrest.
  fold s3 in Hrest. rewrite Hrest. reflexivity.
Qed.

Lemma X22_choice_alternative_witness :
  decode 2 [x02; x01; x05; xff] (Some integerChoiceSpec) defaultOptions
  = Decoder.Return
      (Asn1Constructed univ_Choice {| baseTag := None; superTags := [] |}
         [(0, Asn1Scalar univ_Integer
                {| baseTag := Some (mkTag 0 0 2); superTags := [mkTag 0 0 2] |} (PyInt 5))])
      [xff].
Proof.
  exact (X22_choice_alternative 0 defaultOptions x02 x01 [x05] [xff]
           {| baseTag := None; superTags := [] |} (nt_tagMapUnique integerChoice)
           integerChoice {| baseTag := Some (mkTag 0 0 2); superTags := [mkTag 0 0 2] |}
           (fun _ => None) NoComponentType 0
           ltac:(vm_compute; discriminate) eq_refl eq_refl eq_refl eq_refl eq_refl eq_refl
           eq_refl eq_refl eq_refl eq_refl).
Defined.

(** ** The option [recursiveFlag=False] *)

Lemma lambda_TypeError (fuel : nat) (d : PayloadDecoder) (tagOctet : byte) (length : Z)
    (state : State) (decodeFun : DecodeFun) (options : Options) (s : Substrate) :
  consultsSubstrateFun d tagOctet ->
  valueDecoderOf fuel d None (headerTags tagOctet) length state decodeFun
    (Some recursiveFlagLambda) options s = Raise (PyError "TypeError") /\
  indefLenValueDecoderOf fuel d None (headerTags tagOctet) length state decodeFun
    (Some recursiveFlagLambda) options s = Raise (PyError "TypeError").
Proof.
  intros [-> | [[c ->] | [Hd Hcons]]].
  - cbn [valueDecoderOf indefLenValueDecoderOf].
    unfold BitStringPayloadDecoder.valueDecoder, BitStringPayloadDecoder.indefLenValueDecoder,
      BitStringPayloadDecoder._createComponent,
      AbstractSimplePayloadDecoder._createComponent, bind.
    destruct (native options); split; reflexivity.
  - cbn [valueDecoderOf indefLenValueDecoderOf].
    unfold OctetStringPayloadDecoder.valueDecoder,
      OctetStringPayloadDecoder.indefLenValueDecoder,
      OctetStringPayloadDecoder._createComponent,
      AbstractSimplePayloadDecoder._createComponent, bind.
    cbn [isCollector negb].
    destruct (native options); split; reflexivity.
  - pose proof (constructed_bit tagOctet Hcons) as Hformat.
    destruct Hd as [-> | ->]; cbn [valueDecoderOf indefLenValueDecoderOf];
      unfold ConstructedPayloadDecoderBase.valueDecoder,
        ConstructedPayloadDecoderBase.indefLenValueDecoder, bind;
      cbn [TagSet_head headerTags superTags ret];
      change (tagFormat (shortTag tagOctet)) with (Z.land (ord tagOctet) 0x20);
      rewrite Hformat, Z.eqb_refl; split; reflexivity.
Qed.

(** X23.  With the option [recursiveFlag=False] and no [substrateFun], the
    decoder installs a three-argument lambda that the payload decoders call
    with four arguments: a BitString, a string type in either form, or a
    constructed Sequence or Set, with a length octet of at most 80, raises
    TypeError, whatever the content. *)
Theorem X23_recursive_flag_off (fuel : nat) (options : Options) (tagOctet L : byte)
    (rest : list byte) (d : PayloadDecoder) :
  recursiveFlag options = false ->
  lookupTagMap TAG_MAP (headerTags tagOctet) = Some d ->
  consultsSubstrateFun d tagOctet ->
  ord L <= 128 ->
  decode (S fuel) (tagOctet :: L :: rest) None options
  = Decoder.Raised (PyError "TypeError").
Proof.
  intros Hrec Hlookup Hd HL.
  destruct (decodeLength_any
              (seek_cur 1 (setMarkedPosition (asSeekableStream (tagOctet :: L :: rest))))
              L rest eq_refl HL) as (length & s2 & Hlen).
  rewrite (decode_by_tag fuel options tagOctet L rest length s2 d
             (known_tag_short tagOctet d Hlookup) Hlookup Hlen).
  unfold SingleItemDecoder.decodeValue. cbv zeta.
  cbn [recursiveFlag withAllowEoo]. rewrite Hrec. cbn [negb].
  unfold bind at 1, getTell at 1.
  destruct (lambda_TypeError fuel d tagOctet length stGetValueDecoder
              (SingleItemDecoder.__call__ SingleItemDecoder.ber fuel)
              (withAllowEoo false options) s2 Hd) as [Hvalue Hindef].
  destruct (length =? -1).
  - rewrite Hindef. reflexivity.
  - unfold bind at 1. rewrite Hvalue. reflexivity.
Qed.

Lemma X23_recursive_flag_off_witness :
  decode 1 [x04; x02; xaa; xbb] None
    {| allowEoo := false; native := false; recursiveFlag := false;
       openTypes := None; decodeOpenTypes := false |}
  = Decoder.Raised (PyError "TypeError").
Proof.
  apply (X23_recursive_flag_off 0 _ x04 x02 [xaa; xbb]
           (octetStringPayloadDecoder univ_OctetString));
    [reflexivity | reflexivity | right; left; eexists; reflexivity
    | vm_compute; discriminate].
Defined.

(** ** A type the type map does not know: the decoder of its base tag *)

(** State [stGetValueDecoderByAsn1Spec] for a chosen type object whose
    [typeId] is not in the type map: the tag map is asked for the tag set
    made of the base tag. *)
Lemma byAsn1Spec_base (self : SingleItemDecoder.Self) (asn1Spec : Asn1Spec)
    (tagSet : TagSet) (length : Z) (substrateFun : option SubstrateFun) (value0 : Value)
    (s : Substrate) (c : Asn1Class) (specTagSet : TagSet)
    (specTagMap : TagSet -> option Asn1Spec) (ct : ComponentType) (base : Tag)
    (d : PayloadDecoder) :
  chosenSpec asn1Spec tagSet = Some (Asn1Type c specTagSet specTagMap ct) ->
  lookupTypeMap (SingleItemDecoder._typeMap self) c = None ->
  baseTag specTagSet = Some base ->
  lookupTagMap (SingleItemDecoder._tagMap self) {| baseTag := Some base; superTags := [base] |}
  = Some d ->
  SingleItemDecoder.getValueDecoderByAsn1Spec self
    (SingleItemDecoder.mkMachine stGetValueDecoderByAsn1Spec (Some asn1Spec) (Some tagSet)
       (Some length) None substrateFun value0) s
  = Yield (SingleItemDecoder.mkMachine stDecodeValue
             (Some (Asn1Type c specTagSet specTagMap ct)) (Some tagSet) (Some length)
             (Some d) substrateFun value0) s.
Proof.
  intros Hchosen Htype Hbase Hlookup. unfold SingleItemDecoder.getValueDecoderByAsn1Spec.
  machine_fields. unfold bind at 1. unfold ret at 1. unfold bind at 1. unfold ret at 1.
  unfold chosenSpec in Hchosen. rewrite Hchosen.
  unfold bind at 1. cbn [spec_typeId]. unfold ret at 1.
  rewrite Htype. unfold bind at 1. unfold bind at 1. cbn [spec_tagSet]. unfold ret at 1.
  rewrite Hbase. unfold ret at 1. rewrite Hlookup. reflexivity.
Qed.

(** X24.  The type map has no entry for the type of Enumerated: under an
    Enumerated type object the decoder is found through the base tag of
    the tag set of the type object, in the tag map, and a primitive TLV
    decodes to an Enumerated holding the two's complement reading of its
    content, with the tag set of the type object. *)
Theorem X24_enumerated_by_base_tag (fuel : nat) (options : Options) (tagOctet L : byte)
    (content tail : list byte) (specTagSet : TagSet)
    (specTagMap : TagSet -> option Asn1Spec) (ct : ComponentType) (base : Tag) :
  let asn1Spec := Asn1Type univ_Enumerated specTagSet specTagMap ct in
  Z.land (ord tagOctet) 0x1F <> 0x1F ->
  Z.land (ord tagOctet) 0x20 = 0 ->
  chosenSpec asn1Spec (headerTags tagOctet) = Some asn1Spec ->
  baseTag specTagSet = Some base ->
  tagClass base = tagClassUniversal -> tagId base = 0x0A ->
  allowEoo options = false ->
  ord L < 128 -> len content = ord L ->
  lookupTypeMap TYPE_MAP univ_Enumerated = None /\
  decode (S fuel) (tagOctet :: L :: content ++ tail) (Some asn1Spec) options
  = Decoder.Return
      (component options univ_Enumerated specTagSet (PyInt (from_bytes content true))) tail.
Proof.
  intros asn1Spec Htag Hprimitive Hchosen Hbase Hclass Hid Heoo HL Hlen.
  split; [reflexivity |].
  unfold decode. rewrite call_first_item.
  set (s := asSeekableStream (tagOctet :: L :: content ++ tail)).
  assert (Hlookup : lookupTagMap TAG_MAP {| baseTag := Some base; superTags := [base] |}
                    = Some integerPayloadDecoder).
  { destruct base as [bc bf bi]. cbn [tagClass tagId] in Hclass, Hid. subst bc bi.
    reflexivity. }
  rewrite (call_by_spec SingleItemDecoder.ber fuel options None s
             (seek_cur 2 (setMarkedPosition s)) tagOctet (L :: content ++ tail) (ord L)
             integerPayloadDecoder asn1Spec asn1Spec eq_refl Htag
             (decodeLength_after_tag s tagOctet L _ eq_refl HL) Heoo).
  2:{ intros m_value.
      exact (byAsn1Spec_base SingleItemDecoder.ber asn1Spec (headerTags tagOctet) (ord L)
               None m_value _ univ_Enumerated specTagSet specTagMap ct base
               integerPayloadDecoder Hchosen eq_refl Hbase Hlookup). }
  pose proof (ord_range L). rewrite decodeValue_definite by lia.
  cbn [valueDecoderOf]. rewrite <- Hlen. unfold bind at 1.
  set (s2 := seek_cur 2 (setMarkedPosition s)).
  rewrite (integer_valueDecoder_read _ _ (headerTags tagOctet) (shortTag tagOctet) []
             stGetValueDecoder _ _ _ s2 content tail eq_refl Hprimitive eq_refl).
  unfold IntegerPayloadDecoder._createComponent,
    AbstractSimplePayloadDecoder._createComponent, component.
  cbn [native withAllowEoo spec_clone asn1Spec].
  pose proof (remaining_seek_cur s2 content tail eq_refl) as Hrest.
  pose proof (len_nonneg content).
  assert (Htell : tell (seek_cur (len content) s2) - tell s2 = len content)
    by (rewrite tell_seek_cur by lia; lia).
  destruct (native options); unfold ret at 1; unfold bind, getTell;
    rewrite Htell, Z.eqb_refl; cbn [negb ret]; rewrite Hrest; reflexivity.
Qed.

Lemma X24_enumerated_by_base_tag_witness :
  decode 1 [x0a; x01; x02]
    (Some (Asn1Type univ_Enumerated
             {| baseTag := Some (mkTag 0 0 10); superTags := [mkTag 0 0 10] |}
             (fun _ => None) NoComponentType))
    defaultOptions
  = Decoder.Return
      (Asn1Scalar univ_Enumerated
         {| baseTag := Some (mkTag 0 0 10); superTags := [mkTag 0 0 10] |} (PyInt 2))
      [].
Proof.
  exact (proj2 (X24_enumerated_by_base_tag 0 defaultOptions x0a x01 [x02] []
                  {| baseTag := Some (mkTag 0 0 10); superTags := [mkTag 0 0 10] |}
                  (fun _ => None) NoComponentType (mkTag 0 0 10)
                  ltac:(vm_compute; discriminate) eq_refl eq_refl eq_refl eq_refl eq_refl
                  eq_refl eq_refl eq_refl)).
Defined.

(** ** The streaming decoder over a run of Integer TLVs *)

(** X10.  The streaming decoder, run over the concatenation of well-formed
    Integer TLVs, yields their values one by one, in the order of the
    octets, and then ends: one item per TLV, nothing after the last. *)
Theorem X10_streaming_integers (fuel : nat) (options : Options)
    (items : list (byte * list byte)) (n : nat) :
  allowEoo options = false ->
  Forall wellFormedItem items ->
  items <> [] ->
  (List.length items <= n)%nat ->
  map yieldedValue
    (StreamingDecoder.__iter__
       (SingleItemDecoder.__call__ SingleItemDecoder.ber (S fuel) None None None
          stDecodeTag None options)
       n (asSeekableStream (concat (map integerTLV items))))
  = map (fun item => Some (integerValue options item)) items.
Proof.
  intros Heoo Hitems Hne Hn.
  exact (iter_integers fuel options items Heoo Hitems Hne n
           (asSeekableStream (concat (map integerTLV items))) Hn eq_refl).
Qed.

Lemma X10_streaming_integers_witness :
  map yieldedValue
    (StreamingDecoder.__iter__
       (SingleItemDecoder.__call__ SingleItemDecoder.ber 1 None None None stDecodeTag None
          defaultOptions)
       2 (asSeekableStream [x02; x01; x05; x02; x02; xff; x7f]))
  = [ Some (Asn1Scalar univ_Integer (headerTags x02) (PyInt 5));
      Some (Asn1Scalar univ_Integer (headerTags x02) (PyInt (-129))) ].
Proof.
  apply (X10_streaming_integers 0 defaultOptions [(x01, [x05]); (x02, [xff; x7f])] 2);
    [ reflexivity
    | constructor; [split; reflexivity | constructor; [split; reflexivity | constructor]]
    | discriminate
    | simpl; lia ].
Defined.

(** ** A Sequence or Set of Integers without a schema *)

Lemma ltb_minus (a b c : Z) : (a <? b + c) = (a - b <? c).
Proof. destruct (Z.ltb_spec a (b + c)), (Z.ltb_spec (a - b) c); (reflexivity || lia). Qed.

Lemma fold_guess (obj : Value) (types : gset TagSetKey) (value : byte * list byte -> Value)
    (items : list (byte * list byte)) :
  items <> [] ->
  forall st,
    fold_left
      (fun (st : ConstructedPayloadDecoderBase.Schemaless) (item : byte * list byte) =>
         ConstructedPayloadDecoderBase.mkSchemaless obj
           (ConstructedPayloadDecoderBase.sl_components st ++ [value item]) types)
      items st
    = ConstructedPayloadDecoderBase.mkSchemaless obj
        (ConstructedPayloadDecoderBase.sl_components st ++ map value items) types.
Proof.
  induction items as [| item items IH]; intros Hne st; [contradiction |].
  cbn [fold_left map]. destruct items as [| item2 items].
  - reflexivity.
  - rewrite IH by discriminate.
    cbn [ConstructedPayloadDecoderBase.sl_components]. rewrite <- app_assoc. reflexivity.
Qed.

(** X25.  Without a schema, a Sequence (tag 30) or Set (tag 31) of definite
    length whose content is a run of well-formed Integer TLVs decodes to a
    SequenceOf, respectively SetOf, of their values at the positions 0, 1,
    ... in the order of the octets; its tag set has the base tag of that
    class and the tags of the header; the octets after the TLV are the
    tail. *)
Theorem X25_schemaless_integers (fuel : nat) (options : Options) (tagOctet L : byte)
    (items : list (byte * list byte)) (tail : list byte) :
  let cls := if bool_decide (tagOctet = x30) then univ_SequenceOf else univ_SetOf in
  tagOctet = x30 \/ tagOctet = x31 ->
  recursiveFlag options = true -> native options = false ->
  Forall wellFormedItem items ->
  items <> [] ->
  ord L < 128 -> len (concat (map integerTLV items)) = ord L ->
  (List.length items <= fuel)%nat ->
  decode (S (S fuel)) (tagOctet :: L :: concat (map integerTLV items) ++ tail) None options
  = Decoder.Return
      (Asn1Constructed cls (containerTagSet cls (headerTags tagOctet))
         (enumerateFrom 0
            (map (fun item =>
                    Asn1Scalar univ_Integer (headerTags x02)
                      (PyInt (from_bytes (snd item) true)))
               items)))
      tail.
Proof.
  intros cls Htag Hrec Hnative Hitems Hne HL Hlen Hfuel.
  set (record := if bool_decide (tagOctet = x30) then univ_Sequence else univ_Set).
  assert (Hd : exists d,
            lookupTagMap TAG_MAP (headerTags tagOctet) = Some d /\
            valueDecoderOf (S fuel) d
            = ConstructedPayloadDecoderBase.valueDecoder None record cls (S fuel)).
  { destruct Htag as [-> | ->]; eexists; split; reflexivity. }
  destruct Hd as (d & Hlookup & Hd).
  assert (Hshort : Z.land (ord tagOctet) 0x1F <> 0x1F)
    by (destruct Htag as [-> | ->]; vm_compute; discriminate).
  assert (Hformat : tagFormat (shortTag tagOctet) = tagFormatConstructed)
    by (destruct Htag as [-> | ->]; reflexivity).
  rewrite (decode_by_tag_definite (S fuel) options tagOctet L _ d Hshort Hlookup HL).
  rewrite Hd. unfold effectiveSubstrateFun. rewrite Hrec. cbn [negb].
  set (s2 := afterHeader (tagOctet :: L :: concat (map integerTLV items) ++ tail)).
  set (options' := withAllowEoo false options).
  unfold bind at 1.
  rewrite (constructed_schemaless false None record cls (S fuel) (headerTags tagOctet)
             (shortTag tagOctet) [] (ord L) stGetValueDecoder _ options' s2 eq_refl Hformat).
  unfold ConstructedPayloadDecoderBase._decodeComponentsSchemaless.
  unfold bind at 1, getTell at 1. unfold bind at 1.
  pose proof (ord_range L) as HLrange.
  replace (ord L =? -1) with false by (symmetry; apply Z.eqb_neq; lia).
  cbn [andb].
  set (key := tagSetKey (headerTags x02)).
  set (obj := Asn1Constructed cls (containerTagSet cls (headerTags tagOctet)) []).
  set (value := fun item : byte * list byte =>
                  Asn1Scalar univ_Integer (headerTags x02)
                    (PyInt (from_bytes (snd item) true))).
  set (step := fun (st : ConstructedPayloadDecoderBase.Schemaless)
                   (item : byte * list byte) =>
                 ConstructedPayloadDecoderBase.mkSchemaless obj
                   (ConstructedPayloadDecoderBase.sl_components st ++ [value item])
                   ({[ key ]} : gset TagSetKey)).
  set (Inv := fun st : ConstructedPayloadDecoderBase.Schemaless =>
                ConstructedPayloadDecoderBase.sl_componentTypes st = ∅ \/
                ConstructedPayloadDecoderBase.sl_componentTypes st = {[ key ]}).
  set (cond := fun _ : ConstructedPayloadDecoderBase.Schemaless =>
                 let* here := getTell in ret (here <? tell s2 + ord L)).
  set (body := fun st : ConstructedPayloadDecoderBase.Schemaless =>
                 let* component :=
                   SingleItemDecoder.__call__ SingleItemDecoder.ber (S fuel) None None None
                     stDecodeTag None options' in
                 let* st := ConstructedPayloadDecoderBase.guessContainer record cls
                              (headerTags tagOctet) component st in
                 ret (Continue st)).
  assert (Hcond : forall st s, cond st s = Yield (tell s - tell s2 <? ord L) s).
  { intros st s. unfold cond, bind, getTell, ret. rewrite ltb_minus. reflexivity. }
  assert (Hnonempty : forall item, wellFormedItem item -> integerTLV item <> []).
  { intros item _. destruct item. discriminate. }
  assert (Hbody : forall st item rest s0,
             wellFormedItem item -> Inv st -> remaining s0 = integerTLV item ++ rest ->
             exists s1,
               body st s0 = Yield (Continue (step st item)) s1 /\
               remaining s1 = rest /\ tell s1 = tell s0 + len (integerTLV item) /\
               Inv (step st item)).
  { intros st item rest s0 [HLi Hleni] Hinv Hrem0.
    destruct (call_integer fuel options' s0 item rest Hrem0 HLi Hleni eq_refl)
      as (s1 & Hcall & Hrem1 & Htell1).
    exists s1. split; [| split; [exact Hrem1 | split; [exact Htell1 | right; reflexivity]]].
    unfold body. unfold bind at 1. rewrite Hcall.
    unfold integerValue. cbn [native options' withAllowEoo]. rewrite Hnative.
    unfold ConstructedPayloadDecoderBase.guessContainer.
    unfold bind at 1. unfold bind at 1. cbn [valueTagSet liftE ret].
    fold key.
    replace ({[ key ]} ∪ ConstructedPayloadDecoderBase.sl_componentTypes st)
      with ({[ key ]} : gset TagSetKey)
      by (destruct Hinv as [-> | ->]; set_solver).
    rewrite size_singleton. cbn [Nat.ltb Nat.leb]. reflexivity. }
  destruct (while_items integerTLV step wellFormedItem Inv cond body (tell s2) (ord L)
              Hcond Hnonempty Hbody items Hitems (S fuel)
              (ConstructedPayloadDecoderBase.mkSchemaless PyNone [] ∅) s2 tail
              ltac:(lia) ltac:(left; reflexivity) eq_refl ltac:(lia))
    as (s' & Hloop & Hrem' & Htell').
  fold cond body. rewrite Hloop.
  unfold step. rewrite (fold_guess obj {[ key ]} value items Hne).
  cbn [ConstructedPayloadDecoderBase.sl_components
       ConstructedPayloadDecoderBase.sl_asn1Object app].
  unfold obj. rewrite fill_slots by constructor. cbn [app].
  unfold bind, getTell. change (tell s2) with 2 in Htell'.
  replace (tell s' - 2 =? ord L) with true by (symmetry; apply Z.eqb_eq; lia).
  cbn [negb ret outcomeResult]. rewrite Hrem'. reflexivity.
Qed.

Lemma X25_schemaless_integers_witness :
  decode 5 [x30; x09; x02; x01; x01; x02; x01; x02; x02; x01; x03] None defaultOptions
  = Decoder.Return
      (Asn1Constructed univ_SequenceOf
         (containerTagSet univ_SequenceOf (headerTags x30))
         [ (0, Asn1Scalar univ_Integer (headerTags x02) (PyInt 1));
           (1, Asn1Scalar univ_Integer (headerTags x02) (PyInt 2));
           (2, Asn1Scalar univ_Integer (headerTags x02) (PyInt 3)) ])
      [].
Proof.
  apply (X25_schemaless_integers 3 defaultOptions x30 x09
           [(x01, [x01]); (x01, [x02]); (x01, [x03])] []);
    [ left; reflexivity | reflexivity | reflexivity
    | constructor; [split; reflexivity |
        constructor; [split; reflexivity | constructor; [split; reflexivity | constructor]]]
    | discriminate | vm_compute; reflexivity | reflexivity | simpl; lia ].
Defined.

(** ** The indefinite-length form of a Sequence or Set of Integers *)

(** The container guessed once one more component with the tag set of the
    components so far is decoded. *)
Lemma guess_same_tagSet (protoRecordComponent protoSequenceComponent : Asn1Class)
    (tagSet componentTagSet : TagSet) (cls : Asn1Class) (value : PyValue)
    (st : ConstructedPayloadDecoderBase.Schemaless) (s : Substrate) :
  ConstructedPayloadDecoderBase.sl_componentTypes st = ∅ \/
  ConstructedPayloadDecoderBase.sl_componentTypes st = {[ tagSetKey componentTagSet ]} ->
  ConstructedPayloadDecoderBase.guessContainer protoRecordComponent protoSequenceComponent
    tagSet (Asn1Scalar cls componentTagSet value) st s
  = Yield (ConstructedPayloadDecoderBase.mkSchemaless
             (Asn1Constructed protoSequenceComponent
                (containerTagSet protoSequenceComponent tagSet) [])
             (ConstructedPayloadDecoderBase.sl_components st
                ++ [Asn1Scalar cls componentTagSet value])
             {[ tagSetKey componentTagSet ]}) s.
Proof.
  intros Htypes. unfold ConstructedPayloadDecoderBase.guessContainer.
  unfold bind at 1. cbn [valueTagSet liftE ret].
  replace ({[ tagSetKey componentTagSet ]} ∪ ConstructedPayloadDecoderBase.sl_componentTypes st)
    with ({[ tagSetKey componentTagSet ]} : gset TagSetKey)
    by (destruct Htypes as [-> | ->]; set_solver).
  rewrite size_singleton. reflexivity.
Qed.

(** X27.  Without a schema, a Sequence (tag 30) or Set (tag 31) in the
    indefinite-length form, a run of well-formed Integer TLVs closed by the
    end-of-octets octets 00 00, decodes to the SequenceOf, respectively
    SetOf, of their values at the positions 0, 1, ... in the order of the
    octets, as the definite-length form does; the octets after the
    end-of-octets are the tail. *)
Theorem X27_schemaless_integers_indefinite (fuel : nat) (options : Options)
    (tagOctet : byte) (items : list (byte * list byte)) (tail : list byte) :
  let cls := if bool_decide (tagOctet = x30) then univ_SequenceOf else univ_SetOf in
  tagOctet = x30 \/ tagOctet = x31 ->
  recursiveFlag options = true -> native options = false ->
  Forall wellFormedItem items ->
  items <> [] ->
  (List.length items <= fuel)%nat ->
  decode (S (S fuel))
    (tagOctet :: x80 :: concat (map integerTLV items) ++ x00 :: x00 :: tail) None options
  = Decoder.Return
      (Asn1Constructed cls (containerTagSet cls (headerTags tagOctet))
         (enumerateFrom 0
            (map (fun item =>
                    Asn1Scalar univ_Integer (headerTags x02)
                      (PyInt (from_bytes (snd item) true)))
               items)))
      tail.
Proof.
  intros cls Htag Hrec Hnative Hitems Hne Hfuel.
  set (record := if bool_decide (tagOctet = x30) then univ_Sequence else univ_Set).
  assert (Hd : exists d,
            lookupTagMap TAG_MAP (headerTags tagOctet) = Some d /\
            indefLenValueDecoderOf (S fuel) d
            = ConstructedPayloadDecoderBase.indefLenValueDecoder None record cls (S fuel)).
  { destruct Htag as [-> | ->]; eexists; split; reflexivity. }
  destruct Hd as (d & Hlookup & Hd).
  assert (Hshort : Z.land (ord tagOctet) 0x1F <> 0x1F)
    by (destruct Htag as [-> | ->]; vm_compute; discriminate).
  assert (Hformat : tagFormat (shortTag tagOctet) = tagFormatConstructed)
    by (destruct Htag as [-> | ->]; reflexivity).
  rewrite (decode_by_tag_indefinite (S fuel) options tagOctet _ d Hshort Hlookup).
  rewrite Hd. unfold effectiveSubstrateFun. rewrite Hrec. cbn [negb].
  set (s2 := afterHeader
               (tagOctet :: x80 :: concat (map integerTLV items) ++ x00 :: x00 :: tail)).
  set (options' := withAllowEoo true (withAllowEoo false options)).
  rewrite (constructed_schemaless true None record cls (S fuel) (headerTags tagOctet)
             (shortTag tagOctet) [] (-1) stGetValueDecoder _ (withAllowEoo false options) s2
             eq_refl Hformat).
  fold options'.
  unfold ConstructedPayloadDecoderBase._decodeComponentsSchemaless.
  unfold bind at 1, getTell at 1. unfold bind at 1.
  change (-1 =? -1) with true. cbn [andb].
  set (obj := Asn1Constructed cls (containerTagSet cls (headerTags tagOctet)) []).
  set (value := fun item : byte * list byte =>
                  Asn1Scalar univ_Integer (headerTags x02)
                    (PyInt (from_bytes (snd item) true))).
  set (step := fun (st : ConstructedPayloadDecoderBase.Schemaless)
                   (item : byte * list byte) =>
                 ConstructedPayloadDecoderBase.mkSchemaless obj
                   (ConstructedPayloadDecoderBase.sl_components st ++ [value item])
                   ({[ tagSetKey (headerTags x02) ]} : gset TagSetKey)).
  set (Inv := fun st : ConstructedPayloadDecoderBase.Schemaless =>
                ConstructedPayloadDecoderBase.sl_componentTypes st = ∅ \/
                ConstructedPayloadDecoderBase.sl_componentTypes st
                = {[ tagSetKey (headerTags x02) ]}).
  set (body := fun st : ConstructedPayloadDecoderBase.Schemaless =>
                 let* component :=
                   SingleItemDecoder.__call__ SingleItemDecoder.ber (S fuel) None None None
                     stDecodeTag None options' in
                 if isEndOfOctets component then ret (Break st)
                 else
                   let* st := ConstructedPayloadDecoderBase.guessContainer record cls
                                (headerTags tagOctet) component st in
                   ret (Continue st)).
  assert (Hbody : forall st item rest s0,
             wellFormedItem item -> Inv st -> remaining s0 = integerTLV item ++ rest ->
             exists s1,
               body st s0 = Yield (Continue (step st item)) s1 /\
               remaining s1 = rest /\ Inv (step st item)).
  { intros st item rest s0 [HLi Hleni] Hinv Hrem0.
    destruct (call_integer fuel (withAllowEoo false options') s0 item rest Hrem0 HLi Hleni
                eq_refl) as (s1 & Hcall & Hrem1 & _).
    exists s1. split; [| split; [exact Hrem1 | right; reflexivity]].
    unfold body. unfold bind at 1.
    rewrite (call_not_at_sentinel SingleItemDecoder.ber (S fuel) None None None stDecodeTag
               None options' s0 x02 (fst item) (snd item ++ rest) Hrem0)
      by (unfold SingleItemDecoder.EOO_SENTINEL; discriminate).
    rewrite Hcall.
    unfold integerValue. cbn [native options' withAllowEoo]. rewrite Hnative.
    cbn [isEndOfOctets]. unfold bind at 1.
    rewrite (guess_same_tagSet record cls (headerTags tagOctet) (headerTags x02) univ_Integer
               _ st s1 Hinv).
    reflexivity. }
  assert (Hbreak : forall st rest s0,
             Inv st -> remaining s0 = x00 :: x00 :: rest ->
             exists s1, body st s0 = Yield (Break st) s1 /\ remaining s1 = rest).
  { intros st rest s0 _ Hrem0. exists (seek_cur 2 s0). split.
    - unfold body. unfold bind at 1.
      rewrite (call_at_sentinel SingleItemDecoder.ber fuel None None None stDecodeTag None
                 options' s0 rest Hrem0 eq_refl eq_refl).
      reflexivity.
    - exact (remaining_seek_cur s0 [x00; x00] rest Hrem0). }
  destruct (whileTrue_items integerTLV step wellFormedItem Inv body Hbody Hbreak items Hitems
              (S fuel) (ConstructedPayloadDecoderBase.mkSchemaless PyNone [] ∅) s2 tail
              ltac:(lia) ltac:(left; reflexivity) eq_refl)
    as (s' & Hloop & Hrem').
  unfold whileTrue in Hloop. fold body. rewrite Hloop.
  unfold step. rewrite (fold_guess obj {[ tagSetKey (headerTags x02) ]} value items Hne).
  cbn [ConstructedPayloadDecoderBase.sl_components
       ConstructedPayloadDecoderBase.sl_asn1Object app].
  unfold obj. rewrite fill_slots by constructor. cbn [app outcomeResult].
  rewrite Hrem'. reflexivity.
Qed.

Lemma X27_schemaless_integers_indefinite_witness :
  decode 4 [x31; x80; x02; x01; x05; x02; x01; xff; x00; x00; x07] None defaultOptions
  = Decoder.Return
      (Asn1Constructed univ_SetOf (containerTagSet univ_SetOf (headerTags x31))
         [ (0, Asn1Scalar univ_Integer (headerTags x02) (PyInt 5));
           (1, Asn1Scalar univ_Integer (headerTags x02) (PyInt (-1))) ])
      [x07].
Proof.
  apply (X27_schemaless_integers_indefinite 2 defaultOptions x31
           [(x01, [x05]); (x01, [xff])] [x07]);
    [ right; reflexivity | reflexivity | reflexivity
    | constructor; [split; reflexivity | constructor; [split; reflexivity | constructor]]
    | discriminate | simpl; lia ].
Defined.

(** ** A Sequence under a schema *)

Lemma nonEmpty_true {A : Type} (l : list A) : l <> [] -> nonEmpty l = true.
Proof. destruct l; [contradiction | reflexivity]. Qed.

(** The schema of the component at a position of the catalogue, and the
    error past its end. *)
Lemma componentSchema_at (namedTypes : NamedTypes) (idx : Z) (namedType : NamedType)
    (s : Substrate) :
  nt_items namedTypes <> [] ->
  0 <= idx ->
  nth_error (nt_items namedTypes) (Z.to_nat idx) = Some namedType ->
  ConstructedPayloadDecoderBase.componentSchema (negb (nonEmpty (nt_items namedTypes)))
    namedTypes false true idx s
  = Yield (Some (nt_asn1Object namedType)) s.
Proof.
  intros Hne Hidx Hnth. unfold ConstructedPayloadDecoderBase.componentSchema.
  rewrite (nonEmpty_true _ Hne). cbn [negb].
  unfold exceptIndexError, bind, nt_getitem.
  replace (idx <? 0) with false by (symmetry; apply Z.ltb_ge; lia).
  rewrite Hnth. reflexivity.
Qed.

Lemma componentSchema_excess (namedTypes : NamedTypes) (idx : Z) (s : Substrate) :
  nt_items namedTypes <> [] ->
  len (nt_items namedTypes) <= idx ->
  ConstructedPayloadDecoderBase.componentSchema (negb (nonEmpty (nt_items namedTypes)))
    namedTypes false true idx s
  = Raise (PyAsn1Error "Excessive components decoded at %r").
Proof.
  intros Hne Hidx. unfold ConstructedPayloadDecoderBase.componentSchema.
  rewrite (nonEmpty_true _ Hne). cbn [negb].
  unfold exceptIndexError, bind, nt_getitem.
  pose proof (len_nonneg (nt_items namedTypes)).
  replace (idx <? 0) with false by (symmetry; apply Z.ltb_ge; lia).
  replace (nth_error (nt_items namedTypes) (Z.to_nat idx)) with (@None NamedType).
  - reflexivity.
  - symmetry. apply nth_error_None. unfold len in Hidx. lia.
Qed.

(** The component loop of a Sequence whose components are Integers, over a
    run of Integer TLVs: one component per TLV, at the next position; a TLV
    past the last component of the catalogue is an error. *)
Lemma record_loop (fuel : nat) (options : Options) (namedTypes : NamedTypes)
    (ets : TagSet) (etm : TagSet -> option Asn1Spec) (ect : ComponentType)
    (cls : Asn1Class) (tagSet : TagSet) (original_position length : Z) :
  let elem := Asn1Type univ_Integer ets etm ect in
  let value := fun item : byte * list byte =>
                 Asn1Scalar univ_Integer ets (PyInt (from_bytes (snd item) true)) in
  let cond := fun _ : ConstructedPayloadDecoderBase.Record_ =>
                let* here := getTell in ret (here - original_position <? length) in
  let body := fun st : ConstructedPayloadDecoderBase.Record_ =>
                let* componentType :=
                  ConstructedPayloadDecoderBase.componentSchema
                    (negb (nonEmpty (nt_items namedTypes))) namedTypes false true
                    (ConstructedPayloadDecoderBase.rc_idx st) in
                let* component :=
                  SingleItemDecoder.__call__ SingleItemDecoder.ber (S fuel) componentType
                    None None stDecodeTag None options in
                let* st := ConstructedPayloadDecoderBase.storeComponent namedTypes false true
                             component st in
                ret (Continue st) in
  chosenSpec elem (headerTags x02) = Some elem ->
  nt_items namedTypes <> [] ->
  Forall (fun namedType => nt_asn1Object namedType = elem) (nt_items namedTypes) ->
  allowEoo options = false -> native options = false ->
  forall items : list (byte * list byte), Forall wellFormedItem items ->
  forall (n : nat) (idx : Z) (filled : list (Z * Value)) (seen : gset Z) (s : Substrate)
         (tail : list byte),
    (List.length items < n)%nat ->
    0 <= idx <= len (nt_items namedTypes) ->
    Forall (fun slot => fst slot < idx) filled ->
    remaining s = concat (map integerTLV items) ++ tail ->
    tell s + len (concat (map integerTLV items)) = original_position + length ->
    (idx + len items <= len (nt_items namedTypes) ->
     exists seen' s',
       while n cond body
         (ConstructedPayloadDecoderBase.mkRecord idx (Asn1Constructed cls tagSet filled) seen) s
       = Yield (ConstructedPayloadDecoderBase.mkRecord (idx + len items)
                  (Asn1Constructed cls tagSet (filled ++ enumerateFrom idx (map value items)))
                  seen') s' /\
       (forall i, i ∈ seen' <-> i ∈ seen \/ idx <= i < idx + len items) /\
       remaining s' = tail /\ tell s' = original_position + length) /\
    (len (nt_items namedTypes) < idx + len items ->
     while n cond body
       (ConstructedPayloadDecoderBase.mkRecord idx (Asn1Constructed cls tagSet filled) seen) s
     = Raise (PyAsn1Error "Excessive components decoded at %r")).
Proof.
  intros elem value cond body Helem Hne Htypes Heoo Hnative items Hitems.
  induction Hitems as [| item items Hok Hitems IH];
    intros n idx filled seen s tail Hn Hidx Hfilled Hrem Htell.
  - destruct n as [| n]; [simpl in Hn; lia |].
    cbn [concat map] in Htell. change (len (@nil byte)) with 0 in Htell.
    rewrite (@len_nil (byte * list byte)). split; [| lia].
    intros _. exists seen, s.
    rewrite while_step. unfold cond at 1. unfold bind at 1, getTell at 1. unfold ret at 1.
    replace (tell s - original_position <? length) with false by lia.
    cbn [map enumerateFrom]. rewrite app_nil_r, Z.add_0_r.
    split; [reflexivity | split; [| split; [exact Hrem | lia]]].
    intros i. split; [auto | intros [H | H]; [exact H | lia]].
  - destruct n as [| n]; [simpl in Hn; lia |].
    cbn [concat map] in Hrem, Htell. rewrite <- app_assoc in Hrem. rewrite len_app in Htell.
    assert (Hpos : 0 < len (integerTLV item)).
    { destruct item. unfold integerTLV. rewrite !len_cons.
      pose proof (len_nonneg (snd (b, l))). lia. }
    pose proof (len_nonneg (concat (map integerTLV items))) as Hrest.
    pose proof (len_nonneg items) as Hitems_len.
    rewrite len_cons.
    set (st0 := ConstructedPayloadDecoderBase.mkRecord idx (Asn1Constructed cls tagSet filled)
                  seen).
    assert (Hstart : while (S n) cond body st0 s
                     = match body st0 s with
                       | Yield (Continue st') s' => while n cond body st' s'
                       | Yield (Break st') s' => Yield st' s'
                       | Underrun => Underrun
                       | Raise e => Raise e
                       | OutOfFuel => OutOfFuel
                       end).
    { rewrite while_step. unfold cond at 1. unfold bind at 1, getTell at 1. unfold ret at 1.
      replace (tell s - original_position <? length) with true by lia. reflexivity. }
    rewrite Hstart. clear Hstart.
    destruct (Z_lt_le_dec idx (len (nt_items namedTypes))) as [Hlt | Hge].
    + destruct (nth_error (nt_items namedTypes) (Z.to_nat idx)) as [namedType |] eqn:Hnth.
      2:{ apply nth_error_None in Hnth. unfold len in Hlt. lia. }
      assert (Htype : nt_asn1Object namedType = elem).
      { apply nth_error_In in Hnth.
        exact (proj1 (List.Forall_forall _ _) Htypes namedType Hnth). }
      destruct (call_integer_by_spec fuel options s item _ ets etm ect Helem Hok Heoo Hrem)
        as (s1 & Hcall & Hrem1 & Htell1).
      assert (Hturn : body st0 s
                      = Yield (Continue
                                 (ConstructedPayloadDecoderBase.mkRecord (idx + 1)
                                    (Asn1Constructed cls tagSet (filled ++ [(idx, value item)]))
                                    ({[ idx ]} ∪ seen))) s1).
      { unfold body, st0. cbn [ConstructedPayloadDecoderBase.rc_idx].
        unfold bind at 1.
        rewrite (componentSchema_at namedTypes idx namedType s Hne ltac:(lia) Hnth).
        rewrite Htype.
        unfold bind at 1. fold elem in Hcall. rewrite Hcall.
        unfold component. rewrite Hnative.
        unfold bind at 1.
        unfold ConstructedPayloadDecoderBase.storeComponent.
        cbn [negb andb ConstructedPayloadDecoderBase.rc_idx
             ConstructedPayloadDecoderBase.rc_asn1Object
             ConstructedPayloadDecoderBase.rc_seenIndices].
        unfold bind at 1. unfold ret at 1.
        unfold bind at 1. cbn [setComponentByPosition]. unfold ret at 1. unfold ret at 1.
        unfold ret at 1.
        rewrite setSlot_append by exact Hfilled. reflexivity. }
      rewrite Hturn. clear Hturn.
      assert (Hfilled1 : Forall (fun slot : Z * Value => fst slot < idx + 1)
                           (filled ++ [(idx, value item)])).
      { apply Forall_app. split.
        - eapply Forall_impl; [exact Hfilled |]. intros slot Hslot. cbn in *. lia.
        - constructor; [cbn; lia | constructor]. }
      destruct (IH n (idx + 1) (filled ++ [(idx, value item)]) ({[ idx ]} ∪ seen) s1 tail
                  ltac:(simpl in Hn; lia) ltac:(lia) Hfilled1 Hrem1 ltac:(lia))
        as [IHfit IHexcess].
      split.
      * intros Hfit.
        destruct (IHfit ltac:(lia)) as (seen' & s' & Hloop & Hseen & Hrem' & Htell').
        exists seen', s'. rewrite Hloop.
        cbn [map enumerateFrom]. rewrite <- app_assoc. cbn [app].
        replace (idx + 1 + len items) with (idx + (1 + len items)) by lia.
        split; [reflexivity | split; [| split; assumption]].
        intros i. rewrite Hseen, elem_of_union, elem_of_singleton.
        split; [intros [[Hi | Hi] | Hi] | intros [Hi | Hi]]; auto; try (right; lia).
        destruct (Z.eq_dec i idx); [left; left; assumption | right; lia].
      * intros Hexcess. apply IHexcess. lia.
    + split; [intros; lia |]. intros _.
      unfold body, st0. cbn [ConstructedPayloadDecoderBase.rc_idx].
      unfold bind at 1.
      rewrite (componentSchema_excess namedTypes idx s Hne Hge). reflexivity.
Qed.

Lemma issubset_range (required : list Z) (seen : gset Z) (n : Z) :
  (forall i, i ∈ seen <-> 0 <= i < n) ->
  issubset required seen = forallb (fun i => (0 <=? i) && (i <? n)) required.
Proof.
  intros Hseen. unfold issubset. induction required as [| i required IH]; [reflexivity |].
  cbn [forallb]. rewrite IH. f_equal.
  destruct (decide (i ∈ seen)) as [Hin | Hout].
  - rewrite bool_decide_eq_true_2 by exact Hin. apply Hseen in Hin.
    symmetry. apply andb_true_iff. split; [apply Z.leb_le | apply Z.ltb_lt]; lia.
  - rewrite bool_decide_eq_false_2 by exact Hout.
    symmetry. apply andb_false_iff.
    destruct (Z_lt_le_dec i 0); [left; apply Z.leb_gt; lia |].
    right. apply Z.ltb_ge.
    destruct (Z_lt_le_dec i n); [| lia]. exfalso. apply Hout, Hseen. lia.
Qed.

(** X26.  Under a Sequence type object whose catalogue is a list of Integer
    components without optional or defaulted components and without open
    types, a TLV of definite length whose content is a run of well-formed
    Integer TLVs decodes as follows.  With more TLVs than the catalogue has
    components the decoder raises "Excessive components decoded at %r";
    else, with a required position that no TLV filled, it raises "ASN.1
    object %s has uninitialized components"; else it returns the Sequence
    with the i-th value at position i, and the octets after the TLV. *)
Theorem X26_sequence_by_schema (fuel : nat) (options : Options) (tagOctet L : byte)
    (items : list (byte * list byte)) (tail : list byte)
    (specTagSet : TagSet) (specTagMap : TagSet -> option Asn1Spec)
    (namedTypes : NamedTypes)
    (ets : TagSet) (etm : TagSet -> option Asn1Spec) (ect : ComponentType) :
  let elem := Asn1Type univ_Integer ets etm ect in
  let asn1Spec := Asn1Type univ_Sequence specTagSet specTagMap (NamedTypesOf namedTypes) in
  Z.land (ord tagOctet) 0x1F <> 0x1F ->
  Z.land (ord tagOctet) 0x20 <> 0 ->
  chosenSpec asn1Spec (headerTags tagOctet) = Some asn1Spec ->
  chosenSpec elem (headerTags x02) = Some elem ->
  nt_items namedTypes <> [] ->
  Forall (fun namedType => nt_asn1Object namedType = elem) (nt_items namedTypes) ->
  nt_hasOptionalOrDefault namedTypes = false ->
  nt_hasOpenTypes namedTypes = false ->
  allowEoo options = false -> recursiveFlag options = true -> native options = false ->
  Forall wellFormedItem items ->
  ord L < 128 -> len (concat (map integerTLV items)) = ord L ->
  (List.length items <= fuel)%nat ->
  decode (S (S fuel)) (tagOctet :: L :: concat (map integerTLV items) ++ tail)
    (Some asn1Spec) options
  = if len (nt_items namedTypes) <? len items then
      Decoder.Raised (PyAsn1Error "Excessive components decoded at %r")
    else if negb (forallb (fun i => (0 <=? i) && (i <? len items))
                    (nt_requiredComponents namedTypes)) then
      Decoder.Raised (PyAsn1Error "ASN.1 object %s has uninitialized components")
    else
      Decoder.Return
        (Asn1Constructed univ_Sequence specTagSet
           (enumerateFrom 0
              (map (fun item =>
                      Asn1Scalar univ_Integer ets (PyInt (from_bytes (snd item) true)))
                 items)))
        tail.
Proof.
  intros elem asn1Spec Htag Hcons Hchosen Helem Hne Htypes Hoptional Hopen Heoo Hrec Hnative
    Hitems HL Hlen Hfuel.
  unfold decode. rewrite call_first_item.
  set (input := tagOctet :: L :: concat (map integerTLV items) ++ tail).
  set (s := asSeekableStream input).
  rewrite (call_by_spec_definite (S fuel) options None s tagOctet L _ asn1Spec
             univ_Sequence specTagSet specTagMap (NamedTypesOf namedTypes)
             sequencePayloadDecoder eq_refl Htag HL Heoo Hchosen eq_refl).
  set (s2 := seek_cur 2 (setMarkedPosition s)).
  set (options' := withAllowEoo false options).
  cbn [valueDecoderOf].
  unfold effectiveSubstrateFun. rewrite Hrec. cbn [negb].
  unfold ConstructedPayloadDecoderBase.valueDecoder.
  unfold bind at 1. unfold bind at 1. cbn [TagSet_head headerTags superTags ret].
  change (tagFormat (shortTag tagOctet)) with (Z.land (ord tagOctet) 0x20).
  rewrite (constructed_bit tagOctet Hcons), Z.eqb_refl. cbn [negb].
  unfold bind at 1, getTell at 1.
  unfold bind at 1. cbn [spec_cloneEmpty asn1Spec ret].
  unfold bind at 1. cbn [spec_typeId ret].
  change (ConstructedPayloadDecoderBase.isRecordType univ_Sequence) with true. cbv iota.
  unfold bind at 1.
  change (ConstructedPayloadDecoderBase.spec_namedTypes
            (Asn1Type univ_Sequence specTagSet specTagMap (NamedTypesOf namedTypes)) s2)
    with (Yield namedTypes s2 : Outcome NamedTypes).
  cbv beta iota zeta. rewrite Hoptional.
  rewrite (bool_decide_eq_false_2 (univ_Sequence = univ_Set)) by discriminate.
  cbn [negb andb].
  unfold ConstructedPayloadDecoderBase.decodeRecordComponents.
  pose proof (len_nonneg (nt_items namedTypes)) as Hcatalogue.
  destruct (record_loop fuel options' namedTypes ets etm ect univ_Sequence specTagSet
              (tell s2) (ord L) Helem Hne Htypes eq_refl Hnative items Hitems
              (S fuel) 0 [] ∅ s2 tail ltac:(lia) ltac:(lia) ltac:(constructor) eq_refl
              ltac:(lia)) as [Hfit Hexcess].
  destruct (Z.ltb_spec (len (nt_items namedTypes)) (len items)) as [Hmore | Hless].
  - unfold bind at 1. rewrite (Hexcess ltac:(lia)). reflexivity.
  - destruct (Hfit ltac:(lia)) as (seen' & s' & Hloop & Hseen & Hrem' & Htell').
    unfold bind at 1. rewrite Hloop. cbn [app].
    unfold ConstructedPayloadDecoderBase.finishRecord.
    rewrite (nonEmpty_true _ Hne), Hopen.
    cbn [ConstructedPayloadDecoderBase.rc_seenIndices
         ConstructedPayloadDecoderBase.rc_asn1Object].
    rewrite (issubset_range (nt_requiredComponents namedTypes) seen' (len items)).
    2:{ intros i. rewrite Hseen. split; [intros [Hin | Hin]; [set_solver | lia] | right; lia]. }
    destruct (forallb _ (nt_requiredComponents namedTypes)); cbn [negb].
    + unfold ret at 1. unfold bind, getTell.
      replace (tell s' - tell s2 =? ord L) with true by (symmetry; apply Z.eqb_eq; lia).
      cbn [negb ret]. rewrite Hrem'. reflexivity.
    + reflexivity.
Qed.

Lemma X26_sequence_by_schema_witness :
  decode 4 [x30; x06; x02; x01; x05; x02; x01; xff; x00]
    (Some (Asn1Type univ_Sequence
             {| baseTag := Some (mkTag 0 0x20 0x10); superTags := [mkTag 0 0x20 0x10] |}
             (fun _ => None)
             (NamedTypesOf
                (mkNamedTypes
                   [ mkNamedType "a" integerType false false None;
                     mkNamedType "b" integerType false false None ]
                   (fun _ => None)
                   (fun _ => inl (PyAsn1Error "Type position out of range"))
                   (fun _ => inl (PyAsn1Error "Type %s not found"))
                   (fun _ _ => inl (PyAsn1Error "Type position out of range"))
                   [0; 1] false false))))
    defaultOptions
  = Decoder.Return
      (Asn1Constructed univ_Sequence
         {| baseTag := Some (mkTag 0 0x20 0x10); superTags := [mkTag 0 0x20 0x10] |}
         [ (0, Asn1Scalar univ_Integer
                 {| baseTag := Some (mkTag 0 0 2); superTags := [mkTag 0 0 2] |} (PyInt 5));
           (1, Asn1Scalar univ_Integer
                 {| baseTag := Some (mkTag 0 0 2); superTags := [mkTag 0 0 2] |}
                 (PyInt (-1))) ])
      [x00].
Proof.
  apply (X26_sequence_by_schema 2 defaultOptions x30 x06 [(x01, [x05]); (x01, [xff])] [x00]
           {| baseTag := Some (mkTag 0 0x20 0x10); superTags := [mkTag 0 0x20 0x10] |}
           (fun _ => None)
           (mkNamedTypes
              [ mkNamedType "a" integerType false false None;
                mkNamedType "b" integerType false false None ]
              (fun _ => None)
              (fun _ => inl (PyAsn1Error "Type position out of range"))
              (fun _ => inl (PyAsn1Error "Type %s not found"))
              (fun _ _ => inl (PyAsn1Error "Type position out of range"))
              [0; 1] false false)
           {| baseTag := Some (mkTag 0 0 2); superTags := [mkTag 0 0 2] |}
           (fun _ => None) NoComponentType);
    try reflexivity; try (vm_compute; discriminate).
  - constructor; [reflexivity | constructor; [reflexivity | constructor]].
  - constructor; [split; reflexivity | constructor; [split; reflexivity | constructor]].
Defined.
